(** * RTP-MIDI session endpoint (CRTP_MIDI): embedding and verified properties

    Shallow embedding of the C++ class [CRTP_MIDI] (RTP_MIDI.h, RTP_MIDI.cpp,
    RTP_MIDI_Input.cpp, RTP_MIDI_AppleProtocol.cpp).  Integers are [Z] with
    the wrap-around of their C type written out, byte buffers are [list Z],
    the object is a record with one field per data member, and every method
    is a function on that record. *)

From Stdlib Require Import ZArith Lia Bool.
From stdpp Require Import base list.

Local Open Scope Z_scope.

(** ** Machine integers and buffers *)

Definition u8  (x : Z) : Z := x mod 2^8.
Definition u16 (x : Z) : Z := x mod 2^16.
Definition u32 (x : Z) : Z := x mod 2^32.

(** [Buf[i]] for a C array held as a list.  An index outside the list (the
    C code then reads stale or foreign memory) reads as 0 in the model. *)
Definition rd (Buf : list Z) (i : Z) : Z :=
  if i <? 0 then 0 else default 0 (Buf !! Z.to_nat i).

(** [Buf[i] = v].  A store outside the list (a memory overrun in C) is
    dropped by the model. *)
Definition wr (Buf : list Z) (i : Z) (v : Z) : list Z :=
  if i <? 0 then Buf else <[Z.to_nat i := v]> Buf.

(** The cells of a byte buffer hold values of [unsigned char]. *)
Definition is_bytes (l : list Z) : Prop := Forall (fun b => 0 <= b < 256) l.

(** Network byte order, as produced by htons / htonl on a field that is then
    sent as raw memory. *)
Definition be16 (x : Z) : list Z := [(x / 2^8) mod 2^8; x mod 2^8].
Definition be32 (x : Z) : list Z :=
  [(x / 2^24) mod 2^8; (x / 2^16) mod 2^8; (x / 2^8) mod 2^8; x mod 2^8].
Definition get_be16 (Buf : list Z) (i : Z) : Z :=
  rd Buf i * 2^8 + rd Buf (i + 1).
Definition get_be32 (Buf : list Z) (i : Z) : Z :=
  rd Buf i * 2^24 + rd Buf (i + 1) * 2^16 + rd Buf (i + 2) * 2^8 + rd Buf (i + 3).

(** ** GetDeltaTime (RTP_MIDI_Input.cpp, lines 33-55) *)

(** The local [char Data] receives a byte of the buffer.  Whether plain
    [char] is signed is left to the platform: [sgn = true] is the signed
    case (a byte >= 0x80 becomes negative), [sgn = false] the unsigned one. *)
Definition char_of_byte (sgn : bool) (b : Z) : Z :=
  if sgn && (128 <=? b) then b - 256 else b.

(** The do-while loop.  [ByteCount] starts at 1 and the loop goes on while it
    is <= 4 after the increment, so the body runs at most four times: the
    fuel is that bound and is never used up (see [GetDeltaTime_loop_fuel]). *)
Fixpoint GetDeltaTime_loop (fuel : nat) (sgn : bool) (BufPtr : list Z)
    (ByteCtr ByteCount value : Z) : Z * Z :=
  match fuel with
  | O => (value, ByteCtr)
  | S fuel' =>
      let Data := char_of_byte sgn (rd BufPtr ByteCtr) in
      let ByteCtr := ByteCtr + 1 in
      let ByteCount := ByteCount + 1 in
      let value := u32 (u32 (Z.shiftl value 7) + u32 Data) in
      if negb (Z.land Data 0x80 =? 0) && (ByteCount <=? 4)
      then GetDeltaTime_loop fuel' sgn BufPtr ByteCtr ByteCount value
      else (value, ByteCtr)
  end.

(** Returns the value and the updated [*ByteCtr]. *)
Definition GetDeltaTime_on (sgn : bool) (BufPtr : list Z) (ByteCtr : Z) : Z * Z :=
  let value := rd BufPtr ByteCtr in
  let ByteCtr := ByteCtr + 1 in
  let ByteCount := 1 in
  if negb (Z.land value 0x80 =? 0)
  then GetDeltaTime_loop 4 sgn BufPtr ByteCtr ByteCount (Z.land value 0x7F)
  else (value, ByteCtr).

(** Plain [char] is signed on the x86 ABIs of the three build targets
    (__TARGET_WIN__, __TARGET_MAC__, __TARGET_LINUX__); the endpoint below
    is modelled with that choice.  The byte counter returned by
    [GetDeltaTime_on] does not depend on it ([GetDeltaTime_ctr_sgn]). *)
Definition plain_char_signed : bool := true.
Definition GetDeltaTime : list Z -> Z -> Z * Z := GetDeltaTime_on plain_char_signed.

(** The encoding the delta-time is documented to have: a big-endian
    variable-length quantity of at most four bytes, seven value bits per
    byte, bit 7 set on every byte but the last. *)
Definition vlq_encode (v : Z) : list Z :=
  if v <? 2^7 then [v]
  else if v <? 2^14 then [0x80 + v / 2^7; v mod 2^7]
  else if v <? 2^21 then [0x80 + v / 2^14; 0x80 + (v / 2^7) mod 2^7; v mod 2^7]
  else [0x80 + v / 2^21; 0x80 + (v / 2^14) mod 2^7; 0x80 + (v / 2^7) mod 2^7; v mod 2^7].

(** ** Data model (RTP_MIDI.h) *)

(** Values of [SessionState] (the SESSION_* constants). *)
Inductive TSessionState : Type :=
  | SESSION_CLOSED
  | SESSION_CLOSE
  | SESSION_INVITE_CONTROL
  | SESSION_INVITE_DATA
  | SESSION_CLOCK_SYNC0
  | SESSION_CLOCK_SYNC1
  | SESSION_CLOCK_SYNC2
  | SESSION_OPENED
  | SESSION_WAIT_INVITE_CTRL
  | SESSION_WAIT_INVITE_DATA
  | SESSION_WAIT_CLOCK_SYNC.

Definition SessionState_eqb (a b : TSessionState) : bool :=
  match a, b with
  | SESSION_CLOSED, SESSION_CLOSED
  | SESSION_CLOSE, SESSION_CLOSE
  | SESSION_INVITE_CONTROL, SESSION_INVITE_CONTROL
  | SESSION_INVITE_DATA, SESSION_INVITE_DATA
  | SESSION_CLOCK_SYNC0, SESSION_CLOCK_SYNC0
  | SESSION_CLOCK_SYNC1, SESSION_CLOCK_SYNC1
  | SESSION_CLOCK_SYNC2, SESSION_CLOCK_SYNC2
  | SESSION_OPENED, SESSION_OPENED
  | SESSION_WAIT_INVITE_CTRL, SESSION_WAIT_INVITE_CTRL
  | SESSION_WAIT_INVITE_DATA, SESSION_WAIT_INVITE_DATA
  | SESSION_WAIT_CLOCK_SYNC, SESSION_WAIT_CLOCK_SYNC => true
  | _, _ => false
  end.

Definition LONG_B_BIT : Z := 0x8000.
Definition LONG_Z_BIT : Z := 0x2000.
Definition SHORT_Z_BIT : Z := 0x20.
Definition MAX_RTP_LOAD : Z := 1024.
Definition MIDI_CHAR_FIFO_SIZE : Z := 2048.

(** A UDP datagram waiting in a socket, with the address recvfrom reports
    (host byte order). *)
Record Datagram : Type := MkDatagram {
  SenderIP : Z;
  SenderPort : Z;
  Payload : list Z
}.

(** A socket member: [None] is INVALID_SOCKET, [Some q] an open socket whose
    receive queue holds [q], oldest datagram first. *)
Definition TSOCKTYPE : Type := option (list Datagram).

Inductive TSocketId : Type := ControlSocketId | DataSocketId.

(** What the endpoint does to the outside: a call of the client callback
    (instance, size, the [size] first bytes of the block, time) or a sendto
    (socket, destination address and port, bytes). *)
Inductive Event : Type :=
  | EvCallback (UserInstance DataSize : Z) (DataBlock : list Z) (DeltaTime : Z)
  | EvSendTo (Sock : TSocketId) (DestIP DestPort : Z) (Data : list Z).

(** TMIDI_FIFO_CHAR: the outbound byte ring. *)
Record TMIDI_FIFO_CHAR : Type := MkFIFO {
  FIFO : list Z;
  ReadPtr : Z;
  WritePtr : Z
}.

(** The object.  One field per data member, under the member's name
    ([EndpointLocked] is the name the methods use for the lock flag).
    [Trace] is not a member: it logs, oldest first, the callback calls and
    the datagrams sent. *)
Record CRTP_MIDI : Type := MkCRTP_MIDI {
  LocalClock : Z;
  RTPCallback : bool;
  ClientInstance : Z;
  SessionName : (list Z);
  RemoteIPToInvite : Z;
  SessionPartnerIP : Z;
  PartnerControlPort : Z;
  PartnerDataPort : Z;
  ControlSocket : TSOCKTYPE;
  DataSocket : TSOCKTYPE;
  EndpointLocked : bool;
  SSRC : Z;
  RTPSequence : Z;
  LastRTPCounter : Z;
  LastFeedbackCounter : Z;
  SessionState : TSessionState;
  InviteCount : Z;
  InitiatorToken : Z;
  IsInitiatorNode : bool;
  TimeOutRemote : Z;
  SyncSequenceCounter : Z;
  MeasuredLatency : Z;
  TimerRunning : bool;
  EventTime : Z;
  TimeCounter : Z;
  RTPStreamQueue : TMIDI_FIFO_CHAR;
  SYSEX_RTPActif : bool;
  FullInMidiMsg : (list Z);
  IncomingThirdByte : bool;
  RTPRunningStatus : Z;
  InSYSEXBufferSize : Z;
  SegmentSYSEXInput : bool;
  InSYSEXBuffer : (option (list Z));
  InSYSEXBufferPtr : Z;
  InSYSEXOverflow : bool;
  TS1H : Z;
  TS1L : Z;
  TS2H : Z;
  TS2L : Z;
  TS3H : Z;
  TS3L : Z;
  ConnectionLost : bool;
  PeerClosedSession : bool;
  ConnectionRefused : bool;
  Trace : (list Event)
}.

(** Assignment to one data member, all the others kept. *)
Definition set_LocalClock (v : Z) (s : CRTP_MIDI) : CRTP_MIDI :=
  MkCRTP_MIDI v (RTPCallback s) (ClientInstance s) (SessionName s) (RemoteIPToInvite s)
    (SessionPartnerIP s) (PartnerControlPort s) (PartnerDataPort s) (ControlSocket s) (DataSocket s)
    (EndpointLocked s) (SSRC s) (RTPSequence s) (LastRTPCounter s) (LastFeedbackCounter s)
    (SessionState s) (InviteCount s) (InitiatorToken s) (IsInitiatorNode s) (TimeOutRemote s)
    (SyncSequenceCounter s) (MeasuredLatency s) (TimerRunning s) (EventTime s) (TimeCounter s)
    (RTPStreamQueue s) (SYSEX_RTPActif s) (FullInMidiMsg s) (IncomingThirdByte s) (RTPRunningStatus
    s) (InSYSEXBufferSize s) (SegmentSYSEXInput s) (InSYSEXBuffer s) (InSYSEXBufferPtr s)
    (InSYSEXOverflow s) (TS1H s) (TS1L s) (TS2H s) (TS2L s) (TS3H s) (TS3L s) (ConnectionLost s)
    (PeerClosedSession s) (ConnectionRefused s) (Trace s).
Definition set_RTPCallback (v : bool) (s : CRTP_MIDI) : CRTP_MIDI :=
  MkCRTP_MIDI (LocalClock s) v (ClientInstance s) (SessionName s) (RemoteIPToInvite s)
    (SessionPartnerIP s) (PartnerControlPort s) (PartnerDataPort s) (ControlSocket s) (DataSocket s)
    (EndpointLocked s) (SSRC s) (RTPSequence s) (LastRTPCounter s) (LastFeedbackCounter s)
    (SessionState s) (InviteCount s) (InitiatorToken s) (IsInitiatorNode s) (TimeOutRemote s)
    (SyncSequenceCounter s) (MeasuredLatency s) (TimerRunning s) (EventTime s) (TimeCounter s)
    (RTPStreamQueue s) (SYSEX_RTPActif s) (FullInMidiMsg s) (IncomingThirdByte s) (RTPRunningStatus
    s) (InSYSEXBufferSize s) (SegmentSYSEXInput s) (InSYSEXBuffer s) (InSYSEXBufferPtr s)
    (InSYSEXOverflow s) (TS1H s) (TS1L s) (TS2H s) (TS2L s) (TS3H s) (TS3L s) (ConnectionLost s)
    (PeerClosedSession s) (ConnectionRefused s) (Trace s).
Definition set_ClientInstance (v : Z) (s : CRTP_MIDI) : CRTP_MIDI :=
  MkCRTP_MIDI (LocalClock s) (RTPCallback s) v (SessionName s) (RemoteIPToInvite s)
    (SessionPartnerIP s) (PartnerControlPort s) (PartnerDataPort s) (ControlSocket s) (DataSocket s)
    (EndpointLocked s) (SSRC s) (RTPSequence s) (LastRTPCounter s) (LastFeedbackCounter s)
    (SessionState s) (InviteCount s) (InitiatorToken s) (IsInitiatorNode s) (TimeOutRemote s)
    (SyncSequenceCounter s) (MeasuredLatency s) (TimerRunning s) (EventTime s) (TimeCounter s)
    (RTPStreamQueue s) (SYSEX_RTPActif s) (FullInMidiMsg s) (IncomingThirdByte s) (RTPRunningStatus
    s) (InSYSEXBufferSize s) (SegmentSYSEXInput s) (InSYSEXBuffer s) (InSYSEXBufferPtr s)
    (InSYSEXOverflow s) (TS1H s) (TS1L s) (TS2H s) (TS2L s) (TS3H s) (TS3L s) (ConnectionLost s)
    (PeerClosedSession s) (ConnectionRefused s) (Trace s).
Definition set_SessionName (v : list Z) (s : CRTP_MIDI) : CRTP_MIDI :=
  MkCRTP_MIDI (LocalClock s) (RTPCallback s) (ClientInstance s) v (RemoteIPToInvite s)
    (SessionPartnerIP s) (PartnerControlPort s) (PartnerDataPort s) (ControlSocket s) (DataSocket s)
    (EndpointLocked s) (SSRC s) (RTPSequence s) (LastRTPCounter s) (LastFeedbackCounter s)
    (SessionState s) (InviteCount s) (InitiatorToken s) (IsInitiatorNode s) (TimeOutRemote s)
    (SyncSequenceCounter s) (MeasuredLatency s) (TimerRunning s) (EventTime s) (TimeCounter s)
    (RTPStreamQueue s) (SYSEX_RTPActif s) (FullInMidiMsg s) (IncomingThirdByte s) (RTPRunningStatus
    s) (InSYSEXBufferSize s) (SegmentSYSEXInput s) (InSYSEXBuffer s) (InSYSEXBufferPtr s)
    (InSYSEXOverflow s) (TS1H s) (TS1L s) (TS2H s) (TS2L s) (TS3H s) (TS3L s) (ConnectionLost s)
    (PeerClosedSession s) (ConnectionRefused s) (Trace s).
Definition set_RemoteIPToInvite (v : Z) (s : CRTP_MIDI) : CRTP_MIDI :=
  MkCRTP_MIDI (LocalClock s) (RTPCallback s) (ClientInstance s) (SessionName s) v (SessionPartnerIP
    s) (PartnerControlPort s) (PartnerDataPort s) (ControlSocket s) (DataSocket s) (EndpointLocked
    s) (SSRC s) (RTPSequence s) (LastRTPCounter s) (LastFeedbackCounter s) (SessionState s)
    (InviteCount s) (InitiatorToken s) (IsInitiatorNode s) (TimeOutRemote s) (SyncSequenceCounter s)
    (MeasuredLatency s) (TimerRunning s) (EventTime s) (TimeCounter s) (RTPStreamQueue s)
    (SYSEX_RTPActif s) (FullInMidiMsg s) (IncomingThirdByte s) (RTPRunningStatus s)
    (InSYSEXBufferSize s) (SegmentSYSEXInput s) (InSYSEXBuffer s) (InSYSEXBufferPtr s)
    (InSYSEXOverflow s) (TS1H s) (TS1L s) (TS2H s) (TS2L s) (TS3H s) (TS3L s) (ConnectionLost s)
    (PeerClosedSession s) (ConnectionRefused s) (Trace s).
Definition set_SessionPartnerIP (v : Z) (s : CRTP_MIDI) : CRTP_MIDI :=
  MkCRTP_MIDI (LocalClock s) (RTPCallback s) (ClientInstance s) (SessionName s) (RemoteIPToInvite s)
    v (PartnerControlPort s) (PartnerDataPort s) (ControlSocket s) (DataSocket s) (EndpointLocked s)
    (SSRC s) (RTPSequence s) (LastRTPCounter s) (LastFeedbackCounter s) (SessionState s)
    (InviteCount s) (InitiatorToken s) (IsInitiatorNode s) (TimeOutRemote s) (SyncSequenceCounter s)
    (MeasuredLatency s) (TimerRunning s) (EventTime s) (TimeCounter s) (RTPStreamQueue s)
    (SYSEX_RTPActif s) (FullInMidiMsg s) (IncomingThirdByte s) (RTPRunningStatus s)
    (InSYSEXBufferSize s) (SegmentSYSEXInput s) (InSYSEXBuffer s) (InSYSEXBufferPtr s)
    (InSYSEXOverflow s) (TS1H s) (TS1L s) (TS2H s) (TS2L s) (TS3H s) (TS3L s) (ConnectionLost s)
    (PeerClosedSession s) (ConnectionRefused s) (Trace s).
Definition set_PartnerControlPort (v : Z) (s : CRTP_MIDI) : CRTP_MIDI :=
  MkCRTP_MIDI (LocalClock s) (RTPCallback s) (ClientInstance s) (SessionName s) (RemoteIPToInvite s)
    (SessionPartnerIP s) v (PartnerDataPort s) (ControlSocket s) (DataSocket s) (EndpointLocked s)
    (SSRC s) (RTPSequence s) (LastRTPCounter s) (LastFeedbackCounter s) (SessionState s)
    (InviteCount s) (InitiatorToken s) (IsInitiatorNode s) (TimeOutRemote s) (SyncSequenceCounter s)
    (MeasuredLatency s) (TimerRunning s) (EventTime s) (TimeCounter s) (RTPStreamQueue s)
    (SYSEX_RTPActif s) (FullInMidiMsg s) (IncomingThirdByte s) (RTPRunningStatus s)
    (InSYSEXBufferSize s) (SegmentSYSEXInput s) (InSYSEXBuffer s) (InSYSEXBufferPtr s)
    (InSYSEXOverflow s) (TS1H s) (TS1L s) (TS2H s) (TS2L s) (TS3H s) (TS3L s) (ConnectionLost s)
    (PeerClosedSession s) (ConnectionRefused s) (Trace s).
Definition set_PartnerDataPort (v : Z) (s : CRTP_MIDI) : CRTP_MIDI :=
  MkCRTP_MIDI (LocalClock s) (RTPCallback s) (ClientInstance s) (SessionName s) (RemoteIPToInvite s)
    (SessionPartnerIP s) (PartnerControlPort s) v (ControlSocket s) (DataSocket s) (EndpointLocked
    s) (SSRC s) (RTPSequence s) (LastRTPCounter s) (LastFeedbackCounter s) (SessionState s)
    (InviteCount s) (InitiatorToken s) (IsInitiatorNode s) (TimeOutRemote s) (SyncSequenceCounter s)
    (MeasuredLatency s) (TimerRunning s) (EventTime s) (TimeCounter s) (RTPStreamQueue s)
    (SYSEX_RTPActif s) (FullInMidiMsg s) (IncomingThirdByte s) (RTPRunningStatus s)
    (InSYSEXBufferSize s) (SegmentSYSEXInput s) (InSYSEXBuffer s) (InSYSEXBufferPtr s)
    (InSYSEXOverflow s) (TS1H s) (TS1L s) (TS2H s) (TS2L s) (TS3H s) (TS3L s) (ConnectionLost s)
    (PeerClosedSession s) (ConnectionRefused s) (Trace s).
Definition set_ControlSocket (v : TSOCKTYPE) (s : CRTP_MIDI) : CRTP_MIDI :=
  MkCRTP_MIDI (LocalClock s) (RTPCallback s) (ClientInstance s) (SessionName s) (RemoteIPToInvite s)
    (SessionPartnerIP s) (PartnerControlPort s) (PartnerDataPort s) v (DataSocket s) (EndpointLocked
    s) (SSRC s) (RTPSequence s) (LastRTPCounter s) (LastFeedbackCounter s) (SessionState s)
    (InviteCount s) (InitiatorToken s) (IsInitiatorNode s) (TimeOutRemote s) (SyncSequenceCounter s)
    (MeasuredLatency s) (TimerRunning s) (EventTime s) (TimeCounter s) (RTPStreamQueue s)
    (SYSEX_RTPActif s) (FullInMidiMsg s) (IncomingThirdByte s) (RTPRunningStatus s)
    (InSYSEXBufferSize s) (SegmentSYSEXInput s) (InSYSEXBuffer s) (InSYSEXBufferPtr s)
    (InSYSEXOverflow s) (TS1H s) (TS1L s) (TS2H s) (TS2L s) (TS3H s) (TS3L s) (ConnectionLost s)
    (PeerClosedSession s) (ConnectionRefused s) (Trace s).
Definition set_DataSocket (v : TSOCKTYPE) (s : CRTP_MIDI) : CRTP_MIDI :=
  MkCRTP_MIDI (LocalClock s) (RTPCallback s) (ClientInstance s) (SessionName s) (RemoteIPToInvite s)
    (SessionPartnerIP s) (PartnerControlPort s) (PartnerDataPort s) (ControlSocket s) v
    (EndpointLocked s) (SSRC s) (RTPSequence s) (LastRTPCounter s) (LastFeedbackCounter s)
    (SessionState s) (InviteCount s) (InitiatorToken s) (IsInitiatorNode s) (TimeOutRemote s)
    (SyncSequenceCounter s) (MeasuredLatency s) (TimerRunning s) (EventTime s) (TimeCounter s)
    (RTPStreamQueue s) (SYSEX_RTPActif s) (FullInMidiMsg s) (IncomingThirdByte s) (RTPRunningStatus
    s) (InSYSEXBufferSize s) (SegmentSYSEXInput s) (InSYSEXBuffer s) (InSYSEXBufferPtr s)
    (InSYSEXOverflow s) (TS1H s) (TS1L s) (TS2H s) (TS2L s) (TS3H s) (TS3L s) (ConnectionLost s)
    (PeerClosedSession s) (ConnectionRefused s) (Trace s).
Definition set_EndpointLocked (v : bool) (s : CRTP_MIDI) : CRTP_MIDI :=
  MkCRTP_MIDI (LocalClock s) (RTPCallback s) (ClientInstance s) (SessionName s) (RemoteIPToInvite s)
    (SessionPartnerIP s) (PartnerControlPort s) (PartnerDataPort s) (ControlSocket s) (DataSocket s)
    v (SSRC s) (RTPSequence s) (LastRTPCounter s) (LastFeedbackCounter s) (SessionState s)
    (InviteCount s) (InitiatorToken s) (IsInitiatorNode s) (TimeOutRemote s) (SyncSequenceCounter s)
    (MeasuredLatency s) (TimerRunning s) (EventTime s) (TimeCounter s) (RTPStreamQueue s)
    (SYSEX_RTPActif s) (FullInMidiMsg s) (IncomingThirdByte s) (RTPRunningStatus s)
    (InSYSEXBufferSize s) (SegmentSYSEXInput s) (InSYSEXBuffer s) (InSYSEXBufferPtr s)
    (InSYSEXOverflow s) (TS1H s) (TS1L s) (TS2H s) (TS2L s) (TS3H s) (TS3L s) (ConnectionLost s)
    (PeerClosedSession s) (ConnectionRefused s) (Trace s).
Definition set_SSRC (v : Z) (s : CRTP_MIDI) : CRTP_MIDI :=
  MkCRTP_MIDI (LocalClock s) (RTPCallback s) (ClientInstance s) (SessionName s) (RemoteIPToInvite s)
    (SessionPartnerIP s) (PartnerControlPort s) (PartnerDataPort s) (ControlSocket s) (DataSocket s)
    (EndpointLocked s) v (RTPSequence s) (LastRTPCounter s) (LastFeedbackCounter s) (SessionState s)
    (InviteCount s) (InitiatorToken s) (IsInitiatorNode s) (TimeOutRemote s) (SyncSequenceCounter s)
    (MeasuredLatency s) (TimerRunning s) (EventTime s) (TimeCounter s) (RTPStreamQueue s)
    (SYSEX_RTPActif s) (FullInMidiMsg s) (IncomingThirdByte s) (RTPRunningStatus s)
    (InSYSEXBufferSize s) (SegmentSYSEXInput s) (InSYSEXBuffer s) (InSYSEXBufferPtr s)
    (InSYSEXOverflow s) (TS1H s) (TS1L s) (TS2H s) (TS2L s) (TS3H s) (TS3L s) (ConnectionLost s)
    (PeerClosedSession s) (ConnectionRefused s) (Trace s).
Definition set_RTPSequence (v : Z) (s : CRTP_MIDI) : CRTP_MIDI :=
  MkCRTP_MIDI (LocalClock s) (RTPCallback s) (ClientInstance s) (SessionName s) (RemoteIPToInvite s)
    (SessionPartnerIP s) (PartnerControlPort s) (PartnerDataPort s) (ControlSocket s) (DataSocket s)
    (EndpointLocked s) (SSRC s) v (LastRTPCounter s) (LastFeedbackCounter s) (SessionState s)
    (InviteCount s) (InitiatorToken s) (IsInitiatorNode s) (TimeOutRemote s) (SyncSequenceCounter s)
    (MeasuredLatency s) (TimerRunning s) (EventTime s) (TimeCounter s) (RTPStreamQueue s)
    (SYSEX_RTPActif s) (FullInMidiMsg s) (IncomingThirdByte s) (RTPRunningStatus s)
    (InSYSEXBufferSize s) (SegmentSYSEXInput s) (InSYSEXBuffer s) (InSYSEXBufferPtr s)
    (InSYSEXOverflow s) (TS1H s) (TS1L s) (TS2H s) (TS2L s) (TS3H s) (TS3L s) (ConnectionLost s)
    (PeerClosedSession s) (ConnectionRefused s) (Trace s).
Definition set_LastRTPCounter (v : Z) (s : CRTP_MIDI) : CRTP_MIDI :=
  MkCRTP_MIDI (LocalClock s) (RTPCallback s) (ClientInstance s) (SessionName s) (RemoteIPToInvite s)
    (SessionPartnerIP s) (PartnerControlPort s) (PartnerDataPort s) (ControlSocket s) (DataSocket s)
    (EndpointLocked s) (SSRC s) (RTPSequence s) v (LastFeedbackCounter s) (SessionState s)
    (InviteCount s) (InitiatorToken s) (IsInitiatorNode s) (TimeOutRemote s) (SyncSequenceCounter s)
    (MeasuredLatency s) (TimerRunning s) (EventTime s) (TimeCounter s) (RTPStreamQueue s)
    (SYSEX_RTPActif s) (FullInMidiMsg s) (IncomingThirdByte s) (RTPRunningStatus s)
    (InSYSEXBufferSize s) (SegmentSYSEXInput s) (InSYSEXBuffer s) (InSYSEXBufferPtr s)
    (InSYSEXOverflow s) (TS1H s) (TS1L s) (TS2H s) (TS2L s) (TS3H s) (TS3L s) (ConnectionLost s)
    (PeerClosedSession s) (ConnectionRefused s) (Trace s).
Definition set_LastFeedbackCounter (v : Z) (s : CRTP_MIDI) : CRTP_MIDI :=
  MkCRTP_MIDI (LocalClock s) (RTPCallback s) (ClientInstance s) (SessionName s) (RemoteIPToInvite s)
    (SessionPartnerIP s) (PartnerControlPort s) (PartnerDataPort s) (ControlSocket s) (DataSocket s)
    (EndpointLocked s) (SSRC s) (RTPSequence s) (LastRTPCounter s) v (SessionState s) (InviteCount
    s) (InitiatorToken s) (IsInitiatorNode s) (TimeOutRemote s) (SyncSequenceCounter s)
    (MeasuredLatency s) (TimerRunning s) (EventTime s) (TimeCounter s) (RTPStreamQueue s)
    (SYSEX_RTPActif s) (FullInMidiMsg s) (IncomingThirdByte s) (RTPRunningStatus s)
    (InSYSEXBufferSize s) (SegmentSYSEXInput s) (InSYSEXBuffer s) (InSYSEXBufferPtr s)
    (InSYSEXOverflow s) (TS1H s) (TS1L s) (TS2H s) (TS2L s) (TS3H s) (TS3L s) (ConnectionLost s)
    (PeerClosedSession s) (ConnectionRefused s) (Trace s).
Definition set_SessionState (v : TSessionState) (s : CRTP_MIDI) : CRTP_MIDI :=
  MkCRTP_MIDI (LocalClock s) (RTPCallback s) (ClientInstance s) (SessionName s) (RemoteIPToInvite s)
    (SessionPartnerIP s) (PartnerControlPort s) (PartnerDataPort s) (ControlSocket s) (DataSocket s)
    (EndpointLocked s) (SSRC s) (RTPSequence s) (LastRTPCounter s) (LastFeedbackCounter s) v
    (InviteCount s) (InitiatorToken s) (IsInitiatorNode s) (TimeOutRemote s) (SyncSequenceCounter s)
    (MeasuredLatency s) (TimerRunning s) (EventTime s) (TimeCounter s) (RTPStreamQueue s)
    (SYSEX_RTPActif s) (FullInMidiMsg s) (IncomingThirdByte s) (RTPRunningStatus s)
    (InSYSEXBufferSize s) (SegmentSYSEXInput s) (InSYSEXBuffer s) (InSYSEXBufferPtr s)
    (InSYSEXOverflow s) (TS1H s) (TS1L s) (TS2H s) (TS2L s) (TS3H s) (TS3L s) (ConnectionLost s)
    (PeerClosedSession s) (ConnectionRefused s) (Trace s).
Definition set_InviteCount (v : Z) (s : CRTP_MIDI) : CRTP_MIDI :=
  MkCRTP_MIDI (LocalClock s) (RTPCallback s) (ClientInstance s) (SessionName s) (RemoteIPToInvite s)
    (SessionPartnerIP s) (PartnerControlPort s) (PartnerDataPort s) (ControlSocket s) (DataSocket s)
    (EndpointLocked s) (SSRC s) (RTPSequence s) (LastRTPCounter s) (LastFeedbackCounter s)
    (SessionState s) v (InitiatorToken s) (IsInitiatorNode s) (TimeOutRemote s) (SyncSequenceCounter
    s) (MeasuredLatency s) (TimerRunning s) (EventTime s) (TimeCounter s) (RTPStreamQueue s)
    (SYSEX_RTPActif s) (FullInMidiMsg s) (IncomingThirdByte s) (RTPRunningStatus s)
    (InSYSEXBufferSize s) (SegmentSYSEXInput s) (InSYSEXBuffer s) (InSYSEXBufferPtr s)
    (InSYSEXOverflow s) (TS1H s) (TS1L s) (TS2H s) (TS2L s) (TS3H s) (TS3L s) (ConnectionLost s)
    (PeerClosedSession s) (ConnectionRefused s) (Trace s).
Definition set_InitiatorToken (v : Z) (s : CRTP_MIDI) : CRTP_MIDI :=
  MkCRTP_MIDI (LocalClock s) (RTPCallback s) (ClientInstance s) (SessionName s) (RemoteIPToInvite s)
    (SessionPartnerIP s) (PartnerControlPort s) (PartnerDataPort s) (ControlSocket s) (DataSocket s)
    (EndpointLocked s) (SSRC s) (RTPSequence s) (LastRTPCounter s) (LastFeedbackCounter s)
    (SessionState s) (InviteCount s) v (IsInitiatorNode s) (TimeOutRemote s) (SyncSequenceCounter s)
    (MeasuredLatency s) (TimerRunning s) (EventTime s) (TimeCounter s) (RTPStreamQueue s)
    (SYSEX_RTPActif s) (FullInMidiMsg s) (IncomingThirdByte s) (RTPRunningStatus s)
    (InSYSEXBufferSize s) (SegmentSYSEXInput s) (InSYSEXBuffer s) (InSYSEXBufferPtr s)
    (InSYSEXOverflow s) (TS1H s) (TS1L s) (TS2H s) (TS2L s) (TS3H s) (TS3L s) (ConnectionLost s)
    (PeerClosedSession s) (ConnectionRefused s) (Trace s).
Definition set_IsInitiatorNode (v : bool) (s : CRTP_MIDI) : CRTP_MIDI :=
  MkCRTP_MIDI (LocalClock s) (RTPCallback s) (ClientInstance s) (SessionName s) (RemoteIPToInvite s)
    (SessionPartnerIP s) (PartnerControlPort s) (PartnerDataPort s) (ControlSocket s) (DataSocket s)
    (EndpointLocked s) (SSRC s) (RTPSequence s) (LastRTPCounter s) (LastFeedbackCounter s)
    (SessionState s) (InviteCount s) (InitiatorToken s) v (TimeOutRemote s) (SyncSequenceCounter s)
    (MeasuredLatency s) (TimerRunning s) (EventTime s) (TimeCounter s) (RTPStreamQueue s)
    (SYSEX_RTPActif s) (FullInMidiMsg s) (IncomingThirdByte s) (RTPRunningStatus s)
    (InSYSEXBufferSize s) (SegmentSYSEXInput s) (InSYSEXBuffer s) (InSYSEXBufferPtr s)
    (InSYSEXOverflow s) (TS1H s) (TS1L s) (TS2H s) (TS2L s) (TS3H s) (TS3L s) (ConnectionLost s)
    (PeerClosedSession s) (ConnectionRefused s) (Trace s).
Definition set_TimeOutRemote (v : Z) (s : CRTP_MIDI) : CRTP_MIDI :=
  MkCRTP_MIDI (LocalClock s) (RTPCallback s) (ClientInstance s) (SessionName s) (RemoteIPToInvite s)
    (SessionPartnerIP s) (PartnerControlPort s) (PartnerDataPort s) (ControlSocket s) (DataSocket s)
    (EndpointLocked s) (SSRC s) (RTPSequence s) (LastRTPCounter s) (LastFeedbackCounter s)
    (SessionState s) (InviteCount s) (InitiatorToken s) (IsInitiatorNode s) v (SyncSequenceCounter
    s) (MeasuredLatency s) (TimerRunning s) (EventTime s) (TimeCounter s) (RTPStreamQueue s)
    (SYSEX_RTPActif s) (FullInMidiMsg s) (IncomingThirdByte s) (RTPRunningStatus s)
    (InSYSEXBufferSize s) (SegmentSYSEXInput s) (InSYSEXBuffer s) (InSYSEXBufferPtr s)
    (InSYSEXOverflow s) (TS1H s) (TS1L s) (TS2H s) (TS2L s) (TS3H s) (TS3L s) (ConnectionLost s)
    (PeerClosedSession s) (ConnectionRefused s) (Trace s).
Definition set_SyncSequenceCounter (v : Z) (s : CRTP_MIDI) : CRTP_MIDI :=
  MkCRTP_MIDI (LocalClock s) (RTPCallback s) (ClientInstance s) (SessionName s) (RemoteIPToInvite s)
    (SessionPartnerIP s) (PartnerControlPort s) (PartnerDataPort s) (ControlSocket s) (DataSocket s)
    (EndpointLocked s) (SSRC s) (RTPSequence s) (LastRTPCounter s) (LastFeedbackCounter s)
    (SessionState s) (InviteCount s) (InitiatorToken s) (IsInitiatorNode s) (TimeOutRemote s) v
    (MeasuredLatency s) (TimerRunning s) (EventTime s) (TimeCounter s) (RTPStreamQueue s)
    (SYSEX_RTPActif s) (FullInMidiMsg s) (IncomingThirdByte s) (RTPRunningStatus s)
    (InSYSEXBufferSize s) (SegmentSYSEXInput s) (InSYSEXBuffer s) (InSYSEXBufferPtr s)
    (InSYSEXOverflow s) (TS1H s) (TS1L s) (TS2H s) (TS2L s) (TS3H s) (TS3L s) (ConnectionLost s)
    (PeerClosedSession s) (ConnectionRefused s) (Trace s).
Definition set_MeasuredLatency (v : Z) (s : CRTP_MIDI) : CRTP_MIDI :=
  MkCRTP_MIDI (LocalClock s) (RTPCallback s) (ClientInstance s) (SessionName s) (RemoteIPToInvite s)
    (SessionPartnerIP s) (PartnerControlPort s) (PartnerDataPort s) (ControlSocket s) (DataSocket s)
    (EndpointLocked s) (SSRC s) (RTPSequence s) (LastRTPCounter s) (LastFeedbackCounter s)
    (SessionState s) (InviteCount s) (InitiatorToken s) (IsInitiatorNode s) (TimeOutRemote s)
    (SyncSequenceCounter s) v (TimerRunning s) (EventTime s) (TimeCounter s) (RTPStreamQueue s)
    (SYSEX_RTPActif s) (FullInMidiMsg s) (IncomingThirdByte s) (RTPRunningStatus s)
    (InSYSEXBufferSize s) (SegmentSYSEXInput s) (InSYSEXBuffer s) (InSYSEXBufferPtr s)
    (InSYSEXOverflow s) (TS1H s) (TS1L s) (TS2H s) (TS2L s) (TS3H s) (TS3L s) (ConnectionLost s)
    (PeerClosedSession s) (ConnectionRefused s) (Trace s).
Definition set_TimerRunning (v : bool) (s : CRTP_MIDI) : CRTP_MIDI :=
  MkCRTP_MIDI (LocalClock s) (RTPCallback s) (ClientInstance s) (SessionName s) (RemoteIPToInvite s)
    (SessionPartnerIP s) (PartnerControlPort s) (PartnerDataPort s) (ControlSocket s) (DataSocket s)
    (EndpointLocked s) (SSRC s) (RTPSequence s) (LastRTPCounter s) (LastFeedbackCounter s)
    (SessionState s) (InviteCount s) (InitiatorToken s) (IsInitiatorNode s) (TimeOutRemote s)
    (SyncSequenceCounter s) (MeasuredLatency s) v (EventTime s) (TimeCounter s) (RTPStreamQueue s)
    (SYSEX_RTPActif s) (FullInMidiMsg s) (IncomingThirdByte s) (RTPRunningStatus s)
    (InSYSEXBufferSize s) (SegmentSYSEXInput s) (InSYSEXBuffer s) (InSYSEXBufferPtr s)
    (InSYSEXOverflow s) (TS1H s) (TS1L s) (TS2H s) (TS2L s) (TS3H s) (TS3L s) (ConnectionLost s)
    (PeerClosedSession s) (ConnectionRefused s) (Trace s).
Definition set_EventTime (v : Z) (s : CRTP_MIDI) : CRTP_MIDI :=
  MkCRTP_MIDI (LocalClock s) (RTPCallback s) (ClientInstance s) (SessionName s) (RemoteIPToInvite s)
    (SessionPartnerIP s) (PartnerControlPort s) (PartnerDataPort s) (ControlSocket s) (DataSocket s)
    (EndpointLocked s) (SSRC s) (RTPSequence s) (LastRTPCounter s) (LastFeedbackCounter s)
    (SessionState s) (InviteCount s) (InitiatorToken s) (IsInitiatorNode s) (TimeOutRemote s)
    (SyncSequenceCounter s) (MeasuredLatency s) (TimerRunning s) v (TimeCounter s) (RTPStreamQueue
    s) (SYSEX_RTPActif s) (FullInMidiMsg s) (IncomingThirdByte s) (RTPRunningStatus s)
    (InSYSEXBufferSize s) (SegmentSYSEXInput s) (InSYSEXBuffer s) (InSYSEXBufferPtr s)
    (InSYSEXOverflow s) (TS1H s) (TS1L s) (TS2H s) (TS2L s) (TS3H s) (TS3L s) (ConnectionLost s)
    (PeerClosedSession s) (ConnectionRefused s) (Trace s).
Definition set_TimeCounter (v : Z) (s : CRTP_MIDI) : CRTP_MIDI :=
  MkCRTP_MIDI (LocalClock s) (RTPCallback s) (ClientInstance s) (SessionName s) (RemoteIPToInvite s)
    (SessionPartnerIP s) (PartnerControlPort s) (PartnerDataPort s) (ControlSocket s) (DataSocket s)
    (EndpointLocked s) (SSRC s) (RTPSequence s) (LastRTPCounter s) (LastFeedbackCounter s)
    (SessionState s) (InviteCount s) (InitiatorToken s) (IsInitiatorNode s) (TimeOutRemote s)
    (SyncSequenceCounter s) (MeasuredLatency s) (TimerRunning s) (EventTime s) v (RTPStreamQueue s)
    (SYSEX_RTPActif s) (FullInMidiMsg s) (IncomingThirdByte s) (RTPRunningStatus s)
    (InSYSEXBufferSize s) (SegmentSYSEXInput s) (InSYSEXBuffer s) (InSYSEXBufferPtr s)
    (InSYSEXOverflow s) (TS1H s) (TS1L s) (TS2H s) (TS2L s) (TS3H s) (TS3L s) (ConnectionLost s)
    (PeerClosedSession s) (ConnectionRefused s) (Trace s).
Definition set_RTPStreamQueue (v : TMIDI_FIFO_CHAR) (s : CRTP_MIDI) : CRTP_MIDI :=
  MkCRTP_MIDI (LocalClock s) (RTPCallback s) (ClientInstance s) (SessionName s) (RemoteIPToInvite s)
    (SessionPartnerIP s) (PartnerControlPort s) (PartnerDataPort s) (ControlSocket s) (DataSocket s)
    (EndpointLocked s) (SSRC s) (RTPSequence s) (LastRTPCounter s) (LastFeedbackCounter s)
    (SessionState s) (InviteCount s) (InitiatorToken s) (IsInitiatorNode s) (TimeOutRemote s)
    (SyncSequenceCounter s) (MeasuredLatency s) (TimerRunning s) (EventTime s) (TimeCounter s) v
    (SYSEX_RTPActif s) (FullInMidiMsg s) (IncomingThirdByte s) (RTPRunningStatus s)
    (InSYSEXBufferSize s) (SegmentSYSEXInput s) (InSYSEXBuffer s) (InSYSEXBufferPtr s)
    (InSYSEXOverflow s) (TS1H s) (TS1L s) (TS2H s) (TS2L s) (TS3H s) (TS3L s) (ConnectionLost s)
    (PeerClosedSession s) (ConnectionRefused s) (Trace s).
Definition set_SYSEX_RTPActif (v : bool) (s : CRTP_MIDI) : CRTP_MIDI :=
  MkCRTP_MIDI (LocalClock s) (RTPCallback s) (ClientInstance s) (SessionName s) (RemoteIPToInvite s)
    (SessionPartnerIP s) (PartnerControlPort s) (PartnerDataPort s) (ControlSocket s) (DataSocket s)
    (EndpointLocked s) (SSRC s) (RTPSequence s) (LastRTPCounter s) (LastFeedbackCounter s)
    (SessionState s) (InviteCount s) (InitiatorToken s) (IsInitiatorNode s) (TimeOutRemote s)
    (SyncSequenceCounter s) (MeasuredLatency s) (TimerRunning s) (EventTime s) (TimeCounter s)
    (RTPStreamQueue s) v (FullInMidiMsg s) (IncomingThirdByte s) (RTPRunningStatus s)
    (InSYSEXBufferSize s) (SegmentSYSEXInput s) (InSYSEXBuffer s) (InSYSEXBufferPtr s)
    (InSYSEXOverflow s) (TS1H s) (TS1L s) (TS2H s) (TS2L s) (TS3H s) (TS3L s) (ConnectionLost s)
    (PeerClosedSession s) (ConnectionRefused s) (Trace s).
Definition set_FullInMidiMsg (v : list Z) (s : CRTP_MIDI) : CRTP_MIDI :=
  MkCRTP_MIDI (LocalClock s) (RTPCallback s) (ClientInstance s) (SessionName s) (RemoteIPToInvite s)
    (SessionPartnerIP s) (PartnerControlPort s) (PartnerDataPort s) (ControlSocket s) (DataSocket s)
    (EndpointLocked s) (SSRC s) (RTPSequence s) (LastRTPCounter s) (LastFeedbackCounter s)
    (SessionState s) (InviteCount s) (InitiatorToken s) (IsInitiatorNode s) (TimeOutRemote s)
    (SyncSequenceCounter s) (MeasuredLatency s) (TimerRunning s) (EventTime s) (TimeCounter s)
    (RTPStreamQueue s) (SYSEX_RTPActif s) v (IncomingThirdByte s) (RTPRunningStatus s)
    (InSYSEXBufferSize s) (SegmentSYSEXInput s) (InSYSEXBuffer s) (InSYSEXBufferPtr s)
    (InSYSEXOverflow s) (TS1H s) (TS1L s) (TS2H s) (TS2L s) (TS3H s) (TS3L s) (ConnectionLost s)
    (PeerClosedSession s) (ConnectionRefused s) (Trace s).
Definition set_IncomingThirdByte (v : bool) (s : CRTP_MIDI) : CRTP_MIDI :=
  MkCRTP_MIDI (LocalClock s) (RTPCallback s) (ClientInstance s) (SessionName s) (RemoteIPToInvite s)
    (SessionPartnerIP s) (PartnerControlPort s) (PartnerDataPort s) (ControlSocket s) (DataSocket s)
    (EndpointLocked s) (SSRC s) (RTPSequence s) (LastRTPCounter s) (LastFeedbackCounter s)
    (SessionState s) (InviteCount s) (InitiatorToken s) (IsInitiatorNode s) (TimeOutRemote s)
    (SyncSequenceCounter s) (MeasuredLatency s) (TimerRunning s) (EventTime s) (TimeCounter s)
    (RTPStreamQueue s) (SYSEX_RTPActif s) (FullInMidiMsg s) v (RTPRunningStatus s)
    (InSYSEXBufferSize s) (SegmentSYSEXInput s) (InSYSEXBuffer s) (InSYSEXBufferPtr s)
    (InSYSEXOverflow s) (TS1H s) (TS1L s) (TS2H s) (TS2L s) (TS3H s) (TS3L s) (ConnectionLost s)
    (PeerClosedSession s) (ConnectionRefused s) (Trace s).
Definition set_RTPRunningStatus (v : Z) (s : CRTP_MIDI) : CRTP_MIDI :=
  MkCRTP_MIDI (LocalClock s) (RTPCallback s) (ClientInstance s) (SessionName s) (RemoteIPToInvite s)
    (SessionPartnerIP s) (PartnerControlPort s) (PartnerDataPort s) (ControlSocket s) (DataSocket s)
    (EndpointLocked s) (SSRC s) (RTPSequence s) (LastRTPCounter s) (LastFeedbackCounter s)
    (SessionState s) (InviteCount s) (InitiatorToken s) (IsInitiatorNode s) (TimeOutRemote s)
    (SyncSequenceCounter s) (MeasuredLatency s) (TimerRunning s) (EventTime s) (TimeCounter s)
    (RTPStreamQueue s) (SYSEX_RTPActif s) (FullInMidiMsg s) (IncomingThirdByte s) v
    (InSYSEXBufferSize s) (SegmentSYSEXInput s) (InSYSEXBuffer s) (InSYSEXBufferPtr s)
    (InSYSEXOverflow s) (TS1H s) (TS1L s) (TS2H s) (TS2L s) (TS3H s) (TS3L s) (ConnectionLost s)
    (PeerClosedSession s) (ConnectionRefused s) (Trace s).
Definition set_InSYSEXBufferSize (v : Z) (s : CRTP_MIDI) : CRTP_MIDI :=
  MkCRTP_MIDI (LocalClock s) (RTPCallback s) (ClientInstance s) (SessionName s) (RemoteIPToInvite s)
    (SessionPartnerIP s) (PartnerControlPort s) (PartnerDataPort s) (ControlSocket s) (DataSocket s)
    (EndpointLocked s) (SSRC s) (RTPSequence s) (LastRTPCounter s) (LastFeedbackCounter s)
    (SessionState s) (InviteCount s) (InitiatorToken s) (IsInitiatorNode s) (TimeOutRemote s)
    (SyncSequenceCounter s) (MeasuredLatency s) (TimerRunning s) (EventTime s) (TimeCounter s)
    (RTPStreamQueue s) (SYSEX_RTPActif s) (FullInMidiMsg s) (IncomingThirdByte s) (RTPRunningStatus
    s) v (SegmentSYSEXInput s) (InSYSEXBuffer s) (InSYSEXBufferPtr s) (InSYSEXOverflow s) (TS1H s)
    (TS1L s) (TS2H s) (TS2L s) (TS3H s) (TS3L s) (ConnectionLost s) (PeerClosedSession s)
    (ConnectionRefused s) (Trace s).
Definition set_SegmentSYSEXInput (v : bool) (s : CRTP_MIDI) : CRTP_MIDI :=
  MkCRTP_MIDI (LocalClock s) (RTPCallback s) (ClientInstance s) (SessionName s) (RemoteIPToInvite s)
    (SessionPartnerIP s) (PartnerControlPort s) (PartnerDataPort s) (ControlSocket s) (DataSocket s)
    (EndpointLocked s) (SSRC s) (RTPSequence s) (LastRTPCounter s) (LastFeedbackCounter s)
    (SessionState s) (InviteCount s) (InitiatorToken s) (IsInitiatorNode s) (TimeOutRemote s)
    (SyncSequenceCounter s) (MeasuredLatency s) (TimerRunning s) (EventTime s) (TimeCounter s)
    (RTPStreamQueue s) (SYSEX_RTPActif s) (FullInMidiMsg s) (IncomingThirdByte s) (RTPRunningStatus
    s) (InSYSEXBufferSize s) v (InSYSEXBuffer s) (InSYSEXBufferPtr s) (InSYSEXOverflow s) (TS1H s)
    (TS1L s) (TS2H s) (TS2L s) (TS3H s) (TS3L s) (ConnectionLost s) (PeerClosedSession s)
    (ConnectionRefused s) (Trace s).
Definition set_InSYSEXBuffer (v : option (list Z)) (s : CRTP_MIDI) : CRTP_MIDI :=
  MkCRTP_MIDI (LocalClock s) (RTPCallback s) (ClientInstance s) (SessionName s) (RemoteIPToInvite s)
    (SessionPartnerIP s) (PartnerControlPort s) (PartnerDataPort s) (ControlSocket s) (DataSocket s)
    (EndpointLocked s) (SSRC s) (RTPSequence s) (LastRTPCounter s) (LastFeedbackCounter s)
    (SessionState s) (InviteCount s) (InitiatorToken s) (IsInitiatorNode s) (TimeOutRemote s)
    (SyncSequenceCounter s) (MeasuredLatency s) (TimerRunning s) (EventTime s) (TimeCounter s)
    (RTPStreamQueue s) (SYSEX_RTPActif s) (FullInMidiMsg s) (IncomingThirdByte s) (RTPRunningStatus
    s) (InSYSEXBufferSize s) (SegmentSYSEXInput s) v (InSYSEXBufferPtr s) (InSYSEXOverflow s) (TS1H
    s) (TS1L s) (TS2H s) (TS2L s) (TS3H s) (TS3L s) (ConnectionLost s) (PeerClosedSession s)
    (ConnectionRefused s) (Trace s).
Definition set_InSYSEXBufferPtr (v : Z) (s : CRTP_MIDI) : CRTP_MIDI :=
  MkCRTP_MIDI (LocalClock s) (RTPCallback s) (ClientInstance s) (SessionName s) (RemoteIPToInvite s)
    (SessionPartnerIP s) (PartnerControlPort s) (PartnerDataPort s) (ControlSocket s) (DataSocket s)
    (EndpointLocked s) (SSRC s) (RTPSequence s) (LastRTPCounter s) (LastFeedbackCounter s)
    (SessionState s) (InviteCount s) (InitiatorToken s) (IsInitiatorNode s) (TimeOutRemote s)
    (SyncSequenceCounter s) (MeasuredLatency s) (TimerRunning s) (EventTime s) (TimeCounter s)
    (RTPStreamQueue s) (SYSEX_RTPActif s) (FullInMidiMsg s) (IncomingThirdByte s) (RTPRunningStatus
    s) (InSYSEXBufferSize s) (SegmentSYSEXInput s) (InSYSEXBuffer s) v (InSYSEXOverflow s) (TS1H s)
    (TS1L s) (TS2H s) (TS2L s) (TS3H s) (TS3L s) (ConnectionLost s) (PeerClosedSession s)
    (ConnectionRefused s) (Trace s).
Definition set_InSYSEXOverflow (v : bool) (s : CRTP_MIDI) : CRTP_MIDI :=
  MkCRTP_MIDI (LocalClock s) (RTPCallback s) (ClientInstance s) (SessionName s) (RemoteIPToInvite s)
    (SessionPartnerIP s) (PartnerControlPort s) (PartnerDataPort s) (ControlSocket s) (DataSocket s)
    (EndpointLocked s) (SSRC s) (RTPSequence s) (LastRTPCounter s) (LastFeedbackCounter s)
    (SessionState s) (InviteCount s) (InitiatorToken s) (IsInitiatorNode s) (TimeOutRemote s)
    (SyncSequenceCounter s) (MeasuredLatency s) (TimerRunning s) (EventTime s) (TimeCounter s)
    (RTPStreamQueue s) (SYSEX_RTPActif s) (FullInMidiMsg s) (IncomingThirdByte s) (RTPRunningStatus
    s) (InSYSEXBufferSize s) (SegmentSYSEXInput s) (InSYSEXBuffer s) (InSYSEXBufferPtr s) v (TS1H s)
    (TS1L s) (TS2H s) (TS2L s) (TS3H s) (TS3L s) (ConnectionLost s) (PeerClosedSession s)
    (ConnectionRefused s) (Trace s).
Definition set_TS1H (v : Z) (s : CRTP_MIDI) : CRTP_MIDI :=
  MkCRTP_MIDI (LocalClock s) (RTPCallback s) (ClientInstance s) (SessionName s) (RemoteIPToInvite s)
    (SessionPartnerIP s) (PartnerControlPort s) (PartnerDataPort s) (ControlSocket s) (DataSocket s)
    (EndpointLocked s) (SSRC s) (RTPSequence s) (LastRTPCounter s) (LastFeedbackCounter s)
    (SessionState s) (InviteCount s) (InitiatorToken s) (IsInitiatorNode s) (TimeOutRemote s)
    (SyncSequenceCounter s) (MeasuredLatency s) (TimerRunning s) (EventTime s) (TimeCounter s)
    (RTPStreamQueue s) (SYSEX_RTPActif s) (FullInMidiMsg s) (IncomingThirdByte s) (RTPRunningStatus
    s) (InSYSEXBufferSize s) (SegmentSYSEXInput s) (InSYSEXBuffer s) (InSYSEXBufferPtr s)
    (InSYSEXOverflow s) v (TS1L s) (TS2H s) (TS2L s) (TS3H s) (TS3L s) (ConnectionLost s)
    (PeerClosedSession s) (ConnectionRefused s) (Trace s).
Definition set_TS1L (v : Z) (s : CRTP_MIDI) : CRTP_MIDI :=
  MkCRTP_MIDI (LocalClock s) (RTPCallback s) (ClientInstance s) (SessionName s) (RemoteIPToInvite s)
    (SessionPartnerIP s) (PartnerControlPort s) (PartnerDataPort s) (ControlSocket s) (DataSocket s)
    (EndpointLocked s) (SSRC s) (RTPSequence s) (LastRTPCounter s) (LastFeedbackCounter s)
    (SessionState s) (InviteCount s) (InitiatorToken s) (IsInitiatorNode s) (TimeOutRemote s)
    (SyncSequenceCounter s) (MeasuredLatency s) (TimerRunning s) (EventTime s) (TimeCounter s)
    (RTPStreamQueue s) (SYSEX_RTPActif s) (FullInMidiMsg s) (IncomingThirdByte s) (RTPRunningStatus
    s) (InSYSEXBufferSize s) (SegmentSYSEXInput s) (InSYSEXBuffer s) (InSYSEXBufferPtr s)
    (InSYSEXOverflow s) (TS1H s) v (TS2H s) (TS2L s) (TS3H s) (TS3L s) (ConnectionLost s)
    (PeerClosedSession s) (ConnectionRefused s) (Trace s).
Definition set_TS2H (v : Z) (s : CRTP_MIDI) : CRTP_MIDI :=
  MkCRTP_MIDI (LocalClock s) (RTPCallback s) (ClientInstance s) (SessionName s) (RemoteIPToInvite s)
    (SessionPartnerIP s) (PartnerControlPort s) (PartnerDataPort s) (ControlSocket s) (DataSocket s)
    (EndpointLocked s) (SSRC s) (RTPSequence s) (LastRTPCounter s) (LastFeedbackCounter s)
    (SessionState s) (InviteCount s) (InitiatorToken s) (IsInitiatorNode s) (TimeOutRemote s)
    (SyncSequenceCounter s) (MeasuredLatency s) (TimerRunning s) (EventTime s) (TimeCounter s)
    (RTPStreamQueue s) (SYSEX_RTPActif s) (FullInMidiMsg s) (IncomingThirdByte s) (RTPRunningStatus
    s) (InSYSEXBufferSize s) (SegmentSYSEXInput s) (InSYSEXBuffer s) (InSYSEXBufferPtr s)
    (InSYSEXOverflow s) (TS1H s) (TS1L s) v (TS2L s) (TS3H s) (TS3L s) (ConnectionLost s)
    (PeerClosedSession s) (ConnectionRefused s) (Trace s).
Definition set_TS2L (v : Z) (s : CRTP_MIDI) : CRTP_MIDI :=
  MkCRTP_MIDI (LocalClock s) (RTPCallback s) (ClientInstance s) (SessionName s) (RemoteIPToInvite s)
    (SessionPartnerIP s) (PartnerControlPort s) (PartnerDataPort s) (ControlSocket s) (DataSocket s)
    (EndpointLocked s) (SSRC s) (RTPSequence s) (LastRTPCounter s) (LastFeedbackCounter s)
    (SessionState s) (InviteCount s) (InitiatorToken s) (IsInitiatorNode s) (TimeOutRemote s)
    (SyncSequenceCounter s) (MeasuredLatency s) (TimerRunning s) (EventTime s) (TimeCounter s)
    (RTPStreamQueue s) (SYSEX_RTPActif s) (FullInMidiMsg s) (IncomingThirdByte s) (RTPRunningStatus
    s) (InSYSEXBufferSize s) (SegmentSYSEXInput s) (InSYSEXBuffer s) (InSYSEXBufferPtr s)
    (InSYSEXOverflow s) (TS1H s) (TS1L s) (TS2H s) v (TS3H s) (TS3L s) (ConnectionLost s)
    (PeerClosedSession s) (ConnectionRefused s) (Trace s).
Definition set_TS3H (v : Z) (s : CRTP_MIDI) : CRTP_MIDI :=
  MkCRTP_MIDI (LocalClock s) (RTPCallback s) (ClientInstance s) (SessionName s) (RemoteIPToInvite s)
    (SessionPartnerIP s) (PartnerControlPort s) (PartnerDataPort s) (ControlSocket s) (DataSocket s)
    (EndpointLocked s) (SSRC s) (RTPSequence s) (LastRTPCounter s) (LastFeedbackCounter s)
    (SessionState s) (InviteCount s) (InitiatorToken s) (IsInitiatorNode s) (TimeOutRemote s)
    (SyncSequenceCounter s) (MeasuredLatency s) (TimerRunning s) (EventTime s) (TimeCounter s)
    (RTPStreamQueue s) (SYSEX_RTPActif s) (FullInMidiMsg s) (IncomingThirdByte s) (RTPRunningStatus
    s) (InSYSEXBufferSize s) (SegmentSYSEXInput s) (InSYSEXBuffer s) (InSYSEXBufferPtr s)
    (InSYSEXOverflow s) (TS1H s) (TS1L s) (TS2H s) (TS2L s) v (TS3L s) (ConnectionLost s)
    (PeerClosedSession s) (ConnectionRefused s) (Trace s).
Definition set_TS3L (v : Z) (s : CRTP_MIDI) : CRTP_MIDI :=
  MkCRTP_MIDI (LocalClock s) (RTPCallback s) (ClientInstance s) (SessionName s) (RemoteIPToInvite s)
    (SessionPartnerIP s) (PartnerControlPort s) (PartnerDataPort s) (ControlSocket s) (DataSocket s)
    (EndpointLocked s) (SSRC s) (RTPSequence s) (LastRTPCounter s) (LastFeedbackCounter s)
    (SessionState s) (InviteCount s) (InitiatorToken s) (IsInitiatorNode s) (TimeOutRemote s)
    (SyncSequenceCounter s) (MeasuredLatency s) (TimerRunning s) (EventTime s) (TimeCounter s)
    (RTPStreamQueue s) (SYSEX_RTPActif s) (FullInMidiMsg s) (IncomingThirdByte s) (RTPRunningStatus
    s) (InSYSEXBufferSize s) (SegmentSYSEXInput s) (InSYSEXBuffer s) (InSYSEXBufferPtr s)
    (InSYSEXOverflow s) (TS1H s) (TS1L s) (TS2H s) (TS2L s) (TS3H s) v (ConnectionLost s)
    (PeerClosedSession s) (ConnectionRefused s) (Trace s).
Definition set_ConnectionLost (v : bool) (s : CRTP_MIDI) : CRTP_MIDI :=
  MkCRTP_MIDI (LocalClock s) (RTPCallback s) (ClientInstance s) (SessionName s) (RemoteIPToInvite s)
    (SessionPartnerIP s) (PartnerControlPort s) (PartnerDataPort s) (ControlSocket s) (DataSocket s)
    (EndpointLocked s) (SSRC s) (RTPSequence s) (LastRTPCounter s) (LastFeedbackCounter s)
    (SessionState s) (InviteCount s) (InitiatorToken s) (IsInitiatorNode s) (TimeOutRemote s)
    (SyncSequenceCounter s) (MeasuredLatency s) (TimerRunning s) (EventTime s) (TimeCounter s)
    (RTPStreamQueue s) (SYSEX_RTPActif s) (FullInMidiMsg s) (IncomingThirdByte s) (RTPRunningStatus
    s) (InSYSEXBufferSize s) (SegmentSYSEXInput s) (InSYSEXBuffer s) (InSYSEXBufferPtr s)
    (InSYSEXOverflow s) (TS1H s) (TS1L s) (TS2H s) (TS2L s) (TS3H s) (TS3L s) v (PeerClosedSession
    s) (ConnectionRefused s) (Trace s).
Definition set_PeerClosedSession (v : bool) (s : CRTP_MIDI) : CRTP_MIDI :=
  MkCRTP_MIDI (LocalClock s) (RTPCallback s) (ClientInstance s) (SessionName s) (RemoteIPToInvite s)
    (SessionPartnerIP s) (PartnerControlPort s) (PartnerDataPort s) (ControlSocket s) (DataSocket s)
    (EndpointLocked s) (SSRC s) (RTPSequence s) (LastRTPCounter s) (LastFeedbackCounter s)
    (SessionState s) (InviteCount s) (InitiatorToken s) (IsInitiatorNode s) (TimeOutRemote s)
    (SyncSequenceCounter s) (MeasuredLatency s) (TimerRunning s) (EventTime s) (TimeCounter s)
    (RTPStreamQueue s) (SYSEX_RTPActif s) (FullInMidiMsg s) (IncomingThirdByte s) (RTPRunningStatus
    s) (InSYSEXBufferSize s) (SegmentSYSEXInput s) (InSYSEXBuffer s) (InSYSEXBufferPtr s)
    (InSYSEXOverflow s) (TS1H s) (TS1L s) (TS2H s) (TS2L s) (TS3H s) (TS3L s) (ConnectionLost s) v
    (ConnectionRefused s) (Trace s).
Definition set_ConnectionRefused (v : bool) (s : CRTP_MIDI) : CRTP_MIDI :=
  MkCRTP_MIDI (LocalClock s) (RTPCallback s) (ClientInstance s) (SessionName s) (RemoteIPToInvite s)
    (SessionPartnerIP s) (PartnerControlPort s) (PartnerDataPort s) (ControlSocket s) (DataSocket s)
    (EndpointLocked s) (SSRC s) (RTPSequence s) (LastRTPCounter s) (LastFeedbackCounter s)
    (SessionState s) (InviteCount s) (InitiatorToken s) (IsInitiatorNode s) (TimeOutRemote s)
    (SyncSequenceCounter s) (MeasuredLatency s) (TimerRunning s) (EventTime s) (TimeCounter s)
    (RTPStreamQueue s) (SYSEX_RTPActif s) (FullInMidiMsg s) (IncomingThirdByte s) (RTPRunningStatus
    s) (InSYSEXBufferSize s) (SegmentSYSEXInput s) (InSYSEXBuffer s) (InSYSEXBufferPtr s)
    (InSYSEXOverflow s) (TS1H s) (TS1L s) (TS2H s) (TS2L s) (TS3H s) (TS3L s) (ConnectionLost s)
    (PeerClosedSession s) v (Trace s).
Definition set_Trace (v : list Event) (s : CRTP_MIDI) : CRTP_MIDI :=
  MkCRTP_MIDI (LocalClock s) (RTPCallback s) (ClientInstance s) (SessionName s) (RemoteIPToInvite s)
    (SessionPartnerIP s) (PartnerControlPort s) (PartnerDataPort s) (ControlSocket s) (DataSocket s)
    (EndpointLocked s) (SSRC s) (RTPSequence s) (LastRTPCounter s) (LastFeedbackCounter s)
    (SessionState s) (InviteCount s) (InitiatorToken s) (IsInitiatorNode s) (TimeOutRemote s)
    (SyncSequenceCounter s) (MeasuredLatency s) (TimerRunning s) (EventTime s) (TimeCounter s)
    (RTPStreamQueue s) (SYSEX_RTPActif s) (FullInMidiMsg s) (IncomingThirdByte s) (RTPRunningStatus
    s) (InSYSEXBufferSize s) (SegmentSYSEXInput s) (InSYSEXBuffer s) (InSYSEXBufferPtr s)
    (InSYSEXOverflow s) (TS1H s) (TS1L s) (TS2H s) (TS2L s) (TS3H s) (TS3L s) (ConnectionLost s)
    (PeerClosedSession s) (ConnectionRefused s) v.

(** ** The decoder (RTP_MIDI_Input.cpp) *)

(** A call of [RTPCallback(ClientInstance, DataSize, DataBlock, time)]. *)
Definition call_RTPCallback (DataSize : Z) (DataBlock : list Z) (LEventTime : Z)
    (s : CRTP_MIDI) : CRTP_MIDI :=
  set_Trace (Trace s ++
    [EvCallback (ClientInstance s) DataSize (take (Z.to_nat DataSize) DataBlock) LEventTime]) s.

(** initRTP_SYSEXBuffer (lines 288-294). *)
Definition initRTP_SYSEXBuffer (s : CRTP_MIDI) : CRTP_MIDI :=
  let s := set_InSYSEXBufferPtr 0 s in
  let s := set_SegmentSYSEXInput false s in
  let s := set_SYSEX_RTPActif false s in
  set_InSYSEXOverflow false s.

(** storeRTP_SYSEXData (lines 297-304).  The comparison is between unsigned
    values, so [InSYSEXBufferSize-1] wraps when the size is 0. *)
Definition storeRTP_SYSEXData (SysexData : Z) (s : CRTP_MIDI) : CRTP_MIDI :=
  match InSYSEXBuffer s with
  | None => s
  | Some buf =>
      let s := set_InSYSEXBuffer (Some (wr buf (InSYSEXBufferPtr s) SysexData)) s in
      if InSYSEXBufferPtr s <? u32 (InSYSEXBufferSize s - 1)
      then set_InSYSEXBufferPtr (u32 (InSYSEXBufferPtr s + 1)) s
      else set_InSYSEXOverflow true s
  end.

(** sendRTP_SYSEXBuffer (lines 307-312). *)
Definition sendRTP_SYSEXBuffer (LEventTime : Z) (s : CRTP_MIDI) : CRTP_MIDI :=
  if RTPCallback s
  then call_RTPCallback (InSYSEXBufferPtr s) (default [] (InSYSEXBuffer s)) LEventTime s
  else s.

(** sendMIDIToClient (lines 315-320). *)
Definition sendMIDIToClient (NumBytes : Z) (LEventTime : Z) (s : CRTP_MIDI) : CRTP_MIDI :=
  if RTPCallback s
  then call_RTPCallback NumBytes (FullInMidiMsg s) LEventTime s
  else s.

(** How the body of the loop of GenerateMIDIEvent ends for one byte:
    [goto NextByte] (or falling onto that label), or [return]. *)
Inductive TFlow : Type := NextByte | Return.

Definition set_FullInMidiMsg_at (i v : Z) (s : CRTP_MIDI) : CRTP_MIDI :=
  set_FullInMidiMsg (wr (FullInMidiMsg s) i v) s.

(** GenerateMIDIEvent, lines 200-281: the byte is not taken by the SYSEX
    processing. *)
Definition GenerateMIDIEvent_status (DataByte LEventTime : Z) (s : CRTP_MIDI)
    : CRTP_MIDI * TFlow :=
  if negb (Z.land DataByte 0x80 =? 0) then
    if 0xF8 <=? DataByte then
      let s := set_FullInMidiMsg_at 0 DataByte s in
      (sendMIDIToClient 1 LEventTime s, Return)
    else
      let s := set_RTPRunningStatus DataByte s in
      let s := set_FullInMidiMsg_at 0 DataByte s in
      let s := set_IncomingThirdByte false s in
      if DataByte =? 0xF6
      then (sendMIDIToClient 1 LEventTime s, Return)
      else (s, NextByte)
  else
    if IncomingThirdByte s then
      let s := set_FullInMidiMsg_at 0 (RTPRunningStatus s) s in
      let s := set_FullInMidiMsg_at 2 DataByte s in
      let s := set_IncomingThirdByte false s in
      (sendMIDIToClient 3 LEventTime s, Return)
    else if RTPRunningStatus s =? 0 then (s, Return)
    else if RTPRunningStatus s <? 0xC0 then
      let s := set_IncomingThirdByte true s in
      (set_FullInMidiMsg_at 1 DataByte s, NextByte)
    else if RTPRunningStatus s <? 0xE0 then
      let s := set_FullInMidiMsg_at 0 (RTPRunningStatus s) s in
      let s := set_FullInMidiMsg_at 1 DataByte s in
      (sendMIDIToClient 2 LEventTime s, Return)
    else if RTPRunningStatus s <? 0xF0 then
      let s := set_IncomingThirdByte true s in
      (set_FullInMidiMsg_at 1 DataByte s, NextByte)
    else if RTPRunningStatus s =? 0xF2 then
      let s := set_RTPRunningStatus 0 s in
      let s := set_IncomingThirdByte true s in
      (set_FullInMidiMsg_at 1 DataByte s, NextByte)
    else if (RTPRunningStatus s =? 0xF1) || (RTPRunningStatus s =? 0xF3) then
      let s := set_FullInMidiMsg_at 0 (RTPRunningStatus s) s in
      let s := set_FullInMidiMsg_at 1 DataByte s in
      let s := sendMIDIToClient 2 LEventTime s in
      (set_RTPRunningStatus 0 s, Return)
    else (set_RTPRunningStatus 0 s, Return).

(** GenerateMIDIEvent, lines 133-281: what is done with one byte read from
    the block. *)
Definition GenerateMIDIEvent_byte (DataByte LEventTime : Z) (s : CRTP_MIDI)
    : CRTP_MIDI * TFlow :=
  if (DataByte =? 0xF0) && negb (SYSEX_RTPActif s) then
    let s := set_SYSEX_RTPActif true s in
    let s := set_SegmentSYSEXInput true s in
    (storeRTP_SYSEXData 0xF0 s, NextByte)
  else if SYSEX_RTPActif s then
    if DataByte =? 0xF0 then (set_SegmentSYSEXInput false s, NextByte)
    else if DataByte =? 0xF7 then
      if SegmentSYSEXInput s then
        let s := storeRTP_SYSEXData 0xF7 s in
        let s := sendRTP_SYSEXBuffer LEventTime s in
        (initRTP_SYSEXBuffer s, Return)
      else (set_SegmentSYSEXInput true s, NextByte)
    else if DataByte =? 0xF4 then (initRTP_SYSEXBuffer s, Return)
    else if SegmentSYSEXInput s then
      if DataByte <? 0x80 then (storeRTP_SYSEXData DataByte s, NextByte)
      else if 0xF8 <=? DataByte then
        let s := set_FullInMidiMsg_at 0 DataByte s in
        (sendMIDIToClient 1 LEventTime s, NextByte)
      else GenerateMIDIEvent_status DataByte LEventTime (initRTP_SYSEXBuffer s)
    else GenerateMIDIEvent_status DataByte LEventTime s
  else GenerateMIDIEvent_status DataByte LEventTime s.

(** The while loop of GenerateMIDIEvent (lines 127-284).  Every turn reads
    one byte, so [TailleBloc - *ByteCtr] turns are enough: the fuel is that
    number and the loop leaves by its own test ([GenerateMIDIEvent_fuel]). *)
Fixpoint GenerateMIDIEvent_loop (fuel : nat) (Buffer : list Z) (ByteCtr TailleBloc : Z)
    (LEventTime : Z) (s : CRTP_MIDI) : CRTP_MIDI * Z :=
  match fuel with
  | O => (s, ByteCtr)
  | S fuel' =>
      if ByteCtr <? TailleBloc then
        let DataByte := rd Buffer ByteCtr in
        let ByteCtr := ByteCtr + 1 in
        match GenerateMIDIEvent_byte DataByte LEventTime s with
        | (s, NextByte) => GenerateMIDIEvent_loop fuel' Buffer ByteCtr TailleBloc LEventTime s
        | (s, Return) => (s, ByteCtr)
        end
      else (s, ByteCtr)
  end.

(** GenerateMIDIEvent (lines 122-285); returns the object and [*ByteCtr]. *)
Definition GenerateMIDIEvent (Buffer : list Z) (ByteCtr TailleBloc : Z) (LEventTime : Z)
    (s : CRTP_MIDI) : CRTP_MIDI * Z :=
  GenerateMIDIEvent_loop (Z.to_nat (TailleBloc - ByteCtr)) Buffer ByteCtr TailleBloc LEventTime s.

(** ProcessIncomingRTP, lines 109-117: the scan of the list after the first
    event.  GetDeltaTime reads at least one byte per turn, so
    [TailleListeMIDI - CtrByteMIDI] turns are enough
    ([ProcessIncomingRTP_scan_fuel]). *)
Fixpoint ProcessIncomingRTP_scan (fuel : nat) (PtrListeMIDI : list Z)
    (CtrByteMIDI TailleListeMIDI : Z) (s : CRTP_MIDI) : CRTP_MIDI * Z :=
  match fuel with
  | O => (s, CtrByteMIDI)
  | S fuel' =>
      if CtrByteMIDI <? TailleListeMIDI then
        let '(DeltaTime, CtrByteMIDI) := GetDeltaTime PtrListeMIDI CtrByteMIDI in
        let '(s, CtrByteMIDI) :=
          if CtrByteMIDI <? TailleListeMIDI
          then GenerateMIDIEvent PtrListeMIDI CtrByteMIDI TailleListeMIDI
                 (u32 (DeltaTime + LocalClock s)) s
          else (s, CtrByteMIDI) in
        ProcessIncomingRTP_scan fuel' PtrListeMIDI CtrByteMIDI TailleListeMIDI s
      else (s, CtrByteMIDI)
  end.

(** ProcessIncomingRTP, lines 97-118: the decoding of a MIDI list of declared
    length [TailleListeMIDI]; returns the object and the final [CtrByteMIDI]. *)
Definition ProcessIncomingRTP_list (PtrListeMIDI : list Z) (TailleListeMIDI : Z)
    (PresenceFirstDelta : bool) (s : CRTP_MIDI) : CRTP_MIDI * Z :=
  if 0 <? TailleListeMIDI then
    let '(DeltaTime, CtrByteMIDI) :=
      if PresenceFirstDelta then GetDeltaTime PtrListeMIDI 0 else (0, 0) in
    let '(s, CtrByteMIDI) :=
      if CtrByteMIDI <? TailleListeMIDI
      then GenerateMIDIEvent PtrListeMIDI CtrByteMIDI TailleListeMIDI
             (u32 (DeltaTime + LocalClock s)) s
      else (s, CtrByteMIDI) in
    ProcessIncomingRTP_scan (Z.to_nat (TailleListeMIDI - CtrByteMIDI)) PtrListeMIDI
      CtrByteMIDI TailleListeMIDI s
  else (s, 0).

(** The header fields ProcessIncomingRTP takes from the datagram (lines
    81-95): declared list length, Z bit, and the list itself, which starts
    at byte 14 (two-byte header, B=1) or 13 (one-byte header, B=0). *)
Definition TailleListeMIDI_of (Buffer : list Z) : Z :=
  if negb (Z.land (rd Buffer 12) 0x80 =? 0)
  then Z.land (get_be16 Buffer 12) 0xFFF
  else Z.land (rd Buffer 12) 0xF.
Definition PresenceFirstDelta_of (Buffer : list Z) : bool :=
  if negb (Z.land (rd Buffer 12) 0x80 =? 0)
  then negb (Z.land (get_be16 Buffer 12) LONG_Z_BIT =? 0)
  else negb (Z.land (rd Buffer 12) SHORT_Z_BIT =? 0).
Definition PtrListeMIDI_of (Buffer : list Z) : list Z :=
  if negb (Z.land (rd Buffer 12) 0x80 =? 0) then drop 14 Buffer else drop 13 Buffer.

(** ProcessIncomingRTP (lines 58-119). *)
Definition ProcessIncomingRTP (Buffer : list Z) (s : CRTP_MIDI) : CRTP_MIDI :=
  let s := set_LastRTPCounter (get_be16 Buffer 2) s in
  fst (ProcessIncomingRTP_list (PtrListeMIDI_of Buffer) (TailleListeMIDI_of Buffer)
         (PresenceFirstDelta_of Buffer) s).

(** ** The outbound ring (RTP_MIDI.cpp) *)

Definition set_ReadPtr (v : Z) (q : TMIDI_FIFO_CHAR) : TMIDI_FIFO_CHAR :=
  MkFIFO (FIFO q) v (WritePtr q).
Definition set_WritePtr (v : Z) (q : TMIDI_FIFO_CHAR) : TMIDI_FIFO_CHAR :=
  MkFIFO (FIFO q) (ReadPtr q) v.
Definition set_FIFO (v : list Z) (q : TMIDI_FIFO_CHAR) : TMIDI_FIFO_CHAR :=
  MkFIFO v (ReadPtr q) (WritePtr q).

(** A ring pointer after [Ptr+=1; if (Ptr>=MIDI_CHAR_FIFO_SIZE) Ptr=0]. *)
Definition next_ptr (Ptr : Z) : Z :=
  let Ptr := u32 (Ptr + 1) in
  if MIDI_CHAR_FIFO_SIZE <=? Ptr then 0 else Ptr.

(** The while loop of GeneratePayload (lines 654-665).  [FullPayload] is
    never set, so the loop stops only when the read pointer meets the
    snapshot of the write pointer; with both pointers inside the ring, as
    they always are ([ring_wf_host_run]), that takes fewer than
    MIDI_CHAR_FIFO_SIZE turns ([GeneratePayload_loop_spec]).
    [MIDIList] is the part of the payload written so far (the loop writes
    it at index [CtrBytePayload], its length). *)
Fixpoint GeneratePayload_loop (fuel : nat) (MIDIBlockEnd : Z) (q : TMIDI_FIFO_CHAR)
    (MIDIList : list Z) : TMIDI_FIFO_CHAR * list Z :=
  match fuel with
  | O => (q, MIDIList)
  | S fuel' =>
      if negb (ReadPtr q =? MIDIBlockEnd) then
        let TempPtr := ReadPtr q in
        let MIDIList := MIDIList ++ [rd (FIFO q) TempPtr] in
        GeneratePayload_loop fuel' MIDIBlockEnd (set_ReadPtr (next_ptr TempPtr) q) MIDIList
      else (q, MIDIList)
  end.

(** GeneratePayload (lines 640-669): returns the bytes put in the payload;
    [CtrBytePayload] is their number.  The destination array has
    MAX_RTP_LOAD bytes and the loop does not check it (the TODO of line
    656): the model returns all the bytes taken from the ring. *)
Definition GeneratePayload (s : CRTP_MIDI) : CRTP_MIDI * list Z :=
  let MIDIBlockEnd := WritePtr (RTPStreamQueue s) in
  let '(q, MIDIList) :=
    GeneratePayload_loop (Z.to_nat MIDI_CHAR_FIFO_SIZE) MIDIBlockEnd (RTPStreamQueue s) [] in
  (set_RTPStreamQueue q s, MIDIList).

(** PrepareMessage (lines 672-692): returns the size (0: nothing to send)
    and the message, header in network byte order. *)
Definition PrepareMessage (TimeStamp : Z) (s : CRTP_MIDI) : CRTP_MIDI * Z * list Z :=
  let '(s, MIDIList) := GeneratePayload s in
  let TailleMIDI := Z.of_nat (length MIDIList) in
  if TailleMIDI =? 0 then (s, 0, [])
  else
    (s, TailleMIDI + 12 + 2,
     [0x80; 0x61] ++ be16 (RTPSequence s) ++ be32 TimeStamp ++ be32 (SSRC s)
       ++ be16 (Z.lor (u16 TailleMIDI) LONG_B_BIT) ++ MIDIList).

(** The for loop of SendRTPMIDIBlock (lines 723-732): [None] when the loop
    returns false, else the last [TmpWrite]; the bytes staged so far stay
    in the FIFO array either way. *)
Fixpoint SendRTPMIDIBlock_loop (MIDIData : list Z) (ReadPtr : Z) (FIFO : list Z)
    (TmpWrite : Z) : list Z * option Z :=
  match MIDIData with
  | [] => (FIFO, Some TmpWrite)
  | b :: MIDIData' =>
      let FIFO := wr FIFO TmpWrite b in
      let TmpWrite := next_ptr TmpWrite in
      if TmpWrite =? ReadPtr then (FIFO, None)
      else SendRTPMIDIBlock_loop MIDIData' ReadPtr FIFO TmpWrite
  end.

(** SendRTPMIDIBlock (lines 711-738).  The block is the list [MIDIData];
    [BlockSize] is its length. *)
Definition SendRTPMIDIBlock (MIDIData : list Z) (s : CRTP_MIDI) : bool * CRTP_MIDI :=
  let BlockSize := Z.of_nat (length MIDIData) in
  if BlockSize =? 0 then (true, s)
  else if negb (SessionState_eqb (SessionState s) SESSION_OPENED) then (false, s)
  else
    let q := RTPStreamQueue s in
    match SendRTPMIDIBlock_loop MIDIData (ReadPtr q) (FIFO q) (WritePtr q) with
    | (fifo, None) => (false, set_RTPStreamQueue (set_FIFO fifo q) s)
    | (fifo, Some TmpWrite) =>
        (true, set_RTPStreamQueue (set_WritePtr TmpWrite (set_FIFO fifo q)) s)
    end.

(** The bytes the consumer has still to read: the [n] bytes of the ring from
    index [r] on, wrapping at the end of the array. *)
Fixpoint ring_bytes (n : nat) (r : Z) (fifo : list Z) : list Z :=
  match n with
  | O => []
  | S n' => rd fifo r :: ring_bytes n' (next_ptr r) fifo
  end.

(** Number of bytes between the read pointer and the write pointer. *)
Definition ring_used (q : TMIDI_FIFO_CHAR) : Z :=
  (WritePtr q - ReadPtr q) mod MIDI_CHAR_FIFO_SIZE.

(** The published content of the ring: what lies between [ReadPtr] and
    [WritePtr]. *)
Definition ring_pending (q : TMIDI_FIFO_CHAR) : list Z :=
  ring_bytes (Z.to_nat (ring_used q)) (ReadPtr q) (FIFO q).

(** The pointers are indices of the FIFO array. *)
Definition ring_wf (q : TMIDI_FIFO_CHAR) : Prop :=
  Z.of_nat (length (FIFO q)) = MIDI_CHAR_FIFO_SIZE /\
  0 <= ReadPtr q < MIDI_CHAR_FIFO_SIZE /\
  0 <= WritePtr q < MIDI_CHAR_FIFO_SIZE.

(** A block fits when it leaves the write pointer short of the read
    pointer: one slot of the ring always stays empty. *)
Definition ring_fits (BlockSize : Z) (q : TMIDI_FIFO_CHAR) : bool :=
  ring_used q + BlockSize <? MIDI_CHAR_FIFO_SIZE.

(** ** Session packets (RTP_MIDI_AppleProtocol.cpp) *)

(** A call of sendto on one of the two sockets. *)
Definition sendto (Sock : TSocketId) (DestIP DestPort : Z) (Data : list Z)
    (s : CRTP_MIDI) : CRTP_MIDI :=
  set_Trace (Trace s ++ [EvSendTo Sock DestIP DestPort Data]) s.

(** ASCII codes of the command letters. *)
Definition chr_B : Z := 66.
Definition chr_C : Z := 67.
Definition chr_I : Z := 73.
Definition chr_K : Z := 75.
Definition chr_N : Z := 78.
Definition chr_O : Z := 79.
Definition chr_R : Z := 82.
Definition chr_S : Z := 83.
Definition chr_Y : Z := 89.

(** TSessionPacketNoName as it goes on the wire. *)
Definition SessionPacketNoName (CommandH CommandL : Z) (s : CRTP_MIDI) : list Z :=
  [0xFF; 0xFF; CommandH; CommandL] ++ be32 2 ++ be32 (InitiatorToken s) ++ be32 (SSRC s).

(** SendInvitation (lines 33-70).  [SessionName] holds the characters
    before the terminating NUL. *)
Definition SendInvitation (DestControl : bool) (s : CRTP_MIDI) : CRTP_MIDI :=
  let NameLen := Z.of_nat (length (SessionName s)) in
  let Invit :=
    SessionPacketNoName chr_I chr_N s
      ++ (if 0 <? NameLen then SessionName s ++ [0] else []) in
  if DestControl
  then sendto ControlSocketId (RemoteIPToInvite s) (PartnerControlPort s) Invit s
  else sendto DataSocketId (RemoteIPToInvite s) (PartnerDataPort s) Invit s.

(** SendBYCommand (lines 73-92). *)
Definition SendBYCommand (s : CRTP_MIDI) : CRTP_MIDI :=
  sendto ControlSocketId (SessionPartnerIP s) (PartnerControlPort s)
    (SessionPacketNoName chr_B chr_Y s) s.

(** SendInvitationReply (lines 95-132). *)
Definition SendInvitationReply (FromControlSocket Accept : bool)
    (DestinationIP DestinationPort : Z) (s : CRTP_MIDI) : CRTP_MIDI :=
  let Reply :=
    if Accept then SessionPacketNoName chr_O chr_K s
    else SessionPacketNoName chr_N chr_O s in
  if FromControlSocket
  then sendto ControlSocketId DestinationIP DestinationPort Reply s
  else sendto DataSocketId DestinationIP DestinationPort Reply s.

(** SendSyncPacket (lines 135-161). *)
Definition SendSyncPacket (Count LTS1H LTS1L LTS2H LTS2L LTS3H LTS3L : Z)
    (s : CRTP_MIDI) : CRTP_MIDI :=
  sendto DataSocketId (SessionPartnerIP s) (PartnerDataPort s)
    ([0xFF; 0xFF; chr_C; chr_K] ++ be32 (SSRC s) ++ [u8 Count; 0; 0; 0]
       ++ be32 LTS1H ++ be32 LTS1L ++ be32 LTS2H ++ be32 LTS2L
       ++ be32 LTS3H ++ be32 LTS3L) s.

(** SendFeedbackPacket (lines 164-183). *)
Definition SendFeedbackPacket (LastNumber : Z) (s : CRTP_MIDI) : CRTP_MIDI :=
  sendto ControlSocketId (SessionPartnerIP s) (PartnerControlPort s)
    ([0xFF; 0xFF; chr_R; chr_S] ++ be32 (SSRC s) ++ be16 LastNumber ++ [0; 0]) s.

(** ** The session (RTP_MIDI.cpp) *)

(** PrepareTimerEvent (lines 158-163). *)
Definition PrepareTimerEvent (TimeToWait : Z) (s : CRTP_MIDI) : CRTP_MIDI :=
  let s := set_TimerRunning false s in
  let s := set_EventTime TimeToWait s in
  set_TimerRunning true s.

(** CloseSockets (lines 148-155). *)
Definition CloseSockets (s : CRTP_MIDI) : CRTP_MIDI :=
  set_DataSocket None (set_ControlSocket None s).

(** The constructor (lines 98-136).  [raw] is the storage of the object
    before construction: the members the constructor does not assign
    ([LocalClock], [RTPRunningStatus], [FullInMidiMsg], the FIFO array and
    others) keep what it holds.  The SYSEX buffer is allocated with
    [SYXInSize] bytes; no byte of it is read before it is written, and the
    model fills it with zeros. *)
Definition CRTP_MIDI_new (raw : CRTP_MIDI) (SYXInSize : Z) (CallbackFunc : bool)
    (UserInstance : Z) : CRTP_MIDI :=
  let s := raw in
  let s := set_RemoteIPToInvite 0 s in
  let s := set_PartnerControlPort 0 s in
  let s := set_PartnerDataPort 0 s in
  let s := set_DataSocket None s in
  let s := set_ControlSocket None s in
  let s := set_SessionState SESSION_CLOSED s in
  let s := set_SessionPartnerIP 0 s in
  let s := set_SessionName [] s in
  let s := set_EndpointLocked true s in
  let s := set_TimerRunning false s in
  let s := set_EventTime 0 s in
  let s := set_InviteCount 0 s in
  let s := set_TimeCounter 0 s in
  let s := set_SyncSequenceCounter 0 s in
  let s := set_MeasuredLatency 0xFFFFFFFF s in
  let s := set_IsInitiatorNode true s in
  let s := set_TimeOutRemote 4 s in
  let s := set_ConnectionLost false s in
  let s := set_PeerClosedSession false s in
  let s := set_ConnectionRefused false s in
  let s := set_InSYSEXBufferSize SYXInSize s in
  let s := set_InSYSEXBuffer (Some (replicate (Z.to_nat SYXInSize) 0)) s in
  let s := set_RTPStreamQueue (set_WritePtr 0 (set_ReadPtr 0 (RTPStreamQueue s))) s in
  let s := initRTP_SYSEXBuffer s in
  let s := set_RTPCallback CallbackFunc s in
  let s := set_ClientInstance UserInstance s in
  set_Trace [] s.

(** InitiateSession (lines 166-224).  [rand1] and [rand2] are the two values
    rand() returns, [CtrlOK] and [DataOK] the results of the two calls of
    CreateUDPSocket.  Returns [CreateError] and the object. *)
Definition InitiateSession (DestIP DestCtrlPort DestDataPort LocalCtrlPort LocalDataPort : Z)
    (IsInitiator : bool) (rand1 rand2 : Z) (CtrlOK DataOK : bool) (s : CRTP_MIDI)
    : Z * CRTP_MIDI :=
  let s := set_RemoteIPToInvite DestIP s in
  let s := set_PartnerControlPort DestCtrlPort s in
  let s := set_PartnerDataPort DestDataPort s in
  let s := set_InitiatorToken (u32 (rand1 * 0xFFFFFFFF)) s in
  let s := set_SSRC (u32 (rand2 * 0xFFFFFFFF)) s in
  let s := set_RTPSequence 0 s in
  let s := set_LastRTPCounter 0 s in
  let s := set_LastFeedbackCounter 0 s in
  let s := set_SyncSequenceCounter 0 s in
  let s := CloseSockets s in
  let s := if CtrlOK then set_ControlSocket (Some []) s else s in
  let CreateError := if CtrlOK then 0 else -1 in
  let s := if DataOK then set_DataSocket (Some []) s else s in
  let CreateError := if DataOK then CreateError else -2 in
  if negb (CreateError =? 0) then (CreateError, CloseSockets s)
  else
    let s := set_SYSEX_RTPActif false s in
    let s := set_SegmentSYSEXInput false s in
    let s := set_ConnectionLost false s in
    let s := set_InviteCount 0 s in
    let s := set_TimeOutRemote 16 s in
    let s := set_IncomingThirdByte false s in
    let s := set_IsInitiatorNode IsInitiator s in
    let s :=
      if negb IsInitiator then set_SessionState SESSION_WAIT_INVITE_CTRL s
      else
        let s := set_SessionState SESSION_INVITE_CONTROL s in
        set_SessionPartnerIP (RemoteIPToInvite s) s in
    let s := PrepareTimerEvent 1 s in
    (CreateError, set_EndpointLocked false s).

(** CloseSession (lines 227-242). *)
Definition CloseSession (s : CRTP_MIDI) : CRTP_MIDI :=
  if negb (IsInitiatorNode s) && SessionState_eqb (SessionState s) SESSION_WAIT_INVITE_CTRL
  then s
  else if EndpointLocked s then s
  else
    let s := set_SessionState SESSION_CLOSED s in
    let s := set_EndpointLocked true s in
    SendBYCommand s.

(** PartnerCloseSession (lines 333-346). *)
Definition PartnerCloseSession (s : CRTP_MIDI) : CRTP_MIDI :=
  let s := set_TimerRunning false s in
  let s :=
    if negb (IsInitiatorNode s) then set_SessionState SESSION_WAIT_INVITE_CTRL s
    else set_SessionState SESSION_CLOSED s in
  let s := set_PeerClosedSession true s in
  set_SessionPartnerIP 0 s.

(** RestartSession (lines 749-760). *)
Definition RestartSession (s : CRTP_MIDI) : CRTP_MIDI :=
  if negb (IsInitiatorNode s) then s
  else
    let s := set_SYSEX_RTPActif false s in
    let s := set_SegmentSYSEXInput false s in
    let s := set_InviteCount 0 s in
    let s := set_TimeOutRemote 16 s in
    let s := set_IncomingThirdByte false s in
    let s := set_SessionState SESSION_INVITE_CONTROL s in
    PrepareTimerEvent 1000 s.

(** The reception buffers have 1024 bytes: recvfrom keeps that much of a
    datagram.  The buffers are local arrays that are not initialised: behind
    the bytes received they hold what was there before.  The model gives
    those bytes no value of their own (a read behind the datagram gives 0,
    see [rd]); a statement that depends on a byte of the buffer is made for
    datagrams that have this byte ([received]). *)
Definition ReceptionBuffer_of (d : Datagram) : list Z := take 1024 (Payload d).

(** ProcessControlSocket (lines 245-330).  The two flags are the values
    behind the two pointers, before and after; the first component is the
    value returned. *)
Definition ProcessControlSocket (InvitationAccepted InvitationRejected : bool)
    (s : CRTP_MIDI) : bool * bool * bool * CRTP_MIDI :=
  match ControlSocket s with
  | Some (d :: q) =>
      let s := set_ControlSocket (Some q) s in
      let ReceptionBuffer := ReceptionBuffer_of d in
      let RecvSize := Z.of_nat (length ReceptionBuffer) in
      if RecvSize =? 0 then (false, InvitationAccepted, InvitationRejected, s)
      else if negb (rd ReceptionBuffer 0 =? 0xFF) || negb (rd ReceptionBuffer 1 =? 0xFF)
      then (true, InvitationAccepted, InvitationRejected, s)
      else
        let SenderIP := SenderIP d in
        let SenderPort := SenderPort d in
        if (rd ReceptionBuffer 2 =? chr_I) && (rd ReceptionBuffer 3 =? chr_N) then
          if negb (IsInitiatorNode s) then
            if SessionState_eqb (SessionState s) SESSION_WAIT_INVITE_CTRL then
              let s := set_InitiatorToken (get_be32 ReceptionBuffer 8) s in
              let s := set_SessionState SESSION_WAIT_INVITE_DATA s in
              let s := PrepareTimerEvent 5000 s in
              let s := SendInvitationReply true true SenderIP SenderPort s in
              let s := set_SessionPartnerIP SenderIP s in
              let s := set_PartnerControlPort SenderPort s in
              (true, InvitationAccepted, InvitationRejected, s)
            else if (SenderIP =? SessionPartnerIP s) && (SenderPort =? PartnerControlPort s) then
              let s := PrepareTimerEvent 5000 s in
              let s := SendInvitationReply true true SenderIP SenderPort s in
              (true, InvitationAccepted, InvitationRejected, s)
            else
              let s := SendInvitationReply true false SenderIP SenderPort s in
              (true, InvitationAccepted, InvitationRejected, s)
          else (true, InvitationAccepted, InvitationRejected, s)
        else if (rd ReceptionBuffer 2 =? chr_O) && (rd ReceptionBuffer 3 =? chr_K) then
          (true, true, InvitationRejected, s)
        else if (rd ReceptionBuffer 2 =? chr_N) && (rd ReceptionBuffer 3 =? chr_O) then
          (true, InvitationAccepted, true, s)
        else if (rd ReceptionBuffer 2 =? chr_B) && (rd ReceptionBuffer 3 =? chr_Y) then
          if SenderIP =? SessionPartnerIP s
          then (true, InvitationAccepted, InvitationRejected, PartnerCloseSession s)
          else (true, InvitationAccepted, InvitationRejected, s)
        else (true, InvitationAccepted, InvitationRejected, s)
  | _ => (false, InvitationAccepted, InvitationRejected, s)
  end.

(** RunSession, lines 444-482: a CK packet from the session partner. *)
Definition RunSession_CK (ReceptionBuffer : list Z) (s : CRTP_MIDI) : CRTP_MIDI :=
  let Count := rd ReceptionBuffer 8 in
  if Count =? 0 then
    let s := set_TS1H (get_be32 ReceptionBuffer 12) s in
    let s := set_TS1L (get_be32 ReceptionBuffer 16) s in
    SendSyncPacket 1 (TS1H s) (TS1L s) 0 (TimeCounter s) 0 0 s
  else if Count =? 1 then
    let s := set_TS1H (get_be32 ReceptionBuffer 12) s in
    let s := set_TS1L (get_be32 ReceptionBuffer 16) s in
    let s := set_TS2H (get_be32 ReceptionBuffer 20) s in
    let s := set_TS2L (get_be32 ReceptionBuffer 24) s in
    let s := set_MeasuredLatency (u32 (TimeCounter s - TS1L s)) s in
    let s := set_TimeOutRemote 4 s in
    let s := SendSyncPacket 2 (TS1H s) (TS1L s) (TS2H s) (TS2L s) 0 (TimeCounter s) s in
    if IsInitiatorNode s && SessionState_eqb (SessionState s) SESSION_CLOCK_SYNC1 then
      let s := set_TimeOutRemote 4 s in
      set_SessionState SESSION_OPENED s
    else s
  else if Count =? 2 then
    let s := set_TS1H (get_be32 ReceptionBuffer 12) s in
    let s := set_TS1L (get_be32 ReceptionBuffer 16) s in
    let s := set_TS2H (get_be32 ReceptionBuffer 20) s in
    let s := set_TS2L (get_be32 ReceptionBuffer 24) s in
    let s := set_TS3H (get_be32 ReceptionBuffer 28) s in
    let s := set_TS3L (get_be32 ReceptionBuffer 32) s in
    let s := set_MeasuredLatency (u32 (TimeCounter s - TS2L s)) s in
    let s := set_TimeOutRemote 4 s in
    set_SessionState SESSION_OPENED s
  else s.

(** RunSession, lines 426-504: a datagram received on the data socket.
    The two flags are [InvitationAcceptedOnData] and
    [InvitationRejectedOnData], before and after. *)
Definition RunSession_datagram (d : Datagram) (AcceptedOnData RejectedOnData : bool)
    (s : CRTP_MIDI) : bool * bool * CRTP_MIDI :=
  let ReceptionBuffer := ReceptionBuffer_of d in
  let RecvSize := Z.of_nat (length ReceptionBuffer) in
  if 0 <? RecvSize then
    let SenderIP := SenderIP d in
    let SenderPort := SenderPort d in
    if SenderIP =? SessionPartnerIP s then
      if (rd ReceptionBuffer 0 =? 0x80) && (rd ReceptionBuffer 1 =? 0x61) then
        if SessionState_eqb (SessionState s) SESSION_OPENED
        then (AcceptedOnData, RejectedOnData, ProcessIncomingRTP ReceptionBuffer s)
        else (AcceptedOnData, RejectedOnData, s)
      else if (rd ReceptionBuffer 0 =? 0xFF) && (rd ReceptionBuffer 1 =? 0xFF) then
        if (rd ReceptionBuffer 2 =? chr_C) && (rd ReceptionBuffer 3 =? chr_K) then
          (AcceptedOnData, RejectedOnData, RunSession_CK ReceptionBuffer s)
        else if (rd ReceptionBuffer 2 =? chr_I) && (rd ReceptionBuffer 3 =? chr_N) then
          let s := set_SessionState SESSION_WAIT_CLOCK_SYNC s in
          let s := PrepareTimerEvent 2000 s in
          let s := SendInvitationReply false true SenderIP SenderPort s in
          (AcceptedOnData, RejectedOnData, set_PartnerDataPort SenderPort s)
        else if (rd ReceptionBuffer 2 =? chr_O) && (rd ReceptionBuffer 3 =? chr_K) then
          (true, RejectedOnData, s)
        else if (rd ReceptionBuffer 2 =? chr_N) && (rd ReceptionBuffer 3 =? chr_O) then
          (AcceptedOnData, true, s)
        else if (rd ReceptionBuffer 2 =? chr_B) && (rd ReceptionBuffer 3 =? chr_Y) then
          (AcceptedOnData, RejectedOnData, PartnerCloseSession s)
        else (AcceptedOnData, RejectedOnData, s)
      else (AcceptedOnData, RejectedOnData, s)
    else (AcceptedOnData, RejectedOnData, s)
  else (AcceptedOnData, RejectedOnData, s).

(** RunSession, lines 419-505: the data socket is polled once.  The first
    component is [PacketReceivedOnData]. *)
Definition RunSession_DataSocket (AcceptedOnData RejectedOnData : bool) (s : CRTP_MIDI)
    : bool * bool * bool * CRTP_MIDI :=
  match DataSocket s with
  | Some (d :: q) =>
      let s := set_DataSocket (Some q) s in
      let '(a, r, s) := RunSession_datagram d AcceptedOnData RejectedOnData s in
      (true, a, r, s)
  | _ => (false, AcceptedOnData, RejectedOnData, s)
  end.

(** The four local flags of RunSession. *)
Record TInvitationFlags : Type := MkFlags {
  InvitationAcceptedOnCtrl : bool;
  InvitationRejectedOnCtrl : bool;
  InvitationAcceptedOnData : bool;
  InvitationRejectedOnData : bool
}.

Definition pending_datagrams (Sock : TSOCKTYPE) : nat := length (default [] Sock).

(** RunSession, lines 414-506: the do-while loop that empties the two
    sockets.  Every turn but the last takes a datagram from a socket, so
    one turn more than the number of waiting datagrams is enough
    ([RunSession_sockets_fuel]). *)
Fixpoint RunSession_sockets (fuel : nat) (fl : TInvitationFlags) (s : CRTP_MIDI)
    : TInvitationFlags * CRTP_MIDI :=
  match fuel with
  | O => (fl, s)
  | S fuel' =>
      let '(PacketReceivedOnControl, ac, rc, s) :=
        ProcessControlSocket (InvitationAcceptedOnCtrl fl) (InvitationRejectedOnCtrl fl) s in
      let '(PacketReceivedOnData, ad, rdt, s) :=
        RunSession_DataSocket (InvitationAcceptedOnData fl) (InvitationRejectedOnData fl) s in
      let fl := MkFlags ac rc ad rdt in
      if PacketReceivedOnControl || PacketReceivedOnData
      then RunSession_sockets fuel' fl s
      else (fl, s)
  end.

(** RunSession, lines 386-396: the timer; the second component is
    [TimerEvent]. *)
Definition RunSession_timer (s : CRTP_MIDI) : CRTP_MIDI * bool :=
  if TimerRunning s then
    let s := if 0 <? EventTime s then set_EventTime (EventTime s - 1) s else s in
    if EventTime s =? 0 then (set_TimerRunning false s, true) else (s, false)
  else (s, false).

(** RunSession, lines 519-576: the session initiator.  The second component
    tells that the method has returned. *)
Definition RunSession_initiator (TimerEvent : bool) (fl : TInvitationFlags) (s : CRTP_MIDI)
    : CRTP_MIDI * bool :=
  if IsInitiatorNode s then
    if SessionState_eqb (SessionState s) SESSION_INVITE_CONTROL then
      let s := set_SyncSequenceCounter 0 s in
      if InvitationAcceptedOnCtrl fl then
        let s := set_SessionState SESSION_INVITE_DATA s in
        let s := SendInvitation false s in
        (PrepareTimerEvent 100 s, true)
      else if negb (TimerRunning s) && TimerEvent then
        let s := SendInvitation true s in
        let s := PrepareTimerEvent 1000 s in
        (set_InviteCount (u32 (InviteCount s + 1)) s, false)
      else (s, false)
    else if SessionState_eqb (SessionState s) SESSION_INVITE_DATA then
      if InvitationAcceptedOnData fl then (set_SessionState SESSION_CLOCK_SYNC0 s, false)
      else if negb (TimerRunning s) && TimerEvent then
        if 12 <? InviteCount s then (RestartSession s, true)
        else
          let s := SendInvitation false s in
          let s := PrepareTimerEvent 1000 s in
          (set_InviteCount (u32 (InviteCount s + 1)) s, true)
      else (s, false)
    else if SessionState_eqb (SessionState s) SESSION_CLOCK_SYNC0 then
      let s := SendSyncPacket 0 0 (TimeCounter s) 0 0 0 0 s in
      (set_SessionState SESSION_CLOCK_SYNC1 s, false)
    else (s, false)
  else (s, false).

(** RunSession, lines 581-591: the RTP-MIDI message of the tick, if the
    ring holds something to send. *)
Definition RunSession_emit (s : CRTP_MIDI) : CRTP_MIDI :=
  let '(s, RTPOutSize, LRTPMessage) := PrepareMessage (TimeCounter s) s in
  if 0 <? RTPOutSize then
    let s := set_RTPSequence (u16 (RTPSequence s + 1)) s in
    sendto DataSocketId (SessionPartnerIP s) (PartnerDataPort s) LRTPMessage s
  else s.

(** RunSession, lines 593-635: feedback, clock synchronization and
    detection of the loss of the partner. *)
Definition RunSession_keepalive (TimerEvent : bool) (s : CRTP_MIDI) : CRTP_MIDI :=
  let s :=
    if TimerEvent then
      let s :=
        if negb (LastRTPCounter s =? LastFeedbackCounter s) then
          let s := SendFeedbackPacket (LastRTPCounter s) s in
          set_LastFeedbackCounter (LastRTPCounter s) s
        else s in
      let s :=
        if IsInitiatorNode s then SendSyncPacket 0 0 (TimeCounter s) 0 0 0 0 s else s in
      let s :=
        if SyncSequenceCounter s <=? 5 then
          let s := PrepareTimerEvent 1500 s in
          set_SyncSequenceCounter (u32 (SyncSequenceCounter s + 1)) s
        else PrepareTimerEvent 10000 s in
      if 0 <? TimeOutRemote s then set_TimeOutRemote (TimeOutRemote s - 1) s else s
    else s in
  if TimeOutRemote s =? 0 then
    let s := set_ConnectionLost true s in
    if IsInitiatorNode s then
      let s := set_TimeOutRemote 4 s in
      RestartSession s
    else set_SessionState SESSION_WAIT_INVITE_CTRL s
  else s.

(** RunSession, lines 579-636: the session is opened. *)
Definition RunSession_opened (TimerEvent : bool) (s : CRTP_MIDI) : CRTP_MIDI :=
  if SessionState_eqb (SessionState s) SESSION_OPENED
  then RunSession_keepalive TimerEvent (RunSession_emit s)
  else s.

(** RunSession, lines 380-381: the two clocks. *)
Definition RunSession_clock (s : CRTP_MIDI) : CRTP_MIDI :=
  let s := set_TimeCounter (u32 (TimeCounter s + 10)) s in
  set_LocalClock (u32 (LocalClock s + 10)) s.

(** RunSession (lines 349-637). *)
Definition RunSession (s : CRTP_MIDI) : CRTP_MIDI :=
  let s := RunSession_clock s in
  if EndpointLocked s then s
  else
    let '(s, TimerEvent) := RunSession_timer s in
    let s :=
      if TimerEvent && SessionState_eqb (SessionState s) SESSION_WAIT_INVITE_DATA
      then set_SessionState SESSION_WAIT_INVITE_CTRL s else s in
    let s :=
      if TimerEvent && SessionState_eqb (SessionState s) SESSION_WAIT_CLOCK_SYNC
      then set_SessionState SESSION_WAIT_INVITE_CTRL s else s in
    let '(fl, s) :=
      RunSession_sockets
        (S (pending_datagrams (ControlSocket s) + pending_datagrams (DataSocket s)))
        (MkFlags false false false false) s in
    let '(fl, s) :=
      if InvitationRejectedOnCtrl fl || InvitationRejectedOnData fl then
        let s := PartnerCloseSession s in
        let s := set_ConnectionRefused true s in
        (MkFlags false (InvitationRejectedOnCtrl fl) false (InvitationRejectedOnData fl), s)
      else (fl, s) in
    let '(s, returned) := RunSession_initiator TimerEvent fl s in
    if returned then s else RunSession_opened TimerEvent s.

(** SetCallback (lines 794-805). *)
Definition SetCallback (CallbackFunc : bool) (UserInstance : Z) (s : CRTP_MIDI) : CRTP_MIDI :=
  let SocketState := EndpointLocked s in
  let s := set_EndpointLocked true s in
  let s := set_ClientInstance UserInstance s in
  let s := set_RTPCallback CallbackFunc s in
  set_EndpointLocked SocketState s.

(** setSessionName (lines 704-708); MAX_SESSION_NAME_LEN is 64. *)
Definition setSessionName (Name : list Z) (s : CRTP_MIDI) : CRTP_MIDI :=
  if 64 - 1 <? Z.of_nat (length Name) then s else set_SessionName Name s.

(** The three flag readers (lines 763-791). *)
Definition ReadAndResetConnectionLost (s : CRTP_MIDI) : bool * CRTP_MIDI :=
  if negb (ConnectionLost s) then (false, s) else (true, set_ConnectionLost false s).
Definition RemotePeerHasClosedSession (s : CRTP_MIDI) : bool * CRTP_MIDI :=
  (PeerClosedSession s, set_PeerClosedSession false s).
Definition RemotePeerHasRefusedSession (s : CRTP_MIDI) : bool * CRTP_MIDI :=
  (ConnectionRefused s, set_ConnectionRefused false s).

(** ** The endpoint in use *)

(** What happens to an endpoint between its construction and its
    destruction: the host calls a public method, or the network puts a
    datagram in one of the two sockets. *)
Inductive THostCall : Type :=
  | Call_InitiateSession (DestIP DestCtrlPort DestDataPort LocalCtrlPort LocalDataPort : Z)
      (IsInitiator : bool) (rand1 rand2 : Z) (CtrlOK DataOK : bool)
  | Call_CloseSession
  | Call_RunSession
  | Call_SendRTPMIDIBlock (MIDIData : list Z)
  | Call_RestartSession
  | Call_ReadAndResetConnectionLost
  | Call_RemotePeerHasClosedSession
  | Call_RemotePeerHasRefusedSession
  | Call_SetCallback (CallbackFunc : bool) (UserInstance : Z)
  | Call_setSessionName (Name : list Z)
  | Net_Control (d : Datagram)
  | Net_Data (d : Datagram).

Definition enqueue (d : Datagram) (Sock : TSOCKTYPE) : TSOCKTYPE :=
  match Sock with
  | Some q => Some (q ++ [d])
  | None => None
  end.

Definition host_step (c : THostCall) (s : CRTP_MIDI) : CRTP_MIDI :=
  match c with
  | Call_InitiateSession ip cp dp lcp ldp ini r1 r2 ok1 ok2 =>
      snd (InitiateSession ip cp dp lcp ldp ini r1 r2 ok1 ok2 s)
  | Call_CloseSession => CloseSession s
  | Call_RunSession => RunSession s
  | Call_SendRTPMIDIBlock MIDIData => snd (SendRTPMIDIBlock MIDIData s)
  | Call_RestartSession => RestartSession s
  | Call_ReadAndResetConnectionLost => snd (ReadAndResetConnectionLost s)
  | Call_RemotePeerHasClosedSession => snd (RemotePeerHasClosedSession s)
  | Call_RemotePeerHasRefusedSession => snd (RemotePeerHasRefusedSession s)
  | Call_SetCallback cb inst => SetCallback cb inst s
  | Call_setSessionName Name => setSessionName Name s
  | Net_Control d => set_ControlSocket (enqueue d (ControlSocket s)) s
  | Net_Data d => set_DataSocket (enqueue d (DataSocket s)) s
  end.

Definition host_run (cs : list THostCall) (s : CRTP_MIDI) : CRTP_MIDI :=
  fold_left (fun s c => host_step c s) cs s.

(** ** Vocabulary of the statements *)

(** MIDI data bytes: bit 7 clear. *)
Definition data_bytes (l : list Z) : Prop := Forall (fun b => 0 <= b < 0x80) l.

(** The bytes of [l] given one after the other to storeRTP_SYSEXData. *)
Definition storeRTP_SYSEXData_all (l : list Z) (s : CRTP_MIDI) : CRTP_MIDI :=
  fold_left (fun s b => storeRTP_SYSEXData b s) l s.

(** The object without the three members storeRTP_SYSEXData assigns. *)
Definition sysex_frame (s : CRTP_MIDI) : CRTP_MIDI :=
  set_InSYSEXOverflow false (set_InSYSEXBufferPtr 0 (set_InSYSEXBuffer None s)).

(** The SYSEX buffer is allocated with the size the object records, and
    that size is at least 1. *)
Definition sysex_buffer_ok (s : CRTP_MIDI) : Prop :=
  exists buf, InSYSEXBuffer s = Some buf /\
    Z.of_nat (length buf) = InSYSEXBufferSize s /\ 1 <= InSYSEXBufferSize s < 2^32.

(** No SYSEX message is being received and the buffer is clean: the state
    initRTP_SYSEXBuffer leaves. *)
Definition sysex_idle (s : CRTP_MIDI) : Prop :=
  SYSEX_RTPActif s = false /\ InSYSEXBufferPtr s = 0 /\ InSYSEXOverflow s = false.

(** The SYSEX members after the bytes [m] of a message have been stored in
    a clean buffer: the fill index stops at the last cell, the cells below
    it hold the beginning of [m], and the overflow flag tells whether a
    byte found the index on the last cell. *)
Definition sysex_holds (m : list Z) (s : CRTP_MIDI) : Prop :=
  exists buf, InSYSEXBuffer s = Some buf /\
    Z.of_nat (length buf) = InSYSEXBufferSize s /\ 1 <= InSYSEXBufferSize s < 2^32 /\
    InSYSEXBufferPtr s = Z.min (Z.of_nat (length m)) (InSYSEXBufferSize s - 1) /\
    take (Z.to_nat (InSYSEXBufferPtr s)) buf = take (Z.to_nat (InSYSEXBufferPtr s)) m /\
    InSYSEXOverflow s = (InSYSEXBufferSize s <=? Z.of_nat (length m)).

(** The invariant of claim C9. *)
Definition sysex_ptr_inv (s : CRTP_MIDI) : Prop :=
  SYSEX_RTPActif s = false -> InSYSEXBufferPtr s = 0.

(** The calls of the callback in a trace: size and bytes delivered. *)
Definition callbacks (tr : list Event) : list (Z * list Z) :=
  omap (fun e => match e with
                 | EvCallback _ n l _ => Some (n, l)
                 | EvSendTo _ _ _ _ => None
                 end) tr.

(** The RTP-MIDI datagrams in a trace (sent on the data socket with the
    signature 0x80 0x61), and the sequence number each carries. *)
Definition rtp_sent (tr : list Event) : list (list Z) :=
  omap (fun e => match e with
                 | EvSendTo DataSocketId _ _ (0x80 :: 0x61 :: msg) => Some (0x80 :: 0x61 :: msg)
                 | _ => None
                 end) tr.
Definition SequenceNumber_of (msg : list Z) : Z := get_be16 msg 2.

(** [k] consecutive 16-bit sequence numbers from [n] on. *)
Definition consecutive (n : Z) (k : nat) : list Z :=
  map (fun i => u16 (n + Z.of_nat i)) (seq 0 k).

(** A run of the endpoint after InitiateSession: any calls but that one. *)
Definition no_InitiateSession (cs : list THostCall) : Prop :=
  Forall (fun c => match c with
                   | Call_InitiateSession _ _ _ _ _ _ _ _ _ _ => False
                   | _ => True
                   end) cs.

(** A state the endpoint can be in: an object constructed with a SYSEX
    buffer of at least one byte, then used. *)
Definition reachable (s : CRTP_MIDI) : Prop :=
  exists raw SYXInSize cb inst cs,
    1 <= SYXInSize < 2^32 /\ s = host_run cs (CRTP_MIDI_new raw SYXInSize cb inst).

(** ** Datagrams and objects of the examples *)

(** An RTP-MIDI datagram with the one-byte list header (B=0, J=0, P=0). *)
Definition RTP_short (SequenceNumber Timestamp Ssrc : Z) (Zbit : bool) (MIDIList : list Z)
    : list Z :=
  [0x80; 0x61] ++ be16 SequenceNumber ++ be32 Timestamp ++ be32 Ssrc
    ++ [Z.lor (if Zbit then SHORT_Z_BIT else 0) (Z.of_nat (length MIDIList))] ++ MIDIList.

(** A session packet OK / CK as the partner sends them. *)
Definition OK_packet (Token Ssrc : Z) : list Z :=
  [0xFF; 0xFF; chr_O; chr_K] ++ be32 2 ++ be32 Token ++ be32 Ssrc.
Definition CK_packet (Ssrc Count T1 T2 T3 : Z) : list Z :=
  [0xFF; 0xFF; chr_C; chr_K] ++ be32 Ssrc ++ [Count; 0; 0; 0]
    ++ be32 0 ++ be32 T1 ++ be32 0 ++ be32 T2 ++ be32 0 ++ be32 T3.

(** Storage of an object before construction, here all zeros. *)
Definition raw0 : CRTP_MIDI :=
  MkCRTP_MIDI 0 false 0 [] 0 0 0 0 None None false 0 0 0 0 SESSION_CLOSED 0 0 false 0 0 0
    false 0 0 (MkFIFO (replicate 2048 0) 0 0) false [0; 0; 0] false 0 0 false None 0 false
    0 0 0 0 0 0 false false false [].

(** The partner of the examples: 192.168.0.253, control port 5004, data
    port 5005. *)
Definition partner_ip : Z := 0xC0A800FD.
Definition from_partner_ctrl (Data : list Z) : Datagram := MkDatagram partner_ip 5004 Data.
Definition from_partner_data (Data : list Z) : Datagram := MkDatagram partner_ip 5005 Data.

(** An initiator goes through the whole handshake: IN on control, OK, IN on
    data, OK, CK0, CK1, CK2. *)
Definition handshake : list THostCall :=
  [ Call_InitiateSession partner_ip 5004 5005 0 0 true 1 1 true true;
    Call_RunSession;
    Net_Control (from_partner_ctrl (OK_packet 0xFFFFFFFF 0x22222222));
    Call_RunSession;
    Net_Data (from_partner_data (OK_packet 0xFFFFFFFF 0x22222222));
    Call_RunSession;
    Call_RunSession;
    Net_Data (from_partner_data (CK_packet 0x22222222 1 40 1000 0));
    Call_RunSession ].

(** An endpoint with a SYSEX buffer of [SYXInSize] bytes and a callback,
    once its session is opened. *)
Definition opened_endpoint (SYXInSize : Z) : CRTP_MIDI :=
  host_run handshake (CRTP_MIDI_new raw0 SYXInSize true 0).

(** The two datagrams of a SYSEX message sent in two segments, and a
    datagram with a whole SYSEX message. *)
Definition segment1 (b1 : list Z) : list Z := 0xF0 :: b1 ++ [0xF0].
Definition segment2 (b2 : list Z) : list Z := 0xF7 :: b2 ++ [0xF7].
Definition sysex_message (b : list Z) : list Z := 0xF0 :: b ++ [0xF7].

(** The decoding of a MIDI list whose declared length is its length, with
    no delta-time before the first command (Z=0). *)
Definition decode_list (l : list Z) (s : CRTP_MIDI) : CRTP_MIDI :=
  fst (ProcessIncomingRTP_list l (Z.of_nat (length l)) false s).

(** A datagram that declares a MIDI list of one byte (Z=1), the byte 0x80,
    and carries four more bytes behind the list. *)
Definition datagram_short_list (last : Z) : list Z :=
  RTP_short 1 0 0x22222222 true [0x80] ++ [0x80; 0x80; 0x80; last].

(** An opened endpoint receives the beginning of a SYSEX message, then the
    host restarts the session. *)
Definition restart_in_sysex : list THostCall :=
  handshake ++
  [ Net_Data (from_partner_data (RTP_short 1 0 0x22222222 false [0xF0; 0x01; 0x02]));
    Call_RunSession;
    Call_RestartSession ].

(** The session is then opened again and a whole SYSEX message arrives. *)
Definition sysex_after_restart : list THostCall :=
  restart_in_sysex ++
  [ Net_Data (from_partner_data (CK_packet 0x22222222 2 40 1000 2000));
    Call_RunSession;
    Net_Data (from_partner_data (RTP_short 2 0 0x22222222 false [0xF0; 0x7D; 0xF7]));
    Call_RunSession ].

(** What the producer and the consumer of the ring can do, and what they
    see: the result of SendRTPMIDIBlock, the payload of GeneratePayload. *)
Inductive TRingOp : Type :=
  | Ring_Send (MIDIData : list Z)
  | Ring_Drain.

Fixpoint ring_observations (ops : list TRingOp) (s : CRTP_MIDI) : list (bool + list Z) :=
  match ops with
  | [] => []
  | Ring_Send MIDIData :: ops' =>
      let '(ok, s') := SendRTPMIDIBlock MIDIData s in
      inl ok :: ring_observations ops' s'
  | Ring_Drain :: ops' =>
      let '(s', MIDIList) := GeneratePayload s in
      inr MIDIList :: ring_observations ops' s'
  end.

(** Two objects the users of the ring cannot tell apart. *)
Definition ring_equiv (s1 s2 : CRTP_MIDI) : Prop :=
  SessionState s1 = SessionState s2 /\
  ReadPtr (RTPStreamQueue s1) = ReadPtr (RTPStreamQueue s2) /\
  WritePtr (RTPStreamQueue s1) = WritePtr (RTPStreamQueue s2) /\
  ring_pending (RTPStreamQueue s1) = ring_pending (RTPStreamQueue s2).

(** The value SendRTPMIDIBlock is expected to return: true for an empty
    block, false outside an opened session, else whether the block fits. *)
Definition SendRTPMIDIBlock_result (MIDIData : list Z) (s : CRTP_MIDI) : bool :=
  if Z.of_nat (length MIDIData) =? 0 then true
  else if negb (SessionState_eqb (SessionState s) SESSION_OPENED) then false
  else ring_fits (Z.of_nat (length MIDIData)) (RTPStreamQueue s).

(** The sequence counter is a value of [unsigned short]. *)
Definition RTPSequence_ok (s : CRTP_MIDI) : Prop := 0 <= RTPSequence s < 2^16.

(** From [s] to [s'] no RTP-MIDI datagram was sent, and the sequence
    counter and the ring were left alone. *)
Definition silent_step (s s' : CRTP_MIDI) : Prop :=
  (exists evs, Trace s' = Trace s ++ evs /\ rtp_sent evs = []) /\
  RTPSequence s' = RTPSequence s /\ RTPStreamQueue s' = RTPStreamQueue s.

(** From [s] to [s'], [k] RTP-MIDI datagrams were sent; they carry the [k]
    sequence numbers that follow the counter of [s], which has moved on by
    [k]. *)
Definition rtp_step (k : nat) (s s' : CRTP_MIDI) : Prop :=
  (exists evs, Trace s' = Trace s ++ evs /\
     map SequenceNumber_of (rtp_sent evs) = consecutive (RTPSequence s) k) /\
  RTPSequence s' = u16 (RTPSequence s + Z.of_nat k).

(** The ticks of a quiet period. *)
Definition ticks (n : nat) : list THostCall := replicate n Call_RunSession.

(** The object without the three members RunSession_emit assigns. *)
Definition emit_frame (s : CRTP_MIDI) : CRTP_MIDI :=
  set_Trace [] (set_RTPSequence 0 (set_RTPStreamQueue (MkFIFO [] 0 0) s)).

(** An initiator has sent its invitation on the control port, got the OK
    and sent the invitation on the data port, 100 ticks ago less one. *)
Definition inviting_on_data : list THostCall :=
  [ Call_InitiateSession partner_ip 5004 5005 0 0 true 1 1 true true;
    Call_RunSession;
    Net_Control (from_partner_ctrl (OK_packet 0xFFFFFFFF 0x22222222));
    Call_RunSession ] ++ ticks 99.

(** The invitations (IN packets) sent on the data socket in a trace. *)
Definition invitations_on_data (tr : list Event) : nat :=
  length (omap (fun e => match e with
                         | EvSendTo DataSocketId _ _ (0xFF :: 0xFF :: 73 :: 78 :: msg) =>
                             Some msg
                         | _ => None
                         end) tr).

(** An opened endpoint is given two notes in two ticks, with idle ticks
    around them. *)
Definition two_notes : list THostCall :=
  [ Call_RunSession;
    Call_SendRTPMIDIBlock [0x00; 0x90; 0x40; 0x7F];
    Call_RunSession;
    Call_RunSession;
    Call_SendRTPMIDIBlock [0x00; 0x80; 0x40; 0x00];
    Call_RunSession;
    Call_RunSession ].

(** From [s] to [s'] the two sockets were left alone. *)
Definition keeps_sockets (s s' : CRTP_MIDI) : Prop :=
  ControlSocket s' = ControlSocket s /\ DataSocket s' = DataSocket s.

(** From [s] to [s'] the two members [sysex_ptr_inv] is about were left
    alone. *)
Definition keeps_sysex (s s' : CRTP_MIDI) : Prop :=
  SYSEX_RTPActif s' = SYSEX_RTPActif s /\ InSYSEXBufferPtr s' = InSYSEXBufferPtr s.

(** ** The other public methods (RTP_MIDI.cpp) *)

(** getSessionStatus (lines 695-701). *)
Definition getSessionStatus (s : CRTP_MIDI) : Z :=
  if SessionState_eqb (SessionState s) SESSION_CLOSED then 0
  else if SessionState_eqb (SessionState s) SESSION_OPENED then 3
  else if SessionState_eqb (SessionState s) SESSION_INVITE_DATA
          || SessionState_eqb (SessionState s) SESSION_INVITE_CONTROL then 1
  else 2.

(** GetLatency (lines 741-746). *)
Definition GetLatency (s : CRTP_MIDI) : Z :=
  if negb (SessionState_eqb (SessionState s) SESSION_OPENED) then 0xFFFFFFFF
  else MeasuredLatency s.

(** ** Vocabulary of the further properties *)

(** The decoder is between two messages: no SYSEX message is open and no
    third byte is awaited; [FullInMidiMsg] is the array of 3 bytes. *)
Definition decoder_ready (s : CRTP_MIDI) : Prop :=
  SYSEX_RTPActif s = false /\ IncomingThirdByte s = false /\
  length (FullInMidiMsg s) = 3%nat.

(** Status bytes of the channel messages with two data bytes (note off,
    note on, poly pressure, control change, pitch bend) and with one
    (program change, channel pressure). *)
Definition status3 (st : Z) : Prop := 0x80 <= st < 0xC0 \/ 0xE0 <= st < 0xF0.
Definition status2 (st : Z) : Prop := 0xC0 <= st < 0xE0.

(** A MIDI command of two data bytes under running status, behind its
    delta-time, as it stands in a MIDI list. *)
Definition running3 (c : Z * Z * Z) : list Z :=
  let '(dt, d1, d2) := c in vlq_encode dt ++ [d1; d2].
Definition running3_ok (c : Z * Z * Z) : Prop :=
  let '(dt, d1, d2) := c in 0 <= dt < 2^14 /\ 0 <= d1 < 0x80 /\ 0 <= d2 < 0x80.

(** The call of the callback a MIDI message of 3 bytes gives. *)
Definition callback3 (s : CRTP_MIDI) (st : Z) (c : Z * Z * Z) : Event :=
  let '(dt, d1, d2) := c in
  EvCallback (ClientInstance s) 3 [st; d1; d2] (u32 (dt + LocalClock s)).

(** After a message under the running status [st]: the decoder is between
    two messages again, and the message has left the callback and the
    clock alone. *)
Definition decoder_after (st : Z) (s s' : CRTP_MIDI) : Prop :=
  decoder_ready s' /\ RTPRunningStatus s' = st /\
  RTPCallback s' = RTPCallback s /\ ClientInstance s' = ClientInstance s /\
  LocalClock s' = LocalClock s.

(** The callback is not set and the trace is [tr]. *)
Definition muted (tr : list Event) (s : CRTP_MIDI) : Prop :=
  RTPCallback s = false /\ Trace s = tr.

(** The three members that say where the next SYSEX byte goes. *)
Definition sysex_store (s : CRTP_MIDI) : option (list Z) * Z * Z :=
  (InSYSEXBuffer s, InSYSEXBufferSize s, InSYSEXBufferPtr s).

(** The fill index is an index of the SYSEX buffer, which has the size the
    object records. *)
Definition sysex_in_bounds (s : CRTP_MIDI) : Prop :=
  exists buf, InSYSEXBuffer s = Some buf /\
    Z.of_nat (length buf) = InSYSEXBufferSize s /\
    0 <= InSYSEXBufferPtr s < InSYSEXBufferSize s /\ InSYSEXBufferSize s < 2^32.

(** The first four bytes of a session packet received. *)
Definition is_session_packet (CommandH CommandL : Z) (d : Datagram) : Prop :=
  rd (ReceptionBuffer_of d) 0 = 0xFF /\ rd (ReceptionBuffer_of d) 1 = 0xFF /\
  rd (ReceptionBuffer_of d) 2 = CommandH /\ rd (ReceptionBuffer_of d) 3 = CommandL.

(** The session packets IN and BY as a partner sends them; [Name] is the
    session name, sent with its terminating NUL. *)
Definition IN_packet (Token Ssrc : Z) (Name : list Z) : list Z :=
  [0xFF; 0xFF; chr_I; chr_N] ++ be32 2 ++ be32 Token ++ be32 Ssrc ++ Name ++ [0].
Definition BY_packet (Token Ssrc : Z) : list Z :=
  [0xFF; 0xFF; chr_B; chr_Y] ++ be32 2 ++ be32 Token ++ be32 Ssrc.


(** An endpoint that listens on the ports 5004 and 5005, and one that is
    about to invite the partner of the examples. *)
Definition listener_endpoint : CRTP_MIDI :=
  host_run [Call_InitiateSession 0 0 0 5004 5005 false 1 1 true true]
    (CRTP_MIDI_new raw0 16 true 0).
Definition initiator_endpoint : CRTP_MIDI :=
  host_run [Call_InitiateSession partner_ip 5004 5005 0 0 true 1 1 true true]
    (CRTP_MIDI_new raw0 16 true 0).

(** What the network and the host do while a listener is invited: IN on
    the control socket, IN on the data socket, CK0 and CK2, with a call of
    RunSession after each. *)
Definition listener_handshake (c1 d1 d2 d3 : Datagram) : list THostCall :=
  [ Net_Control c1; Call_RunSession; Net_Data d1; Call_RunSession;
    Net_Data d2; Call_RunSession; Net_Data d3; Call_RunSession ].

(** A CK packet received: the four bytes of a session packet and the
    count at byte 8. *)
Definition is_CK_packet (Count : Z) (d : Datagram) : Prop :=
  is_session_packet chr_C chr_K d /\ rd (ReceptionBuffer_of d) 8 = Count.

(** RunSession, lines 380-412, for an endpoint that is not locked: the
    clocks, the timer and the two time-outs of a listener.  The second
    component is [TimerEvent]. *)
Definition RunSession_before_sockets (s : CRTP_MIDI) : CRTP_MIDI * bool :=
  let s := RunSession_clock s in
  let '(s, TimerEvent) := RunSession_timer s in
  let s :=
    if TimerEvent && SessionState_eqb (SessionState s) SESSION_WAIT_INVITE_DATA
    then set_SessionState SESSION_WAIT_INVITE_CTRL s else s in
  let s :=
    if TimerEvent && SessionState_eqb (SessionState s) SESSION_WAIT_CLOCK_SYNC
    then set_SessionState SESSION_WAIT_INVITE_CTRL s else s in
  (s, TimerEvent).

(** RunSession, lines 508-636: what follows the loop over the sockets. *)
Definition RunSession_after_sockets (TimerEvent : bool) (fl : TInvitationFlags)
    (s : CRTP_MIDI) : CRTP_MIDI :=
  let '(fl, s) :=
    if InvitationRejectedOnCtrl fl || InvitationRejectedOnData fl then
      let s := PartnerCloseSession s in
      let s := set_ConnectionRefused true s in
      (MkFlags false (InvitationRejectedOnCtrl fl) false (InvitationRejectedOnData fl), s)
    else (fl, s) in
  let '(s, returned) := RunSession_initiator TimerEvent fl s in
  if returned then s else RunSession_opened TimerEvent s.


(** The members of [x] that say who the endpoint is, whom it talks to and
    what it has sent are those of [s]. *)
Definition same_endpoint (s x : CRTP_MIDI) : Prop :=
  EndpointLocked x = EndpointLocked s /\ IsInitiatorNode x = IsInitiatorNode s /\
  ControlSocket x = ControlSocket s /\ DataSocket x = DataSocket s /\
  RTPStreamQueue x = RTPStreamQueue s /\ SSRC x = SSRC s /\
  InitiatorToken x = InitiatorToken s /\ SessionPartnerIP x = SessionPartnerIP s /\
  PartnerControlPort x = PartnerControlPort s /\ PartnerDataPort x = PartnerDataPort s /\
  RemoteIPToInvite x = RemoteIPToInvite s /\ SessionName x = SessionName s /\
  InviteCount x = InviteCount s /\ TimeOutRemote x = TimeOutRemote s /\
  Trace x = Trace s.

(** What the network and the host do while an initiator that has sent its
    first invitation is answered: OK on the control socket, OK on the data
    socket, a call with nothing received, CK1; RunSession after each. *)
Definition initiator_handshake (c1 d1 d2 : Datagram) : list THostCall :=
  [ Net_Control c1; Call_RunSession; Net_Data d1; Call_RunSession;
    Call_RunSession; Net_Data d2; Call_RunSession ].

(** An opened initiator one timer event away from giving its partner up:
    the liveness counter is 1 and the timer is about to fire. *)
Definition losing_partner : CRTP_MIDI :=
  set_EventTime 1 (set_TimeOutRemote 1 (opened_endpoint 4)).

(** ** Datagrams shorter than what is read of them *)

(** The datagram has at least [n] bytes.  recvfrom writes the bytes of the
    datagram at the beginning of the reception buffer and leaves the rest
    of the buffer as it was: for a datagram with [received n] the bytes
    0 .. n-1 of the buffer are bytes of the datagram (n <= 1024).  The
    statements that depend on a byte of the buffer ask for a datagram that
    has this byte. *)
Definition received (n : Z) (d : Datagram) : Prop :=
  n <= Z.of_nat (length (Payload d)).

(** ** Channel messages *)

(** A whole channel message: a status byte from 80 to EF with the data
    bytes it takes, two (note off, note on, poly pressure, control change,
    pitch bend) or one (program change, channel pressure). *)
Definition channel_message (m : list Z) : Prop :=
  (exists st d1 d2, m = [st; d1; d2] /\ status3 st /\ 0 <= d1 < 0x80 /\ 0 <= d2 < 0x80) \/
  (exists st d, m = [st; d] /\ status2 st /\ 0 <= d < 0x80).

(** ** Runs of the endpoint *)

(** GeneratePayload copies the bytes that wait in the ring into [MIDIList],
    an array of MAX_RTP_LOAD bytes, and does not check that they fit (the
    TODO of line 656).  In the run [cs] from [s], no call of RunSession
    finds more than MAX_RTP_LOAD bytes waiting. *)
Fixpoint within_MAX_RTP_LOAD (cs : list THostCall) (s : CRTP_MIDI) : Prop :=
  match cs with
  | [] => True
  | c :: cs' =>
      match c with
      | Call_RunSession => ring_used (RTPStreamQueue s) <= MAX_RTP_LOAD
      | _ => True
      end /\ within_MAX_RTP_LOAD cs' (host_step c s)
  end.

(** Two sessions of one endpoint: the session is opened, two notes are
    sent, the host closes the session and initiates a second one, which is
    opened in the same way, and a third note is sent. *)
Definition two_sessions : list THostCall :=
  handshake ++
  [ Call_SendRTPMIDIBlock [0x00; 0x90; 0x40; 0x7F];
    Call_RunSession;
    Call_SendRTPMIDIBlock [0x00; 0x80; 0x40; 0x00];
    Call_RunSession;
    Call_CloseSession ] ++
  handshake ++
  [ Call_SendRTPMIDIBlock [0x00; 0x90; 0x43; 0x7F];
    Call_RunSession ].

(** ** Invitations that are not answered *)




(** ** Clock synchronization packets *)


(** ** SYSEX messages received in segments *)

(** The MIDI lists in which the bytes [b ++ concat bs] of a SYSEX message
    arrive when they are cut into the segments [b], then those of [bs]:
    every list but the last ends with the F0 that suspends the message,
    every list but the first starts with the F7 that resumes it, and the
    last one ends with [last].  [first] is the byte the first list starts
    with. *)
Fixpoint sysex_lists (first : Z) (b : list Z) (bs : list (list Z)) (last : list Z)
    : list (list Z) :=
  match bs with
  | [] => [first :: b ++ last]
  | b' :: bs' => (first :: b ++ [0xF0]) :: sysex_lists 0xF7 b' bs' last
  end.

(** The SYSEX message [sysex_message (b ++ concat bs)] as it is received:
    whole in one list when [bs] is empty, else in [1 + length bs]
    segments; and the same lists short of the closing F7. *)
Definition sysex_segments (b : list Z) (bs : list (list Z)) : list (list Z) :=
  sysex_lists 0xF0 b bs [0xF7].
Definition sysex_segments_open (b : list Z) (bs : list (list Z)) : list (list Z) :=
  sysex_lists 0xF0 b bs [].

(** MIDI lists decoded one after the other, each as [decode_list] does. *)
Definition decode_lists (ls : list (list Z)) (s : CRTP_MIDI) : CRTP_MIDI :=
  fold_left (fun s l => decode_list l s) ls s.

(** The decoder [x] has a SYSEX message under way of which it has received
    the bytes [m], the first of them stored in the buffer; [seg] tells
    whether the segment is open ([SegmentSYSEXInput]).  Apart from that
    [x] is the object [s] the message started in: same trace, callback,
    buffer size and clock. *)
Definition sysex_received (m : list Z) (seg : bool) (s x : CRTP_MIDI) : Prop :=
  sysex_holds m x /\ SYSEX_RTPActif x = true /\ SegmentSYSEXInput x = seg /\
  Trace x = Trace s /\ RTPCallback x = RTPCallback s /\
  ClientInstance x = ClientInstance s /\ InSYSEXBufferSize x = InSYSEXBufferSize s /\
  LocalClock x = LocalClock s.

(** * Verified properties *)

Ltac dmlia := Z.div_mod_to_equations; lia.


(** ** Facts on bytes *)

(** A property of bytes that a boolean test accepts on each of the 256
    values holds of every byte. *)
Lemma byte_cases (p : Z -> bool) :
  forallb (fun n => p (Z.of_nat n)) (seq 0 256) = true ->
  forall b, 0 <= b < 256 -> p b = true.
Proof.
  intros Hall b Hb.
  rewrite forallb_forall in Hall.
  specialize (Hall (Z.to_nat b)).
  rewrite Z2Nat.id in Hall by lia.
  apply Hall. apply in_seq. lia.
Qed.

Lemma land_0x80_low b : 0 <= b < 128 -> Z.land b 0x80 = 0.
Proof.
  intros Hb.
  pose proof (byte_cases (fun x => implb (x <? 128) (Z.land x 0x80 =? 0))
                ltac:(vm_compute; reflexivity) b ltac:(lia)) as H.
  simpl in H. destruct (Z.ltb_spec b 128); [|lia]. simpl in H. lia.
Qed.

Lemma land_0x80_high b : 128 <= b < 256 -> Z.land b 0x80 = 0x80.
Proof.
  intros Hb.
  pose proof (byte_cases (fun x => implb (128 <=? x) (Z.land x 0x80 =? 0x80))
                ltac:(vm_compute; reflexivity) b ltac:(lia)) as H.
  simpl in H. destruct (Z.leb_spec 128 b); [|lia]. simpl in H. lia.
Qed.

Lemma land_0x80_neg b : 128 <= b < 256 -> Z.land (b - 256) 0x80 = 0x80.
Proof.
  intros Hb.
  pose proof (byte_cases (fun x => implb (128 <=? x) (Z.land (x - 256) 0x80 =? 0x80))
                ltac:(vm_compute; reflexivity) b ltac:(lia)) as H.
  simpl in H. destruct (Z.leb_spec 128 b); [|lia]. simpl in H. lia.
Qed.

Lemma land_0x7F b : 0 <= b -> Z.land b 0x7F = b mod 128.
Proof. intros Hb. change 0x7F with (Z.ones 7). rewrite Z.land_ones by lia. reflexivity. Qed.

Lemma u32_small x : 0 <= x < 2^32 -> u32 x = x.
Proof. intros H. unfold u32. apply Z.mod_small. exact H. Qed.

Lemma rd_cons_0 x l : rd (x :: l) 0 = x.
Proof. reflexivity. Qed.

Lemma rd_cons_S x l i : 0 < i -> rd (x :: l) i = rd l (i - 1).
Proof.
  intros Hi. unfold rd.
  destruct (Z.ltb_spec i 0); [lia|]. destruct (Z.ltb_spec (i - 1) 0); [lia|].
  replace (Z.to_nat i) with (S (Z.to_nat (i - 1))) by lia. reflexivity.
Qed.

(** ** GetDeltaTime *)

(** The do-while loop never uses up its fuel: with at least one turn and
    [5 - ByteCount] turns allowed, one turn more changes nothing. *)
Lemma GetDeltaTime_loop_fuel n sgn buf :
  forall ctr bc v,
    (1 <= n)%nat -> 5 - bc <= Z.of_nat n ->
    GetDeltaTime_loop (S n) sgn buf ctr bc v = GetDeltaTime_loop n sgn buf ctr bc v.
Proof.
  induction n as [|n IH]; intros ctr bc v Hn Hbc; [lia|].
  change (GetDeltaTime_loop (S (S n)) sgn buf ctr bc v) with
    (let Data := char_of_byte sgn (rd buf ctr) in
     let v' := u32 (u32 (Z.shiftl v 7) + u32 Data) in
     if negb (Z.land Data 0x80 =? 0) && (bc + 1 <=? 4)
     then GetDeltaTime_loop (S n) sgn buf (ctr + 1) (bc + 1) v'
     else (v', ctr + 1)).
  change (GetDeltaTime_loop (S n) sgn buf ctr bc v) with
    (let Data := char_of_byte sgn (rd buf ctr) in
     let v' := u32 (u32 (Z.shiftl v 7) + u32 Data) in
     if negb (Z.land Data 0x80 =? 0) && (bc + 1 <=? 4)
     then GetDeltaTime_loop n sgn buf (ctr + 1) (bc + 1) v'
     else (v', ctr + 1)).
  cbv zeta.
  destruct (negb (Z.land (char_of_byte sgn (rd buf ctr)) 0x80 =? 0)); simpl; [|reflexivity].
  destruct (Z.leb_spec (bc + 1) 4); [|reflexivity].
  apply IH; lia.
Qed.

(** The four turns GetDeltaTime allows are all the loop can take. *)
Lemma GetDeltaTime_fuel k sgn buf ctr v :
  GetDeltaTime_loop (4 + k) sgn buf ctr 1 v = GetDeltaTime_loop 4 sgn buf ctr 1 v.
Proof.
  induction k as [|k IH]; [reflexivity|].
  replace (4 + S k)%nat with (S (4 + k)) by lia.
  rewrite GetDeltaTime_loop_fuel by lia. exact IH.
Qed.

(** The byte counter GetDeltaTime returns does not depend on the signedness
    of plain char: the loop test looks at bit 7 only. *)
Lemma char_of_byte_bit7 sgn b :
  0 <= b < 256 -> (Z.land (char_of_byte sgn b) 0x80 =? 0) = (b <? 128).
Proof.
  intros Hb. unfold char_of_byte.
  destruct (Z.leb_spec 128 b) as [Hge|Hlt]; destruct (Z.ltb_spec b 128); try lia.
  - destruct sgn; simpl.
    + rewrite land_0x80_neg by lia. reflexivity.
    + rewrite land_0x80_high by lia. reflexivity.
  - rewrite andb_false_r. rewrite land_0x80_low by lia. reflexivity.
Qed.

Lemma rd_byte l i : is_bytes l -> 0 <= rd l i < 256.
Proof.
  intros Hl. unfold rd. destruct (i <? 0); [lia|].
  destruct (l !! Z.to_nat i) as [x|] eqn:E; simpl; [|lia].
  eapply (Forall_lookup_1 _ _ _ _ Hl E).
Qed.

Lemma GetDeltaTime_loop_ctr_sgn n buf :
  is_bytes buf ->
  forall ctr bc v1 v2,
    snd (GetDeltaTime_loop n true buf ctr bc v1) = snd (GetDeltaTime_loop n false buf ctr bc v2).
Proof.
  intros Hbuf. induction n as [|n IH]; intros ctr bc v1 v2; [reflexivity|].
  simpl. rewrite !char_of_byte_bit7 by (apply rd_byte; exact Hbuf).
  destruct (negb (rd buf ctr <? 128) && (bc + 1 <=? 4)); [apply IH | reflexivity].
Qed.

Lemma GetDeltaTime_ctr_sgn buf ctr :
  is_bytes buf ->
  snd (GetDeltaTime_on true buf ctr) = snd (GetDeltaTime_on false buf ctr).
Proof.
  intros Hbuf. unfold GetDeltaTime_on.
  destruct (negb (Z.land (rd buf ctr) 0x80 =? 0)); [|reflexivity].
  apply GetDeltaTime_loop_ctr_sgn. exact Hbuf.
Qed.

(** One- and two-byte delta-times (values below 2^14) are decoded as
    encoded, whatever follows them in the buffer. *)
Lemma GetDeltaTime_vlq_below_2_14 sgn v rest :
  0 <= v < 2^14 ->
  GetDeltaTime_on sgn (vlq_encode v ++ rest) 0 = (v, Z.of_nat (length (vlq_encode v))).
Proof.
  intros Hv. unfold vlq_encode.
  destruct (Z.ltb_spec v (2^7)) as [H7|H7].
  - unfold GetDeltaTime_on. simpl app. rewrite rd_cons_0.
    rewrite land_0x80_low by lia. reflexivity.
  - destruct (Z.ltb_spec v (2^14)) as [_|]; [|lia].
    set (a := v / 2^7). set (c := v mod 2^7).
    assert (Ha : 1 <= a < 128) by (subst a; dmlia).
    assert (Hc : 0 <= c < 128) by (subst c; dmlia).
    assert (Hv' : v = a * 2^7 + c) by (subst a c; dmlia).
    clearbody a c.
    unfold GetDeltaTime_on. simpl app. rewrite rd_cons_0.
    rewrite land_0x80_high by lia. simpl negb. cbv iota.
    rewrite land_0x7F by lia.
    replace ((0x80 + a) mod 128) with a by dmlia.
    unfold GetDeltaTime_loop.
    rewrite rd_cons_S by lia. rewrite rd_cons_0.
    rewrite char_of_byte_bit7 by lia.
    destruct (Z.ltb_spec c 128); [|lia]. simpl negb. simpl andb. cbv iota.
    unfold char_of_byte.
    destruct (Z.leb_spec 128 c); [lia|]. rewrite andb_false_r.
    rewrite Z.shiftl_mul_pow2 by lia.
    rewrite (u32_small (a * 2^7)) by lia.
    rewrite (u32_small c) by lia.
    rewrite u32_small by lia.
    f_equal. lia.
Qed.

(** A three-byte delta-time is decoded wrong: the second byte is added with
    its continuation bit (sign-extended when plain char is signed), so the
    result is off by 2^14 one way or the other. *)
Lemma GetDeltaTime_vlq_three_bytes sgn v rest :
  2^14 <= v < 2^21 ->
  GetDeltaTime_on sgn (vlq_encode v ++ rest) 0
  = ((if sgn then v - 2^14 else v + 2^14), 3).
Proof.
  intros Hv. unfold vlq_encode.
  destruct (Z.ltb_spec v (2^7)); [lia|].
  destruct (Z.ltb_spec v (2^14)); [lia|].
  destruct (Z.ltb_spec v (2^21)); [|lia].
  set (a := v / 2^14). set (b := (v / 2^7) mod 2^7). set (c := v mod 2^7).
  assert (Ha : 1 <= a < 128) by (subst a; dmlia).
  assert (Hb : 0 <= b < 128) by (subst b; dmlia).
  assert (Hc : 0 <= c < 128) by (subst c; dmlia).
  assert (Hv' : v = a * 2^14 + b * 2^7 + c) by (subst a b c; dmlia).
  clearbody a b c.
  unfold GetDeltaTime_on. simpl app. rewrite rd_cons_0.
  rewrite land_0x80_high by lia. simpl negb. cbv iota.
  rewrite land_0x7F by lia.
  replace ((0x80 + a) mod 128) with a by dmlia.
  unfold GetDeltaTime_loop.
  rewrite rd_cons_S by lia. rewrite rd_cons_0.
  rewrite (rd_cons_S _ _ (1 + 1)) by lia. rewrite rd_cons_S by lia. rewrite rd_cons_0.
  rewrite (char_of_byte_bit7 sgn (0x80 + b)) by lia.
  destruct (Z.ltb_spec (0x80 + b) 128); [lia|]. simpl negb. simpl andb. cbv iota.
  rewrite (char_of_byte_bit7 sgn c) by lia.
  destruct (Z.ltb_spec c 128); [|lia]. simpl negb. simpl andb. cbv iota.
  rewrite !Z.shiftl_mul_pow2 by lia.
  rewrite (u32_small (a * 2^7)) by lia.
  unfold char_of_byte.
  destruct (Z.leb_spec 128 (0x80 + b)); [|lia].
  destruct (Z.leb_spec 128 c); [lia|]. rewrite !andb_false_r, !andb_true_r.
  rewrite (u32_small c) by lia.
  destruct sgn.
  - replace (u32 (0x80 + b - 256)) with (2^32 + b - 128) by (unfold u32; dmlia).
    replace (u32 (a * 2^7 + (2^32 + b - 128))) with (a * 2^7 + b - 128)
      by (unfold u32; dmlia).
    rewrite (u32_small ((a * 2^7 + b - 128) * 2^7)) by lia.
    rewrite u32_small by lia. f_equal. lia.
  - rewrite (u32_small (0x80 + b)) by lia.
    rewrite (u32_small (a * 2^7 + (0x80 + b))) by lia.
    rewrite (u32_small ((a * 2^7 + (0x80 + b)) * 2^7)) by lia.
    rewrite u32_small by lia. f_equal. lia.
Qed.

(** ** Buffers *)

Lemma rd_app_r pre l i :
  0 <= i -> rd (pre ++ l) (Z.of_nat (length pre) + i) = rd l i.
Proof.
  intros Hi. unfold rd.
  destruct (Z.ltb_spec (Z.of_nat (length pre) + i) 0); [lia|].
  destruct (Z.ltb_spec i 0); [lia|].
  replace (Z.to_nat (Z.of_nat (length pre) + i)) with (length pre + Z.to_nat i)%nat by lia.
  rewrite lookup_app_r by lia.
  replace (length pre + Z.to_nat i - length pre)%nat with (Z.to_nat i) by lia.
  reflexivity.
Qed.

Lemma rd_app_mid pre x post : rd (pre ++ x :: post) (Z.of_nat (length pre)) = x.
Proof.
  replace (Z.of_nat (length pre)) with (Z.of_nat (length pre) + 0) by lia.
  rewrite rd_app_r by lia. reflexivity.
Qed.

Lemma wr_length buf i v : length (wr buf i v) = length buf.
Proof. unfold wr. destruct (i <? 0); [reflexivity|]. apply length_insert. Qed.

Lemma take_wr_ge buf i v n : (n <= Z.to_nat i)%nat -> 0 <= i -> take n (wr buf i v) = take n buf.
Proof.
  intros Hn Hi. unfold wr. destruct (Z.ltb_spec i 0); [lia|].
  apply take_insert_ge. exact Hn.
Qed.

Lemma take_S_wr buf i v :
  0 <= i -> (Z.to_nat i < length buf)%nat ->
  take (S (Z.to_nat i)) (wr buf i v) = take (Z.to_nat i) buf ++ [v].
Proof.
  intros Hi Hlen. unfold wr. destruct (Z.ltb_spec i 0); [lia|].
  rewrite (take_S_r _ _ v).
  - rewrite take_insert_ge by lia. reflexivity.
  - apply list_lookup_insert_eq. exact Hlen.
Qed.

(** ** storeRTP_SYSEXData *)

Lemma storeRTP_SYSEXData_frame b s :
  sysex_frame (storeRTP_SYSEXData b s) = sysex_frame s.
Proof.
  unfold storeRTP_SYSEXData. destruct (InSYSEXBuffer s) as [buf|]; [|reflexivity].
  cbn. destruct (InSYSEXBufferPtr s <? u32 (InSYSEXBufferSize s - 1)); reflexivity.
Qed.

Lemma storeRTP_SYSEXData_all_frame l : forall s,
  sysex_frame (storeRTP_SYSEXData_all l s) = sysex_frame s.
Proof.
  induction l as [|b l IH]; intros s; [reflexivity|].
  unfold storeRTP_SYSEXData_all in *. simpl. rewrite IH. apply storeRTP_SYSEXData_frame.
Qed.

Lemma storeRTP_SYSEXData_all_app l1 l2 s :
  storeRTP_SYSEXData_all (l1 ++ l2) s
  = storeRTP_SYSEXData_all l2 (storeRTP_SYSEXData_all l1 s).
Proof. unfold storeRTP_SYSEXData_all. apply fold_left_app. Qed.

(** What the frame keeps. *)
Lemma frame_eq_fields s s' :
  sysex_frame s = sysex_frame s' ->
  Trace s = Trace s' /\ SYSEX_RTPActif s = SYSEX_RTPActif s' /\
  SegmentSYSEXInput s = SegmentSYSEXInput s' /\ RTPCallback s = RTPCallback s' /\
  ClientInstance s = ClientInstance s' /\ InSYSEXBufferSize s = InSYSEXBufferSize s' /\
  LocalClock s = LocalClock s'.
Proof.
  intros H.
  repeat split.
  - exact (f_equal Trace H).
  - exact (f_equal SYSEX_RTPActif H).
  - exact (f_equal SegmentSYSEXInput H).
  - exact (f_equal RTPCallback H).
  - exact (f_equal ClientInstance H).
  - exact (f_equal InSYSEXBufferSize H).
  - exact (f_equal LocalClock H).
Qed.

(** One more byte of the message stored. *)
Lemma storeRTP_SYSEXData_holds m b s :
  sysex_holds m s -> sysex_holds (m ++ [b]) (storeRTP_SYSEXData b s).
Proof.
  intros (buf & Hbuf & Hlen & HS & Hptr & Htake & Hovf).
  unfold storeRTP_SYSEXData. rewrite Hbuf. cbv zeta.
  cbn [InSYSEXBufferPtr InSYSEXBufferSize set_InSYSEXBuffer].
  rewrite (u32_small (InSYSEXBufferSize s - 1)) by lia.
  set (S := InSYSEXBufferSize s) in *. set (p := InSYSEXBufferPtr s) in *.
  assert (Hp : 0 <= p <= S - 1) by lia.
  destruct (Z.ltb_spec p (S - 1)) as [Hlt|Hge].
  - (* room left: the byte is kept and the index moves on *)
    assert (Hm : Z.of_nat (length m) = p) by lia.
    exists (wr buf p b). cbn. fold S p.
    rewrite u32_small by lia. rewrite wr_length, length_app. simpl length.
    repeat split; try lia.
    + replace (Z.to_nat (p + 1)) with (Datatypes.S (Z.to_nat p)) by lia.
      rewrite take_S_wr by lia. rewrite Htake.
      rewrite (take_ge m) by lia.
      rewrite take_ge by (rewrite length_app; simpl; lia). reflexivity.
    + rewrite Hovf. destruct (Z.leb_spec S (Z.of_nat (length m))); [lia|].
      destruct (Z.leb_spec S (Z.of_nat (length m + 1))); [lia|]. reflexivity.
  - (* the index is on the last cell: the byte overwrites it *)
    assert (Hm : S - 1 <= Z.of_nat (length m)) by lia.
    assert (Hpe : p = S - 1) by lia.
    exists (wr buf p b). cbn. fold S p.
    rewrite wr_length, length_app. simpl length.
    repeat split; try lia.
    + rewrite take_wr_ge by lia. rewrite Htake.
      rewrite take_app_le by lia. reflexivity.
    + destruct (Z.leb_spec S (Z.of_nat (length m + 1))); [reflexivity|lia].
Qed.

Lemma storeRTP_SYSEXData_all_holds l : forall m s,
  sysex_holds m s -> sysex_holds (m ++ l) (storeRTP_SYSEXData_all l s).
Proof.
  induction l as [|b l IH]; intros m s H.
  - rewrite app_nil_r. exact H.
  - replace (m ++ b :: l) with ((m ++ [b]) ++ l) by (rewrite <- app_assoc; reflexivity).
    change (storeRTP_SYSEXData_all (b :: l) s)
      with (storeRTP_SYSEXData_all l (storeRTP_SYSEXData b s)).
    apply IH. apply storeRTP_SYSEXData_holds. exact H.
Qed.

(** A clean buffer holds the empty message. *)
Lemma sysex_idle_holds s : sysex_idle s -> sysex_buffer_ok s -> sysex_holds [] s.
Proof.
  intros (_ & Hp & Ho) (buf & Hb & Hl & HS).
  exists buf. rewrite Hp, Ho. simpl length.
  repeat split; try lia; try assumption.
  destruct (Z.leb_spec (InSYSEXBufferSize s) (Z.of_nat 0)); [lia|reflexivity].
Qed.

(** ** GenerateMIDIEvent *)

Lemma GenerateMIDIEvent_loop_step n buf ctr T t s :
  ctr < T ->
  GenerateMIDIEvent_loop (S n) buf ctr T t s
  = match GenerateMIDIEvent_byte (rd buf ctr) t s with
    | (s', NextByte) => GenerateMIDIEvent_loop n buf (ctr + 1) T t s'
    | (s', Return) => (s', ctr + 1)
    end.
Proof.
  intros H. simpl. destruct (Z.ltb_spec ctr T); [reflexivity|lia].
Qed.

Lemma GenerateMIDIEvent_loop_end n buf ctr T t s :
  T <= ctr -> GenerateMIDIEvent_loop n buf ctr T t s = (s, ctr).
Proof.
  intros H. destruct n; [reflexivity|]. simpl.
  destruct (Z.ltb_spec ctr T); [lia|reflexivity].
Qed.

(** The loop leaves by its own test: fuel beyond [TailleBloc - *ByteCtr]
    is not used. *)
Lemma GenerateMIDIEvent_fuel n buf T t : forall ctr s,
  T - ctr <= Z.of_nat n ->
  GenerateMIDIEvent_loop (S n) buf ctr T t s = GenerateMIDIEvent_loop n buf ctr T t s.
Proof.
  induction n as [|n IH]; intros ctr s Hn.
  - rewrite !GenerateMIDIEvent_loop_end by lia. reflexivity.
  - destruct (Z.lt_ge_cases ctr T) as [Hlt|Hge].
    + rewrite (GenerateMIDIEvent_loop_step (S n)) by exact Hlt.
      rewrite (GenerateMIDIEvent_loop_step n) by exact Hlt.
      destruct (GenerateMIDIEvent_byte (rd buf ctr) t s) as [s' [|]]; [|reflexivity].
      apply IH. lia.
    + rewrite !GenerateMIDIEvent_loop_end by lia. reflexivity.
Qed.

(** The byte counter never goes back and never passes the end of the block
    it was given. *)
Lemma GenerateMIDIEvent_loop_ctr n buf T t : forall ctr s,
  ctr <= T ->
  ctr <= snd (GenerateMIDIEvent_loop n buf ctr T t s) <= T.
Proof.
  induction n as [|n IH]; intros ctr s Hc; [simpl; lia|].
  destruct (Z.lt_ge_cases ctr T) as [Hlt|Hge].
  - rewrite GenerateMIDIEvent_loop_step by exact Hlt.
    destruct (GenerateMIDIEvent_byte (rd buf ctr) t s) as [s' [|]]; simpl; [|lia].
    specialize (IH (ctr + 1) s'). lia.
  - rewrite GenerateMIDIEvent_loop_end by lia. simpl. lia.
Qed.

(** A data byte met while a SYSEX message is being received is stored. *)
Lemma GenerateMIDIEvent_byte_data b t s :
  0 <= b < 0x80 -> SYSEX_RTPActif s = true -> SegmentSYSEXInput s = true ->
  GenerateMIDIEvent_byte b t s = (storeRTP_SYSEXData b s, NextByte).
Proof.
  intros Hb Ha Hs. unfold GenerateMIDIEvent_byte. rewrite Ha, Hs.
  destruct (Z.eqb_spec b 0xF0); [lia|].
  destruct (Z.eqb_spec b 0xF7); [lia|].
  destruct (Z.eqb_spec b 0xF4); [lia|].
  destruct (Z.ltb_spec b 0x80); [|lia]. reflexivity.
Qed.

Lemma storeRTP_SYSEXData_flags b s :
  SYSEX_RTPActif (storeRTP_SYSEXData b s) = SYSEX_RTPActif s /\
  SegmentSYSEXInput (storeRTP_SYSEXData b s) = SegmentSYSEXInput s.
Proof.
  pose proof (frame_eq_fields _ _ (storeRTP_SYSEXData_frame b s)) as H. tauto.
Qed.

(** A run of data bytes inside a SYSEX message: all are stored and the loop
    goes on behind them. *)
Lemma GenerateMIDIEvent_loop_data bs : forall pre post k T t s,
  data_bytes bs ->
  SYSEX_RTPActif s = true -> SegmentSYSEXInput s = true ->
  Z.of_nat (length pre) + Z.of_nat (length bs) <= T ->
  GenerateMIDIEvent_loop (length bs + k) (pre ++ bs ++ post) (Z.of_nat (length pre)) T t s
  = GenerateMIDIEvent_loop k (pre ++ bs ++ post)
      (Z.of_nat (length pre) + Z.of_nat (length bs)) T t (storeRTP_SYSEXData_all bs s).
Proof.
  induction bs as [|b bs IH]; intros pre post k T t s Hd Ha Hs HT.
  - simpl. rewrite Z.add_0_r. reflexivity.
  - inversion Hd as [|? ? Hb Hd']; subst.
    simpl length in *. simpl Nat.add.
    rewrite GenerateMIDIEvent_loop_step by lia.
    simpl app. rewrite rd_app_mid.
    rewrite GenerateMIDIEvent_byte_data by assumption.
    destruct (storeRTP_SYSEXData_flags b s) as [Ha' Hs'].
    specialize (IH (pre ++ [b]) post k T t (storeRTP_SYSEXData b s) Hd').
    rewrite <- !app_assoc in IH. simpl app in IH.
    rewrite length_app in IH. simpl length in IH.
    replace (Z.of_nat (length pre) + 1) with (Z.of_nat (length pre + 1)) by lia.
    rewrite IH by (try congruence; lia).
    f_equal. lia.
Qed.

(** ** SYSEX messages in the MIDI list of a datagram *)

Lemma storeRTP_SYSEXData_all_flags l s :
  SYSEX_RTPActif (storeRTP_SYSEXData_all l s) = SYSEX_RTPActif s /\
  SegmentSYSEXInput (storeRTP_SYSEXData_all l s) = SegmentSYSEXInput s.
Proof.
  pose proof (frame_eq_fields _ _ (storeRTP_SYSEXData_all_frame l s)) as H. tauto.
Qed.

(** The list [F0 b]: the message is started and left open. *)
Lemma ProcessIncomingRTP_list_sysex_open b s :
  data_bytes b -> SYSEX_RTPActif s = false ->
  ProcessIncomingRTP_list (0xF0 :: b) (Z.of_nat (length (0xF0 :: b))) false s
  = (storeRTP_SYSEXData_all (0xF0 :: b)
       (set_SegmentSYSEXInput true (set_SYSEX_RTPActif true s)),
     Z.of_nat (length (0xF0 :: b))).
Proof.
  intros Hb Ha. unfold ProcessIncomingRTP_list.
  set (T := Z.of_nat (length (0xF0 :: b))).
  assert (HT : T = 1 + Z.of_nat (length b)) by (subst T; simpl length; lia).
  destruct (Z.ltb_spec 0 T); [|lia]. destruct (Z.ltb_spec 0 T); [|lia].
  unfold GenerateMIDIEvent.
  replace (Z.to_nat (T - 0)) with (S (length b + 0)) by lia.
  rewrite GenerateMIDIEvent_loop_step by lia. rewrite rd_cons_0.
  unfold GenerateMIDIEvent_byte at 1. rewrite Ha. simpl andb. cbv iota zeta.
  pose proof (GenerateMIDIEvent_loop_data b [0xF0] [] 0 T (u32 (0 + LocalClock s))
    (storeRTP_SYSEXData 0xF0 (set_SegmentSYSEXInput true (set_SYSEX_RTPActif true s))) Hb)
    as Hrun.
  destruct (storeRTP_SYSEXData_flags 0xF0
    (set_SegmentSYSEXInput true (set_SYSEX_RTPActif true s))) as [Ha' Hs'].
  rewrite app_nil_r in Hrun. simpl app in Hrun. simpl length in Hrun.
  change (0 + 1) with 1. change (Z.of_nat 1) with 1 in Hrun.
  rewrite Hrun by (try (rewrite ?Ha', ?Hs'; reflexivity); lia).
  simpl GenerateMIDIEvent_loop.
  cbv iota beta.
  replace (Z.to_nat (T - (1 + Z.of_nat (length b)))) with O by lia.
  simpl. f_equal. lia.
Qed.

(** The list [F0 b1 F0]: the message is started and its first segment
    closed. *)
Lemma ProcessIncomingRTP_list_sysex_suspend b1 s :
  data_bytes b1 -> SYSEX_RTPActif s = false ->
  ProcessIncomingRTP_list (0xF0 :: b1 ++ [0xF0]) (Z.of_nat (length (0xF0 :: b1 ++ [0xF0])))
    false s
  = (set_SegmentSYSEXInput false
       (storeRTP_SYSEXData_all (0xF0 :: b1)
          (set_SegmentSYSEXInput true (set_SYSEX_RTPActif true s))),
     Z.of_nat (length (0xF0 :: b1 ++ [0xF0]))).
Proof.
  intros Hb Ha. unfold ProcessIncomingRTP_list.
  set (T := Z.of_nat (length (0xF0 :: b1 ++ [0xF0]))).
  assert (HT : T = 2 + Z.of_nat (length b1))
    by (subst T; simpl length; rewrite length_app; simpl length; lia).
  destruct (Z.ltb_spec 0 T); [|lia]. destruct (Z.ltb_spec 0 T); [|lia].
  unfold GenerateMIDIEvent.
  replace (Z.to_nat (T - 0)) with (S (length b1 + 1)) by lia.
  rewrite GenerateMIDIEvent_loop_step by lia. rewrite rd_cons_0.
  unfold GenerateMIDIEvent_byte at 1. rewrite Ha. simpl andb. cbv iota zeta.
  set (s1 := storeRTP_SYSEXData 0xF0 (set_SegmentSYSEXInput true (set_SYSEX_RTPActif true s))).
  destruct (storeRTP_SYSEXData_flags 0xF0
    (set_SegmentSYSEXInput true (set_SYSEX_RTPActif true s))) as [Ha' Hs'].
  fold s1 in Ha', Hs'.
  pose proof (GenerateMIDIEvent_loop_data b1 [0xF0] [0xF0] 1 T (u32 (0 + LocalClock s)) s1 Hb)
    as Hrun.
  simpl app in Hrun. simpl length in Hrun.
  change (0 + 1) with 1. change (Z.of_nat 1) with 1 in Hrun.
  rewrite Hrun by (try (rewrite ?Ha', ?Hs'; reflexivity); lia).
  rewrite GenerateMIDIEvent_loop_step by lia.
  replace (1 + Z.of_nat (length b1)) with (Z.of_nat (length (0xF0 :: b1)))
    by (simpl length; lia).
  change (0xF0 :: b1 ++ [0xF0]) with ((0xF0 :: b1) ++ [0xF0]).
  rewrite rd_app_mid.
  destruct (storeRTP_SYSEXData_all_flags b1 s1) as [Ha2 Hs2].
  unfold GenerateMIDIEvent_byte. rewrite Ha2, Ha'.
  assert (Hc : Z.of_nat (length (0xF0 :: b1)) = 1 + Z.of_nat (length b1))
    by (simpl length; lia).
  set (c := Z.of_nat (length (0xF0 :: b1))) in *. clearbody c T.
  simpl.
  replace (Z.to_nat (T - (c + 1))) with O by lia.
  simpl. f_equal. lia.
Qed.

(** The list [F7 b2 F7], when a message is active and suspended: the
    segment is resumed, the message completed, delivered and the buffer
    cleaned. *)
Lemma ProcessIncomingRTP_list_sysex_resume b2 s :
  data_bytes b2 -> SYSEX_RTPActif s = true -> SegmentSYSEXInput s = false ->
  ProcessIncomingRTP_list (0xF7 :: b2 ++ [0xF7]) (Z.of_nat (length (0xF7 :: b2 ++ [0xF7])))
    false s
  = (initRTP_SYSEXBuffer
       (sendRTP_SYSEXBuffer (u32 (0 + LocalClock s))
          (storeRTP_SYSEXData_all (b2 ++ [0xF7]) (set_SegmentSYSEXInput true s))),
     Z.of_nat (length (0xF7 :: b2 ++ [0xF7]))).
Proof.
  intros Hb Ha Hseg. unfold ProcessIncomingRTP_list.
  set (T := Z.of_nat (length (0xF7 :: b2 ++ [0xF7]))).
  assert (HT : T = 2 + Z.of_nat (length b2))
    by (subst T; simpl length; rewrite length_app; simpl length; lia).
  destruct (Z.ltb_spec 0 T); [|lia]. destruct (Z.ltb_spec 0 T); [|lia].
  unfold GenerateMIDIEvent.
  replace (Z.to_nat (T - 0)) with (S (length b2 + 1)) by lia.
  rewrite GenerateMIDIEvent_loop_step by lia. rewrite rd_cons_0.
  unfold GenerateMIDIEvent_byte at 1. rewrite Ha, Hseg. simpl andb. cbv iota.
  change (0xF7 =? 0xF0) with false. change (0xF7 =? 0xF7) with true. cbv iota.
  set (s1 := set_SegmentSYSEXInput true s).
  pose proof (GenerateMIDIEvent_loop_data b2 [0xF7] [0xF7] 1 T (u32 (0 + LocalClock s)) s1 Hb)
    as Hrun.
  simpl app in Hrun. simpl length in Hrun.
  change (0 + 1) with 1. change (Z.of_nat 1) with 1 in Hrun.
  rewrite Hrun by (try (subst s1; simpl; assumption); try reflexivity; lia).
  rewrite GenerateMIDIEvent_loop_step by lia.
  replace (1 + Z.of_nat (length b2)) with (Z.of_nat (length (0xF7 :: b2)))
    by (simpl length; lia).
  change (0xF7 :: b2 ++ [0xF7]) with ((0xF7 :: b2) ++ [0xF7]).
  rewrite rd_app_mid.
  destruct (storeRTP_SYSEXData_all_flags b2 s1) as [Ha2 Hs2].
  unfold GenerateMIDIEvent_byte. rewrite Ha2, Hs2.
  assert (Ha1 : SYSEX_RTPActif s1 = true) by exact Ha.
  assert (Hs1 : SegmentSYSEXInput s1 = true) by reflexivity. rewrite Ha1, Hs1.
  rewrite storeRTP_SYSEXData_all_app.
  assert (Hc : Z.of_nat (length (0xF7 :: b2)) = 1 + Z.of_nat (length b2))
    by (simpl length; lia).
  set (c := Z.of_nat (length (0xF7 :: b2))) in *. clearbody c T.
  simpl.
  replace (Z.to_nat (T - (c + 1))) with O by lia.
  simpl. f_equal. lia.
Qed.

(** The list [F0 b F7]: a whole message in one datagram. *)
Lemma ProcessIncomingRTP_list_sysex_whole b s :
  data_bytes b -> SYSEX_RTPActif s = false ->
  ProcessIncomingRTP_list (0xF0 :: b ++ [0xF7]) (Z.of_nat (length (0xF0 :: b ++ [0xF7])))
    false s
  = (initRTP_SYSEXBuffer
       (sendRTP_SYSEXBuffer (u32 (0 + LocalClock s))
          (storeRTP_SYSEXData_all (0xF0 :: b ++ [0xF7])
             (set_SegmentSYSEXInput true (set_SYSEX_RTPActif true s)))),
     Z.of_nat (length (0xF0 :: b ++ [0xF7]))).
Proof.
  intros Hb Ha. unfold ProcessIncomingRTP_list.
  set (T := Z.of_nat (length (0xF0 :: b ++ [0xF7]))).
  assert (HT : T = 2 + Z.of_nat (length b))
    by (subst T; simpl length; rewrite length_app; simpl length; lia).
  destruct (Z.ltb_spec 0 T); [|lia]. destruct (Z.ltb_spec 0 T); [|lia].
  unfold GenerateMIDIEvent.
  replace (Z.to_nat (T - 0)) with (S (length b + 1)) by lia.
  rewrite GenerateMIDIEvent_loop_step by lia. rewrite rd_cons_0.
  unfold GenerateMIDIEvent_byte at 1. rewrite Ha. simpl andb. cbv iota zeta.
  set (s0 := set_SegmentSYSEXInput true (set_SYSEX_RTPActif true s)).
  set (s1 := storeRTP_SYSEXData 0xF0 s0).
  destruct (storeRTP_SYSEXData_flags 0xF0 s0) as [Ha' Hs'].
  fold s1 in Ha', Hs'.
  pose proof (GenerateMIDIEvent_loop_data b [0xF0] [0xF7] 1 T (u32 (0 + LocalClock s)) s1 Hb)
    as Hrun.
  simpl app in Hrun. simpl length in Hrun.
  change (0 + 1) with 1. change (Z.of_nat 1) with 1 in Hrun.
  rewrite Hrun by (try (rewrite ?Ha', ?Hs'; reflexivity); lia).
  rewrite GenerateMIDIEvent_loop_step by lia.
  replace (1 + Z.of_nat (length b)) with (Z.of_nat (length (0xF0 :: b)))
    by (simpl length; lia).
  change (0xF0 :: b ++ [0xF7]) with ((0xF0 :: b) ++ [0xF7]).
  rewrite rd_app_mid.
  destruct (storeRTP_SYSEXData_all_flags b s1) as [Ha2 Hs2].
  unfold GenerateMIDIEvent_byte. rewrite Ha2, Hs2, Ha', Hs'.
  change (storeRTP_SYSEXData_all ((0xF0 :: b) ++ [0xF7]) s0)
    with (storeRTP_SYSEXData_all (b ++ [0xF7]) s1).
  rewrite storeRTP_SYSEXData_all_app.
  assert (Hc : Z.of_nat (length (0xF0 :: b)) = 1 + Z.of_nat (length b))
    by (simpl length; lia).
  set (c := Z.of_nat (length (0xF0 :: b))) in *. clearbody c T.
  simpl.
  replace (Z.to_nat (T - (c + 1))) with O by lia.
  simpl. f_equal. lia.
Qed.

(** Delivery of the buffer: the callback gets the stored beginning of the
    message, as many bytes as the fill index says. *)
Lemma sendRTP_SYSEXBuffer_holds m t s :
  sysex_holds m s -> RTPCallback s = true ->
  Trace (sendRTP_SYSEXBuffer t s)
  = Trace s ++ [EvCallback (ClientInstance s)
                  (Z.min (Z.of_nat (length m)) (InSYSEXBufferSize s - 1))
                  (take (Z.to_nat (Z.min (Z.of_nat (length m)) (InSYSEXBufferSize s - 1))) m)
                  t].
Proof.
  intros (buf & Hbuf & Hlen & HS & Hptr & Htake & Hovf) Hcb.
  unfold sendRTP_SYSEXBuffer, call_RTPCallback. rewrite Hcb, Hbuf. simpl.
  rewrite Htake, Hptr. reflexivity.
Qed.

Lemma initRTP_SYSEXBuffer_idle s : sysex_idle (initRTP_SYSEXBuffer s).
Proof. repeat split. Qed.

(** ** Claims on the decoder *)

(** C1 (code evaluated at the failing input).  The delta-time 16384 is
    encoded on three bytes, 81 80 00.  GetDeltaTime reads the three bytes
    but does not return 16384: the loop adds the second byte without
    masking its continuation bit, which gives 0 when plain char is signed
    and 32768 when it is unsigned. *)
Theorem C1_GetDeltaTime_16384 :
  vlq_encode 16384 = [0x81; 0x80; 0x00] /\
  GetDeltaTime_on true (vlq_encode 16384) 0 = (0, 3) /\
  GetDeltaTime_on false (vlq_encode 16384) 0 = (32768, 3).
Proof. repeat split. Qed.

(** Two segments of a SYSEX message in two MIDI lists: one call of the
    callback, with the beginning of [F0 b1 b2 F7] as far as the fill index
    went, that is all of it when it is shorter than the buffer. *)
Lemma sysex_two_segments b1 b2 s :
  data_bytes b1 -> data_bytes b2 ->
  sysex_idle s -> sysex_buffer_ok s -> RTPCallback s = true ->
  let m := sysex_message (b1 ++ b2) in
  let k := Z.min (Z.of_nat (length m)) (InSYSEXBufferSize s - 1) in
  let s1 := decode_list (segment1 b1) s in
  let s2 := decode_list (segment2 b2) s1 in
  Trace s1 = Trace s /\
  Trace s2 = Trace s ++ [EvCallback (ClientInstance s) k (take (Z.to_nat k) m)
                           (u32 (0 + LocalClock s))] /\
  sysex_idle s2.
Proof.
  intros Hb1 Hb2 Hidle Hok Hcb m k s1 s2.
  pose proof Hidle as (Ha & _ & _).
  set (s0 := set_SegmentSYSEXInput true (set_SYSEX_RTPActif true s)).
  assert (Hs1 : s1 = set_SegmentSYSEXInput false (storeRTP_SYSEXData_all (0xF0 :: b1) s0)).
  { subst s1. unfold decode_list, segment1.
    rewrite ProcessIncomingRTP_list_sysex_suspend by assumption. reflexivity. }
  assert (H0 : sysex_holds [] s0) by (apply (sysex_idle_holds s); assumption).
  pose proof (storeRTP_SYSEXData_all_holds (0xF0 :: b1) [] s0 H0) as H1. simpl app in H1.
  pose proof (frame_eq_fields _ _ (storeRTP_SYSEXData_all_frame (0xF0 :: b1) s0))
    as (Ft & Fa & Fs & Fc & Fi & Fz & Fl).
  set (x1 := storeRTP_SYSEXData_all (0xF0 :: b1) s0) in *.
  assert (Ha1 : SYSEX_RTPActif s1 = true) by (rewrite Hs1; simpl; rewrite Fa; reflexivity).
  assert (Hg1 : SegmentSYSEXInput s1 = false) by (rewrite Hs1; reflexivity).
  assert (Hs2 : s2 = initRTP_SYSEXBuffer (sendRTP_SYSEXBuffer (u32 (0 + LocalClock s1))
            (storeRTP_SYSEXData_all (b2 ++ [0xF7]) (set_SegmentSYSEXInput true s1)))).
  { subst s2. unfold decode_list, segment2.
    rewrite ProcessIncomingRTP_list_sysex_resume by assumption. reflexivity. }
  set (r1 := set_SegmentSYSEXInput true s1) in *.
  assert (Hr1 : sysex_holds (0xF0 :: b1) r1) by (subst r1; rewrite Hs1; exact H1).
  pose proof (storeRTP_SYSEXData_all_holds (b2 ++ [0xF7]) _ r1 Hr1) as H2.
  pose proof (frame_eq_fields _ _ (storeRTP_SYSEXData_all_frame (b2 ++ [0xF7]) r1))
    as (Gt & Ga & Gs & Gc & Gi & Gz & Gl).
  set (x2 := storeRTP_SYSEXData_all (b2 ++ [0xF7]) r1) in *.
  assert (Hm : (0xF0 :: b1) ++ b2 ++ [0xF7] = m).
  { subst m. unfold sysex_message. rewrite <- app_assoc. reflexivity. }
  rewrite Hm in H2.
  assert (Er1 : Trace r1 = Trace s /\ RTPCallback r1 = true /\
                ClientInstance r1 = ClientInstance s /\
                InSYSEXBufferSize r1 = InSYSEXBufferSize s /\ LocalClock s1 = LocalClock s).
  { subst r1. rewrite Hs1. simpl. rewrite Ft, Fc, Fi, Fz, Fl. simpl. auto. }
  destruct Er1 as (Et & Ec & Ei & Ez & El).
  split; [rewrite Hs1; simpl; rewrite Ft; reflexivity|].
  split; [|rewrite Hs2; apply initRTP_SYSEXBuffer_idle].
  rewrite Hs2.
  change (Trace (initRTP_SYSEXBuffer ?x)) with (Trace x).
  rewrite (sendRTP_SYSEXBuffer_holds m) by (try exact H2; congruence).
  rewrite Gt, Gi, Gz, Et, Ei, Ez, El. reflexivity.
Qed.

(** A message that leaves one cell of the buffer free is delivered whole. *)
Lemma sysex_two_segments_whole b1 b2 s :
  data_bytes b1 -> data_bytes b2 ->
  sysex_idle s -> sysex_buffer_ok s -> RTPCallback s = true ->
  Z.of_nat (length b1) + Z.of_nat (length b2) + 2 < InSYSEXBufferSize s ->
  let m := sysex_message (b1 ++ b2) in
  Trace (decode_list (segment2 b2) (decode_list (segment1 b1) s))
  = Trace s ++ [EvCallback (ClientInstance s) (Z.of_nat (length m)) m (u32 (0 + LocalClock s))].
Proof.
  intros Hb1 Hb2 Hidle Hok Hcb Hlen m.
  destruct (sysex_two_segments b1 b2 s Hb1 Hb2 Hidle Hok Hcb) as (_ & Ht & _).
  rewrite Ht. fold m.
  assert (Hm : Z.of_nat (length m) = Z.of_nat (length b1) + Z.of_nat (length b2) + 2).
  { subst m. unfold sysex_message. simpl length. rewrite !length_app. simpl length. lia. }
  rewrite Z.min_l by lia.
  rewrite take_ge by lia. reflexivity.
Qed.

(** C2 (code evaluated at the failing input).  The endpoint has a SYSEX
    buffer of 4 bytes and its session is opened.  The partner sends F0 01 F0
    in one datagram and F7 02 F7 in the next: the message F0 01 02 F7 has
    4 bytes and fits the buffer.  The callback is called once, but with 3
    bytes, F0 01 02: the closing F7 found the fill index on the last cell
    (storeRTP_SYSEXData keeps it below InSYSEXBufferSize-1) and is not
    counted. *)
Theorem C2_segmented_sysex_of_buffer_size :
  let s := host_run
    [ Net_Data (from_partner_data (RTP_short 1 0 0x22222222 false (segment1 [0x01])));
      Call_RunSession;
      Net_Data (from_partner_data (RTP_short 2 0 0x22222222 false (segment2 [0x02])));
      Call_RunSession ] (opened_endpoint 4) in
  length (sysex_message ([0x01] ++ [0x02])) = 4%nat /\
  InSYSEXBufferSize (opened_endpoint 4) = 4 /\
  callbacks (Trace s) = [(3, [0xF0; 0x01; 0x02])].
Proof. vm_compute. repeat split. Qed.

(** C3 (the claim fails as stated).  With a buffer of 4 bytes the message
    F0 01 02 03 04 05 F7 does not reach the callback with 4 bytes, and once
    it is delivered the overflow flag is clear although no other SYSEX
    message has started: the callback gets F0 01 02, and the cleaning of
    the buffer that follows the delivery clears the flag. *)
Lemma C3_overflow_counterexample :
  let s := host_run
    [ Net_Data (from_partner_data
        (RTP_short 1 0 0x22222222 false (sysex_message [0x01; 0x02; 0x03; 0x04; 0x05])));
      Call_RunSession ] (opened_endpoint 4) in
  InSYSEXBufferSize (opened_endpoint 4) = 4 /\
  callbacks (Trace s) = [(3, [0xF0; 0x01; 0x02])] /\
  ~ (exists MIDIData, In (4, MIDIData) (callbacks (Trace s))) /\
  SYSEX_RTPActif s = false /\ InSYSEXOverflow s = false /\ ~ InSYSEXOverflow s = true.
Proof.
  vm_compute. repeat split; try discriminate.
  intros (l & [H | []]). discriminate H.
Qed.

(** C10 (code evaluated at the failing input).  The datagram declares a MIDI
    list of one byte with a delta-time first (control byte 0x21); the byte
    is 0x80 and the bytes behind the list have bit 7 set too.  GetDeltaTime
    reads on: the byte counter comes back as 5, beyond the declared length
    1, and the value returned depends on a byte at index 4. *)
Theorem C10_GetDeltaTime_past_declared_length :
  let d := datagram_short_list 0x05 in
  let d' := datagram_short_list 0x06 in
  TailleListeMIDI_of d = 1 /\ PresenceFirstDelta_of d = true /\
  snd (GetDeltaTime (PtrListeMIDI_of d) 0) = 5 /\
  (forall s, snd (ProcessIncomingRTP_list (PtrListeMIDI_of d) (TailleListeMIDI_of d)
                    (PresenceFirstDelta_of d) s) = 5) /\
  TailleListeMIDI_of d' = 1 /\
  take 1 (PtrListeMIDI_of d') = take 1 (PtrListeMIDI_of d) /\
  fst (GetDeltaTime (PtrListeMIDI_of d') 0) <> fst (GetDeltaTime (PtrListeMIDI_of d) 0).
Proof.
  cbv zeta. repeat split; try (vm_compute; congruence).
Qed.

(** C9 (code evaluated at the failing input).  An opened endpoint has
    received F0 01 02, the beginning of a SYSEX message, when the host calls
    RestartSession: SYSEX_RTPActif is cleared and InSYSEXBufferPtr stays at
    3.  The next SYSEX message, F0 7D F7, is then stored behind the three
    stale bytes and delivered with them. *)
Theorem C9_RestartSession_keeps_InSYSEXBufferPtr :
  let s := host_run restart_in_sysex (CRTP_MIDI_new raw0 16 true 0) in
  reachable s /\ SYSEX_RTPActif s = false /\ InSYSEXBufferPtr s = 3 /\
  ~ sysex_ptr_inv s /\
  callbacks (Trace (host_run sysex_after_restart (CRTP_MIDI_new raw0 16 true 0)))
  = [(6, [0xF0; 0x01; 0x02; 0xF0; 0x7D; 0xF7])].
Proof.
  cbv zeta. split; [|split; [|split; [|split]]].
  - exists raw0, 16, true, 0, restart_in_sysex. split; [lia|reflexivity].
  - vm_compute. reflexivity.
  - vm_compute. reflexivity.
  - intros H. assert (E : InSYSEXBufferPtr
        (host_run restart_in_sysex (CRTP_MIDI_new raw0 16 true 0)) = 0)
      by (apply H; vm_compute; reflexivity).
    vm_compute in E. discriminate E.
  - vm_compute. reflexivity.
Qed.

(** ** The outbound ring *)

Lemma next_ptr_mod p :
  0 <= p < MIDI_CHAR_FIFO_SIZE -> next_ptr p = (p + 1) mod MIDI_CHAR_FIFO_SIZE.
Proof.
  unfold next_ptr, MIDI_CHAR_FIFO_SIZE, u32. intros Hp.
  rewrite (Z.mod_small (p + 1) (2^32)) by lia.
  destruct (Z.leb_spec 2048 (p + 1)); dmlia.
Qed.

Lemma next_ptr_range p :
  0 <= p < MIDI_CHAR_FIFO_SIZE -> 0 <= next_ptr p < MIDI_CHAR_FIFO_SIZE.
Proof.
  intros Hp. rewrite next_ptr_mod by exact Hp. unfold MIDI_CHAR_FIFO_SIZE in *. dmlia.
Qed.

Lemma rd_wr_same buf p v : 0 <= p < Z.of_nat (length buf) -> rd (wr buf p v) p = v.
Proof.
  intros Hp. unfold rd, wr. destruct (Z.ltb_spec p 0); [lia|].
  rewrite list_lookup_insert_eq by lia. reflexivity.
Qed.

Lemma rd_wr_other buf p q v : 0 <= p -> 0 <= q -> p <> q -> rd (wr buf p v) q = rd buf q.
Proof.
  intros Hp Hq Hne. unfold rd, wr.
  destruct (Z.ltb_spec p 0); [lia|]. destruct (Z.ltb_spec q 0); [lia|].
  rewrite list_lookup_insert_ne by lia. reflexivity.
Qed.

(** A store outside the bytes read does not change them. *)
Lemma ring_bytes_wr_outside n : forall r p v fifo,
  0 <= r < MIDI_CHAR_FIFO_SIZE -> 0 <= p < MIDI_CHAR_FIFO_SIZE ->
  Z.of_nat n <= (p - r) mod MIDI_CHAR_FIFO_SIZE ->
  ring_bytes n r (wr fifo p v) = ring_bytes n r fifo.
Proof.
  induction n as [|n IH]; intros r p v fifo Hr Hp Hn; [reflexivity|].
  simpl. f_equal.
  - apply rd_wr_other; try lia. intros ->. rewrite Z.sub_diag in Hn.
    unfold MIDI_CHAR_FIFO_SIZE in Hn. dmlia.
  - apply IH; [apply next_ptr_range; exact Hr | exact Hp |].
    rewrite next_ptr_mod by exact Hr. unfold MIDI_CHAR_FIFO_SIZE in *. dmlia.
Qed.

Lemma ring_bytes_snoc n : forall r fifo,
  0 <= r < MIDI_CHAR_FIFO_SIZE ->
  ring_bytes (S n) r fifo
  = ring_bytes n r fifo ++ [rd fifo ((r + Z.of_nat n) mod MIDI_CHAR_FIFO_SIZE)].
Proof.
  induction n as [|n IH]; intros r fifo Hr.
  - simpl. rewrite Z.add_0_r, Z.mod_small by exact Hr. reflexivity.
  - change (ring_bytes (S (S n)) r fifo)
      with (rd fifo r :: ring_bytes (S n) (next_ptr r) fifo).
    rewrite IH by (apply next_ptr_range; exact Hr).
    simpl. do 3 f_equal. apply (f_equal (rd fifo)).
    rewrite next_ptr_mod by exact Hr. unfold MIDI_CHAR_FIFO_SIZE in *. dmlia.
Qed.

Lemma ring_bytes_length n : forall r fifo, length (ring_bytes n r fifo) = n.
Proof. induction n as [|n IH]; intros r fifo; simpl; [reflexivity | rewrite IH; reflexivity]. Qed.

(** The loop of GeneratePayload takes the bytes up to the snapshot of the
    write pointer and leaves the read pointer on it; it needs as many turns
    as there are bytes. *)
Lemma GeneratePayload_loop_spec n : forall fuel End q acc,
  0 <= ReadPtr q < MIDI_CHAR_FIFO_SIZE -> 0 <= End < MIDI_CHAR_FIFO_SIZE ->
  (End - ReadPtr q) mod MIDI_CHAR_FIFO_SIZE = Z.of_nat n ->
  (n <= fuel)%nat ->
  GeneratePayload_loop fuel End q acc
  = (set_ReadPtr End q, acc ++ ring_bytes n (ReadPtr q) (FIFO q)).
Proof.
  induction n as [|n IH]; intros fuel End q acc Hr He Hn Hf.
  - assert (HE : ReadPtr q = End) by (unfold MIDI_CHAR_FIFO_SIZE in *; dmlia).
    simpl ring_bytes. rewrite app_nil_r.
    assert (Hq : set_ReadPtr End q = q) by (destruct q; simpl in *; subst; reflexivity).
    rewrite Hq.
    destruct fuel; cbn [GeneratePayload_loop]; [reflexivity|].
    rewrite HE, Z.eqb_refl. reflexivity.
  - destruct fuel as [|fuel]; [lia|].
    assert (ReadPtr q <> End)
      by (intros E; rewrite E, Z.sub_diag in Hn; unfold MIDI_CHAR_FIFO_SIZE in Hn; dmlia).
    cbn [GeneratePayload_loop].
    destruct (Z.eqb_spec (ReadPtr q) End); [lia|]. simpl negb. cbv iota zeta.
    rewrite (IH fuel End (set_ReadPtr (next_ptr (ReadPtr q)) q)).
    + simpl. rewrite <- app_assoc. reflexivity.
    + simpl. apply next_ptr_range. exact Hr.
    + exact He.
    + simpl. rewrite next_ptr_mod by exact Hr. unfold MIDI_CHAR_FIFO_SIZE in *. dmlia.
    + lia.
Qed.

Lemma ring_used_range q : 0 <= ring_used q < MIDI_CHAR_FIFO_SIZE.
Proof. unfold ring_used, MIDI_CHAR_FIFO_SIZE. dmlia. Qed.

(** GeneratePayload returns the published content of the ring and empties
    it. *)
Lemma GeneratePayload_spec s :
  ring_wf (RTPStreamQueue s) ->
  GeneratePayload s
  = (set_RTPStreamQueue (set_ReadPtr (WritePtr (RTPStreamQueue s)) (RTPStreamQueue s)) s,
     ring_pending (RTPStreamQueue s)).
Proof.
  intros (Hl & Hr & Hw). unfold GeneratePayload.
  pose proof (ring_used_range (RTPStreamQueue s)) as Hu.
  rewrite (GeneratePayload_loop_spec (Z.to_nat (ring_used (RTPStreamQueue s))));
    try assumption.
  - reflexivity.
  - unfold ring_used in *. lia.
  - unfold MIDI_CHAR_FIFO_SIZE in *. lia.
Qed.

(** The loop of SendRTPMIDIBlock.  [u] bytes lie between the read pointer
    and [TmpWrite].  When the block leaves the ring one cell short of full,
    all its bytes are staged behind them; otherwise the loop returns false
    and the bytes up to [TmpWrite] are as before. *)
Lemma SendRTPMIDIBlock_loop_spec MIDIData : forall R fifo Tmp,
  Z.of_nat (length fifo) = MIDI_CHAR_FIFO_SIZE ->
  0 <= R < MIDI_CHAR_FIFO_SIZE -> 0 <= Tmp < MIDI_CHAR_FIFO_SIZE ->
  let u := (Tmp - R) mod MIDI_CHAR_FIFO_SIZE in
  match SendRTPMIDIBlock_loop MIDIData R fifo Tmp with
  | (fifo', Some Tmp') =>
      u + Z.of_nat (length MIDIData) < MIDI_CHAR_FIFO_SIZE /\
      Tmp' = (Tmp + Z.of_nat (length MIDIData)) mod MIDI_CHAR_FIFO_SIZE /\
      Z.of_nat (length fifo') = MIDI_CHAR_FIFO_SIZE /\
      ring_bytes (Z.to_nat u + length MIDIData) R fifo'
      = ring_bytes (Z.to_nat u) R fifo ++ MIDIData
  | (fifo', None) =>
      MIDI_CHAR_FIFO_SIZE <= u + Z.of_nat (length MIDIData) /\
      Z.of_nat (length fifo') = MIDI_CHAR_FIFO_SIZE /\
      forall n, Z.of_nat n <= u -> ring_bytes n R fifo' = ring_bytes n R fifo
  end.
Proof.
  induction MIDIData as [|b rest IH]; intros R fifo Tmp Hl HR HT u.
  - simpl. assert (0 <= u < MIDI_CHAR_FIFO_SIZE)
      by (subst u; unfold MIDI_CHAR_FIFO_SIZE; dmlia).
    repeat split; try lia.
    + rewrite Z.add_0_r, Z.mod_small by lia. reflexivity.
    + rewrite Nat.add_0_r, app_nil_r. reflexivity.
  - assert (Hu : 0 <= u < MIDI_CHAR_FIFO_SIZE)
      by (subst u; unfold MIDI_CHAR_FIFO_SIZE; dmlia).
    assert (Hout : forall n, Z.of_nat n <= u ->
              ring_bytes n R (wr fifo Tmp b) = ring_bytes n R fifo).
    { intros n Hn. apply ring_bytes_wr_outside; assumption. }
    simpl SendRTPMIDIBlock_loop.
    pose proof (next_ptr_range Tmp HT) as Hnx.
    pose proof (next_ptr_mod Tmp HT) as Hnm.
    destruct (Z.eqb_spec (next_ptr Tmp) R) as [Heq|Hne].
    + (* the write pointer has caught up with the read pointer *)
      assert (u + 1 = MIDI_CHAR_FIFO_SIZE)
        by (subst u; unfold MIDI_CHAR_FIFO_SIZE in *; dmlia).
      simpl length. repeat split; try lia.
      * rewrite wr_length. exact Hl.
      * exact Hout.
    + assert (Hu1 : (next_ptr Tmp - R) mod MIDI_CHAR_FIFO_SIZE = u + 1)
        by (subst u; unfold MIDI_CHAR_FIFO_SIZE in *; dmlia).
      specialize (IH R (wr fifo Tmp b) (next_ptr Tmp)).
      rewrite wr_length in IH. specialize (IH Hl HR Hnx).
      cbv zeta in IH. rewrite Hu1 in IH.
      destruct (SendRTPMIDIBlock_loop rest R (wr fifo Tmp b) (next_ptr Tmp))
        as [fifo' [Tmp'|]].
      * destruct IH as (Hfit & HT' & Hl' & Hbytes).
        simpl length. repeat split; try lia.
        -- rewrite HT', Hnm. unfold MIDI_CHAR_FIFO_SIZE in *. dmlia.
        -- replace (Z.to_nat u + S (length rest))%nat
             with (Z.to_nat (u + 1) + length rest)%nat by lia.
           rewrite Hbytes.
           replace (Z.to_nat (u + 1)) with (S (Z.to_nat u)) by lia.
           rewrite ring_bytes_snoc by exact HR.
           rewrite Hout by lia.
           replace ((R + Z.of_nat (Z.to_nat u)) mod MIDI_CHAR_FIFO_SIZE) with Tmp
             by (subst u; unfold MIDI_CHAR_FIFO_SIZE in *; dmlia).
           rewrite rd_wr_same by lia.
           rewrite <- app_assoc. reflexivity.
      * destruct IH as (Hfull & Hl' & Hbytes).
        simpl length. repeat split; try lia.
        intros n Hn. rewrite Hbytes by lia. apply Hout. exact Hn.
Qed.

(** SendRTPMIDIBlock in terms of the content of the ring. *)
Lemma SendRTPMIDIBlock_spec MIDIData s :
  ring_wf (RTPStreamQueue s) -> MIDIData <> [] -> SessionState s = SESSION_OPENED ->
  let q := RTPStreamQueue s in
  let '(ok, s') := SendRTPMIDIBlock MIDIData s in
  let q' := RTPStreamQueue s' in
  ok = ring_fits (Z.of_nat (length MIDIData)) q /\
  ring_wf q' /\ ReadPtr q' = ReadPtr q /\ SessionState s' = SessionState s /\
  (if ok
   then WritePtr q' = (WritePtr q + Z.of_nat (length MIDIData)) mod MIDI_CHAR_FIFO_SIZE /\
        ring_pending q' = ring_pending q ++ MIDIData
   else WritePtr q' = WritePtr q /\ ring_pending q' = ring_pending q).
Proof.
  intros (Hl & Hr & Hw) Hne Hst q.
  unfold SendRTPMIDIBlock.
  destruct (Z.eqb_spec (Z.of_nat (length MIDIData)) 0) as [H0|_].
  { destruct MIDIData; [congruence | simpl in H0; lia]. }
  rewrite Hst. simpl negb. cbv iota.
  pose proof (SendRTPMIDIBlock_loop_spec MIDIData (ReadPtr q) (FIFO q) (WritePtr q) Hl Hr Hw)
    as Hloop.
  cbv zeta in Hloop. fold q.
  fold (ring_used q) in Hloop.
  pose proof (ring_used_range q) as Hu.
  destruct (SendRTPMIDIBlock_loop MIDIData (ReadPtr q) (FIFO q) (WritePtr q))
    as [fifo' [Tmp'|]].
  - destruct Hloop as (Hfit & HT' & Hl' & Hbytes).
    cbn [RTPStreamQueue set_RTPStreamQueue SessionState].
    unfold ring_fits. destruct (Z.ltb_spec (ring_used q + Z.of_nat (length MIDIData))
      MIDI_CHAR_FIFO_SIZE); [|lia].
    assert (HT'r : 0 <= Tmp' < MIDI_CHAR_FIFO_SIZE)
      by (rewrite HT'; unfold MIDI_CHAR_FIFO_SIZE; dmlia).
    split; [reflexivity|].
    split; [unfold ring_wf; simpl; auto|].
    split; [reflexivity|]. split; [first [reflexivity | exact Hst]|].
    split; [exact HT'|].
    unfold ring_pending. simpl ReadPtr. simpl FIFO.
    replace (Z.to_nat (ring_used (set_WritePtr Tmp' (set_FIFO fifo' q))))
      with (Z.to_nat (ring_used q) + length MIDIData)%nat.
    + exact Hbytes.
    + unfold ring_used in *. simpl. rewrite HT'.
      fold q. unfold MIDI_CHAR_FIFO_SIZE in *. dmlia.
  - destruct Hloop as (Hfull & Hl' & Hbytes).
    cbn [RTPStreamQueue set_RTPStreamQueue SessionState].
    unfold ring_fits. destruct (Z.ltb_spec (ring_used q + Z.of_nat (length MIDIData))
      MIDI_CHAR_FIFO_SIZE); [lia|].
    split; [reflexivity|].
    split; [unfold ring_wf; simpl; auto|].
    split; [reflexivity|]. split; [first [reflexivity | exact Hst]|].
    split; [reflexivity|].
    unfold ring_pending. simpl ReadPtr. simpl FIFO.
    change (ring_used (set_FIFO fifo' q)) with (ring_used q).
    apply Hbytes. lia.
Qed.

Lemma SessionState_eqb_eq a b : SessionState_eqb a b = true <-> a = b.
Proof. destruct a, b; simpl; split; intros H; try reflexivity; discriminate H. Qed.

(** SendRTPMIDIBlock on any block and any object whose ring is well formed:
    the value returned, and what becomes of the ring. *)
Lemma SendRTPMIDIBlock_total MIDIData s :
  ring_wf (RTPStreamQueue s) ->
  let q := RTPStreamQueue s in
  let ok := fst (SendRTPMIDIBlock MIDIData s) in
  let q' := RTPStreamQueue (snd (SendRTPMIDIBlock MIDIData s)) in
  ok = SendRTPMIDIBlock_result MIDIData s /\
  ring_wf q' /\ ReadPtr q' = ReadPtr q /\
  SessionState (snd (SendRTPMIDIBlock MIDIData s)) = SessionState s /\
  (if ok
   then WritePtr q' = (WritePtr q + Z.of_nat (length MIDIData)) mod MIDI_CHAR_FIFO_SIZE /\
        ring_pending q' = ring_pending q ++ MIDIData
   else WritePtr q' = WritePtr q /\ ring_pending q' = ring_pending q).
Proof.
  intros Hwf q ok q'.
  destruct MIDIData as [|b rest].
  - subst ok q' q. simpl. repeat split; try apply Hwf.
    + rewrite Z.add_0_r. symmetry. apply Z.mod_small. apply Hwf.
    + rewrite app_nil_r. reflexivity.
  - destruct (SessionState_eqb (SessionState s) SESSION_OPENED) eqn:Hst.
    + apply SessionState_eqb_eq in Hst.
      pose proof (SendRTPMIDIBlock_spec (b :: rest) s Hwf ltac:(discriminate) Hst) as H.
      subst ok q'. destruct (SendRTPMIDIBlock (b :: rest) s) as [ok s']. simpl fst. simpl snd.
      cbv zeta in H. destruct H as (Hok & Hwf' & Hr & Hs & Hrest).
      repeat split; try assumption; try apply Hwf'.
      rewrite Hok. unfold SendRTPMIDIBlock_result.
      rewrite Hst. reflexivity.
    + subst ok q' q. unfold SendRTPMIDIBlock, SendRTPMIDIBlock_result. rewrite Hst.
      simpl. repeat split; apply Hwf.
Qed.

(** Objects the users of the ring cannot tell apart stay so, and show the
    same results. *)
Lemma ring_observations_equiv ops : forall s1 s2,
  ring_wf (RTPStreamQueue s1) -> ring_wf (RTPStreamQueue s2) -> ring_equiv s1 s2 ->
  ring_observations ops s1 = ring_observations ops s2.
Proof.
  induction ops as [|[MIDIData|] ops IH]; intros s1 s2 Hw1 Hw2 (Es & Er & Ew & Ep);
    [reflexivity| |].
  - simpl.
    pose proof (SendRTPMIDIBlock_total MIDIData s1 Hw1) as H1.
    pose proof (SendRTPMIDIBlock_total MIDIData s2 Hw2) as H2.
    cbv zeta in H1, H2.
    destruct (SendRTPMIDIBlock MIDIData s1) as [ok1 s1'].
    destruct (SendRTPMIDIBlock MIDIData s2) as [ok2 s2'].
    simpl fst in *. simpl snd in *.
    destruct H1 as (Hok1 & Hwf1 & Hr1 & Hs1 & Hc1).
    destruct H2 as (Hok2 & Hwf2 & Hr2 & Hs2 & Hc2).
    assert (Hok : ok1 = ok2).
    { rewrite Hok1, Hok2. unfold SendRTPMIDIBlock_result, ring_fits, ring_used.
      rewrite Es, Er, Ew. reflexivity. }
    clear Hok1 Hok2. subst ok2. f_equal.
    apply IH; try assumption.
    unfold ring_equiv. destruct ok1.
    + destruct Hc1 as [Hw1' Hp1]. destruct Hc2 as [Hw2' Hp2].
      repeat split; congruence.
    + destruct Hc1 as [Hw1' Hp1]. destruct Hc2 as [Hw2' Hp2].
      repeat split; congruence.
  - simpl. rewrite (GeneratePayload_spec s1 Hw1), (GeneratePayload_spec s2 Hw2).
    rewrite Ep. f_equal.
    destruct Hw1 as (Hl1 & Hr1 & Hw1). destruct Hw2 as (Hl2 & Hr2 & Hw2).
    apply IH.
    + unfold ring_wf. simpl. auto.
    + unfold ring_wf. simpl. auto.
    + unfold ring_equiv, ring_pending, ring_used. simpl.
      rewrite !Z.sub_diag. simpl. repeat split; congruence.
Qed.

(** ** Claims on the ring *)

(** C4.  GeneratePayload hands out the bytes between ReadPtr and WritePtr
    and nothing else.  When SendRTPMIDIBlock returns false both pointers
    and those bytes are as before, and whatever the producer and the
    consumer do afterwards they see what they would have seen without the
    rejected call.  When it returns true the block is behind the bytes
    that were waiting, in order, and the next payload carries it so. *)
Theorem C4_SendRTPMIDIBlock_all_or_nothing MIDIData s :
  ring_wf (RTPStreamQueue s) ->
  let q := RTPStreamQueue s in
  let ok := fst (SendRTPMIDIBlock MIDIData s) in
  let s' := snd (SendRTPMIDIBlock MIDIData s) in
  let q' := RTPStreamQueue s' in
  snd (GeneratePayload s) = ring_pending q /\
  (ok = false ->
     WritePtr q' = WritePtr q /\ ReadPtr q' = ReadPtr q /\
     ring_pending q' = ring_pending q /\
     snd (GeneratePayload s') = snd (GeneratePayload s) /\
     forall ops, ring_observations ops s' = ring_observations ops s) /\
  (ok = true ->
     ring_pending q' = ring_pending q ++ MIDIData /\
     snd (GeneratePayload s') = ring_pending q ++ MIDIData).
Proof.
  intros Hwf q ok s' q'.
  pose proof (SendRTPMIDIBlock_total MIDIData s Hwf) as H. cbv zeta in H.
  fold ok s' q' q in H. destruct H as (Hok & Hwf' & Hr & Hs & Hc).
  split; [rewrite GeneratePayload_spec by exact Hwf; reflexivity|].
  split; intros Hv; rewrite Hv in Hc; destruct Hc as [Hw Hp].
  - repeat split; try assumption.
    + rewrite !GeneratePayload_spec by assumption. exact Hp.
    + intros ops. apply ring_observations_equiv; try assumption.
      unfold ring_equiv. auto.
  - split; [exact Hp|].
    rewrite GeneratePayload_spec by assumption. exact Hp.
Qed.

Lemma ring_wf_opened_endpoint : ring_wf (RTPStreamQueue (opened_endpoint 4)).
Proof. vm_compute. repeat split; intros H; discriminate H. Qed.

Lemma C4_SendRTPMIDIBlock_all_or_nothing_witness :
  ring_wf (RTPStreamQueue (opened_endpoint 4)) /\
  ring_pending (RTPStreamQueue (snd (SendRTPMIDIBlock [0x00; 0x90; 0x3C; 0x7F]
                                       (opened_endpoint 4))))
  = ring_pending (RTPStreamQueue (opened_endpoint 4)) ++ [0x00; 0x90; 0x3C; 0x7F].
Proof.
  split; [exact ring_wf_opened_endpoint|].
  apply (C4_SendRTPMIDIBlock_all_or_nothing [0x00; 0x90; 0x3C; 0x7F] (opened_endpoint 4)
           ring_wf_opened_endpoint).
  vm_compute. reflexivity.
Defined.

(** C5 (the claim fails as stated).  An endpoint just constructed is not
    opened, and SendRTPMIDIBlock returns true on it for an empty block: the
    test of the block size comes before the test of the session state. *)
Lemma C5_empty_block_counterexample :
  ~ (SessionState (CRTP_MIDI_new raw0 4 true 0) <> SESSION_OPENED ->
     fst (SendRTPMIDIBlock [] (CRTP_MIDI_new raw0 4 true 0)) = false).
Proof.
  intros H. assert (E : true = false) by (apply H; vm_compute; discriminate).
  discriminate E.
Qed.

(** C5 (amended).  An empty block is accepted in any state and changes
    nothing.  A block of at least one byte is refused, the object left as
    it was, when the session is not opened; it is refused, the published
    content of the ring left as it was, when it does not fit; otherwise it
    is put behind the bytes that were waiting and true is returned. *)
Theorem C5_SendRTPMIDIBlock_result MIDIData s :
  ring_wf (RTPStreamQueue s) ->
  let q := RTPStreamQueue s in
  let q' := RTPStreamQueue (snd (SendRTPMIDIBlock MIDIData s)) in
  (MIDIData = [] -> SendRTPMIDIBlock MIDIData s = (true, s)) /\
  (MIDIData <> [] -> SessionState s <> SESSION_OPENED ->
     SendRTPMIDIBlock MIDIData s = (false, s)) /\
  (MIDIData <> [] -> SessionState s = SESSION_OPENED ->
     ring_fits (Z.of_nat (length MIDIData)) q = false ->
     fst (SendRTPMIDIBlock MIDIData s) = false /\
     WritePtr q' = WritePtr q /\ ring_pending q' = ring_pending q) /\
  (MIDIData <> [] -> SessionState s = SESSION_OPENED ->
     ring_fits (Z.of_nat (length MIDIData)) q = true ->
     fst (SendRTPMIDIBlock MIDIData s) = true /\
     ring_pending q' = ring_pending q ++ MIDIData).
Proof.
  intros Hwf q q'.
  assert (Hlen : MIDIData <> [] -> (Z.of_nat (length MIDIData) =? 0) = false).
  { intros Hne. destruct MIDIData; [congruence|]. reflexivity. }
  split; [intros ->; reflexivity|].
  split.
  { intros Hne Hst. unfold SendRTPMIDIBlock. rewrite (Hlen Hne).
    destruct (SessionState_eqb (SessionState s) SESSION_OPENED) eqn:E; [|reflexivity].
    apply SessionState_eqb_eq in E. contradiction. }
  pose proof (SendRTPMIDIBlock_total MIDIData s Hwf) as H. cbv zeta in H.
  fold q q' in H. destruct H as (Hok & _ & _ & _ & Hc).
  assert (Hres : MIDIData <> [] -> SessionState s = SESSION_OPENED ->
            fst (SendRTPMIDIBlock MIDIData s) = ring_fits (Z.of_nat (length MIDIData)) q).
  { intros Hne Hst. rewrite Hok. unfold SendRTPMIDIBlock_result.
    rewrite (Hlen Hne), Hst. reflexivity. }
  split; intros Hne Hst Hfit; pose proof (Hres Hne Hst) as Hv; rewrite Hfit in Hv;
    rewrite Hv in Hc |- *; destruct Hc; auto.
Qed.

Lemma C5_SendRTPMIDIBlock_result_witness :
  ring_wf (RTPStreamQueue (opened_endpoint 4)) /\
  SendRTPMIDIBlock [] (opened_endpoint 4) = (true, opened_endpoint 4).
Proof.
  split; [exact ring_wf_opened_endpoint|].
  apply (C5_SendRTPMIDIBlock_result [] (opened_endpoint 4) ring_wf_opened_endpoint).
  reflexivity.
Defined.

(** ** Steps that send no RTP-MIDI datagram *)

Lemma rtp_sent_app tr1 tr2 : rtp_sent (tr1 ++ tr2) = rtp_sent tr1 ++ rtp_sent tr2.
Proof. unfold rtp_sent. apply omap_app. Qed.

Lemma silent_refl s : silent_step s s.
Proof.
  split; [|split; reflexivity]. exists []. rewrite app_nil_r. split; reflexivity.
Qed.

Lemma silent_trans s x s' : silent_step s x -> silent_step x s' -> silent_step s s'.
Proof.
  intros ((e1 & H1 & R1) & S1 & Q1) ((e2 & H2 & R2) & S2 & Q2).
  split; [|split; congruence].
  exists (e1 ++ e2). rewrite H2, H1, <- app_assoc. split; [reflexivity|].
  rewrite rtp_sent_app, R1, R2. reflexivity.
Qed.

(** An assignment to members other than the sequence counter and the ring. *)
Lemma silent_same s x s' :
  Trace s' = Trace x -> RTPSequence s' = RTPSequence x ->
  RTPStreamQueue s' = RTPStreamQueue x ->
  silent_step s x -> silent_step s s'.
Proof.
  intros Ht Hs Hq H. apply (silent_trans s x); [exact H|].
  split; [|split; assumption]. exists []. rewrite app_nil_r. split; [exact Ht|reflexivity].
Qed.

(** An event that is not an RTP-MIDI datagram. *)
Lemma silent_event e s x :
  rtp_sent [e] = [] -> silent_step s x -> silent_step s (set_Trace (Trace x ++ [e]) x).
Proof.
  intros He H. apply (silent_trans s x); [exact H|].
  split; [|split; reflexivity]. exists [e]. split; [reflexivity|exact He].
Qed.

Lemma silent_call_RTPCallback n l t s x :
  silent_step s x -> silent_step s (call_RTPCallback n l t x).
Proof. intros H. unfold call_RTPCallback. apply silent_event; [reflexivity|exact H]. Qed.

Lemma silent_sendto_control ip port d s x :
  silent_step s x -> silent_step s (sendto ControlSocketId ip port d x).
Proof. intros H. unfold sendto. apply silent_event; [reflexivity|exact H]. Qed.

(** A session packet: its first byte is 0xFF. *)
Lemma silent_sendto_session sock ip port d s x :
  silent_step s x -> silent_step s (sendto sock ip port (0xFF :: d) x).
Proof.
  intros H. unfold sendto. apply silent_event; [|exact H]. destruct sock; reflexivity.
Qed.

Lemma silent_SendInvitation c s x :
  silent_step s x -> silent_step s (SendInvitation c x).
Proof.
  intros H. unfold SendInvitation, SessionPacketNoName. simpl app.
  destruct c; apply silent_sendto_session; exact H.
Qed.

Lemma silent_SendBYCommand s x : silent_step s x -> silent_step s (SendBYCommand x).
Proof. intros H. apply silent_sendto_control. exact H. Qed.

Lemma silent_SendInvitationReply c a ip port s x :
  silent_step s x -> silent_step s (SendInvitationReply c a ip port x).
Proof.
  intros H. unfold SendInvitationReply, SessionPacketNoName. simpl app.
  destruct c, a; apply silent_sendto_session; exact H.
Qed.

Lemma silent_SendSyncPacket c t1 t2 t3 t4 t5 t6 s x :
  silent_step s x -> silent_step s (SendSyncPacket c t1 t2 t3 t4 t5 t6 x).
Proof. intros H. unfold SendSyncPacket. simpl app. apply silent_sendto_session. exact H. Qed.

Lemma silent_SendFeedbackPacket n s x :
  silent_step s x -> silent_step s (SendFeedbackPacket n x).
Proof. intros H. apply silent_sendto_control. exact H. Qed.

Lemma silent_storeRTP_SYSEXData b s x :
  silent_step s x -> silent_step s (storeRTP_SYSEXData b x).
Proof.
  intros H. apply (silent_same s x); try exact H.
  - exact (f_equal Trace (storeRTP_SYSEXData_frame b x)).
  - exact (f_equal RTPSequence (storeRTP_SYSEXData_frame b x)).
  - exact (f_equal RTPStreamQueue (storeRTP_SYSEXData_frame b x)).
Qed.

Lemma silent_sendRTP_SYSEXBuffer t s x :
  silent_step s x -> silent_step s (sendRTP_SYSEXBuffer t x).
Proof.
  intros H. unfold sendRTP_SYSEXBuffer.
  destruct (RTPCallback x); [apply silent_call_RTPCallback|]; exact H.
Qed.

Lemma silent_sendMIDIToClient n t s x :
  silent_step s x -> silent_step s (sendMIDIToClient n t x).
Proof.
  intros H. unfold sendMIDIToClient.
  destruct (RTPCallback x); [apply silent_call_RTPCallback|]; exact H.
Qed.

(** Case analysis on every test the goal branches on. *)
Ltac split_tests :=
  repeat match goal with
    | |- context [if ?c then _ else _] => destruct c
    | |- context [match ?c with Some _ => _ | None => _ end] => destruct c
    | |- context [match ?c with [] => _ | _ :: _ => _ end] => destruct c
    end.

(** One layer of a chain of assignments, of packets sent and of calls of the
    callback is taken off the goal. *)
Ltac silent_layer :=
  lazymatch goal with
  | |- silent_step _ (call_RTPCallback _ _ _ _) => apply silent_call_RTPCallback
  | |- silent_step _ (sendto ControlSocketId _ _ _ _) => apply silent_sendto_control
  | |- silent_step _ (sendto _ _ _ (0xFF :: _) _) => apply silent_sendto_session
  | |- silent_step _ (SendInvitation _ _) => apply silent_SendInvitation
  | |- silent_step _ (SendBYCommand _) => apply silent_SendBYCommand
  | |- silent_step _ (SendInvitationReply _ _ _ _ _) => apply silent_SendInvitationReply
  | |- silent_step _ (SendSyncPacket _ _ _ _ _ _ _ _) => apply silent_SendSyncPacket
  | |- silent_step _ (SendFeedbackPacket _ _) => apply silent_SendFeedbackPacket
  | |- silent_step _ (storeRTP_SYSEXData _ _) => apply silent_storeRTP_SYSEXData
  | |- silent_step _ (sendRTP_SYSEXBuffer _ _) => apply silent_sendRTP_SYSEXBuffer
  | |- silent_step _ (sendMIDIToClient _ _ _) => apply silent_sendMIDIToClient
  | |- silent_step ?s (?f ?x) =>
      let E1 := fresh "E" in
      let E2 := fresh "E" in
      let E3 := fresh "E" in
      assert (E1 : forall c, Trace (f c) = Trace c) by (intros ?; reflexivity);
      assert (E2 : forall c, RTPSequence (f c) = RTPSequence c) by (intros ?; reflexivity);
      assert (E3 : forall c, RTPStreamQueue (f c) = RTPStreamQueue c)
        by (intros ?; reflexivity);
      apply (silent_same s x (f x) (E1 x) (E2 x) (E3 x)); clear E1 E2 E3
  end.

Ltac silent_chain :=
  cbv zeta;
  lazymatch goal with
  | |- silent_step ?s ?s => apply silent_refl
  | H : silent_step ?s ?x |- silent_step ?s ?x => exact H
  | |- silent_step _ (if ?c then _ else _) => destruct c; silent_chain
  | |- _ => silent_layer; silent_chain
  end.

Lemma silent_initRTP_SYSEXBuffer s x :
  silent_step s x -> silent_step s (initRTP_SYSEXBuffer x).
Proof. intros H. unfold initRTP_SYSEXBuffer. silent_chain. Qed.

Lemma silent_PrepareTimerEvent t s x :
  silent_step s x -> silent_step s (PrepareTimerEvent t x).
Proof. intros H. unfold PrepareTimerEvent. silent_chain. Qed.

Lemma silent_PartnerCloseSession s x :
  silent_step s x -> silent_step s (PartnerCloseSession x).
Proof.
  intros H. apply (silent_same s x); try exact H;
    unfold PartnerCloseSession; cbv zeta; split_tests; reflexivity.
Qed.

Lemma silent_RestartSession s x :
  silent_step s x -> silent_step s (RestartSession x).
Proof.
  intros H. apply (silent_same s x); try exact H;
    unfold RestartSession; cbv zeta; split_tests; reflexivity.
Qed.

Lemma silent_set_FullInMidiMsg_at i v s x :
  silent_step s x -> silent_step s (set_FullInMidiMsg_at i v x).
Proof. intros H. unfold set_FullInMidiMsg_at. silent_chain. Qed.

(** The same with the methods above among the layers. *)
Ltac silent_layer2 :=
  lazymatch goal with
  | |- silent_step _ (initRTP_SYSEXBuffer _) => apply silent_initRTP_SYSEXBuffer
  | |- silent_step _ (PrepareTimerEvent _ _) => apply silent_PrepareTimerEvent
  | |- silent_step _ (PartnerCloseSession _) => apply silent_PartnerCloseSession
  | |- silent_step _ (RestartSession _) => apply silent_RestartSession
  | |- silent_step _ (set_FullInMidiMsg_at _ _ _) => apply silent_set_FullInMidiMsg_at
  | |- _ => silent_layer
  end.

Ltac silent_chain2 :=
  cbv zeta;
  lazymatch goal with
  | |- silent_step ?s ?s => apply silent_refl
  | H : silent_step ?s ?x |- silent_step ?s ?x => exact H
  | |- silent_step _ (if ?c then _ else _) => destruct c; silent_chain2
  | |- _ => silent_layer2; silent_chain2
  end.

(** *** The decoder *)

Lemma silent_GenerateMIDIEvent_status b t s x :
  silent_step s x -> silent_step s (fst (GenerateMIDIEvent_status b t x)).
Proof.
  intros H. unfold GenerateMIDIEvent_status. split_tests; cbn [fst]; silent_chain2.
Qed.

Lemma silent_GenerateMIDIEvent_byte b t s x :
  silent_step s x -> silent_step s (fst (GenerateMIDIEvent_byte b t x)).
Proof.
  intros H. unfold GenerateMIDIEvent_byte.
  split_tests; cbn [fst];
    try (apply silent_GenerateMIDIEvent_status); silent_chain2.
Qed.

Lemma silent_GenerateMIDIEvent_loop n buf T t : forall ctr s x,
  silent_step s x -> silent_step s (fst (GenerateMIDIEvent_loop n buf ctr T t x)).
Proof.
  induction n as [|n IH]; intros ctr s x H; [exact H|].
  cbn [GenerateMIDIEvent_loop]. destruct (ctr <? T); [|exact H]. cbv zeta.
  pose proof (silent_GenerateMIDIEvent_byte (rd buf ctr) t s x H) as Hb.
  destruct (GenerateMIDIEvent_byte (rd buf ctr) t x) as [x' [|]]; cbn [fst] in *.
  - apply IH. exact Hb.
  - exact Hb.
Qed.

Lemma silent_GenerateMIDIEvent buf ctr T t s x :
  silent_step s x -> silent_step s (fst (GenerateMIDIEvent buf ctr T t x)).
Proof. apply silent_GenerateMIDIEvent_loop. Qed.

Lemma silent_ProcessIncomingRTP_scan n buf T : forall ctr s x,
  silent_step s x -> silent_step s (fst (ProcessIncomingRTP_scan n buf ctr T x)).
Proof.
  induction n as [|n IH]; intros ctr s x H; [exact H|].
  cbn [ProcessIncomingRTP_scan]. destruct (ctr <? T); [|exact H].
  destruct (GetDeltaTime buf ctr) as [dt ctr1].
  destruct (ctr1 <? T).
  - pose proof (silent_GenerateMIDIEvent buf ctr1 T (u32 (dt + LocalClock x)) s x H) as Hg.
    destruct (GenerateMIDIEvent buf ctr1 T (u32 (dt + LocalClock x)) x) as [x' ctr2].
    apply IH. exact Hg.
  - apply IH. exact H.
Qed.

Lemma silent_ProcessIncomingRTP_list buf T z s x :
  silent_step s x -> silent_step s (fst (ProcessIncomingRTP_list buf T z x)).
Proof.
  intros H. unfold ProcessIncomingRTP_list. destruct (0 <? T); [|exact H].
  destruct (if z then GetDeltaTime buf 0 else (0, 0)) as [dt ctr1].
  destruct (ctr1 <? T).
  - pose proof (silent_GenerateMIDIEvent buf ctr1 T (u32 (dt + LocalClock x)) s x H) as Hg.
    destruct (GenerateMIDIEvent buf ctr1 T (u32 (dt + LocalClock x)) x) as [x' ctr2].
    apply silent_ProcessIncomingRTP_scan. exact Hg.
  - apply silent_ProcessIncomingRTP_scan. exact H.
Qed.

Lemma silent_ProcessIncomingRTP buf s x :
  silent_step s x -> silent_step s (ProcessIncomingRTP buf x).
Proof.
  intros H. unfold ProcessIncomingRTP. cbv zeta.
  apply silent_ProcessIncomingRTP_list. silent_chain.
Qed.

(** *** The sockets *)

Lemma silent_ProcessControlSocket a r s x :
  silent_step s x -> silent_step s (snd (ProcessControlSocket a r x)).
Proof.
  intros H. unfold ProcessControlSocket.
  destruct (ControlSocket x) as [[|d q]|]; cbn [snd]; try exact H.
  cbv zeta. split_tests; cbn [snd]; silent_chain2.
Qed.

Lemma silent_RunSession_CK buf s x :
  silent_step s x -> silent_step s (RunSession_CK buf x).
Proof.
  intros H. unfold RunSession_CK. cbv zeta. split_tests; silent_chain2.
Qed.

Lemma silent_RunSession_datagram d a r s x :
  silent_step s x -> silent_step s (snd (RunSession_datagram d a r x)).
Proof.
  intros H. unfold RunSession_datagram. cbv zeta.
  split_tests; cbn [snd];
    first [ apply silent_ProcessIncomingRTP; exact H
          | apply silent_RunSession_CK; exact H
          | silent_chain2 ].
Qed.

Lemma silent_RunSession_DataSocket a r s x :
  silent_step s x -> silent_step s (snd (RunSession_DataSocket a r x)).
Proof.
  intros H. unfold RunSession_DataSocket.
  destruct (DataSocket x) as [[|d q]|]; try exact H.
  cbv zeta.
  pose proof (silent_RunSession_datagram d a r s (set_DataSocket (Some q) x)) as Hd.
  destruct (RunSession_datagram d a r (set_DataSocket (Some q) x)) as [[a' r'] x'].
  cbn [snd] in *. apply Hd. silent_chain.
Qed.

Lemma silent_RunSession_sockets n : forall fl s x,
  silent_step s x -> silent_step s (snd (RunSession_sockets n fl x)).
Proof.
  induction n as [|n IH]; intros fl s x H; [exact H|].
  cbn [RunSession_sockets].
  pose proof (silent_ProcessControlSocket (InvitationAcceptedOnCtrl fl)
                (InvitationRejectedOnCtrl fl) s x H) as Hc.
  destruct (ProcessControlSocket (InvitationAcceptedOnCtrl fl)
              (InvitationRejectedOnCtrl fl) x) as [[[pc ac] rc] x1].
  cbn [snd] in Hc.
  pose proof (silent_RunSession_DataSocket (InvitationAcceptedOnData fl)
                (InvitationRejectedOnData fl) s x1 Hc) as Hd.
  destruct (RunSession_DataSocket (InvitationAcceptedOnData fl)
              (InvitationRejectedOnData fl) x1) as [[[pd ad] rdt] x2].
  cbn [snd] in Hd. cbv zeta.
  destruct (pc || pd); [apply IH; exact Hd | exact Hd].
Qed.

Lemma silent_RunSession_timer s x :
  silent_step s x -> silent_step s (fst (RunSession_timer x)).
Proof.
  intros H. unfold RunSession_timer. cbv zeta. split_tests; cbn [fst]; silent_chain2.
Qed.

Lemma silent_RunSession_initiator te fl s x :
  silent_step s x -> silent_step s (fst (RunSession_initiator te fl x)).
Proof.
  intros H. unfold RunSession_initiator. cbv zeta.
  split_tests; cbn [fst]; silent_chain2.
Qed.

Lemma silent_RunSession_keepalive te s x :
  silent_step s x -> silent_step s (RunSession_keepalive te x).
Proof.
  intros H. unfold RunSession_keepalive. cbv zeta.
  split_tests; silent_chain2.
Qed.

(** ** Claims on the session *)

Local Arguments u32 : simpl never.
Local Arguments u16 : simpl never.
Local Arguments be32 : simpl never.
Local Arguments be16 : simpl never.
Local Arguments Z.of_nat : simpl never.

(** Case analysis on the tests of the goal, keeping what each one says. *)
Ltac split_tests_eq :=
  repeat match goal with
    | |- context [if (?a <? ?b) then _ else _] => destruct (Z.ltb_spec a b)
    | |- context [if (?a <=? ?b) then _ else _] => destruct (Z.leb_spec a b)
    | |- context [if (?a =? ?b) then _ else _] => destruct (Z.eqb_spec a b)
    | |- context [if negb (?a =? ?b) then _ else _] => destruct (Z.eqb_spec a b); cbn [negb]
    | |- context [if ?c then _ else _] => destruct c eqn:?
    end.

Lemma no_datagram_cases (Sock : TSOCKTYPE) :
  pending_datagrams Sock = 0%nat -> Sock = None \/ Sock = Some [].
Proof.
  destruct Sock as [[|d q]|]; simpl; intros H; [right|discriminate H|left]; reflexivity.
Qed.

(** *** One call of RunSession, step by step *)

(** The timer fires. *)
Lemma RunSession_timer_fires x :
  TimerRunning x = true -> 0 <= EventTime x <= 1 ->
  RunSession_timer x
  = (set_TimerRunning false
       (if 0 <? EventTime x then set_EventTime (EventTime x - 1) x else x), true).
Proof.
  intros Htr Het. unfold RunSession_timer. rewrite Htr. cbv zeta.
  destruct (Z.ltb_spec 0 (EventTime x)) as [Hpos|Hzero].
  - cbn [EventTime set_EventTime].
    destruct (Z.eqb_spec (EventTime x - 1) 0); [reflexivity|lia].
  - destruct (Z.eqb_spec (EventTime x) 0); [reflexivity|lia].
Qed.

(** No datagram is waiting: the loop over the sockets does nothing. *)
Lemma RunSession_sockets_idle n a b c d x :
  pending_datagrams (ControlSocket x) = 0%nat ->
  pending_datagrams (DataSocket x) = 0%nat ->
  RunSession_sockets (S n) (MkFlags a b c d) x = (MkFlags a b c d, x).
Proof.
  intros Hc Hd. cbn [RunSession_sockets].
  unfold ProcessControlSocket, RunSession_DataSocket.
  cbn [InvitationAcceptedOnCtrl InvitationRejectedOnCtrl InvitationAcceptedOnData
       InvitationRejectedOnData].
  destruct (no_datagram_cases _ Hc) as [-> | ->];
    destruct (no_datagram_cases _ Hd) as [Ed | Ed]; rewrite Ed; reflexivity.
Qed.

(** The initiator part in SESSION_INVITE_DATA. *)
Lemma RunSession_initiator_INVITE_DATA te fl x :
  IsInitiatorNode x = true -> SessionState x = SESSION_INVITE_DATA ->
  RunSession_initiator te fl x
  = if InvitationAcceptedOnData fl then (set_SessionState SESSION_CLOCK_SYNC0 x, false)
    else if negb (TimerRunning x) && te then
      if 12 <? InviteCount x then (RestartSession x, true)
      else
        (set_InviteCount
           (u32 (InviteCount (PrepareTimerEvent 1000 (SendInvitation false x)) + 1))
           (PrepareTimerEvent 1000 (SendInvitation false x)), true)
    else (x, false).
Proof.
  intros Hi Hs. unfold RunSession_initiator. rewrite Hi, Hs. reflexivity.
Qed.

(** A call of RunSession by an initiator in SESSION_INVITE_DATA whose timer
    fires while no datagram is waiting. *)
Lemma RunSession_INVITE_DATA_timeout s :
  EndpointLocked s = false -> IsInitiatorNode s = true ->
  SessionState s = SESSION_INVITE_DATA ->
  TimerRunning s = true -> 0 <= EventTime s <= 1 ->
  pending_datagrams (ControlSocket s) = 0%nat ->
  pending_datagrams (DataSocket s) = 0%nat ->
  let x := fst (RunSession_timer (RunSession_clock s)) in
  RunSession s
  = if 12 <? InviteCount s then RestartSession x
    else set_InviteCount (u32 (InviteCount s + 1))
           (PrepareTimerEvent 1000 (SendInvitation false x)).
Proof.
  intros Hlock Hini Hst Htr Het Hc Hd x.
  unfold RunSession. cbv zeta.
  set (x0 := RunSession_clock s) in *.
  assert (L0 : EndpointLocked x0 = false) by exact Hlock.
  assert (T0 : TimerRunning x0 = true) by exact Htr.
  assert (E0 : 0 <= EventTime x0 <= 1) by exact Het.
  rewrite L0.
  assert (Hx : RunSession_timer x0 = (x, true)).
  { subst x. rewrite (RunSession_timer_fires x0 T0 E0). reflexivity. }
  rewrite Hx.
  assert (Fx : SessionState x = SESSION_INVITE_DATA /\ IsInitiatorNode x = true /\
               TimerRunning x = false /\ InviteCount x = InviteCount s /\
               pending_datagrams (ControlSocket x) = 0%nat /\
               pending_datagrams (DataSocket x) = 0%nat).
  { subst x. rewrite (RunSession_timer_fires x0 T0 E0). cbn [fst].
    destruct (0 <? EventTime x0); repeat split; assumption. }
  destruct Fx as (Sx & Ix & Tx & Cx & Px & Qx).
  clearbody x. clear Hx.
  rewrite Sx. cbn [SessionState_eqb andb].
  rewrite ?Sx. cbn [SessionState_eqb andb].
  rewrite (RunSession_sockets_idle _ false false false false x Px Qx).
  cbn [InvitationRejectedOnCtrl InvitationRejectedOnData orb].
  rewrite (RunSession_initiator_INVITE_DATA true _ x Ix Sx).
  cbn [InvitationAcceptedOnData]. rewrite Tx. cbn [negb andb].
  rewrite Cx.
  assert (Cp : InviteCount (PrepareTimerEvent 1000 (SendInvitation false x)) = InviteCount s).
  { rewrite <- Cx. unfold SendInvitation. destruct false; reflexivity. }
  rewrite Cp.
  destruct (12 <? InviteCount s); reflexivity.
Qed.

(** The scenario of the thirteen invitations: the initiator gets no answer
    on the data port.  It sends the invitation there 13 times in all, and
    the timeout that follows the thirteenth takes it back to
    SESSION_INVITE_CONTROL with InviteCount at 0. *)
Lemma thirteen_invitations_on_data :
  let s := host_run (inviting_on_data ++ ticks (1 + 11 * 1000))
             (CRTP_MIDI_new raw0 4 true 0) in
  invitations_on_data (Trace s) = 13%nat /\
  SessionState s = SESSION_INVITE_DATA /\ InviteCount s = 13 /\ EventTime s = 1000 /\
  SessionState (host_run (ticks 1000) s) = SESSION_INVITE_CONTROL /\
  InviteCount (host_run (ticks 1000) s) = 0 /\
  invitations_on_data (Trace (host_run (ticks 1000) s)) = 13%nat.
Proof. vm_compute. repeat split. Qed.

(** *** The liveness counter *)



Lemma GeneratePayload_loop_empty fuel End q acc :
  ReadPtr q = End -> GeneratePayload_loop fuel End q acc = (q, acc).
Proof.
  intros H. destruct fuel; cbn [GeneratePayload_loop]; [reflexivity|].
  rewrite H, Z.eqb_refl. reflexivity.
Qed.

(** GeneratePayload touches the ring only, and takes nothing from an empty
    ring. *)
Lemma GeneratePayload_frame s :
  exists q l, GeneratePayload s = (set_RTPStreamQueue q s, l) /\
    (ReadPtr (RTPStreamQueue s) = WritePtr (RTPStreamQueue s) -> l = []).
Proof.
  unfold GeneratePayload. cbv zeta.
  destruct (GeneratePayload_loop (Z.to_nat MIDI_CHAR_FIFO_SIZE)
              (WritePtr (RTPStreamQueue s)) (RTPStreamQueue s) []) as [q l] eqn:E.
  exists q, l. split; [reflexivity|].
  intros He. rewrite GeneratePayload_loop_empty in E by exact He.
  congruence.
Qed.

Lemma get_be16_be16 pre x rest :
  0 <= x < 2^16 ->
  get_be16 (pre ++ be16 x ++ rest) (Z.of_nat (length pre)) = x.
Proof.
  intros Hx. unfold get_be16, be16.
  replace (Z.of_nat (length pre) + 1) with (Z.of_nat (length pre) + 1) by lia.
  replace (Z.of_nat (length pre)) with (Z.of_nat (length pre) + 0) at 1 by lia.
  rewrite !rd_app_r by lia. simpl app.
  rewrite rd_cons_0. rewrite rd_cons_S by lia. rewrite rd_cons_0.
  dmlia.
Qed.

(** The message of the tick.  Either the payload is empty, nothing is sent
    and the counter stays; or one RTP-MIDI datagram goes to the data socket
    with the counter as its sequence number, and the counter moves on by
    one.  An empty ring gives an empty payload. *)
Lemma RunSession_emit_cases s :
  RTPSequence_ok s ->
  emit_frame (RunSession_emit s) = emit_frame s /\
  ((Trace (RunSession_emit s) = Trace s /\ RTPSequence (RunSession_emit s) = RTPSequence s) \/
   (exists ip port msg,
      Trace (RunSession_emit s)
      = Trace s ++ [EvSendTo DataSocketId ip port (0x80 :: 0x61 :: msg)] /\
      SequenceNumber_of (0x80 :: 0x61 :: msg) = RTPSequence s /\
      RTPSequence (RunSession_emit s) = u16 (RTPSequence s + 1))) /\
  (ReadPtr (RTPStreamQueue s) = WritePtr (RTPStreamQueue s) ->
   Trace (RunSession_emit s) = Trace s /\ RTPSequence (RunSession_emit s) = RTPSequence s).
Proof.
  intros Hok. unfold RunSession_emit, PrepareMessage.
  destruct (GeneratePayload_frame s) as (q & l & Hg & Hempty). rewrite Hg.
  destruct l as [|b l].
  - cbn. repeat split; left; split; reflexivity.
  - cbv zeta.
    assert (Hn : (Z.of_nat (length (b :: l)) =? 0) = false)
      by (apply Z.eqb_neq; simpl length; lia).
    rewrite Hn.
    assert (Hp : (0 <? Z.of_nat (length (b :: l)) + 12 + 2) = true)
      by (apply Z.ltb_lt; lia).
    rewrite Hp.
    split; [reflexivity|]. split.
    + right. eexists _, _, _. split; [reflexivity|]. split; [|reflexivity].
      unfold SequenceNumber_of.
      apply (get_be16_be16 [0x80; 0x61] (RTPSequence s)). exact Hok.
    + intros He. specialize (Hempty He). discriminate Hempty.
Qed.






(** *** The sequence numbers of the RTP-MIDI datagrams *)

Lemma u16_range x : 0 <= u16 x < 2^16.
Proof. unfold u16. apply Z.mod_pos_bound. lia. Qed.

Lemma u16_small x : 0 <= x < 2^16 -> u16 x = x.
Proof. intros H. unfold u16. apply Z.mod_small. exact H. Qed.

Lemma u16_add_l x y : u16 (u16 x + y) = u16 (x + y).
Proof. unfold u16. apply Zplus_mod_idemp_l. Qed.

Lemma consecutive_length n k : length (consecutive n k) = k.
Proof. unfold consecutive. rewrite length_map, length_seq. reflexivity. Qed.

Lemma map_seq_lookup (f : nat -> Z) k : forall start i a,
  map f (seq start k) !! i = Some a -> a = f (start + i)%nat.
Proof.
  induction k as [|k IH]; intros start i a H; [discriminate H|].
  cbn [seq map] in H. destruct i as [|i].
  - cbn in H. injection H as <-. f_equal. lia.
  - cbn in H. apply IH in H. rewrite H. f_equal. lia.
Qed.

Lemma consecutive_lookup n k i a :
  consecutive n k !! i = Some a -> a = u16 (n + Z.of_nat i).
Proof. intros H. apply map_seq_lookup in H. exact H. Qed.

Lemma map_seq_shift (f : nat -> Z) a k : forall b,
  map f (seq (a + b) k) = map (fun i => f (a + i)%nat) (seq b k).
Proof.
  induction k as [|k IH]; intros b; [reflexivity|].
  cbn [seq map]. f_equal. rewrite <- IH. f_equal. f_equal. lia.
Qed.

Lemma consecutive_app n k1 k2 :
  consecutive n (k1 + k2)
  = consecutive n k1 ++ consecutive (u16 (n + Z.of_nat k1)) k2.
Proof.
  unfold consecutive. rewrite seq_app, map_app. f_equal.
  replace (0 + k1)%nat with (k1 + 0)%nat by lia.
  rewrite map_seq_shift. apply map_ext. intros i.
  rewrite u16_add_l. f_equal. lia.
Qed.

(** Two sequence numbers that follow each other in the list differ by one,
    modulo 2^16. *)
Lemma consecutive_adjacent n k i a b :
  consecutive n k !! i = Some a -> consecutive n k !! S i = Some b -> b = u16 (a + 1).
Proof.
  intros Ha Hb. apply consecutive_lookup in Ha, Hb. subst a b.
  rewrite u16_add_l. f_equal. lia.
Qed.

Lemma rtp_step_ok k s x : rtp_step k s x -> RTPSequence_ok x.
Proof. intros [_ H]. unfold RTPSequence_ok. rewrite H. apply u16_range. Qed.

Lemma rtp_step_of_silent s x :
  RTPSequence_ok s -> silent_step s x -> rtp_step 0 s x.
Proof.
  intros Hok ((e & Ht & Hr) & Hs & _). split.
  - exists e. split; [exact Ht|]. rewrite Hr. reflexivity.
  - rewrite Hs, Z.add_0_r, u16_small; [reflexivity|exact Hok].
Qed.

Lemma rtp_step_trans k1 k2 s x y :
  rtp_step k1 s x -> rtp_step k2 x y -> rtp_step (k1 + k2) s y.
Proof.
  intros [(e1 & T1 & R1) S1] [(e2 & T2 & R2) S2]. split.
  - exists (e1 ++ e2). split; [rewrite T2, T1, app_assoc; reflexivity|].
    rewrite rtp_sent_app, map_app, R1, R2, S1, consecutive_app. reflexivity.
  - rewrite S2, S1, u16_add_l. f_equal. lia.
Qed.

Lemma rtp_step_frame k s x y z :
  RTPSequence_ok s -> silent_step s x -> rtp_step k x y -> silent_step y z ->
  rtp_step k s z.
Proof.
  intros Hok H1 H2 H3.
  pose proof (rtp_step_of_silent s x Hok H1) as A.
  pose proof (rtp_step_of_silent y z (rtp_step_ok k x y H2) H3) as B.
  pose proof (rtp_step_trans _ _ _ _ _ (rtp_step_trans _ _ _ _ _ A H2) B) as C.
  replace (0 + k + 0)%nat with k in C by lia. exact C.
Qed.

(** The message of the tick, as a step: one datagram at most, none when
    the ring is empty. *)
Lemma rtp_step_RunSession_emit s :
  RTPSequence_ok s ->
  exists k, (k <= 1)%nat /\ rtp_step k s (RunSession_emit s) /\
    (ReadPtr (RTPStreamQueue s) = WritePtr (RTPStreamQueue s) -> k = 0%nat).
Proof.
  intros Hok.
  destruct (RunSession_emit_cases s Hok) as (_ & [[Ht Hs] | (ip & port & msg & Ht & Hn & Hs)] & He).
  - exists 0%nat. split; [lia|]. split; [|reflexivity]. split.
    + exists []. rewrite app_nil_r. split; [exact Ht|reflexivity].
    + rewrite Hs, Z.add_0_r, u16_small; [reflexivity|exact Hok].
  - exists 1%nat. split; [lia|]. split.
    + split; [|exact Hs].
      exists [EvSendTo DataSocketId ip port (0x80 :: 0x61 :: msg)]. split; [exact Ht|].
      change (rtp_sent [EvSendTo DataSocketId ip port (0x80 :: 0x61 :: msg)])
        with [0x80 :: 0x61 :: msg].
      cbn [map]. rewrite Hn. unfold consecutive. cbn [seq map].
      rewrite Z.add_0_r, u16_small; [reflexivity|exact Hok].
    + intros Hr. destruct (He Hr) as [Ht' _]. rewrite Ht' in Ht.
      apply (f_equal length) in Ht. rewrite length_app in Ht. cbn [length] in Ht. lia.
Qed.

(** RunSession sends no RTP-MIDI datagram, or it comes to the part for an
    opened session without having sent one. *)
Lemma RunSession_cases s :
  silent_step s (RunSession s) \/
  exists x te, silent_step s x /\
    RunSession s = RunSession_keepalive te (RunSession_emit x).
Proof.
  unfold RunSession. cbv zeta.
  set (x0 := RunSession_clock s).
  assert (H0 : silent_step s x0) by (subst x0; unfold RunSession_clock; silent_chain).
  clearbody x0.
  destruct (EndpointLocked x0); [left; exact H0|].
  pose proof (silent_RunSession_timer s x0 H0) as H1.
  destruct (RunSession_timer x0) as [x1 te]. cbn [fst] in H1. clear H0.
  set (x2 := if te && SessionState_eqb (SessionState x1) SESSION_WAIT_INVITE_DATA
             then _ else x1).
  assert (H2 : silent_step s x2) by (subst x2; silent_chain).
  clearbody x2. clear H1.
  set (x3 := if te && SessionState_eqb (SessionState x2) SESSION_WAIT_CLOCK_SYNC
             then _ else x2).
  assert (H3 : silent_step s x3) by (subst x3; silent_chain).
  clearbody x3. clear H2.
  pose proof (silent_RunSession_sockets
                (S (pending_datagrams (ControlSocket x3) + pending_datagrams (DataSocket x3)))
                (MkFlags false false false false) s x3 H3) as H4.
  destruct (RunSession_sockets _ _ x3) as [fl x4]. cbn [snd] in H4. clear H3.
  assert (H5 : exists fl' x5, silent_step s x5 /\
     (if InvitationRejectedOnCtrl fl || InvitationRejectedOnData fl
      then (MkFlags false (InvitationRejectedOnCtrl fl) false (InvitationRejectedOnData fl),
            set_ConnectionRefused true (PartnerCloseSession x4))
      else (fl, x4)) = (fl', x5)).
  { destruct (InvitationRejectedOnCtrl fl || InvitationRejectedOnData fl);
      eexists _, _; (split; [|reflexivity]); silent_chain2. }
  destruct H5 as (fl' & x5 & H5 & E5). rewrite E5. clear E5 H4.
  pose proof (silent_RunSession_initiator te fl' s x5 H5) as H6.
  destruct (RunSession_initiator te fl' x5) as [x6 returned]. cbn [fst] in H6.
  destruct returned; [left; exact H6|].
  unfold RunSession_opened.
  destruct (SessionState_eqb (SessionState x6) SESSION_OPENED); [|left; exact H6].
  right. exists x6, te. split; [exact H6|reflexivity].
Qed.

(** A call of RunSession sends one RTP-MIDI datagram at most, and none when
    the ring is empty. *)
Lemma rtp_step_RunSession s :
  RTPSequence_ok s ->
  exists k, (k <= 1)%nat /\ rtp_step k s (RunSession s) /\
    (ReadPtr (RTPStreamQueue s) = WritePtr (RTPStreamQueue s) -> k = 0%nat).
Proof.
  intros Hok.
  destruct (RunSession_cases s) as [H | (x & te & H & E)].
  - exists 0%nat. split; [lia|]. split; [|reflexivity].
    apply rtp_step_of_silent; assumption.
  - rewrite E. destruct H as (Htr & Hseq & Hq).
    assert (Hokx : RTPSequence_ok x) by (unfold RTPSequence_ok; rewrite Hseq; exact Hok).
    destruct (rtp_step_RunSession_emit x Hokx) as (k & Hk & Hstep & Hempty).
    exists k. split; [exact Hk|]. split.
    + apply (rtp_step_frame k s x (RunSession_emit x)); [exact Hok| |exact Hstep|].
      * split; [exact Htr|]. split; assumption.
      * apply silent_RunSession_keepalive. apply silent_refl.
    + rewrite <- Hq. exact Hempty.
Qed.

(** What the host and the network do, the calls of InitiateSession,
    RunSession and SendRTPMIDIBlock apart, sends no RTP-MIDI datagram and
    leaves the sequence counter and the ring alone. *)
Lemma silent_host_step c s :
  match c with
  | Call_InitiateSession _ _ _ _ _ _ _ _ _ _ | Call_RunSession | Call_SendRTPMIDIBlock _ => True
  | _ => silent_step s (host_step c s)
  end.
Proof.
  pose proof (silent_refl s) as Hs.
  destruct c; cbn [host_step]; try exact I.
  - unfold CloseSession. cbv zeta. split_tests; silent_chain2.
  - apply silent_RestartSession. exact Hs.
  - unfold ReadAndResetConnectionLost. split_tests; cbn [snd]; silent_chain.
  - unfold RemotePeerHasClosedSession. cbn [snd]. silent_chain.
  - unfold RemotePeerHasRefusedSession. cbn [snd]. silent_chain.
  - unfold SetCallback. silent_chain.
  - unfold setSessionName. silent_chain.
  - silent_chain.
  - silent_chain.
Qed.

(** Between two calls of InitiateSession, whatever the host and the network
    do is a step. *)
Lemma rtp_step_host_step c s :
  RTPSequence_ok s -> no_InitiateSession [c] ->
  exists k, rtp_step k s (host_step c s).
Proof.
  intros Hok Hc. apply Forall_inv in Hc.
  pose proof (silent_host_step c s) as Hs.
  destruct c; try (exists 0%nat; apply rtp_step_of_silent; assumption).
  - destruct Hc.
  - destruct (rtp_step_RunSession s Hok) as (k & _ & H & _). exists k. exact H.
  - exists 0%nat. cbn [host_step]. unfold SendRTPMIDIBlock. cbv zeta.
    assert (Same : forall x, Trace x = Trace s -> RTPSequence x = RTPSequence s ->
               rtp_step 0 s x).
    { intros x Ht Hq. split.
      - exists []. rewrite app_nil_r. split; [exact Ht|reflexivity].
      - rewrite Hq, Z.add_0_r, u16_small; [reflexivity|exact Hok]. }
    destruct (Z.of_nat (length MIDIData) =? 0); [apply Same; reflexivity|].
    destruct (negb _); [apply Same; reflexivity|].
    destruct (SendRTPMIDIBlock_loop _ _ _ _) as [fifo [t|]]; apply Same; reflexivity.
Qed.

Lemma rtp_step_host_run cs : forall s,
  RTPSequence_ok s -> no_InitiateSession cs ->
  exists k, rtp_step k s (host_run cs s).
Proof.
  induction cs as [|c cs IH]; intros s Hok Hcs.
  - exists 0%nat. apply rtp_step_of_silent; [exact Hok|apply silent_refl].
  - apply Forall_cons in Hcs as [Hc Hcs].
    destruct (rtp_step_host_step c s Hok) as (k1 & H1); [constructor; [exact Hc|constructor]|].
    destruct (IH (host_step c s) (rtp_step_ok _ _ _ H1) Hcs) as (k2 & H2).
    exists (k1 + k2)%nat. apply (rtp_step_trans k1 k2 s (host_step c s)); assumption.
Qed.

(** C8 (the claim fails as stated).  Across every run the sequence numbers
    do not go up by one: InitiateSession sets RTPSequence to 0, so the
    first datagram of a second session of the same endpoint carries 0
    again.  Here two notes are sent in a first session (numbers 0 and 1),
    the session is closed, a second one is initiated and opened, and a
    third note is sent: it carries 0, not 2. *)
Lemma C8_InitiateSession_counterexample :
  let sq := map SequenceNumber_of
              (rtp_sent (Trace (host_run two_sessions (CRTP_MIDI_new raw0 4 true 0)))) in
  sq = [0; 1; 0] /\
  ~ (forall i a b, sq !! i = Some a -> sq !! S i = Some b -> b = u16 (a + 1)).
Proof.
  assert (E : map SequenceNumber_of
                (rtp_sent (Trace (host_run two_sessions (CRTP_MIDI_new raw0 4 true 0))))
              = [0; 1; 0]) by (vm_compute; reflexivity).
  cbv zeta. rewrite E. split; [reflexivity|].
  intros H. specialize (H 1%nat 1 0 eq_refl eq_refl). discriminate H.
Qed.

(** C8 (amended).  A call of RunSession sends one RTP-MIDI datagram at
    most; when the ring is empty it sends none and leaves RTPSequence as
    it is; and in a run of the endpoint within a session (any calls of the
    host but InitiateSession, any datagrams received) the datagrams sent
    carry the sequence numbers that follow the counter, each one more than
    the one before modulo 2^16, the counter moving on by one for each
    datagram.  The statement is for calls of RunSession that find no more
    bytes waiting in the ring than the payload array takes
    (MAX_RTP_LOAD). *)
Theorem C8_sequence_numbers cs s :
  RTPSequence_ok s -> no_InitiateSession cs ->
  (ring_used (RTPStreamQueue s) <= MAX_RTP_LOAD ->
   exists evs, Trace (RunSession s) = Trace s ++ evs /\
     (length (rtp_sent evs) <= 1)%nat /\
     (ReadPtr (RTPStreamQueue s) = WritePtr (RTPStreamQueue s) ->
        rtp_sent evs = [] /\ RTPSequence (RunSession s) = RTPSequence s)) /\
  (within_MAX_RTP_LOAD cs s ->
   exists evs, Trace (host_run cs s) = Trace s ++ evs /\
     let sq := map SequenceNumber_of (rtp_sent evs) in
     sq = consecutive (RTPSequence s) (length sq) /\
     (forall i a b, sq !! i = Some a -> sq !! S i = Some b -> b = u16 (a + 1)) /\
     RTPSequence (host_run cs s) = u16 (RTPSequence s + Z.of_nat (length sq))).
Proof.
  intros Hok Hcs. split.
  - intros _.
    destruct (rtp_step_RunSession s Hok) as (k & Hk & [(evs & Ht & Hn) Hs] & He).
    assert (Hlen : length (rtp_sent evs) = k).
    { rewrite <- (length_map SequenceNumber_of), Hn. apply consecutive_length. }
    exists evs. split; [exact Ht|]. split; [lia|].
    intros Hr. specialize (He Hr). subst k. split.
    + destruct (rtp_sent evs); [reflexivity|discriminate Hlen].
    + rewrite Hs, Z.add_0_r, u16_small; [reflexivity|exact Hok].
  - intros _.
    destruct (rtp_step_host_run cs s Hok Hcs) as (k & (evs & Ht & Hn) & Hs).
    assert (Hlen : length (map SequenceNumber_of (rtp_sent evs)) = k)
      by (rewrite Hn; apply consecutive_length).
    exists evs. split; [exact Ht|]. cbv zeta. rewrite Hlen. split; [exact Hn|].
    split; [|exact Hs].
    intros i a b. rewrite Hn. apply consecutive_adjacent.
Qed.

Lemma C8_sequence_numbers_witness :
  within_MAX_RTP_LOAD two_notes (opened_endpoint 4) /\
  exists evs,
    Trace (host_run two_notes (opened_endpoint 4)) = Trace (opened_endpoint 4) ++ evs /\
    map SequenceNumber_of (rtp_sent evs) = [0; 1] /\
    RTPSequence (host_run two_notes (opened_endpoint 4)) = 2.
Proof.
  assert (Hok : RTPSequence_ok (opened_endpoint 4))
    by (vm_compute; split; [discriminate|reflexivity]).
  assert (Hcs : no_InitiateSession two_notes) by (repeat constructor).
  assert (Hw : within_MAX_RTP_LOAD two_notes (opened_endpoint 4))
    by (vm_compute; repeat split; discriminate).
  split; [exact Hw|].
  destruct (proj2 (C8_sequence_numbers two_notes (opened_endpoint 4) Hok Hcs) Hw)
    as (evs & Ht & Hn & _ & Hs).
  exists evs. split; [exact Ht|].
  assert (E : evs = drop (length (Trace (opened_endpoint 4)))
                      (Trace (host_run two_notes (opened_endpoint 4)))).
  { rewrite Ht. rewrite drop_app_length. reflexivity. }
  split.
  - rewrite E. vm_compute. reflexivity.
  - vm_compute. reflexivity.
Defined.

(** ** The loop that empties the sockets *)

(** *** What is done with a datagram leaves the sockets alone *)

Lemma socks_refl s : keeps_sockets s s.
Proof. split; reflexivity. Qed.

Lemma socks_same s x s' :
  ControlSocket s' = ControlSocket x -> DataSocket s' = DataSocket x ->
  keeps_sockets s x -> keeps_sockets s s'.
Proof. intros Hc Hd [H1 H2]. split; congruence. Qed.

Lemma socks_storeRTP_SYSEXData b s x :
  keeps_sockets s x -> keeps_sockets s (storeRTP_SYSEXData b x).
Proof.
  intros H. apply (socks_same s x); try exact H.
  - exact (f_equal ControlSocket (storeRTP_SYSEXData_frame b x)).
  - exact (f_equal DataSocket (storeRTP_SYSEXData_frame b x)).
Qed.

Lemma socks_sendRTP_SYSEXBuffer t s x :
  keeps_sockets s x -> keeps_sockets s (sendRTP_SYSEXBuffer t x).
Proof.
  intros H. unfold sendRTP_SYSEXBuffer.
  destruct (RTPCallback x); [|exact H].
  apply (socks_same s x); [reflexivity|reflexivity|exact H].
Qed.

Lemma socks_sendMIDIToClient n t s x :
  keeps_sockets s x -> keeps_sockets s (sendMIDIToClient n t x).
Proof.
  intros H. unfold sendMIDIToClient.
  destruct (RTPCallback x); [|exact H].
  apply (socks_same s x); [reflexivity|reflexivity|exact H].
Qed.

(** One layer of a chain of assignments, of packets sent and of calls of the
    callback is taken off the goal. *)
Ltac socks_layer :=
  lazymatch goal with
  | |- keeps_sockets _ (storeRTP_SYSEXData _ _) => apply socks_storeRTP_SYSEXData
  | |- keeps_sockets _ (sendRTP_SYSEXBuffer _ _) => apply socks_sendRTP_SYSEXBuffer
  | |- keeps_sockets _ (sendMIDIToClient _ _ _) => apply socks_sendMIDIToClient
  | |- keeps_sockets ?s (?f ?x) =>
      let E1 := fresh "E" in
      let E2 := fresh "E" in
      assert (E1 : forall c, ControlSocket (f c) = ControlSocket c) by (intros ?; reflexivity);
      assert (E2 : forall c, DataSocket (f c) = DataSocket c) by (intros ?; reflexivity);
      apply (socks_same s x (f x) (E1 x) (E2 x)); clear E1 E2
  end.

Ltac socks_chain :=
  cbv zeta;
  lazymatch goal with
  | |- keeps_sockets ?s ?s => apply socks_refl
  | H : keeps_sockets ?s ?x |- keeps_sockets ?s ?x => exact H
  | |- keeps_sockets _ (if ?c then _ else _) => destruct c; socks_chain
  | |- _ => socks_layer; socks_chain
  end.

Lemma socks_initRTP_SYSEXBuffer s x :
  keeps_sockets s x -> keeps_sockets s (initRTP_SYSEXBuffer x).
Proof. intros H. unfold initRTP_SYSEXBuffer. socks_chain. Qed.

Lemma socks_PrepareTimerEvent t s x :
  keeps_sockets s x -> keeps_sockets s (PrepareTimerEvent t x).
Proof. intros H. unfold PrepareTimerEvent. socks_chain. Qed.

Lemma socks_PartnerCloseSession s x :
  keeps_sockets s x -> keeps_sockets s (PartnerCloseSession x).
Proof.
  intros H. apply (socks_same s x); try exact H;
    unfold PartnerCloseSession; cbv zeta; split_tests; reflexivity.
Qed.

Lemma socks_RestartSession s x :
  keeps_sockets s x -> keeps_sockets s (RestartSession x).
Proof.
  intros H. apply (socks_same s x); try exact H;
    unfold RestartSession; cbv zeta; split_tests; reflexivity.
Qed.

Lemma socks_set_FullInMidiMsg_at i v s x :
  keeps_sockets s x -> keeps_sockets s (set_FullInMidiMsg_at i v x).
Proof. intros H. unfold set_FullInMidiMsg_at. socks_chain. Qed.

(** The same with the methods above among the layers. *)
Ltac socks_layer2 :=
  lazymatch goal with
  | |- keeps_sockets _ (initRTP_SYSEXBuffer _) => apply socks_initRTP_SYSEXBuffer
  | |- keeps_sockets _ (PrepareTimerEvent _ _) => apply socks_PrepareTimerEvent
  | |- keeps_sockets _ (PartnerCloseSession _) => apply socks_PartnerCloseSession
  | |- keeps_sockets _ (RestartSession _) => apply socks_RestartSession
  | |- keeps_sockets _ (set_FullInMidiMsg_at _ _ _) => apply socks_set_FullInMidiMsg_at
  | |- _ => socks_layer
  end.

Ltac socks_chain2 :=
  cbv zeta;
  lazymatch goal with
  | |- keeps_sockets ?s ?s => apply socks_refl
  | H : keeps_sockets ?s ?x |- keeps_sockets ?s ?x => exact H
  | |- keeps_sockets _ (if ?c then _ else _) => destruct c; socks_chain2
  | |- _ => socks_layer2; socks_chain2
  end.

(** *** The decoder *)

Lemma socks_GenerateMIDIEvent_status b t s x :
  keeps_sockets s x -> keeps_sockets s (fst (GenerateMIDIEvent_status b t x)).
Proof.
  intros H. unfold GenerateMIDIEvent_status. split_tests; cbn [fst]; socks_chain2.
Qed.

Lemma socks_GenerateMIDIEvent_byte b t s x :
  keeps_sockets s x -> keeps_sockets s (fst (GenerateMIDIEvent_byte b t x)).
Proof.
  intros H. unfold GenerateMIDIEvent_byte.
  split_tests; cbn [fst];
    try (apply socks_GenerateMIDIEvent_status); socks_chain2.
Qed.

Lemma socks_GenerateMIDIEvent_loop n buf T t : forall ctr s x,
  keeps_sockets s x -> keeps_sockets s (fst (GenerateMIDIEvent_loop n buf ctr T t x)).
Proof.
  induction n as [|n IH]; intros ctr s x H; [exact H|].
  cbn [GenerateMIDIEvent_loop]. destruct (ctr <? T); [|exact H]. cbv zeta.
  pose proof (socks_GenerateMIDIEvent_byte (rd buf ctr) t s x H) as Hb.
  destruct (GenerateMIDIEvent_byte (rd buf ctr) t x) as [x' [|]]; cbn [fst] in *.
  - apply IH. exact Hb.
  - exact Hb.
Qed.

Lemma socks_GenerateMIDIEvent buf ctr T t s x :
  keeps_sockets s x -> keeps_sockets s (fst (GenerateMIDIEvent buf ctr T t x)).
Proof. apply socks_GenerateMIDIEvent_loop. Qed.

Lemma socks_ProcessIncomingRTP_scan n buf T : forall ctr s x,
  keeps_sockets s x -> keeps_sockets s (fst (ProcessIncomingRTP_scan n buf ctr T x)).
Proof.
  induction n as [|n IH]; intros ctr s x H; [exact H|].
  cbn [ProcessIncomingRTP_scan]. destruct (ctr <? T); [|exact H].
  destruct (GetDeltaTime buf ctr) as [dt ctr1].
  destruct (ctr1 <? T).
  - pose proof (socks_GenerateMIDIEvent buf ctr1 T (u32 (dt + LocalClock x)) s x H) as Hg.
    destruct (GenerateMIDIEvent buf ctr1 T (u32 (dt + LocalClock x)) x) as [x' ctr2].
    apply IH. exact Hg.
  - apply IH. exact H.
Qed.

Lemma socks_ProcessIncomingRTP_list buf T z s x :
  keeps_sockets s x -> keeps_sockets s (fst (ProcessIncomingRTP_list buf T z x)).
Proof.
  intros H. unfold ProcessIncomingRTP_list. destruct (0 <? T); [|exact H].
  destruct (if z then GetDeltaTime buf 0 else (0, 0)) as [dt ctr1].
  destruct (ctr1 <? T).
  - pose proof (socks_GenerateMIDIEvent buf ctr1 T (u32 (dt + LocalClock x)) s x H) as Hg.
    destruct (GenerateMIDIEvent buf ctr1 T (u32 (dt + LocalClock x)) x) as [x' ctr2].
    apply socks_ProcessIncomingRTP_scan. exact Hg.
  - apply socks_ProcessIncomingRTP_scan. exact H.
Qed.

Lemma socks_ProcessIncomingRTP buf s x :
  keeps_sockets s x -> keeps_sockets s (ProcessIncomingRTP buf x).
Proof.
  intros H. unfold ProcessIncomingRTP. cbv zeta.
  apply socks_ProcessIncomingRTP_list. socks_chain.
Qed.

(** *** The sockets *)

(** ProcessControlSocket takes the first datagram from the control socket
    and touches no socket after that. *)
Lemma socks_ProcessControlSocket a r s d q :
  ControlSocket s = Some (d :: q) ->
  keeps_sockets (set_ControlSocket (Some q) s) (snd (ProcessControlSocket a r s)).
Proof.
  intros E. unfold ProcessControlSocket. rewrite E.
  pose proof (socks_refl (set_ControlSocket (Some q) s)) as H.
  cbv zeta. split_tests; cbn [snd]; socks_chain2.
Qed.

Lemma socks_RunSession_CK buf s x :
  keeps_sockets s x -> keeps_sockets s (RunSession_CK buf x).
Proof.
  intros H. unfold RunSession_CK. cbv zeta. split_tests; socks_chain2.
Qed.

Lemma socks_RunSession_datagram d a r s x :
  keeps_sockets s x -> keeps_sockets s (snd (RunSession_datagram d a r x)).
Proof.
  intros H. unfold RunSession_datagram. cbv zeta.
  split_tests; cbn [snd];
    first [ apply socks_ProcessIncomingRTP; exact H
          | apply socks_RunSession_CK; exact H
          | socks_chain2 ].
Qed.


(** *** Every turn of the loop but the last takes a datagram *)

Lemma ProcessControlSocket_sockets a r s :
  DataSocket (snd (ProcessControlSocket a r s)) = DataSocket s /\
  (pending_datagrams (ControlSocket (snd (ProcessControlSocket a r s)))
   <= pending_datagrams (ControlSocket s))%nat /\
  (fst (fst (fst (ProcessControlSocket a r s))) = true ->
   pending_datagrams (ControlSocket (snd (ProcessControlSocket a r s)))
   < pending_datagrams (ControlSocket s))%nat.
Proof.
  destruct (ControlSocket s) as [[|d q]|] eqn:E.
  - unfold ProcessControlSocket. rewrite E. cbn [snd fst]. rewrite E.
    repeat split; [lia|discriminate].
  - destruct (socks_ProcessControlSocket a r s d q E) as [Hc Hd].
    rewrite Hc, Hd. unfold pending_datagrams. cbn. repeat split; lia.
  - unfold ProcessControlSocket. rewrite E. cbn [snd fst]. rewrite E.
    repeat split; [lia|discriminate].
Qed.

Lemma RunSession_DataSocket_sockets a r s :
  ControlSocket (snd (RunSession_DataSocket a r s)) = ControlSocket s /\
  (pending_datagrams (DataSocket (snd (RunSession_DataSocket a r s)))
   <= pending_datagrams (DataSocket s))%nat /\
  (fst (fst (fst (RunSession_DataSocket a r s))) = true ->
   pending_datagrams (DataSocket (snd (RunSession_DataSocket a r s)))
   < pending_datagrams (DataSocket s))%nat.
Proof.
  unfold RunSession_DataSocket.
  destruct (DataSocket s) as [[|d q]|] eqn:E.
  - cbn [snd fst]. rewrite E. repeat split; [lia|discriminate].
  - cbv zeta.
    pose proof (socks_RunSession_datagram d a r _ _ (socks_refl (set_DataSocket (Some q) s)))
      as H.
    destruct (RunSession_datagram d a r (set_DataSocket (Some q) s)) as [[a' r'] x'].
    cbn [snd fst] in *. destruct H as [Hc Hd]. rewrite Hc, Hd.
    unfold pending_datagrams. cbn. repeat split; lia.
  - cbn [snd fst]. rewrite E. repeat split; [lia|discriminate].
Qed.

(** The loop leaves by its own test before the fuel is used up: more fuel
    than one turn for each waiting datagram, and one, changes nothing. *)
Lemma RunSession_sockets_fuel n : forall m fl s,
  (pending_datagrams (ControlSocket s) + pending_datagrams (DataSocket s) < n)%nat ->
  (n <= m)%nat ->
  RunSession_sockets m fl s = RunSession_sockets n fl s.
Proof.
  induction n as [|n IH]; intros m fl s Hp Hm; [lia|].
  destruct m as [|m]; [lia|].
  cbn [RunSession_sockets].
  pose proof (ProcessControlSocket_sockets (InvitationAcceptedOnCtrl fl)
                (InvitationRejectedOnCtrl fl) s) as (K1 & K2 & K3).
  destruct (ProcessControlSocket (InvitationAcceptedOnCtrl fl)
              (InvitationRejectedOnCtrl fl) s) as [[[pc ac] rc] x1].
  cbn [snd fst] in *.
  pose proof (RunSession_DataSocket_sockets (InvitationAcceptedOnData fl)
                (InvitationRejectedOnData fl) x1) as (D1 & D2 & D3).
  destruct (RunSession_DataSocket (InvitationAcceptedOnData fl)
              (InvitationRejectedOnData fl) x1) as [[[pd ad] rdt] x2].
  cbn [snd fst] in *.
  destruct (pc || pd) eqn:Ep; [|reflexivity].
  apply IH; [|lia].
  rewrite D1. rewrite K1 in D2, D3.
  destruct pc; [specialize (K3 eq_refl); lia|].
  destruct pd; [specialize (D3 eq_refl); lia|discriminate Ep].
Qed.

(** ** The scan of the MIDI list ends before its fuel *)

Lemma GetDeltaTime_loop_ctr_ge n sgn buf : forall ctr bc v,
  ctr <= snd (GetDeltaTime_loop n sgn buf ctr bc v).
Proof.
  induction n as [|n IH]; intros ctr bc v; [cbn; lia|].
  cbn [GetDeltaTime_loop]. cbv zeta.
  match goal with |- context [if ?c then _ else _] => destruct c end.
  - specialize (IH (ctr + 1) (bc + 1)
                  (u32 (u32 (Z.shiftl v 7) + u32 (char_of_byte sgn (rd buf ctr))))). lia.
  - cbn [snd]. lia.
Qed.

(** GetDeltaTime reads one byte at least. *)
Lemma GetDeltaTime_ctr_ge buf ctr : ctr + 1 <= snd (GetDeltaTime buf ctr).
Proof.
  unfold GetDeltaTime, GetDeltaTime_on. cbv zeta.
  destruct (negb _); [|cbn [snd]; lia].
  apply GetDeltaTime_loop_ctr_ge.
Qed.

Lemma ProcessIncomingRTP_scan_fuel buf T n : forall ctr s,
  T - ctr <= Z.of_nat n ->
  ProcessIncomingRTP_scan (S n) buf ctr T s = ProcessIncomingRTP_scan n buf ctr T s.
Proof.
  induction n as [|n IH]; intros ctr s Hn.
  - cbn [ProcessIncomingRTP_scan]. destruct (Z.ltb_spec ctr T); [lia|reflexivity].
  - change (ProcessIncomingRTP_scan (S (S n)) buf ctr T s) with
      (if ctr <? T then
         let '(DeltaTime, CtrByteMIDI) := GetDeltaTime buf ctr in
         let '(s, CtrByteMIDI) :=
           if CtrByteMIDI <? T
           then GenerateMIDIEvent buf CtrByteMIDI T (u32 (DeltaTime + LocalClock s)) s
           else (s, CtrByteMIDI) in
         ProcessIncomingRTP_scan (S n) buf CtrByteMIDI T s
       else (s, ctr)).
    change (ProcessIncomingRTP_scan (S n) buf ctr T s) with
      (if ctr <? T then
         let '(DeltaTime, CtrByteMIDI) := GetDeltaTime buf ctr in
         let '(s, CtrByteMIDI) :=
           if CtrByteMIDI <? T
           then GenerateMIDIEvent buf CtrByteMIDI T (u32 (DeltaTime + LocalClock s)) s
           else (s, CtrByteMIDI) in
         ProcessIncomingRTP_scan n buf CtrByteMIDI T s
       else (s, ctr)).
    destruct (ctr <? T); [|reflexivity].
    pose proof (GetDeltaTime_ctr_ge buf ctr) as Hd.
    destruct (GetDeltaTime buf ctr) as [dt ctr1]. cbn [snd] in Hd.
    destruct (Z.ltb_spec ctr1 T) as [Hlt|Hge].
    + pose proof (GenerateMIDIEvent_loop_ctr (Z.to_nat (T - ctr1)) buf T
                    (u32 (dt + LocalClock s)) ctr1 s ltac:(lia)) as Hg.
      fold (GenerateMIDIEvent buf ctr1 T (u32 (dt + LocalClock s)) s) in Hg.
      destruct (GenerateMIDIEvent buf ctr1 T (u32 (dt + LocalClock s)) s) as [s' ctr2].
      cbn [snd] in Hg. apply IH. lia.
    + apply IH. lia.
Qed.

(** ** The pointers of the ring stay inside the array *)

Ltac ring_peel :=
  cbv zeta;
  lazymatch goal with
  | |- RTPStreamQueue ?s = RTPStreamQueue ?s => reflexivity
  | |- RTPStreamQueue (if ?c then _ else _) = _ => destruct c; ring_peel
  | |- RTPStreamQueue (?f ?x) = _ =>
      let E := fresh "E" in
      assert (E : forall c, RTPStreamQueue (f c) = RTPStreamQueue c)
        by (intros ?; reflexivity);
      rewrite (E x); clear E; ring_peel
  end.

Lemma InitiateSession_RTPStreamQueue ip cp dp lcp ldp ini r1 r2 ok1 ok2 s :
  RTPStreamQueue (snd (InitiateSession ip cp dp lcp ldp ini r1 r2 ok1 ok2 s))
  = RTPStreamQueue s.
Proof.
  unfold InitiateSession. cbv zeta.
  destruct (negb _); cbn [snd]; unfold CloseSockets, PrepareTimerEvent; ring_peel.
Qed.

Lemma RunSession_emit_ring_wf s :
  ring_wf (RTPStreamQueue s) -> ring_wf (RTPStreamQueue (RunSession_emit s)).
Proof.
  intros Hwf. unfold RunSession_emit, PrepareMessage.
  rewrite (GeneratePayload_spec s Hwf). cbv zeta.
  assert (Hwf' : ring_wf (set_ReadPtr (WritePtr (RTPStreamQueue s)) (RTPStreamQueue s))).
  { destruct Hwf as (Hl & Hr & Hw). destruct (RTPStreamQueue s) as [f r w].
    unfold ring_wf, set_ReadPtr. cbn [FIFO ReadPtr WritePtr] in *. repeat split; lia. }
  destruct (Z.of_nat (length (ring_pending (RTPStreamQueue s))) =? 0); cbv iota beta.
  - cbn. exact Hwf'.
  - destruct (0 <? _); exact Hwf'.
Qed.

Lemma RunSession_ring_wf s :
  ring_wf (RTPStreamQueue s) -> ring_wf (RTPStreamQueue (RunSession s)).
Proof.
  intros Hwf. destruct (RunSession_cases s) as [(_ & _ & Hq) | (x & te & (_ & _ & Hq) & E)].
  - rewrite Hq. exact Hwf.
  - rewrite E.
    destruct (silent_RunSession_keepalive te _ _ (silent_refl (RunSession_emit x)))
      as (_ & _ & Hk).
    rewrite Hk. apply RunSession_emit_ring_wf. rewrite Hq. exact Hwf.
Qed.

(** Whatever the host and the network do, the pointers of the ring stay
    indices of its array: the loop of GeneratePayload always meets the
    write pointer. *)
Lemma ring_wf_host_step c s :
  ring_wf (RTPStreamQueue s) -> ring_wf (RTPStreamQueue (host_step c s)).
Proof.
  intros Hwf. pose proof (silent_host_step c s) as Hs.
  destruct c; try (destruct Hs as (_ & _ & Hq); rewrite Hq; exact Hwf).
  - cbn [host_step]. rewrite InitiateSession_RTPStreamQueue. exact Hwf.
  - apply RunSession_ring_wf. exact Hwf.
  - cbn [host_step]. apply (SendRTPMIDIBlock_total MIDIData s Hwf).
Qed.

Lemma ring_wf_host_run cs : forall s,
  ring_wf (RTPStreamQueue s) -> ring_wf (RTPStreamQueue (host_run cs s)).
Proof.
  induction cs as [|c cs IH]; intros s Hwf; [exact Hwf|].
  apply IH. apply ring_wf_host_step. exact Hwf.
Qed.

(** The constructor puts both pointers at the start of the array. *)
Lemma ring_wf_new raw SYXInSize cb inst :
  Z.of_nat (length (FIFO (RTPStreamQueue raw))) = MIDI_CHAR_FIFO_SIZE ->
  ring_wf (RTPStreamQueue (CRTP_MIDI_new raw SYXInSize cb inst)).
Proof.
  intros Hl.
  assert (E : RTPStreamQueue (CRTP_MIDI_new raw SYXInSize cb inst)
              = set_WritePtr 0 (set_ReadPtr 0 (RTPStreamQueue raw))).
  { unfold CRTP_MIDI_new, initRTP_SYSEXBuffer. cbv zeta.
    repeat match goal with
    | |- RTPStreamQueue (?f ?x) = _ =>
        first [ (let E := fresh "E" in
                 assert (E : forall c, RTPStreamQueue (f c) = RTPStreamQueue c)
                   by (intros ?; reflexivity);
                 rewrite (E x); clear E)
              | (let E := fresh "E" in
                 assert (E : forall q c, RTPStreamQueue (set_RTPStreamQueue q c) = q)
                   by (intros ? ?; reflexivity);
                 rewrite E; clear E) ]
    end.
    apply (f_equal (fun q => set_WritePtr 0 (set_ReadPtr 0 q))). ring_peel. }
  rewrite E. destruct (RTPStreamQueue raw) as [f r w].
  unfold ring_wf, set_ReadPtr, set_WritePtr. cbn [FIFO ReadPtr WritePtr] in *.
  unfold MIDI_CHAR_FIFO_SIZE in *. repeat split; lia.
Qed.

(** ** A new session *)

(** InitiateSession starts the numbering of the RTP-MIDI datagrams again. *)
Lemma InitiateSession_RTPSequence ip cp dp lcp ldp ini r1 r2 ok1 ok2 s :
  RTPSequence (snd (InitiateSession ip cp dp lcp ldp ini r1 r2 ok1 ok2 s)) = 0.
Proof.
  unfold InitiateSession. cbv zeta.
  destruct (negb _); cbn [snd]; unfold CloseSockets, PrepareTimerEvent;
    repeat match goal with
    | |- RTPSequence (if ?c then _ else _) = _ => destruct c
    | |- RTPSequence (set_RTPSequence 0 _) = 0 => reflexivity
    | |- RTPSequence (?f ?x) = _ =>
        let E := fresh "E" in
        assert (E : forall c, RTPSequence (f c) = RTPSequence c) by (intros ?; reflexivity);
        rewrite (E x); clear E
    end.
Qed.

(** ** The decoder keeps the fill index at 0 outside a SYSEX message *)

Lemma keeps_sysex_refl s : keeps_sysex s s.
Proof. split; reflexivity. Qed.

Lemma keeps_sysex_same s x s' :
  SYSEX_RTPActif s' = SYSEX_RTPActif x -> InSYSEXBufferPtr s' = InSYSEXBufferPtr x ->
  keeps_sysex s x -> keeps_sysex s s'.
Proof. intros Ha Hp [H1 H2]. split; congruence. Qed.

Lemma keeps_sysex_inv s x : keeps_sysex s x -> sysex_ptr_inv s -> sysex_ptr_inv x.
Proof. intros [Ha Hp] H. unfold sysex_ptr_inv. rewrite Ha, Hp. exact H. Qed.

Lemma keeps_sysex_sendMIDIToClient n t s x :
  keeps_sysex s x -> keeps_sysex s (sendMIDIToClient n t x).
Proof.
  intros H. unfold sendMIDIToClient.
  destruct (RTPCallback x); [|exact H].
  apply (keeps_sysex_same s x); [reflexivity|reflexivity|exact H].
Qed.

Ltac keeps_sysex_chain :=
  cbv zeta;
  lazymatch goal with
  | |- keeps_sysex ?s ?s => apply keeps_sysex_refl
  | H : keeps_sysex ?s ?x |- keeps_sysex ?s ?x => exact H
  | |- keeps_sysex _ (if ?c then _ else _) => destruct c; keeps_sysex_chain
  | |- keeps_sysex _ (sendMIDIToClient _ _ _) =>
      apply keeps_sysex_sendMIDIToClient; keeps_sysex_chain
  | |- keeps_sysex ?s (?f ?x) =>
      let E1 := fresh "E" in
      let E2 := fresh "E" in
      assert (E1 : forall c, SYSEX_RTPActif (f c) = SYSEX_RTPActif c)
        by (intros ?; reflexivity);
      assert (E2 : forall c, InSYSEXBufferPtr (f c) = InSYSEXBufferPtr c)
        by (intros ?; reflexivity);
      apply (keeps_sysex_same s x (f x) (E1 x) (E2 x)); clear E1 E2;
      keeps_sysex_chain
  end.

(** The processing of channel and system messages does not touch the
    SYSEX members. *)
Lemma keeps_sysex_GenerateMIDIEvent_status b t s x :
  keeps_sysex s x -> keeps_sysex s (fst (GenerateMIDIEvent_status b t x)).
Proof.
  intros H. unfold GenerateMIDIEvent_status, set_FullInMidiMsg_at.
  split_tests; cbn [fst]; keeps_sysex_chain.
Qed.

Lemma initRTP_SYSEXBuffer_ptr s : InSYSEXBufferPtr (initRTP_SYSEXBuffer s) = 0.
Proof. reflexivity. Qed.

Lemma GenerateMIDIEvent_status_after_init b t s :
  sysex_ptr_inv (fst (GenerateMIDIEvent_status b t (initRTP_SYSEXBuffer s))).
Proof.
  destruct (keeps_sysex_GenerateMIDIEvent_status b t _ _
              (keeps_sysex_refl (initRTP_SYSEXBuffer s))) as [_ Hp].
  intros _. rewrite Hp. reflexivity.
Qed.

(** One byte of a MIDI list: whatever the decoder does with it, the fill
    index is 0 when no SYSEX message is open afterwards. *)
Lemma sysex_ptr_inv_GenerateMIDIEvent_byte b t s :
  sysex_ptr_inv s -> sysex_ptr_inv (fst (GenerateMIDIEvent_byte b t s)).
Proof.
  intros Hinv. unfold GenerateMIDIEvent_byte.
  assert (Open : forall x, SYSEX_RTPActif x = true -> sysex_ptr_inv x).
  { intros x Hx Hf. rewrite Hx in Hf. discriminate Hf. }
  assert (Kept : forall x, keeps_sysex s x -> sysex_ptr_inv x).
  { intros x Hk. exact (keeps_sysex_inv s x Hk Hinv). }
  destruct ((b =? 0xF0) && negb (SYSEX_RTPActif s)).
  { cbn [fst]. apply Open.
    rewrite (proj1 (storeRTP_SYSEXData_flags 0xF0 _)). reflexivity. }
  destruct (SYSEX_RTPActif s) eqn:Ea.
  2:{ apply Kept. apply keeps_sysex_GenerateMIDIEvent_status. apply keeps_sysex_refl. }
  destruct (b =? 0xF0); [cbn [fst]; apply Open; exact Ea|].
  destruct (b =? 0xF7).
  { destruct (SegmentSYSEXInput s); cbn [fst].
    - intros _. reflexivity.
    - apply Open. exact Ea. }
  destruct (b =? 0xF4); [cbn [fst]; intros _; reflexivity|].
  destruct (SegmentSYSEXInput s).
  2:{ apply Kept. apply keeps_sysex_GenerateMIDIEvent_status. apply keeps_sysex_refl. }
  destruct (b <? 0x80).
  { cbn [fst]. apply Open. rewrite (proj1 (storeRTP_SYSEXData_flags b s)). exact Ea. }
  destruct (0xF8 <=? b).
  { cbn [fst]. apply Kept. unfold set_FullInMidiMsg_at. keeps_sysex_chain. }
  apply GenerateMIDIEvent_status_after_init.
Qed.

Lemma sysex_ptr_inv_GenerateMIDIEvent_loop n buf T t : forall ctr s,
  sysex_ptr_inv s -> sysex_ptr_inv (fst (GenerateMIDIEvent_loop n buf ctr T t s)).
Proof.
  induction n as [|n IH]; intros ctr s H; [exact H|].
  cbn [GenerateMIDIEvent_loop]. destruct (ctr <? T); [|exact H]. cbv zeta.
  pose proof (sysex_ptr_inv_GenerateMIDIEvent_byte (rd buf ctr) t s H) as Hb.
  destruct (GenerateMIDIEvent_byte (rd buf ctr) t s) as [x' [|]]; cbn [fst] in *.
  - apply IH. exact Hb.
  - exact Hb.
Qed.

Lemma sysex_ptr_inv_ProcessIncomingRTP_scan n buf T : forall ctr s,
  sysex_ptr_inv s -> sysex_ptr_inv (fst (ProcessIncomingRTP_scan n buf ctr T s)).
Proof.
  induction n as [|n IH]; intros ctr s H; [exact H|].
  cbn [ProcessIncomingRTP_scan]. destruct (ctr <? T); [|exact H].
  destruct (GetDeltaTime buf ctr) as [dt ctr1].
  destruct (ctr1 <? T).
  - pose proof (sysex_ptr_inv_GenerateMIDIEvent_loop (Z.to_nat (T - ctr1)) buf T
                  (u32 (dt + LocalClock s)) ctr1 s H) as Hg.
    fold (GenerateMIDIEvent buf ctr1 T (u32 (dt + LocalClock s)) s) in Hg.
    destruct (GenerateMIDIEvent buf ctr1 T (u32 (dt + LocalClock s)) s) as [x' ctr2].
    apply IH. exact Hg.
  - apply IH. exact H.
Qed.

(** The decoding of a datagram keeps the invariant: a message that ends
    (F7), is cancelled (F4) or is cut by a status byte goes through
    initRTP_SYSEXBuffer, which takes the fill index back to 0. *)
Lemma sysex_ptr_inv_ProcessIncomingRTP buf s :
  sysex_ptr_inv s -> sysex_ptr_inv (ProcessIncomingRTP buf s).
Proof.
  intros H. unfold ProcessIncomingRTP, ProcessIncomingRTP_list. cbv zeta.
  set (x := set_LastRTPCounter (get_be16 buf 2) s).
  assert (Hx : sysex_ptr_inv x) by exact H.
  clearbody x.
  destruct (0 <? TailleListeMIDI_of buf); [|exact Hx].
  destruct (if PresenceFirstDelta_of buf then GetDeltaTime (PtrListeMIDI_of buf) 0 else (0, 0))
    as [dt ctr1].
  destruct (ctr1 <? TailleListeMIDI_of buf).
  - pose proof (sysex_ptr_inv_GenerateMIDIEvent_loop
                  (Z.to_nat (TailleListeMIDI_of buf - ctr1)) (PtrListeMIDI_of buf)
                  (TailleListeMIDI_of buf) (u32 (dt + LocalClock x)) ctr1 x Hx) as Hg.
    fold (GenerateMIDIEvent (PtrListeMIDI_of buf) ctr1 (TailleListeMIDI_of buf)
            (u32 (dt + LocalClock x)) x) in Hg.
    destruct (GenerateMIDIEvent (PtrListeMIDI_of buf) ctr1 (TailleListeMIDI_of buf)
                (u32 (dt + LocalClock x)) x) as [x' ctr2].
    apply sysex_ptr_inv_ProcessIncomingRTP_scan. exact Hg.
  - apply sysex_ptr_inv_ProcessIncomingRTP_scan. exact Hx.
Qed.

(** * Further properties *)

(** ** Delta-times *)

Lemma GetDeltaTime_loop_shift n sgn pre l : forall c bc v,
  0 <= c ->
  GetDeltaTime_loop n sgn (pre ++ l) (Z.of_nat (length pre) + c) bc v
  = (fst (GetDeltaTime_loop n sgn l c bc v),
     Z.of_nat (length pre) + snd (GetDeltaTime_loop n sgn l c bc v)).
Proof.
  induction n as [|n IH]; intros c bc v Hc; [reflexivity|].
  cbn [GetDeltaTime_loop]. cbv zeta. rewrite rd_app_r by exact Hc.
  match goal with |- context [if ?t then _ else _] => destruct t end.
  - replace (Z.of_nat (length pre) + c + 1) with (Z.of_nat (length pre) + (c + 1)) by lia.
    apply IH. lia.
  - cbn [fst snd]. f_equal. lia.
Qed.

(** GetDeltaTime at an offset of a buffer is GetDeltaTime on what starts
    there. *)
Lemma GetDeltaTime_on_shift sgn pre l :
  GetDeltaTime_on sgn (pre ++ l) (Z.of_nat (length pre))
  = (fst (GetDeltaTime_on sgn l 0), Z.of_nat (length pre) + snd (GetDeltaTime_on sgn l 0)).
Proof.
  unfold GetDeltaTime_on. cbv zeta.
  assert (E : rd (pre ++ l) (Z.of_nat (length pre)) = rd l 0).
  { rewrite <- (rd_app_r pre l 0) by lia. f_equal. lia. }
  rewrite E.
  destruct (negb (Z.land (rd l 0) 128 =? 0)).
  - change (0 + 1) with 1.
    apply (GetDeltaTime_loop_shift 4 sgn pre l 1 1); lia.
  - cbn [fst snd]. f_equal; lia.
Qed.

Lemma GetDeltaTime_on_vlq_at sgn pre v rest :
  0 <= v < 2^14 ->
  GetDeltaTime_on sgn (pre ++ vlq_encode v ++ rest) (Z.of_nat (length pre))
  = (v, Z.of_nat (length pre) + Z.of_nat (length (vlq_encode v))).
Proof.
  intros Hv. rewrite GetDeltaTime_on_shift.
  rewrite (GetDeltaTime_vlq_below_2_14 sgn v rest Hv). reflexivity.
Qed.

(** X1: a delta-time below 2^14, encoded on one or two bytes anywhere in a
    buffer, is read back by GetDeltaTime, which leaves the byte counter
    behind the encoding; plain char being signed or not makes no
    difference, nor does what follows in the buffer. *)
Theorem GetDeltaTime_roundtrip_below_2_14 sgn pre v rest :
  0 <= v < 2^14 ->
  GetDeltaTime_on sgn (pre ++ vlq_encode v ++ rest) (Z.of_nat (length pre))
  = (v, Z.of_nat (length pre) + Z.of_nat (length (vlq_encode v))).
Proof. exact (GetDeltaTime_on_vlq_at sgn pre v rest). Qed.

Lemma GetDeltaTime_roundtrip_below_2_14_witness :
  GetDeltaTime_on true ([0x90; 0x40; 0x7F] ++ vlq_encode 1000 ++ [0x41; 0x7F]) 3
  = (1000, 5).
Proof.
  exact (GetDeltaTime_roundtrip_below_2_14 true [0x90; 0x40; 0x7F] 1000 [0x41; 0x7F]
           ltac:(lia)).
Defined.

Lemma GetDeltaTime_loop_ctr_le n sgn buf : forall ctr bc v,
  snd (GetDeltaTime_loop n sgn buf ctr bc v) <= ctr + Z.of_nat n.
Proof.
  induction n as [|n IH]; intros ctr bc v; [cbn; lia|].
  cbn [GetDeltaTime_loop]. cbv zeta.
  match goal with |- context [if ?c then _ else _] => destruct c end.
  - specialize (IH (ctr + 1) (bc + 1)
                  (u32 (u32 (Z.shiftl v 7) + u32 (char_of_byte sgn (rd buf ctr))))). lia.
  - cbn [snd]. lia.
Qed.

(** X2: GetDeltaTime reads one byte at least and five at most, whatever
    the buffer holds; it reads one byte exactly when the first has bit 7
    clear, and the value is then that byte. *)
Theorem GetDeltaTime_reads_1_to_5 sgn buf ctr :
  ctr + 1 <= snd (GetDeltaTime_on sgn buf ctr) <= ctr + 5 /\
  (Z.land (rd buf ctr) 0x80 = 0 -> GetDeltaTime_on sgn buf ctr = (rd buf ctr, ctr + 1)).
Proof.
  unfold GetDeltaTime_on. cbv zeta. split.
  - destruct (negb _); [|cbn [snd]; lia].
    pose proof (GetDeltaTime_loop_ctr_ge 4 sgn buf (ctr + 1) 1 (Z.land (rd buf ctr) 127)).
    pose proof (GetDeltaTime_loop_ctr_le 4 sgn buf (ctr + 1) 1 (Z.land (rd buf ctr) 127)).
    lia.
  - intros H. rewrite H. reflexivity.
Qed.

(** ** Channel messages *)

Lemma land_0x80_status b : 0x80 <= b < 0x100 -> negb (Z.land b 0x80 =? 0) = true.
Proof. intros H. rewrite land_0x80_high by lia. reflexivity. Qed.

Lemma land_0x80_data b : 0 <= b < 0x80 -> negb (Z.land b 0x80 =? 0) = false.
Proof. intros H. rewrite land_0x80_low by lia. reflexivity. Qed.

(** Outside a SYSEX message a byte other than F0 goes to the processing of
    channel and system messages. *)
Lemma GenerateMIDIEvent_byte_status b t s :
  SYSEX_RTPActif s = false -> b <> 0xF0 ->
  GenerateMIDIEvent_byte b t s = GenerateMIDIEvent_status b t s.
Proof.
  intros Ha Hb. unfold GenerateMIDIEvent_byte. rewrite Ha.
  destruct (Z.eqb_spec b 0xF0); [contradiction|]. reflexivity.
Qed.

(** The status byte of a channel message becomes the running status. *)
Lemma GenerateMIDIEvent_status_channel st t s :
  0x80 <= st < 0xF0 ->
  GenerateMIDIEvent_status st t s
  = (set_IncomingThirdByte false (set_FullInMidiMsg_at 0 st (set_RTPRunningStatus st s)),
     NextByte).
Proof.
  intros H. unfold GenerateMIDIEvent_status. rewrite land_0x80_status by lia.
  destruct (Z.leb_spec 0xF8 st); [lia|]. cbv zeta.
  destruct (Z.eqb_spec st 0xF6); [lia|]. reflexivity.
Qed.

(** The first data byte of a message of three bytes is kept. *)
Lemma GenerateMIDIEvent_status_second d t s :
  0 <= d < 0x80 -> IncomingThirdByte s = false -> status3 (RTPRunningStatus s) ->
  GenerateMIDIEvent_status d t s
  = (set_FullInMidiMsg_at 1 d (set_IncomingThirdByte true s), NextByte).
Proof.
  intros Hd H3 Hst. unfold GenerateMIDIEvent_status. rewrite land_0x80_data by lia.
  rewrite H3. unfold status3 in Hst.
  destruct (Z.eqb_spec (RTPRunningStatus s) 0); [lia|].
  destruct (Z.ltb_spec (RTPRunningStatus s) 0xC0); [reflexivity|].
  destruct (Z.ltb_spec (RTPRunningStatus s) 0xE0); [lia|].
  destruct (Z.ltb_spec (RTPRunningStatus s) 0xF0); [reflexivity|lia].
Qed.

(** The second data byte completes the message. *)
Lemma GenerateMIDIEvent_status_third d t s :
  0 <= d < 0x80 -> IncomingThirdByte s = true ->
  GenerateMIDIEvent_status d t s
  = (sendMIDIToClient 3 t
       (set_IncomingThirdByte false
          (set_FullInMidiMsg_at 2 d (set_FullInMidiMsg_at 0 (RTPRunningStatus s) s))),
     Return).
Proof.
  intros Hd H3. unfold GenerateMIDIEvent_status. rewrite land_0x80_data by lia.
  rewrite H3. reflexivity.
Qed.

(** The data byte of a message of two bytes completes it. *)
Lemma GenerateMIDIEvent_status_program d t s :
  0 <= d < 0x80 -> IncomingThirdByte s = false -> status2 (RTPRunningStatus s) ->
  GenerateMIDIEvent_status d t s
  = (sendMIDIToClient 2 t
       (set_FullInMidiMsg_at 1 d (set_FullInMidiMsg_at 0 (RTPRunningStatus s) s)),
     Return).
Proof.
  intros Hd H3 Hst. unfold GenerateMIDIEvent_status. rewrite land_0x80_data by lia.
  rewrite H3. unfold status2 in Hst.
  destruct (Z.eqb_spec (RTPRunningStatus s) 0); [lia|].
  destruct (Z.ltb_spec (RTPRunningStatus s) 0xC0); [lia|].
  destruct (Z.ltb_spec (RTPRunningStatus s) 0xE0); [reflexivity|lia].
Qed.

Lemma wr3_012 (F : list Z) a b c :
  length F = 3%nat -> wr (wr (wr F 1 b) 0 a) 2 c = [a; b; c].
Proof.
  intros H. destruct F as [|x [|y [|z [|]]]]; try discriminate H. reflexivity.
Qed.

Lemma wr2_01 (F : list Z) a b :
  length F = 3%nat -> take 2 (wr (wr F 0 a) 1 b) = [a; b] /\ length (wr (wr F 0 a) 1 b) = 3%nat.
Proof.
  intros H. destruct F as [|x [|y [|z [|]]]]; try discriminate H. split; reflexivity.
Qed.

(** Two data bytes under the running status of a message of three bytes:
    GenerateMIDIEvent reads both and calls the callback with the message. *)
Lemma GenerateMIDIEvent_running3 buf ctr T t s d1 d2 :
  decoder_ready s -> status3 (RTPRunningStatus s) -> RTPCallback s = true ->
  rd buf ctr = d1 -> rd buf (ctr + 1) = d2 -> 0 <= d1 < 0x80 -> 0 <= d2 < 0x80 ->
  ctr + 2 <= T ->
  exists s', GenerateMIDIEvent buf ctr T t s = (s', ctr + 2) /\
    Trace s' = Trace s ++ [EvCallback (ClientInstance s) 3 [RTPRunningStatus s; d1; d2] t] /\
    decoder_after (RTPRunningStatus s) s s'.
Proof.
  intros (Ha & H3 & HF) Hst Hcb E1 E2 Hd1 Hd2 HT.
  unfold GenerateMIDIEvent.
  destruct (Z.to_nat (T - ctr)) as [|[|k]] eqn:Ek; try lia.
  rewrite GenerateMIDIEvent_loop_step by lia. rewrite E1.
  rewrite GenerateMIDIEvent_byte_status by (first [exact Ha | lia]).
  rewrite (GenerateMIDIEvent_status_second d1 t s Hd1 H3 Hst).
  set (x := set_FullInMidiMsg_at 1 d1 (set_IncomingThirdByte true s)).
  assert (Fx : SYSEX_RTPActif x = false /\ IncomingThirdByte x = true /\
               RTPRunningStatus x = RTPRunningStatus s /\ RTPCallback x = true /\
               ClientInstance x = ClientInstance s /\ LocalClock x = LocalClock s /\
               Trace x = Trace s /\ FullInMidiMsg x = wr (FullInMidiMsg s) 1 d1).
  { subst x. repeat split; assumption. }
  destruct Fx as (Xa & X3 & Xr & Xc & Xi & Xl & Xt & XF). clearbody x.
  rewrite GenerateMIDIEvent_loop_step by lia. rewrite E2.
  rewrite GenerateMIDIEvent_byte_status by (first [exact Xa | lia]).
  rewrite (GenerateMIDIEvent_status_third d2 t x Hd2 X3).
  eexists. split; [f_equal; lia|].
  unfold sendMIDIToClient, call_RTPCallback, set_FullInMidiMsg_at.
  cbn [RTPCallback set_IncomingThirdByte set_FullInMidiMsg FullInMidiMsg ClientInstance
       Trace set_Trace].
  rewrite Xc, Xt, Xi, Xr, XF. cbn [Trace set_Trace].
  rewrite (wr3_012 _ _ _ _ HF).
  split; [reflexivity|].
  unfold decoder_after, decoder_ready.
  cbn [SYSEX_RTPActif IncomingThirdByte FullInMidiMsg RTPRunningStatus RTPCallback
       ClientInstance LocalClock set_Trace set_IncomingThirdByte set_FullInMidiMsg].
  rewrite Xa, Xr, Xc, Xi, Xl, Hcb. repeat split.
Qed.

(** A channel message of three bytes with its status byte. *)
Lemma GenerateMIDIEvent_message3 buf ctr T t s st d1 d2 :
  decoder_ready s -> status3 st -> RTPCallback s = true ->
  rd buf ctr = st -> rd buf (ctr + 1) = d1 -> rd buf (ctr + 2) = d2 ->
  0 <= d1 < 0x80 -> 0 <= d2 < 0x80 -> ctr + 3 <= T ->
  exists s', GenerateMIDIEvent buf ctr T t s = (s', ctr + 3) /\
    Trace s' = Trace s ++ [EvCallback (ClientInstance s) 3 [st; d1; d2] t] /\
    decoder_after st s s'.
Proof.
  intros (Ha & H3 & HF) Hst Hcb E0 E1 E2 Hd1 Hd2 HT.
  assert (Hst' : 0x80 <= st < 0xF0) by (unfold status3 in Hst; lia).
  unfold GenerateMIDIEvent.
  destruct (Z.to_nat (T - ctr)) as [|k] eqn:Ek; [lia|].
  rewrite GenerateMIDIEvent_loop_step by lia. rewrite E0.
  rewrite GenerateMIDIEvent_byte_status by (first [exact Ha | lia]).
  rewrite (GenerateMIDIEvent_status_channel st t s Hst').
  set (x := set_IncomingThirdByte false (set_FullInMidiMsg_at 0 st (set_RTPRunningStatus st s))).
  assert (Fx : decoder_ready x /\ RTPRunningStatus x = st /\ RTPCallback x = true /\
               ClientInstance x = ClientInstance s /\ LocalClock x = LocalClock s /\
               Trace x = Trace s).
  { subst x. unfold decoder_ready, set_FullInMidiMsg_at.
    cbn [SYSEX_RTPActif IncomingThirdByte FullInMidiMsg RTPRunningStatus RTPCallback
         ClientInstance LocalClock Trace set_IncomingThirdByte set_FullInMidiMsg
         set_RTPRunningStatus].
    rewrite wr_length. repeat split; assumption. }
  destruct Fx as (Xr & Xs & Xc & Xi & Xl & Xt). clearbody x.
  assert (Ek' : k = Z.to_nat (T - (ctr + 1))) by lia. rewrite Ek'.
  fold (GenerateMIDIEvent buf (ctr + 1) T t x).
  destruct (GenerateMIDIEvent_running3 buf (ctr + 1) T t x d1 d2) as (s' & Eg & Ht & Hafter);
    try assumption; try lia.
  - rewrite Xs. exact Hst.
  - replace (ctr + 1 + 1) with (ctr + 2) by lia. exact E2.
  - exists s'. rewrite Eg. split; [f_equal; lia|].
    rewrite Ht, Xt, Xi, Xs. split; [reflexivity|].
    destruct Hafter as (R & S1 & C1 & I1 & L1).
    repeat split; try apply R; congruence.
Qed.

Lemma map_callback3_ext s s' st st' l :
  ClientInstance s' = ClientInstance s -> LocalClock s' = LocalClock s -> st' = st ->
  map (callback3 s' st') l = map (callback3 s st) l.
Proof.
  intros Hi Hl ->. apply map_ext. intros [[dt d1] d2]. unfold callback3.
  rewrite Hi, Hl. reflexivity.
Qed.

Lemma running3_length c : running3_ok c -> (2 <= length (running3 c))%nat.
Proof.
  destruct c as [[dt d1] d2]. intros _. unfold running3.
  rewrite length_app. cbn [length]. lia.
Qed.

(** The scan of a MIDI list made of commands under running status, each
    behind its delta-time. *)
Lemma ProcessIncomingRTP_scan_running3 rest : forall pre post s fuel T,
  Forall running3_ok rest ->
  decoder_ready s -> status3 (RTPRunningStatus s) -> RTPCallback s = true ->
  (length rest <= fuel)%nat ->
  T = Z.of_nat (length pre) + Z.of_nat (length (flat_map running3 rest)) ->
  exists s',
    ProcessIncomingRTP_scan fuel (pre ++ flat_map running3 rest ++ post)
      (Z.of_nat (length pre)) T s = (s', T) /\
    Trace s' = Trace s ++ map (callback3 s (RTPRunningStatus s)) rest /\
    decoder_after (RTPRunningStatus s) s s'.
Proof.
  induction rest as [|[[dt d1] d2] rest IH]; intros pre post s fuel T Hok Hr Hst Hcb Hf HT.
  - cbn [flat_map length] in HT. exists s. split.
    + destruct fuel; cbn [ProcessIncomingRTP_scan]; [f_equal; lia|].
      destruct (Z.ltb_spec (Z.of_nat (length pre)) T); [lia|]. f_equal. lia.
    + cbn [map]. rewrite app_nil_r. split; [reflexivity|].
      repeat split; try apply Hr; reflexivity.
  - apply Forall_cons in Hok as [(Hdt & Hd1 & Hd2) Hok].
    destruct fuel as [|fuel]; [cbn in Hf; lia|].
    cbn [flat_map running3] in *.
    rewrite !length_app in HT. cbn [length] in HT.
    cbn [ProcessIncomingRTP_scan].
    destruct (Z.ltb_spec (Z.of_nat (length pre)) T); [|lia].
    unfold GetDeltaTime.
    rewrite <- !app_assoc.
    rewrite (GetDeltaTime_on_vlq_at plain_char_signed pre dt _ Hdt).
    set (ctr1 := Z.of_nat (length pre) + Z.of_nat (length (vlq_encode dt))).
    destruct (Z.ltb_spec ctr1 T); [|subst ctr1; lia].
    set (pre1 := pre ++ vlq_encode dt).
    assert (Hc1 : ctr1 = Z.of_nat (length pre1))
      by (subst ctr1 pre1; rewrite length_app; lia).
    set (buf := pre ++ vlq_encode dt ++ [d1; d2] ++ flat_map running3 rest ++ post).
    assert (Hb1 : buf = pre1 ++ d1 :: (d2 :: flat_map running3 rest ++ post)).
    { subst buf pre1. rewrite <- app_assoc. reflexivity. }
    assert (Hb2 : buf = (pre1 ++ [d1]) ++ d2 :: (flat_map running3 rest ++ post)).
    { subst buf pre1. rewrite <- !app_assoc. reflexivity. }
    assert (Hb3 : buf = (pre1 ++ [d1; d2]) ++ flat_map running3 rest ++ post).
    { subst buf pre1. rewrite <- !app_assoc. reflexivity. }
    destruct (GenerateMIDIEvent_running3 buf ctr1 T (u32 (dt + LocalClock s)) s d1 d2)
      as (s1 & Eg & Ht1 & Hafter); try assumption.
    + rewrite Hc1, Hb1. apply rd_app_mid.
    + rewrite Hb2. replace (ctr1 + 1) with (Z.of_nat (length (pre1 ++ [d1])))
        by (rewrite length_app; cbn [length]; lia).
      apply rd_app_mid.
    + subst ctr1. lia.
    + rewrite Eg.
      destruct Hafter as (R1 & S1 & C1 & I1 & L1).
      destruct (IH (pre1 ++ [d1; d2]) post s1 fuel T Hok R1) as (s' & Es & Ht & Hafter');
        try congruence.
      * cbn [length] in Hf. lia.
      * rewrite length_app. cbn [length]. subst ctr1. lia.
      * exists s'. rewrite Hb3.
        replace (ctr1 + 2) with (Z.of_nat (length (pre1 ++ [d1; d2])))
          by (rewrite length_app; cbn [length]; lia).
        rewrite Es. split; [reflexivity|].
        rewrite Ht, Ht1, (map_callback3_ext s s1 _ _ rest I1 L1 S1).
        cbn [map callback3]. rewrite <- app_assoc.
        split; [reflexivity|].
        destruct Hafter' as (R2 & S2 & C2 & I2 & L2).
        repeat split; try apply R2; congruence.
Qed.

Lemma flat_map_running3_length rest :
  Forall running3_ok rest -> (length rest <= length (flat_map running3 rest))%nat.
Proof.
  induction 1 as [|c rest Hc _ IH]; [reflexivity|].
  cbn [flat_map length]. rewrite length_app. pose proof (running3_length c Hc). lia.
Qed.

(** X3: a MIDI list that starts with a channel message of three bytes (note
    off, note on, poly pressure, control change or pitch bend) and goes on
    with commands under running status, each two data bytes behind a
    delta-time below 2^14, has the callback called once per command, in
    order, with the status byte put back in front of the data bytes and
    with the time LocalClock + delta-time; the decoder ends between two
    messages with the same running status. *)
Theorem decode_list_running_status st d1 d2 rest s :
  decoder_ready s -> RTPCallback s = true -> status3 st ->
  0 <= d1 < 0x80 -> 0 <= d2 < 0x80 -> Forall running3_ok rest ->
  let s' := decode_list ([st; d1; d2] ++ flat_map running3 rest) s in
  Trace s' = Trace s ++ map (callback3 s st) ((0, d1, d2) :: rest) /\
  decoder_ready s' /\ RTPRunningStatus s' = st.
Proof.
  intros Hr Hcb Hst Hd1 Hd2 Hok s'. subst s'.
  unfold decode_list, ProcessIncomingRTP_list.
  set (buf := [st; d1; d2] ++ flat_map running3 rest).
  set (T := Z.of_nat (length buf)).
  assert (HT : T = 3 + Z.of_nat (length (flat_map running3 rest))).
  { subst T buf. rewrite length_app. cbn [length]. lia. }
  destruct (Z.ltb_spec 0 T); [|lia].
  destruct (Z.ltb_spec 0 T); [|lia].
  destruct (GenerateMIDIEvent_message3 buf 0 T (u32 (0 + LocalClock s)) s st d1 d2)
    as (s1 & Eg & Ht1 & R1 & S1 & C1 & I1 & L1); try assumption; try reflexivity; try lia.
  rewrite Eg. change (0 + 3) with 3.
  pose proof (flat_map_running3_length rest Hok) as Hlen.
  assert (Hst1 : status3 (RTPRunningStatus s1)) by (rewrite S1; exact Hst).
  assert (Hcb1 : RTPCallback s1 = true) by congruence.
  destruct (ProcessIncomingRTP_scan_running3 rest [st; d1; d2] [] s1 (Z.to_nat (T - 3)) T
              Hok R1 Hst1 Hcb1 ltac:(lia) ltac:(cbn [length]; lia))
    as (s2 & Es & Ht2 & R2 & S2 & _).
  rewrite app_nil_r in Es. change (Z.of_nat (length [st; d1; d2])) with 3 in Es.
  fold buf in Es. rewrite Es. cbn [fst].
  rewrite Ht2, Ht1, (map_callback3_ext s s1 st _ rest I1 L1 S1).
  cbn [map callback3]. rewrite <- app_assoc.
  repeat split; try apply R2. congruence.
Qed.

Lemma decode_list_running_status_witness :
  callbacks (Trace (decode_list ([0x90; 0x3C; 0x7F] ++ flat_map running3 [(100, 0x40, 0x7F);
                                                                         (200, 0x3C, 0)])
                      (opened_endpoint 4)))
  = [(3, [0x90; 0x3C; 0x7F]); (3, [0x90; 0x40; 0x7F]); (3, [0x90; 0x3C; 0])].
Proof.
  destruct (decode_list_running_status 0x90 0x3C 0x7F [(100, 0x40, 0x7F); (200, 0x3C, 0)]
              (opened_endpoint 4)) as (Ht & _).
  - vm_compute. repeat split.
  - reflexivity.
  - left. lia.
  - lia.
  - lia.
  - repeat constructor; lia.
  - rewrite Ht. vm_compute. reflexivity.
Defined.

(** The data byte of a message of two bytes, with its status byte. *)
Lemma GenerateMIDIEvent_message2 buf ctr T t s st d :
  decoder_ready s -> status2 st -> RTPCallback s = true ->
  rd buf ctr = st -> rd buf (ctr + 1) = d -> 0 <= d < 0x80 -> ctr + 2 <= T ->
  exists s', GenerateMIDIEvent buf ctr T t s = (s', ctr + 2) /\
    Trace s' = Trace s ++ [EvCallback (ClientInstance s) 2 [st; d] t] /\
    decoder_after st s s'.
Proof.
  intros (Ha & H3 & HF) Hst Hcb E0 E1 Hd HT.
  assert (Hst' : 0x80 <= st < 0xF0) by (unfold status2 in Hst; lia).
  unfold GenerateMIDIEvent.
  destruct (Z.to_nat (T - ctr)) as [|[|k]] eqn:Ek; try lia.
  rewrite GenerateMIDIEvent_loop_step by lia. rewrite E0.
  rewrite GenerateMIDIEvent_byte_status by (first [exact Ha | lia]).
  rewrite (GenerateMIDIEvent_status_channel st t s Hst').
  set (x := set_IncomingThirdByte false (set_FullInMidiMsg_at 0 st (set_RTPRunningStatus st s))).
  assert (Fx : SYSEX_RTPActif x = false /\ IncomingThirdByte x = false /\
               RTPRunningStatus x = st /\ RTPCallback x = true /\
               ClientInstance x = ClientInstance s /\ LocalClock x = LocalClock s /\
               Trace x = Trace s /\ FullInMidiMsg x = wr (FullInMidiMsg s) 0 st).
  { subst x. repeat split; assumption. }
  destruct Fx as (Xa & X3 & Xs & Xc & Xi & Xl & Xt & XF). clearbody x.
  rewrite GenerateMIDIEvent_loop_step by lia. rewrite E1.
  rewrite GenerateMIDIEvent_byte_status by (first [exact Xa | lia]).
  rewrite (GenerateMIDIEvent_status_program d t x Hd X3) by (rewrite Xs; exact Hst).
  eexists. split; [f_equal; lia|].
  unfold sendMIDIToClient, call_RTPCallback, set_FullInMidiMsg_at.
  cbn [RTPCallback set_FullInMidiMsg FullInMidiMsg ClientInstance Trace set_Trace].
  rewrite Xc, Xt, Xi, Xs, XF. cbn [Trace set_Trace].
  destruct (wr2_01 (FullInMidiMsg s) st d HF) as [Hw1 Hw2].
  assert (Hw0 : wr (wr (wr (FullInMidiMsg s) 0 st) 0 st) 1 d = wr (wr (FullInMidiMsg s) 0 st) 1 d).
  { destruct (FullInMidiMsg s) as [|a l]; reflexivity. }
  rewrite Hw0. change (Z.to_nat 2) with 2%nat. rewrite Hw1.
  split; [reflexivity|].
  unfold decoder_after, decoder_ready.
  cbn [SYSEX_RTPActif IncomingThirdByte FullInMidiMsg RTPRunningStatus RTPCallback
       ClientInstance LocalClock set_Trace set_FullInMidiMsg].
  rewrite Xa, X3, Xs, Xc, Xi, Xl, Hcb, Hw2. repeat split.
Qed.

(** X4: a channel message of two bytes (program change, channel pressure)
    alone in a MIDI list has the callback called once with the two bytes;
    its status byte stays as running status. *)
Theorem decode_list_two_byte_message st d s :
  decoder_ready s -> RTPCallback s = true -> status2 st -> 0 <= d < 0x80 ->
  let s' := decode_list [st; d] s in
  Trace s' = Trace s ++ [EvCallback (ClientInstance s) 2 [st; d] (u32 (0 + LocalClock s))] /\
  decoder_ready s' /\ RTPRunningStatus s' = st.
Proof.
  intros Hr Hcb Hst Hd s'. subst s'.
  unfold decode_list, ProcessIncomingRTP_list. cbn [length].
  change (Z.of_nat 2) with 2. change (0 <? 2) with true. cbv iota.
  destruct (GenerateMIDIEvent_message2 [st; d] 0 2 (u32 (0 + LocalClock s)) s st d)
    as (s1 & Eg & Ht1 & R1 & S1 & _); try assumption; try reflexivity; try lia.
  rewrite Eg. change (0 + 2) with 2. change (Z.to_nat (2 - 2)) with 0%nat.
  cbn [ProcessIncomingRTP_scan fst]. repeat split; try apply R1; assumption.
Qed.

Lemma decode_list_two_byte_message_witness :
  callbacks (Trace (decode_list [0xC5; 0x07] (opened_endpoint 4))) = [(2, [0xC5; 0x07])].
Proof.
  destruct (decode_list_two_byte_message 0xC5 0x07 (opened_endpoint 4)) as (Ht & _).
  - vm_compute. repeat split.
  - reflexivity.
  - unfold status2. lia.
  - lia.
  - rewrite Ht. vm_compute. reflexivity.
Defined.

(** ** SYSEX messages *)

(** One turn of the loop of GenerateMIDIEvent, the fuel left as it is:
    what is beyond [TailleBloc - *ByteCtr] is never used. *)
Lemma GenerateMIDIEvent_loop_turn n buf ctr T t s :
  ctr < T -> T - ctr <= Z.of_nat n ->
  GenerateMIDIEvent_loop n buf ctr T t s
  = match GenerateMIDIEvent_byte (rd buf ctr) t s with
    | (s', NextByte) => GenerateMIDIEvent_loop n buf (ctr + 1) T t s'
    | (s', Return) => (s', ctr + 1)
    end.
Proof.
  intros Hc Hn. destruct n as [|n]; [lia|].
  rewrite GenerateMIDIEvent_loop_step by exact Hc.
  destruct (GenerateMIDIEvent_byte (rd buf ctr) t s) as [s' [|]]; [|reflexivity].
  symmetry. apply GenerateMIDIEvent_fuel. lia.
Qed.

(** A run of data bytes inside an open SYSEX message is stored. *)
Lemma GenerateMIDIEvent_loop_run bs : forall pre post n T t s,
  data_bytes bs ->
  SYSEX_RTPActif s = true -> SegmentSYSEXInput s = true ->
  Z.of_nat (length pre) + Z.of_nat (length bs) <= T ->
  T - Z.of_nat (length pre) <= Z.of_nat n ->
  GenerateMIDIEvent_loop n (pre ++ bs ++ post) (Z.of_nat (length pre)) T t s
  = GenerateMIDIEvent_loop n (pre ++ bs ++ post)
      (Z.of_nat (length pre) + Z.of_nat (length bs)) T t (storeRTP_SYSEXData_all bs s).
Proof.
  induction bs as [|b bs IH]; intros pre post n T t s Hb Ha Hs HT Hn.
  - cbn [length storeRTP_SYSEXData_all fold_left]. f_equal. lia.
  - apply Forall_cons in Hb as [Hb0 Hb].
    cbn [length] in HT.
    rewrite GenerateMIDIEvent_loop_turn by lia.
    change (pre ++ (b :: bs) ++ post) with (pre ++ b :: (bs ++ post)).
    rewrite rd_app_mid.
    rewrite (GenerateMIDIEvent_byte_data b t s Hb0 Ha Hs).
    destruct (storeRTP_SYSEXData_flags b s) as [Ha' Hs'].
    replace (pre ++ b :: bs ++ post) with ((pre ++ [b]) ++ bs ++ post)
      by (rewrite <- app_assoc; reflexivity).
    replace (Z.of_nat (length pre) + 1) with (Z.of_nat (length (pre ++ [b])))
      by (rewrite length_app; cbn [length]; lia).
    rewrite (IH (pre ++ [b]) post n T t (storeRTP_SYSEXData b s) Hb);
      try (rewrite length_app; cbn [length]; lia); try congruence.
    cbn [storeRTP_SYSEXData_all fold_left length]. f_equal.
    rewrite length_app. cbn [length]. lia.
Qed.

Lemma GenerateMIDIEvent_byte_F0 t s :
  SYSEX_RTPActif s = false ->
  GenerateMIDIEvent_byte 0xF0 t s
  = (storeRTP_SYSEXData 0xF0 (set_SegmentSYSEXInput true (set_SYSEX_RTPActif true s)),
     NextByte).
Proof. intros Ha. unfold GenerateMIDIEvent_byte. rewrite Ha. reflexivity. Qed.

Lemma GenerateMIDIEvent_byte_F7 t s :
  SYSEX_RTPActif s = true -> SegmentSYSEXInput s = true ->
  GenerateMIDIEvent_byte 0xF7 t s
  = (initRTP_SYSEXBuffer (sendRTP_SYSEXBuffer t (storeRTP_SYSEXData 0xF7 s)), Return).
Proof. intros Ha Hs. unfold GenerateMIDIEvent_byte. rewrite Ha, Hs. reflexivity. Qed.

Lemma GenerateMIDIEvent_byte_F4 t s :
  SYSEX_RTPActif s = true ->
  GenerateMIDIEvent_byte 0xF4 t s = (initRTP_SYSEXBuffer s, Return).
Proof. intros Ha. unfold GenerateMIDIEvent_byte. rewrite Ha. reflexivity. Qed.

Lemma GenerateMIDIEvent_byte_realtime rt t s :
  SYSEX_RTPActif s = true -> SegmentSYSEXInput s = true -> 0xF8 <= rt < 0x100 ->
  GenerateMIDIEvent_byte rt t s
  = (sendMIDIToClient 1 t (set_FullInMidiMsg_at 0 rt s), NextByte).
Proof.
  intros Ha Hs Hrt. unfold GenerateMIDIEvent_byte. rewrite Ha, Hs.
  destruct (Z.eqb_spec rt 0xF0); [lia|]. cbn [andb].
  destruct (Z.eqb_spec rt 0xF7); [lia|].
  destruct (Z.eqb_spec rt 0xF4); [lia|].
  destruct (Z.ltb_spec rt 0x80); [lia|].
  destruct (Z.leb_spec 0xF8 rt); [reflexivity|lia].
Qed.

Lemma GenerateMIDIEvent_byte_abort st t s :
  SYSEX_RTPActif s = true -> SegmentSYSEXInput s = true -> 0x80 <= st < 0xF0 ->
  GenerateMIDIEvent_byte st t s = GenerateMIDIEvent_status st t (initRTP_SYSEXBuffer s).
Proof.
  intros Ha Hs Hst. unfold GenerateMIDIEvent_byte. rewrite Ha, Hs.
  destruct (Z.eqb_spec st 0xF0); [lia|]. cbn [andb].
  destruct (Z.eqb_spec st 0xF7); [lia|].
  destruct (Z.eqb_spec st 0xF4); [lia|].
  destruct (Z.ltb_spec st 0x80); [lia|].
  destruct (Z.leb_spec 0xF8 st); [lia|reflexivity].
Qed.

(** What is stored of a message does not depend on the members outside the
    SYSEX buffer. *)
Lemma sysex_holds_frame m s x :
  InSYSEXBuffer x = InSYSEXBuffer s -> InSYSEXBufferSize x = InSYSEXBufferSize s ->
  InSYSEXBufferPtr x = InSYSEXBufferPtr s -> InSYSEXOverflow x = InSYSEXOverflow s ->
  sysex_holds m s -> sysex_holds m x.
Proof.
  intros Hb Hz Hp Ho (buf & E & Hl & Hsz & Hptr & Htk & Hov).
  exists buf. rewrite Hb, Hz, Hp, Ho. tauto.
Qed.

(** An open message: the first bytes of [m] are in the buffer. *)
Lemma sysex_open_holds s :
  sysex_idle s -> sysex_buffer_ok s ->
  sysex_holds [0xF0]
    (storeRTP_SYSEXData 0xF0 (set_SegmentSYSEXInput true (set_SYSEX_RTPActif true s))).
Proof.
  intros Hi Hk. apply (storeRTP_SYSEXData_holds [] 0xF0).
  apply (sysex_holds_frame [] s); try reflexivity.
  apply sysex_idle_holds; assumption.
Qed.

(** The members the storing of SYSEX bytes leaves alone. *)
Lemma storeRTP_SYSEXData_all_fields l s :
  Trace (storeRTP_SYSEXData_all l s) = Trace s /\
  SYSEX_RTPActif (storeRTP_SYSEXData_all l s) = SYSEX_RTPActif s /\
  SegmentSYSEXInput (storeRTP_SYSEXData_all l s) = SegmentSYSEXInput s /\
  RTPCallback (storeRTP_SYSEXData_all l s) = RTPCallback s /\
  ClientInstance (storeRTP_SYSEXData_all l s) = ClientInstance s /\
  LocalClock (storeRTP_SYSEXData_all l s) = LocalClock s /\
  FullInMidiMsg (storeRTP_SYSEXData_all l s) = FullInMidiMsg s /\
  IncomingThirdByte (storeRTP_SYSEXData_all l s) = IncomingThirdByte s /\
  RTPRunningStatus (storeRTP_SYSEXData_all l s) = RTPRunningStatus s.
Proof.
  pose proof (storeRTP_SYSEXData_all_frame l s) as H.
  repeat split.
  - exact (f_equal Trace H).
  - exact (f_equal SYSEX_RTPActif H).
  - exact (f_equal SegmentSYSEXInput H).
  - exact (f_equal RTPCallback H).
  - exact (f_equal ClientInstance H).
  - exact (f_equal LocalClock H).
  - exact (f_equal FullInMidiMsg H).
  - exact (f_equal IncomingThirdByte H).
  - exact (f_equal RTPRunningStatus H).
Qed.

(** A MIDI list that GenerateMIDIEvent reads to its end in one call. *)
Lemma decode_list_one_event l s s1 :
  l <> [] ->
  GenerateMIDIEvent l 0 (Z.of_nat (length l)) (u32 (0 + LocalClock s)) s
  = (s1, Z.of_nat (length l)) ->
  decode_list l s = s1.
Proof.
  intros Hl Hg. unfold decode_list, ProcessIncomingRTP_list.
  assert (HT : 0 < Z.of_nat (length l)) by (destruct l; [congruence|cbn [length]; lia]).
  destruct (Z.ltb_spec 0 (Z.of_nat (length l))); [|lia].
  rewrite Hg, Z.sub_diag. reflexivity.
Qed.

(** The delivery of a message that leaves one cell of the buffer free. *)
Lemma sendRTP_SYSEXBuffer_whole m t y s :
  sysex_holds m y -> RTPCallback y = true ->
  ClientInstance y = ClientInstance s -> InSYSEXBufferSize y = InSYSEXBufferSize s ->
  Trace y = Trace s -> Z.of_nat (length m) < InSYSEXBufferSize s ->
  Trace (initRTP_SYSEXBuffer (sendRTP_SYSEXBuffer t y))
  = Trace s ++ [EvCallback (ClientInstance s) (Z.of_nat (length m)) m t].
Proof.
  intros Hh Hcb Hi Hz Ht Hlen.
  assert (E : forall c, Trace (initRTP_SYSEXBuffer c) = Trace c) by (intros ?; reflexivity).
  rewrite E, (sendRTP_SYSEXBuffer_holds m t y Hh Hcb), Hi, Hz, Ht.
  rewrite Z.min_l by lia. rewrite take_ge by lia. reflexivity.
Qed.

(** X5: a SYSEX message F0 ... F7 of data bytes received whole in one MIDI
    list, and shorter than the SYSEX buffer, is given to the callback
    once, entire, with the time LocalClock; the buffer is clean
    afterwards. *)
Theorem decode_list_sysex_message b s :
  data_bytes b -> sysex_idle s -> sysex_buffer_ok s -> RTPCallback s = true ->
  Z.of_nat (length (sysex_message b)) < InSYSEXBufferSize s ->
  let m := sysex_message b in
  Trace (decode_list m s)
  = Trace s ++ [EvCallback (ClientInstance s) (Z.of_nat (length m)) m (u32 (0 + LocalClock s))] /\
  sysex_idle (decode_list m s).
Proof.
  intros Hb Hi Hk Hcb Hlen m. subst m.
  unfold decode_list, sysex_message in *.
  rewrite (ProcessIncomingRTP_list_sysex_whole b s Hb (proj1 Hi)). cbn [fst].
  set (x0 := set_SegmentSYSEXInput true (set_SYSEX_RTPActif true s)).
  assert (H0 : sysex_holds [] x0).
  { apply (sysex_holds_frame [] s); try reflexivity. apply sysex_idle_holds; assumption. }
  pose proof (storeRTP_SYSEXData_all_holds (0xF0 :: b ++ [0xF7]) [] x0 H0) as Hh.
  cbn [app] in Hh.
  destruct (storeRTP_SYSEXData_all_fields (0xF0 :: b ++ [0xF7]) x0)
    as (Ft & _ & _ & Fc & Fi & _).
  pose proof (f_equal InSYSEXBufferSize (storeRTP_SYSEXData_all_frame (0xF0 :: b ++ [0xF7]) x0))
    as Fz.
  split; [|apply initRTP_SYSEXBuffer_idle].
  apply (sendRTP_SYSEXBuffer_whole _ _ _ s Hh); try assumption.
  rewrite Fc. exact Hcb.
Qed.

Lemma decode_list_sysex_message_witness :
  callbacks (Trace (decode_list (sysex_message [0x7E; 0x00; 0x09; 0x01])
                      (opened_endpoint 16)))
  = [(6, [0xF0; 0x7E; 0x00; 0x09; 0x01; 0xF7])].
Proof.
  destruct (decode_list_sysex_message [0x7E; 0x00; 0x09; 0x01]
              (opened_endpoint 16)) as (Ht & _).
  - repeat constructor; lia.
  - vm_compute. repeat split.
  - exists (replicate 16 0). vm_compute. repeat split; intros H; discriminate H.
  - reflexivity.
  - vm_compute. reflexivity.
  - rewrite Ht. vm_compute. reflexivity.
Defined.

(** The bytes F0 [b1] at the head of a MIDI list open a SYSEX message. *)
Lemma GenerateMIDIEvent_loop_sysex_open b1 post n T t s :
  data_bytes b1 -> sysex_idle s -> sysex_buffer_ok s ->
  1 + Z.of_nat (length b1) <= T -> T <= Z.of_nat n ->
  exists x,
    GenerateMIDIEvent_loop n (0xF0 :: b1 ++ post) 0 T t s
    = GenerateMIDIEvent_loop n (0xF0 :: b1 ++ post) (1 + Z.of_nat (length b1)) T t x /\
    sysex_holds (0xF0 :: b1) x /\
    SYSEX_RTPActif x = true /\ SegmentSYSEXInput x = true /\
    sysex_frame x = sysex_frame (set_SegmentSYSEXInput true (set_SYSEX_RTPActif true s)).
Proof.
  intros Hb Hi Hk HT Hn.
  set (x0 := set_SegmentSYSEXInput true (set_SYSEX_RTPActif true s)).
  exists (storeRTP_SYSEXData_all b1 (storeRTP_SYSEXData 0xF0 x0)).
  destruct (storeRTP_SYSEXData_flags 0xF0 x0) as [A1 S1].
  destruct (storeRTP_SYSEXData_all_flags b1 (storeRTP_SYSEXData 0xF0 x0)) as [A2 S2].
  split; [|split; [|split; [|split]]].
  - rewrite GenerateMIDIEvent_loop_turn by lia. rewrite rd_cons_0.
    rewrite (GenerateMIDIEvent_byte_F0 t s (proj1 Hi)). fold x0.
    change (0 + 1) with (Z.of_nat (length [0xF0])).
    change (0xF0 :: b1 ++ post) with ([0xF0] ++ b1 ++ post).
    rewrite (GenerateMIDIEvent_loop_run b1 [0xF0] post n T t _ Hb);
      [reflexivity|rewrite A1; reflexivity|rewrite S1; reflexivity
      |cbn [length]; lia|cbn [length]; lia].
  - apply (storeRTP_SYSEXData_all_holds b1 [0xF0]). apply sysex_open_holds; assumption.
  - rewrite A2, A1. reflexivity.
  - rewrite S2, S1. reflexivity.
  - rewrite storeRTP_SYSEXData_all_frame. apply storeRTP_SYSEXData_frame.
Qed.

Lemma rd_at l pre x post i :
  l = pre ++ x :: post -> i = Z.of_nat (length pre) -> rd l i = x.
Proof. intros -> ->. apply rd_app_mid. Qed.

(** X6: a real-time byte (F8 to FF) met inside a SYSEX message is given to
    the callback at once, as a message of one byte, and the SYSEX message
    goes on around it: it is delivered whole at its F7, without the
    real-time byte. *)
Theorem decode_list_sysex_realtime b1 rt b2 s :
  data_bytes b1 -> data_bytes b2 -> 0xF8 <= rt < 0x100 ->
  sysex_idle s -> sysex_buffer_ok s -> RTPCallback s = true ->
  length (FullInMidiMsg s) = 3%nat ->
  Z.of_nat (length (sysex_message (b1 ++ b2))) < InSYSEXBufferSize s ->
  let m := sysex_message (b1 ++ b2) in
  let t := u32 (0 + LocalClock s) in
  let s' := decode_list (0xF0 :: b1 ++ rt :: b2 ++ [0xF7]) s in
  Trace s' = Trace s ++ [EvCallback (ClientInstance s) 1 [rt] t;
                         EvCallback (ClientInstance s) (Z.of_nat (length m)) m t] /\
  sysex_idle s'.
Proof.
  intros Hb1 Hb2 Hrt Hi Hk Hcb HF Hlen m t s'. subst s'.
  change (sysex_message (b1 ++ b2)) with m in Hlen.
  set (l := 0xF0 :: b1 ++ rt :: b2 ++ [0xF7]).
  set (T := Z.of_nat (length l)).
  assert (HT : T = Z.of_nat (length b1) + Z.of_nat (length b2) + 3).
  { subst T l. cbn [length]. rewrite !length_app. cbn [length]. rewrite length_app.
    cbn [length]. lia. }
  assert (Hm : Z.of_nat (length m) = Z.of_nat (length b1) + Z.of_nat (length b2) + 2).
  { subst m. unfold sysex_message. cbn [length]. rewrite !length_app. cbn [length]. lia. }
  enough (Hg : exists s1,
    GenerateMIDIEvent l 0 T t s = (s1, T) /\
    Trace s1 = Trace s ++ [EvCallback (ClientInstance s) 1 [rt] t;
                           EvCallback (ClientInstance s) (Z.of_nat (length m)) m t] /\
    sysex_idle s1).
  { destruct Hg as (s1 & Eg & Ht & Hidle).
    rewrite (decode_list_one_event l s s1); [split; assumption|discriminate|exact Eg]. }
  unfold GenerateMIDIEvent. rewrite Z.sub_0_r.
  destruct (GenerateMIDIEvent_loop_sysex_open b1 (rt :: b2 ++ [0xF7]) (Z.to_nat T) T t s Hb1 Hi Hk)
    as (x & E1 & Hh & Ha & Hs & Hfr); try lia.
  fold l in E1. rewrite E1.
  assert (El1 : l = (0xF0 :: b1) ++ rt :: (b2 ++ [0xF7])) by reflexivity.
  assert (El2 : l = (0xF0 :: b1 ++ [rt]) ++ b2 ++ [0xF7]).
  { subst l. cbn [app]. rewrite <- app_assoc. reflexivity. }
  assert (El3 : l = ((0xF0 :: b1 ++ [rt]) ++ b2) ++ 0xF7 :: []).
  { rewrite El2. rewrite <- app_assoc. reflexivity. }
  clearbody l T.
  pose proof (frame_eq_fields _ _ Hfr) as (Xt & _ & _ & Xc & Xi & Xz & Xl).
  pose proof (f_equal FullInMidiMsg Hfr) as XF.
  change (FullInMidiMsg (sysex_frame x)) with (FullInMidiMsg x) in XF.
  change (FullInMidiMsg (sysex_frame (set_SegmentSYSEXInput true (set_SYSEX_RTPActif true s))))
    with (FullInMidiMsg s) in XF.
  change (Trace (set_SegmentSYSEXInput true (set_SYSEX_RTPActif true s))) with (Trace s) in Xt.
  change (RTPCallback (set_SegmentSYSEXInput true (set_SYSEX_RTPActif true s)))
    with (RTPCallback s) in Xc.
  change (ClientInstance (set_SegmentSYSEXInput true (set_SYSEX_RTPActif true s)))
    with (ClientInstance s) in Xi.
  change (InSYSEXBufferSize (set_SegmentSYSEXInput true (set_SYSEX_RTPActif true s)))
    with (InSYSEXBufferSize s) in Xz.
  clear E1 Hfr Xl.
  (* the real-time byte *)
  rewrite GenerateMIDIEvent_loop_turn by lia.
  rewrite (rd_at l _ _ _ _ El1) by (cbn [length]; lia).
  rewrite (GenerateMIDIEvent_byte_realtime rt t x Ha Hs Hrt).
  set (y := sendMIDIToClient 1 t (set_FullInMidiMsg_at 0 rt x)).
  assert (Fy : SYSEX_RTPActif y = true /\ SegmentSYSEXInput y = true /\
               sysex_holds (0xF0 :: b1) y /\ RTPCallback y = true /\
               ClientInstance y = ClientInstance s /\
               InSYSEXBufferSize y = InSYSEXBufferSize s /\
               Trace y = Trace s ++ [EvCallback (ClientInstance s) 1 [rt] t]).
  { subst y. unfold sendMIDIToClient, call_RTPCallback, set_FullInMidiMsg_at.
    cbn [RTPCallback set_FullInMidiMsg]. rewrite Xc, Hcb.
    split; [exact Ha|]. split; [exact Hs|].
    split; [apply (sysex_holds_frame _ x); try reflexivity; exact Hh|].
    split; [cbn [RTPCallback set_Trace set_FullInMidiMsg]; congruence|].
    split; [exact Xi|]. split; [exact Xz|].
    cbn [Trace set_Trace ClientInstance set_FullInMidiMsg FullInMidiMsg].
    rewrite Xt, Xi, XF.
    destruct (FullInMidiMsg s) as [|f0 F]; [discriminate HF|]. reflexivity. }
  destruct Fy as (Ya & Ys & Yh & Yc & Yi & Yz & Yt). clearbody y.
  (* the rest of the message *)
  replace (1 + Z.of_nat (length b1) + 1) with (Z.of_nat (length (0xF0 :: b1 ++ [rt])))
    by (cbn [length]; rewrite length_app; cbn [length]; lia).
  rewrite El2.
  rewrite (GenerateMIDIEvent_loop_run b2 (0xF0 :: b1 ++ [rt]) [0xF7] (Z.to_nat T) T t y Hb2 Ya Ys)
    by (cbn [length]; rewrite length_app; cbn [length]; lia).
  destruct (storeRTP_SYSEXData_all_fields b2 y) as (Zt & Za & Zs & Zc & Zi & _).
  pose proof (f_equal InSYSEXBufferSize (storeRTP_SYSEXData_all_frame b2 y)) as Zz.
  change (InSYSEXBufferSize (sysex_frame (storeRTP_SYSEXData_all b2 y)))
    with (InSYSEXBufferSize (storeRTP_SYSEXData_all b2 y)) in Zz.
  change (InSYSEXBufferSize (sysex_frame y)) with (InSYSEXBufferSize y) in Zz.
  pose proof (storeRTP_SYSEXData_all_holds b2 (0xF0 :: b1) y Yh) as Zh.
  set (z := storeRTP_SYSEXData_all b2 y) in *. clearbody z.
  rewrite GenerateMIDIEvent_loop_turn
    by (cbn [length]; rewrite length_app; cbn [length]; lia).
  rewrite <- El2.
  rewrite (rd_at l _ _ _ _ El3) by (rewrite length_app; lia).
  rewrite (GenerateMIDIEvent_byte_F7 t z) by congruence.
  pose proof (storeRTP_SYSEXData_holds _ 0xF7 z Zh) as Wh.
  destruct (storeRTP_SYSEXData_all_fields [0xF7] z) as (Wt & _ & _ & Wc & Wi & _).
  pose proof (f_equal InSYSEXBufferSize (storeRTP_SYSEXData_frame 0xF7 z)) as Wz.
  change (InSYSEXBufferSize (sysex_frame (storeRTP_SYSEXData 0xF7 z)))
    with (InSYSEXBufferSize (storeRTP_SYSEXData 0xF7 z)) in Wz.
  change (InSYSEXBufferSize (sysex_frame z)) with (InSYSEXBufferSize z) in Wz.
  change (storeRTP_SYSEXData_all [0xF7] z) with (storeRTP_SYSEXData 0xF7 z) in *.
  eexists. split.
  - f_equal. cbn [length]. rewrite !length_app. cbn [length]. lia.
  - split; [|apply initRTP_SYSEXBuffer_idle].
    assert (Em : ((0xF0 :: b1) ++ b2) ++ [0xF7] = m).
    { subst m. unfold sysex_message. cbn [app]. rewrite <- app_assoc. reflexivity. }
    rewrite Em in Wh.
    assert (E : forall c, Trace (initRTP_SYSEXBuffer c) = Trace c) by (intros ?; reflexivity).
    rewrite E, (sendRTP_SYSEXBuffer_holds m t _ Wh) by congruence.
    rewrite Wt, Zt, Yt, Wi, Zi, Yi, Wz, Zz, Yz.
    rewrite Z.min_l by lia. rewrite take_ge by lia.
    rewrite <- app_assoc. reflexivity.
Qed.

Lemma decode_list_sysex_realtime_witness :
  callbacks (Trace (decode_list (0xF0 :: [0x7E; 0x00] ++ 0xF8 :: [0x09; 0x01] ++ [0xF7])
                      (opened_endpoint 16)))
  = [(1, [0xF8]); (6, [0xF0; 0x7E; 0x00; 0x09; 0x01; 0xF7])].
Proof.
  destruct (decode_list_sysex_realtime [0x7E; 0x00] 0xF8 [0x09; 0x01] (opened_endpoint 16))
    as (Ht & _).
  - repeat constructor; lia.
  - repeat constructor; lia.
  - lia.
  - vm_compute. repeat split.
  - exists (replicate 16 0). vm_compute. repeat split; intros H; discriminate H.
  - reflexivity.
  - reflexivity.
  - vm_compute. reflexivity.
  - rewrite Ht. vm_compute. reflexivity.
Defined.

(** X7: the byte F4 inside a SYSEX message cancels it: nothing is given to
    the callback and the buffer is clean again. *)
Theorem decode_list_sysex_cancelled b s :
  data_bytes b -> sysex_idle s -> sysex_buffer_ok s ->
  let s' := decode_list (0xF0 :: b ++ [0xF4]) s in
  Trace s' = Trace s /\ sysex_idle s'.
Proof.
  intros Hb Hi Hk s'. subst s'.
  set (l := 0xF0 :: b ++ [0xF4]).
  set (T := Z.of_nat (length l)).
  assert (HT : T = Z.of_nat (length b) + 2).
  { subst T l. cbn [length]. rewrite length_app. cbn [length]. lia. }
  enough (Hg : exists s1,
    GenerateMIDIEvent l 0 T (u32 (0 + LocalClock s)) s = (s1, T) /\
    Trace s1 = Trace s /\ sysex_idle s1).
  { destruct Hg as (s1 & Eg & Ht & Hidle).
    rewrite (decode_list_one_event l s s1); [split; assumption|discriminate|exact Eg]. }
  unfold GenerateMIDIEvent. rewrite Z.sub_0_r.
  destruct (GenerateMIDIEvent_loop_sysex_open b [0xF4] (Z.to_nat T) T (u32 (0 + LocalClock s)) s
              Hb Hi Hk) as (x & E1 & Hh & Ha & Hs & Hfr); try lia.
  fold l in E1. rewrite E1.
  assert (El : l = (0xF0 :: b) ++ 0xF4 :: []) by reflexivity.
  pose proof (f_equal Trace Hfr) as Xt.
  change (Trace (sysex_frame x)) with (Trace x) in Xt.
  change (Trace (sysex_frame (set_SegmentSYSEXInput true (set_SYSEX_RTPActif true s))))
    with (Trace s) in Xt.
  clearbody l T.
  rewrite GenerateMIDIEvent_loop_turn by lia.
  rewrite (rd_at l _ _ _ _ El) by (cbn [length]; lia).
  rewrite (GenerateMIDIEvent_byte_F4 _ x Ha).
  eexists. split; [f_equal; lia|].
  split; [exact Xt|apply initRTP_SYSEXBuffer_idle].
Qed.

Lemma decode_list_sysex_cancelled_witness :
  callbacks (Trace (decode_list (0xF0 :: [0x7E; 0x00] ++ [0xF4]) (opened_endpoint 16))) = [].
Proof.
  destruct (decode_list_sysex_cancelled [0x7E; 0x00] (opened_endpoint 16)) as (Ht & _).
  - repeat constructor; lia.
  - vm_compute. repeat split.
  - exists (replicate 16 0). vm_compute. repeat split; intros H; discriminate H.
  - rewrite Ht. vm_compute. reflexivity.
Defined.

(** Fuel beyond [TailleBloc - *ByteCtr] makes no difference. *)
Lemma GenerateMIDIEvent_loop_enough n buf ctr T t s :
  T - ctr <= Z.of_nat n ->
  GenerateMIDIEvent_loop n buf ctr T t s = GenerateMIDIEvent buf ctr T t s.
Proof.
  intros Hn. unfold GenerateMIDIEvent.
  assert (E : exists k, n = (Z.to_nat (T - ctr) + k)%nat) by (exists (n - Z.to_nat (T - ctr))%nat; lia).
  destruct E as [k ->]. clear Hn.
  induction k as [|k IH]; [rewrite Nat.add_0_r; reflexivity|].
  rewrite Nat.add_succ_r, GenerateMIDIEvent_fuel by lia. exact IH.
Qed.

(** A status byte from 80 to EF met inside a SYSEX message: the message is
    dropped and the decoder goes on behind the status byte, which it has
    taken as running status. *)
Lemma GenerateMIDIEvent_sysex_abort b st post s t :
  data_bytes b -> 0x80 <= st < 0xF0 ->
  sysex_idle s -> sysex_buffer_ok s -> RTPCallback s = true ->
  length (FullInMidiMsg s) = 3%nat ->
  let l := 0xF0 :: b ++ st :: post in
  let T := Z.of_nat (length l) in
  exists y,
    GenerateMIDIEvent l 0 T t s = GenerateMIDIEvent l (1 + Z.of_nat (length b) + 1) T t y /\
    decoder_ready y /\ RTPRunningStatus y = st /\ RTPCallback y = true /\
    ClientInstance y = ClientInstance s /\ Trace y = Trace s /\
    InSYSEXBufferPtr y = 0.
Proof.
  intros Hb Hst' Hi Hk Hcb HF l T.
  assert (HT : T = Z.of_nat (length b) + 2 + Z.of_nat (length post)).
  { subst T l. cbn [length]. rewrite length_app. cbn [length]. lia. }
  unfold GenerateMIDIEvent at 1. rewrite Z.sub_0_r.
  destruct (GenerateMIDIEvent_loop_sysex_open b (st :: post) (Z.to_nat T) T t s Hb Hi Hk)
    as (x & E1 & Hh & Ha & Hs & Hfr); try lia.
  fold l in E1. rewrite E1.
  assert (El1 : l = (0xF0 :: b) ++ st :: post) by reflexivity.
  pose proof (frame_eq_fields _ _ Hfr) as (Xt & _ & _ & Xc & Xi & _ & Xl).
  pose proof (f_equal FullInMidiMsg Hfr) as XF.
  change (FullInMidiMsg (sysex_frame x)) with (FullInMidiMsg x) in XF.
  change (FullInMidiMsg (sysex_frame (set_SegmentSYSEXInput true (set_SYSEX_RTPActif true s))))
    with (FullInMidiMsg s) in XF.
  change (Trace (set_SegmentSYSEXInput true (set_SYSEX_RTPActif true s))) with (Trace s) in Xt.
  change (RTPCallback (set_SegmentSYSEXInput true (set_SYSEX_RTPActif true s)))
    with (RTPCallback s) in Xc.
  change (ClientInstance (set_SegmentSYSEXInput true (set_SYSEX_RTPActif true s)))
    with (ClientInstance s) in Xi.
  clear E1 Hfr. clearbody l T.
  rewrite GenerateMIDIEvent_loop_turn by lia.
  rewrite (rd_at l _ _ _ _ El1) by (cbn [length]; lia).
  rewrite (GenerateMIDIEvent_byte_abort st t x Ha Hs Hst').
  rewrite (GenerateMIDIEvent_status_channel st t _ Hst').
  set (y := set_IncomingThirdByte false
              (set_FullInMidiMsg_at 0 st (set_RTPRunningStatus st (initRTP_SYSEXBuffer x)))).
  assert (Fy : decoder_ready y /\ RTPRunningStatus y = st /\ RTPCallback y = true /\
               ClientInstance y = ClientInstance s /\ Trace y = Trace s /\
               InSYSEXBufferPtr y = 0).
  { subst y. unfold decoder_ready, set_FullInMidiMsg_at, initRTP_SYSEXBuffer.
    cbn [SYSEX_RTPActif IncomingThirdByte FullInMidiMsg RTPRunningStatus RTPCallback
         ClientInstance Trace InSYSEXBufferPtr InSYSEXOverflow
         set_IncomingThirdByte set_FullInMidiMsg set_RTPRunningStatus
         set_InSYSEXOverflow set_SYSEX_RTPActif set_SegmentSYSEXInput set_InSYSEXBufferPtr].
    rewrite wr_length, XF, Xc, Xi, Xt. repeat split; assumption. }
  clearbody y. exists y. split; [|exact Fy].
  apply GenerateMIDIEvent_loop_enough. lia.
Qed.

(** A data byte under the running status of a message of two bytes. *)
Lemma GenerateMIDIEvent_running2 buf ctr T t s d :
  decoder_ready s -> status2 (RTPRunningStatus s) -> RTPCallback s = true ->
  rd buf ctr = d -> 0 <= d < 0x80 -> ctr + 1 <= T ->
  exists s', GenerateMIDIEvent buf ctr T t s = (s', ctr + 1) /\
    Trace s' = Trace s ++ [EvCallback (ClientInstance s) 2 [RTPRunningStatus s; d] t] /\
    decoder_after (RTPRunningStatus s) s s'.
Proof.
  intros (Ha & H3 & HF) Hst Hcb E1 Hd HT.
  unfold GenerateMIDIEvent.
  destruct (Z.to_nat (T - ctr)) as [|k] eqn:Ek; try lia.
  rewrite GenerateMIDIEvent_loop_step by lia. rewrite E1.
  rewrite GenerateMIDIEvent_byte_status by (first [exact Ha | lia]).
  rewrite (GenerateMIDIEvent_status_program d t s Hd H3 Hst).
  eexists. split; [reflexivity|].
  unfold sendMIDIToClient, call_RTPCallback, set_FullInMidiMsg_at.
  cbn [RTPCallback set_FullInMidiMsg FullInMidiMsg ClientInstance Trace set_Trace].
  rewrite Hcb. cbn [Trace set_Trace].
  destruct (wr2_01 (FullInMidiMsg s) (RTPRunningStatus s) d HF) as [Hw1 Hw2].
  change (Z.to_nat 2) with 2%nat. rewrite Hw1.
  split; [reflexivity|].
  unfold decoder_after, decoder_ready.
  cbn [SYSEX_RTPActif IncomingThirdByte FullInMidiMsg RTPRunningStatus RTPCallback
       ClientInstance LocalClock set_Trace set_FullInMidiMsg].
  rewrite Ha, H3, Hcb, Hw2. repeat split.
Qed.

(** X8: a channel status byte met inside a SYSEX message puts an end to it:
    what was stored is dropped without a call of the callback, and the
    status byte starts a message of its own, of three bytes or of two,
    which is delivered. *)
Theorem decode_list_sysex_aborted b m s :
  data_bytes b -> channel_message m ->
  sysex_idle s -> sysex_buffer_ok s -> RTPCallback s = true ->
  length (FullInMidiMsg s) = 3%nat ->
  let s' := decode_list (0xF0 :: b ++ m) s in
  Trace s' = Trace s ++ [EvCallback (ClientInstance s) (Z.of_nat (length m)) m
                           (u32 (0 + LocalClock s))] /\
  (SYSEX_RTPActif s' = false /\ InSYSEXBufferPtr s' = 0) /\ RTPRunningStatus s' = hd 0 m.
Proof.
  intros Hb Hm Hi Hk Hcb HF s'. subst s'.
  set (t := u32 (0 + LocalClock s)).
  set (l := 0xF0 :: b ++ m).
  set (T := Z.of_nat (length l)).
  enough (Hg : exists s1,
    GenerateMIDIEvent l 0 T t s = (s1, T) /\
    Trace s1 = Trace s ++ [EvCallback (ClientInstance s) (Z.of_nat (length m)) m t] /\
    (SYSEX_RTPActif s1 = false /\ InSYSEXBufferPtr s1 = 0) /\ RTPRunningStatus s1 = hd 0 m).
  { destruct Hg as (s1 & Eg & Ht & Hidle).
    rewrite (decode_list_one_event l s s1); [split; assumption|discriminate|exact Eg]. }
  destruct Hm as [(st & d1 & d2 & -> & Hst & Hd1 & Hd2) | (st & d & -> & Hst & Hd)].
  - assert (Hst' : 0x80 <= st < 0xF0) by (unfold status3 in Hst; lia).
    assert (HT : T = Z.of_nat (length b) + 4).
    { subst T l. cbn [length]. rewrite length_app. cbn [length]. lia. }
    destruct (GenerateMIDIEvent_sysex_abort b st [d1; d2] s t Hb Hst' Hi Hk Hcb HF)
      as (y & E1 & Yr & Ys & Yc & Yi & Yt & Yp).
    fold l T in E1. rewrite E1. clear E1.
    assert (El2 : l = (0xF0 :: b ++ [st]) ++ d1 :: [d2]).
    { subst l. cbn [app]. rewrite <- app_assoc. reflexivity. }
    assert (El3 : l = (0xF0 :: b ++ [st; d1]) ++ d2 :: []).
    { subst l. cbn [app]. rewrite <- app_assoc. reflexivity. }
    clearbody l T.
    destruct (GenerateMIDIEvent_running3 l (1 + Z.of_nat (length b) + 1) T t y d1 d2 Yr)
      as (s1 & Eg & Ht1 & R1 & S1 & C1 & I1 & L1); try assumption; try lia.
    + rewrite Ys. exact Hst.
    + apply (rd_at l _ _ _ _ El2). cbn [length]. rewrite length_app. cbn [length]. lia.
    + apply (rd_at l _ _ _ _ El3). cbn [length]. rewrite length_app. cbn [length]. lia.
    + exists s1. rewrite Eg. split; [f_equal; lia|].
      rewrite Ht1, Yt, Yi, Ys. split; [reflexivity|].
      split; [|cbn [hd]; congruence].
      split; [apply R1|].
      pose proof (sysex_ptr_inv_GenerateMIDIEvent_loop
                    (Z.to_nat (T - (1 + Z.of_nat (length b) + 1))) l T t
                    (1 + Z.of_nat (length b) + 1) y (fun _ => Yp)) as Hinv.
      fold (GenerateMIDIEvent l (1 + Z.of_nat (length b) + 1) T t y) in Hinv.
      rewrite Eg in Hinv. apply Hinv. apply R1.
  - assert (Hst' : 0x80 <= st < 0xF0) by (unfold status2 in Hst; lia).
    assert (HT : T = Z.of_nat (length b) + 3).
    { subst T l. cbn [length]. rewrite length_app. cbn [length]. lia. }
    destruct (GenerateMIDIEvent_sysex_abort b st [d] s t Hb Hst' Hi Hk Hcb HF)
      as (y & E1 & Yr & Ys & Yc & Yi & Yt & Yp).
    fold l T in E1. rewrite E1. clear E1.
    assert (El2 : l = (0xF0 :: b ++ [st]) ++ d :: []).
    { subst l. cbn [app]. rewrite <- app_assoc. reflexivity. }
    clearbody l T.
    destruct (GenerateMIDIEvent_running2 l (1 + Z.of_nat (length b) + 1) T t y d Yr)
      as (s1 & Eg & Ht1 & R1 & S1 & C1 & I1 & L1); try assumption; try lia.
    + rewrite Ys. exact Hst.
    + apply (rd_at l _ _ _ _ El2). cbn [length]. rewrite length_app. cbn [length]. lia.
    + exists s1. rewrite Eg. split; [f_equal; lia|].
      rewrite Ht1, Yt, Yi, Ys. split; [reflexivity|].
      split; [|cbn [hd]; congruence].
      split; [apply R1|].
      pose proof (sysex_ptr_inv_GenerateMIDIEvent_loop
                    (Z.to_nat (T - (1 + Z.of_nat (length b) + 1))) l T t
                    (1 + Z.of_nat (length b) + 1) y (fun _ => Yp)) as Hinv.
      fold (GenerateMIDIEvent l (1 + Z.of_nat (length b) + 1) T t y) in Hinv.
      rewrite Eg in Hinv. apply Hinv. apply R1.
Qed.

Lemma decode_list_sysex_aborted_witness :
  callbacks (Trace (decode_list (0xF0 :: [0x7E; 0x00] ++ [0xC5; 0x07])
                      (opened_endpoint 16)))
  = [(2, [0xC5; 0x07])].
Proof.
  destruct (decode_list_sysex_aborted [0x7E; 0x00] [0xC5; 0x07] (opened_endpoint 16))
    as (Ht & _).
  - repeat constructor; lia.
  - right. exists 0xC5, 0x07. unfold status2. repeat split; lia.
  - vm_compute. repeat split.
  - exists (replicate 16 0). vm_compute. repeat split; intros H; discriminate H.
  - reflexivity.
  - reflexivity.
  - rewrite Ht. vm_compute. reflexivity.
Defined.

(** ** Invariants of the decoder *)

(** A property kept by what the decoder does with one byte is kept by the
    decoding of a whole datagram. *)
Section decoder_invariant.
Variable I : CRTP_MIDI -> Prop.
Hypothesis I_byte : forall b t s, I s -> I (fst (GenerateMIDIEvent_byte b t s)).
Hypothesis I_LastRTPCounter : forall n s, I s -> I (set_LastRTPCounter n s).

Lemma inv_GenerateMIDIEvent_loop n buf T t : forall ctr s,
  I s -> I (fst (GenerateMIDIEvent_loop n buf ctr T t s)).
Proof.
  induction n as [|n IH]; intros ctr s H; [exact H|].
  cbn [GenerateMIDIEvent_loop]. destruct (ctr <? T); [|exact H]. cbv zeta.
  pose proof (I_byte (rd buf ctr) t s H) as Hb.
  destruct (GenerateMIDIEvent_byte (rd buf ctr) t s) as [x' [|]]; cbn [fst] in *.
  - apply IH. exact Hb.
  - exact Hb.
Qed.

Lemma inv_GenerateMIDIEvent buf ctr T t s :
  I s -> I (fst (GenerateMIDIEvent buf ctr T t s)).
Proof. apply inv_GenerateMIDIEvent_loop. Qed.

Lemma inv_ProcessIncomingRTP_scan n buf T : forall ctr s,
  I s -> I (fst (ProcessIncomingRTP_scan n buf ctr T s)).
Proof.
  induction n as [|n IH]; intros ctr s H; [exact H|].
  cbn [ProcessIncomingRTP_scan]. destruct (ctr <? T); [|exact H].
  destruct (GetDeltaTime buf ctr) as [dt ctr1].
  destruct (ctr1 <? T).
  - pose proof (inv_GenerateMIDIEvent buf ctr1 T (u32 (dt + LocalClock s)) s H) as Hg.
    destruct (GenerateMIDIEvent buf ctr1 T (u32 (dt + LocalClock s)) s) as [x' ctr2].
    apply IH. exact Hg.
  - apply IH. exact H.
Qed.

Lemma inv_ProcessIncomingRTP_list buf T z s :
  I s -> I (fst (ProcessIncomingRTP_list buf T z s)).
Proof.
  intros H. unfold ProcessIncomingRTP_list. destruct (0 <? T); [|exact H].
  destruct (if z then GetDeltaTime buf 0 else (0, 0)) as [dt ctr1].
  destruct (ctr1 <? T).
  - pose proof (inv_GenerateMIDIEvent buf ctr1 T (u32 (dt + LocalClock s)) s H) as Hg.
    destruct (GenerateMIDIEvent buf ctr1 T (u32 (dt + LocalClock s)) s) as [x' ctr2].
    apply inv_ProcessIncomingRTP_scan. exact Hg.
  - apply inv_ProcessIncomingRTP_scan. exact H.
Qed.

Lemma inv_ProcessIncomingRTP buf s : I s -> I (ProcessIncomingRTP buf s).
Proof.
  intros H. unfold ProcessIncomingRTP. cbv zeta.
  apply inv_ProcessIncomingRTP_list. apply I_LastRTPCounter. exact H.
Qed.
End decoder_invariant.

(** *** No callback, no call *)

Lemma muted_frame tr s x :
  RTPCallback x = RTPCallback s -> Trace x = Trace s -> muted tr s -> muted tr x.
Proof. intros Hc Ht [H1 H2]. split; congruence. Qed.

Lemma muted_sendMIDIToClient tr n t s :
  muted tr s -> muted tr (sendMIDIToClient n t s).
Proof. intros H. unfold sendMIDIToClient. rewrite (proj1 H). exact H. Qed.

Lemma muted_sendRTP_SYSEXBuffer tr t s :
  muted tr s -> muted tr (sendRTP_SYSEXBuffer t s).
Proof. intros H. unfold sendRTP_SYSEXBuffer. rewrite (proj1 H). exact H. Qed.

Lemma muted_storeRTP_SYSEXData tr b s :
  muted tr s -> muted tr (storeRTP_SYSEXData b s).
Proof.
  apply muted_frame.
  - exact (f_equal RTPCallback (storeRTP_SYSEXData_frame b s)).
  - exact (f_equal Trace (storeRTP_SYSEXData_frame b s)).
Qed.

Ltac muted_chain :=
  cbv zeta;
  lazymatch goal with
  | H : muted ?tr ?x |- muted ?tr ?x => exact H
  | |- muted _ (if ?c then _ else _) => destruct c; muted_chain
  | |- muted _ (sendMIDIToClient _ _ _) => apply muted_sendMIDIToClient; muted_chain
  | |- muted _ (sendRTP_SYSEXBuffer _ _) => apply muted_sendRTP_SYSEXBuffer; muted_chain
  | |- muted _ (storeRTP_SYSEXData _ _) => apply muted_storeRTP_SYSEXData; muted_chain
  | |- muted ?tr (?f ?x) =>
      let E1 := fresh "E" in
      let E2 := fresh "E" in
      assert (E1 : forall c, RTPCallback (f c) = RTPCallback c) by (intros ?; reflexivity);
      assert (E2 : forall c, Trace (f c) = Trace c) by (intros ?; reflexivity);
      apply (muted_frame tr x (f x) (E1 x) (E2 x)); clear E1 E2;
      muted_chain
  end.

Lemma muted_GenerateMIDIEvent_status tr b t s :
  muted tr s -> muted tr (fst (GenerateMIDIEvent_status b t s)).
Proof.
  intros H. unfold GenerateMIDIEvent_status, set_FullInMidiMsg_at.
  split_tests; cbn [fst]; muted_chain.
Qed.

Lemma muted_GenerateMIDIEvent_byte tr b t s :
  muted tr s -> muted tr (fst (GenerateMIDIEvent_byte b t s)).
Proof.
  intros H. unfold GenerateMIDIEvent_byte, set_FullInMidiMsg_at.
  split_tests; cbn [fst];
    try (apply muted_GenerateMIDIEvent_status); unfold initRTP_SYSEXBuffer; muted_chain.
Qed.

(** X9: an endpoint without a callback (the constructor or SetCallback was
    given 0) decodes a datagram without any call: whatever the datagram
    holds, ProcessIncomingRTP leaves the trace as it is and the callback
    unset. *)
Theorem ProcessIncomingRTP_without_callback Buffer s :
  RTPCallback s = false ->
  Trace (ProcessIncomingRTP Buffer s) = Trace s /\
  RTPCallback (ProcessIncomingRTP Buffer s) = false.
Proof.
  intros Hcb.
  destruct (inv_ProcessIncomingRTP (muted (Trace s))
              (muted_GenerateMIDIEvent_byte (Trace s))
              (fun n x H => muted_frame (Trace s) x (set_LastRTPCounter n x) eq_refl eq_refl H)
              Buffer s (conj Hcb eq_refl)) as [H1 H2].
  split; assumption.
Qed.

Lemma ProcessIncomingRTP_without_callback_witness :
  Trace (ProcessIncomingRTP (RTP_short 1 0 0x22222222 false [0x90; 0x3C; 0x7F])
           (CRTP_MIDI_new raw0 16 false 0)) = [].
Proof.
  destruct (ProcessIncomingRTP_without_callback
              (RTP_short 1 0 0x22222222 false [0x90; 0x3C; 0x7F])
              (CRTP_MIDI_new raw0 16 false 0) eq_refl) as [Ht _].
  rewrite Ht. reflexivity.
Defined.

(** *** The fill index stays inside the SYSEX buffer *)

Lemma sysex_in_bounds_frame s x :
  sysex_store x = sysex_store s -> sysex_in_bounds s -> sysex_in_bounds x.
Proof.
  unfold sysex_store. intros E (buf & Hb & Hl & Hp & Hz).
  injection E as E1 E2 E3. exists buf. rewrite E1, E2, E3. tauto.
Qed.

Lemma sysex_in_bounds_storeRTP_SYSEXData b s :
  sysex_in_bounds s -> sysex_in_bounds (storeRTP_SYSEXData b s).
Proof.
  intros (buf & Hb & Hl & Hp & Hz). unfold storeRTP_SYSEXData. rewrite Hb. cbv zeta.
  cbn [InSYSEXBufferPtr InSYSEXBufferSize set_InSYSEXBuffer].
  rewrite (u32_small (InSYSEXBufferSize s - 1)) by lia.
  destruct (Z.ltb_spec (InSYSEXBufferPtr s) (InSYSEXBufferSize s - 1)).
  - exists (wr buf (InSYSEXBufferPtr s) b).
    cbn [InSYSEXBuffer InSYSEXBufferSize InSYSEXBufferPtr set_InSYSEXBufferPtr
         set_InSYSEXBuffer].
    rewrite wr_length, u32_small by lia. repeat split; try assumption; lia.
  - exists (wr buf (InSYSEXBufferPtr s) b).
    cbn [InSYSEXBuffer InSYSEXBufferSize InSYSEXBufferPtr set_InSYSEXOverflow
         set_InSYSEXBuffer].
    rewrite wr_length. repeat split; try assumption; lia.
Qed.

Lemma sysex_in_bounds_initRTP_SYSEXBuffer s :
  sysex_in_bounds s -> sysex_in_bounds (initRTP_SYSEXBuffer s).
Proof.
  intros (buf & Hb & Hl & Hp & Hz). exists buf. unfold initRTP_SYSEXBuffer.
  cbn [InSYSEXBuffer InSYSEXBufferSize InSYSEXBufferPtr set_InSYSEXOverflow
       set_SYSEX_RTPActif set_SegmentSYSEXInput set_InSYSEXBufferPtr].
  repeat split; try assumption; lia.
Qed.

Ltac bounds_frame_layer :=
  lazymatch goal with
  | |- sysex_in_bounds (?f ?x) =>
      let E := fresh "E" in
      assert (E : forall c, sysex_store (f c) = sysex_store c) by (intros ?; reflexivity);
      apply (sysex_in_bounds_frame x (f x) (E x)); clear E
  end.

Lemma sysex_in_bounds_sendMIDIToClient n t s :
  sysex_in_bounds s -> sysex_in_bounds (sendMIDIToClient n t s).
Proof.
  intros H. unfold sendMIDIToClient. destruct (RTPCallback s); [|exact H].
  bounds_frame_layer. exact H.
Qed.

Lemma sysex_in_bounds_sendRTP_SYSEXBuffer t s :
  sysex_in_bounds s -> sysex_in_bounds (sendRTP_SYSEXBuffer t s).
Proof.
  intros H. unfold sendRTP_SYSEXBuffer. destruct (RTPCallback s); [|exact H].
  bounds_frame_layer. exact H.
Qed.

Ltac bounds_decoder_chain :=
  cbv zeta;
  lazymatch goal with
  | H : sysex_in_bounds ?x |- sysex_in_bounds ?x => exact H
  | |- sysex_in_bounds (if ?c then _ else _) => destruct c; bounds_decoder_chain
  | |- sysex_in_bounds (sendMIDIToClient _ _ _) =>
      apply sysex_in_bounds_sendMIDIToClient; bounds_decoder_chain
  | |- sysex_in_bounds (sendRTP_SYSEXBuffer _ _) =>
      apply sysex_in_bounds_sendRTP_SYSEXBuffer; bounds_decoder_chain
  | |- sysex_in_bounds (storeRTP_SYSEXData _ _) =>
      apply sysex_in_bounds_storeRTP_SYSEXData; bounds_decoder_chain
  | |- sysex_in_bounds (initRTP_SYSEXBuffer _) =>
      apply sysex_in_bounds_initRTP_SYSEXBuffer; bounds_decoder_chain
  | |- _ => bounds_frame_layer; bounds_decoder_chain
  end.

Lemma sysex_in_bounds_GenerateMIDIEvent_status b t s :
  sysex_in_bounds s -> sysex_in_bounds (fst (GenerateMIDIEvent_status b t s)).
Proof.
  intros H. unfold GenerateMIDIEvent_status, set_FullInMidiMsg_at.
  split_tests; cbn [fst]; bounds_decoder_chain.
Qed.

Lemma sysex_in_bounds_GenerateMIDIEvent_byte b t s :
  sysex_in_bounds s -> sysex_in_bounds (fst (GenerateMIDIEvent_byte b t s)).
Proof.
  intros H. unfold GenerateMIDIEvent_byte, set_FullInMidiMsg_at.
  split_tests; cbn [fst];
    try (apply sysex_in_bounds_GenerateMIDIEvent_status); bounds_decoder_chain.
Qed.

Lemma sysex_in_bounds_ProcessIncomingRTP buf s :
  sysex_in_bounds s -> sysex_in_bounds (ProcessIncomingRTP buf s).
Proof.
  apply (inv_ProcessIncomingRTP sysex_in_bounds sysex_in_bounds_GenerateMIDIEvent_byte).
  intros n x H. bounds_frame_layer. exact H.
Qed.

(** ** Invariants of the endpoint *)

(** A property kept by each stage of RunSession and by each other call is
    kept by every run of the endpoint. *)
Section session_invariant.
Variable I : CRTP_MIDI -> Prop.
Hypothesis I_clock : forall s, I s -> I (RunSession_clock s).
Hypothesis I_timer : forall s, I s -> I (fst (RunSession_timer s)).
Hypothesis I_wait_ctrl : forall s, I s -> I (set_SessionState SESSION_WAIT_INVITE_CTRL s).
Hypothesis I_control : forall a r s, I s -> I (snd (ProcessControlSocket a r s)).
Hypothesis I_data : forall a r s, I s -> I (snd (RunSession_DataSocket a r s)).
Hypothesis I_refused : forall s, I s -> I (set_ConnectionRefused true (PartnerCloseSession s)).
Hypothesis I_initiator : forall te fl s, I s -> I (fst (RunSession_initiator te fl s)).
Hypothesis I_opened : forall te s, I s -> I (RunSession_opened te s).
Hypothesis I_call : forall c s, I s ->
  match c with Call_RunSession => True | _ => I (host_step c s) end.

Lemma inv_RunSession_sockets n : forall fl s,
  I s -> I (snd (RunSession_sockets n fl s)).
Proof.
  induction n as [|n IH]; intros fl s H; [exact H|].
  cbn [RunSession_sockets].
  pose proof (I_control (InvitationAcceptedOnCtrl fl) (InvitationRejectedOnCtrl fl) s H) as Hc.
  destruct (ProcessControlSocket (InvitationAcceptedOnCtrl fl)
              (InvitationRejectedOnCtrl fl) s) as [[[pc ac] rc] x1].
  cbn [snd] in Hc.
  pose proof (I_data (InvitationAcceptedOnData fl) (InvitationRejectedOnData fl) x1 Hc) as Hd.
  destruct (RunSession_DataSocket (InvitationAcceptedOnData fl)
              (InvitationRejectedOnData fl) x1) as [[[pd ad] rdt] x2].
  cbn [snd] in Hd.
  destruct (pc || pd); [apply IH|]; exact Hd.
Qed.

Lemma inv_RunSession s : I s -> I (RunSession s).
Proof.
  intros H. unfold RunSession. cbv zeta.
  pose proof (I_clock s H) as H0.
  set (x0 := RunSession_clock s) in *. clearbody x0.
  destruct (EndpointLocked x0); [exact H0|].
  pose proof (I_timer x0 H0) as H1.
  destruct (RunSession_timer x0) as [x1 te]. cbn [fst] in H1. clear H0.
  set (x2 := if te && SessionState_eqb (SessionState x1) SESSION_WAIT_INVITE_DATA
             then _ else x1).
  assert (H2 : I x2) by (subst x2; destruct (_ && _); [apply I_wait_ctrl|]; exact H1).
  clearbody x2. clear H1.
  set (x3 := if te && SessionState_eqb (SessionState x2) SESSION_WAIT_CLOCK_SYNC
             then _ else x2).
  assert (H3 : I x3) by (subst x3; destruct (_ && _); [apply I_wait_ctrl|]; exact H2).
  clearbody x3. clear H2.
  pose proof (inv_RunSession_sockets
                (S (pending_datagrams (ControlSocket x3) + pending_datagrams (DataSocket x3)))
                (MkFlags false false false false) x3 H3) as H4.
  destruct (RunSession_sockets _ _ x3) as [fl x4]. cbn [snd] in H4. clear H3.
  assert (H5 : exists fl' x5, I x5 /\
     (if InvitationRejectedOnCtrl fl || InvitationRejectedOnData fl
      then (MkFlags false (InvitationRejectedOnCtrl fl) false (InvitationRejectedOnData fl),
            set_ConnectionRefused true (PartnerCloseSession x4))
      else (fl, x4)) = (fl', x5)).
  { destruct (InvitationRejectedOnCtrl fl || InvitationRejectedOnData fl);
      eexists _, _; (split; [|reflexivity]); [apply I_refused|]; exact H4. }
  destruct H5 as (fl' & x5 & H5 & E5). rewrite E5. clear E5 H4.
  pose proof (I_initiator te fl' x5 H5) as H6.
  destruct (RunSession_initiator te fl' x5) as [x6 returned]. cbn [fst] in H6.
  destruct returned; [exact H6|]. apply I_opened. exact H6.
Qed.

Lemma inv_host_step c s : I s -> I (host_step c s).
Proof.
  intros H. pose proof (I_call c s H) as Hc.
  destruct c; try exact Hc. apply inv_RunSession. exact H.
Qed.

Lemma inv_host_run cs : forall s, I s -> I (host_run cs s).
Proof.
  induction cs as [|c cs IH]; intros s H; [exact H|].
  apply IH. apply inv_host_step. exact H.
Qed.
End session_invariant.

(** *** The SYSEX buffer *)

Ltac bounds_chain :=
  cbv zeta;
  lazymatch goal with
  | H : sysex_in_bounds ?x |- sysex_in_bounds ?x => exact H
  | |- sysex_in_bounds (if ?c then _ else _) => destruct c; bounds_chain
  | |- sysex_in_bounds (ProcessIncomingRTP _ _) =>
      apply sysex_in_bounds_ProcessIncomingRTP; bounds_chain
  | |- sysex_in_bounds (PartnerCloseSession _) => unfold PartnerCloseSession; bounds_chain
  | |- sysex_in_bounds (RestartSession _) => unfold RestartSession; bounds_chain
  | |- sysex_in_bounds (SendInvitation _ _) => unfold SendInvitation; bounds_chain
  | |- sysex_in_bounds (SendInvitationReply _ _ _ _ _) =>
      unfold SendInvitationReply; bounds_chain
  | |- _ => bounds_frame_layer; bounds_chain
  end.

Lemma sysex_in_bounds_RunSession_datagram d a r s :
  sysex_in_bounds s -> sysex_in_bounds (snd (RunSession_datagram d a r s)).
Proof.
  intros H. unfold RunSession_datagram, RunSession_CK. cbv zeta.
  split_tests; cbn [snd]; bounds_chain.
Qed.

Lemma sysex_in_bounds_GeneratePayload s :
  sysex_in_bounds s -> sysex_in_bounds (fst (GeneratePayload s)).
Proof.
  intros H. unfold GeneratePayload. cbv zeta.
  destruct (GeneratePayload_loop _ _ _ _) as [q l]. cbn [fst]. bounds_chain.
Qed.

Lemma sysex_in_bounds_RunSession_emit s :
  sysex_in_bounds s -> sysex_in_bounds (RunSession_emit s).
Proof.
  intros H. unfold RunSession_emit, PrepareMessage.
  pose proof (sysex_in_bounds_GeneratePayload s H) as Hg.
  destruct (GeneratePayload s) as [x l]. cbn [fst] in Hg. cbv zeta.
  destruct (Z.of_nat (length l) =? 0); cbv iota beta; bounds_chain.
Qed.

Lemma sysex_in_bounds_host_call c s :
  sysex_in_bounds s ->
  match c with Call_RunSession => True | _ => sysex_in_bounds (host_step c s) end.
Proof.
  intros H. destruct c; cbn [host_step]; try exact I.
  - unfold InitiateSession, CloseSockets, PrepareTimerEvent. cbv zeta.
    destruct (negb _); cbn [snd]; bounds_chain.
  - unfold CloseSession, SendBYCommand. bounds_chain.
  - unfold SendRTPMIDIBlock. cbv zeta.
    destruct (_ =? 0); [exact H|]. destruct (negb _); [exact H|].
    destruct (SendRTPMIDIBlock_loop _ _ _ _) as [fifo [tw|]]; cbn [snd]; bounds_chain.
  - bounds_chain.
  - unfold ReadAndResetConnectionLost. destruct (negb _); cbn [snd]; bounds_chain.
  - unfold RemotePeerHasClosedSession. cbn [snd]. bounds_chain.
  - unfold RemotePeerHasRefusedSession. cbn [snd]. bounds_chain.
  - unfold SetCallback. bounds_chain.
  - unfold setSessionName. bounds_chain.
  - bounds_chain.
  - bounds_chain.
Qed.

Lemma sysex_in_bounds_new raw SYXInSize cb inst :
  1 <= SYXInSize < 2^32 -> sysex_in_bounds (CRTP_MIDI_new raw SYXInSize cb inst).
Proof.
  intros Hz. exists (replicate (Z.to_nat SYXInSize) 0).
  unfold CRTP_MIDI_new, initRTP_SYSEXBuffer. cbv zeta.
  cbn [InSYSEXBuffer InSYSEXBufferSize InSYSEXBufferPtr set_Trace set_ClientInstance
       set_RTPCallback set_InSYSEXOverflow set_SYSEX_RTPActif set_SegmentSYSEXInput
       set_InSYSEXBufferPtr set_RTPStreamQueue set_InSYSEXBuffer set_InSYSEXBufferSize].
  rewrite length_replicate. repeat split; lia.
Qed.

(** X10: in every state an endpoint constructed with a SYSEX buffer of at
    least one byte can reach, whatever the host calls and whatever
    datagrams arrive, the buffer is allocated with the recorded size and
    the fill index is one of its indices: storeRTP_SYSEXData never writes
    outside the buffer. *)
Theorem reachable_sysex_in_bounds s :
  reachable s -> sysex_in_bounds s.
Proof.
  intros (raw & SYXInSize & cb & inst & cs & Hz & ->).
  apply (inv_host_run sysex_in_bounds).
  - intros x H. unfold RunSession_clock. bounds_chain.
  - intros x H. unfold RunSession_timer. cbv zeta. split_tests; cbn [fst]; bounds_chain.
  - intros x H. bounds_chain.
  - intros a r x H. unfold ProcessControlSocket.
    destruct (ControlSocket x) as [[|d q]|]; cbn [snd]; try exact H.
    cbv zeta. split_tests; cbn [snd]; bounds_chain.
  - intros a r x H. unfold RunSession_DataSocket.
    destruct (DataSocket x) as [[|d q]|]; cbn [snd]; try exact H.
    cbv zeta.
    pose proof (sysex_in_bounds_RunSession_datagram d a r (set_DataSocket (Some q) x)) as Hd.
    destruct (RunSession_datagram d a r (set_DataSocket (Some q) x)) as [[a' r'] x'].
    cbn [snd] in *. apply Hd. bounds_chain.
  - intros x H. bounds_chain.
  - intros te fl x H. unfold RunSession_initiator, PrepareTimerEvent. cbv zeta.
    split_tests; cbn [fst]; bounds_chain.
  - intros te x H. unfold RunSession_opened.
    destruct (SessionState_eqb _ _); [|exact H].
    pose proof (sysex_in_bounds_RunSession_emit x H) as He.
    set (y := RunSession_emit x) in *. clearbody y.
    unfold RunSession_keepalive, PrepareTimerEvent, SendFeedbackPacket, SendSyncPacket.
    cbv zeta. split_tests; bounds_chain.
  - apply sysex_in_bounds_host_call.
  - apply sysex_in_bounds_new. exact Hz.
Qed.

Lemma reachable_sysex_in_bounds_witness :
  sysex_in_bounds (host_run restart_in_sysex (CRTP_MIDI_new raw0 16 true 0)).
Proof.
  apply reachable_sysex_in_bounds.
  exists raw0, 16, true, 0, restart_in_sysex. split; [lia|reflexivity].
Defined.

(** ** The session: opening, closing, timer *)

(** X11: InitiateSession returns 0 when both sockets could be created, -2
    when the data socket could not, and -1 when only the control socket
    could not.  On an error both sockets are closed and the session state,
    the lock and the trace are as before; on success both sockets are
    open, the endpoint is unlocked, the numbering of the datagrams starts
    at 0, the timer is armed for the next tick and the state is
    SESSION_INVITE_CONTROL for an initiator (whose partner is the
    destination) and SESSION_WAIT_INVITE_CTRL for a listener. *)
Theorem InitiateSession_result DestIP DestCtrlPort DestDataPort LocalCtrlPort LocalDataPort
    IsInitiator rand1 rand2 CtrlOK DataOK s :
  let r := InitiateSession DestIP DestCtrlPort DestDataPort LocalCtrlPort LocalDataPort
             IsInitiator rand1 rand2 CtrlOK DataOK s in
  fst r = (if DataOK then if CtrlOK then 0 else -1 else -2) /\
  (CtrlOK && DataOK = false ->
     ControlSocket (snd r) = None /\ DataSocket (snd r) = None /\
     SessionState (snd r) = SessionState s /\ EndpointLocked (snd r) = EndpointLocked s /\
     Trace (snd r) = Trace s) /\
  (CtrlOK && DataOK = true ->
     ControlSocket (snd r) = Some [] /\ DataSocket (snd r) = Some [] /\
     EndpointLocked (snd r) = false /\ IsInitiatorNode (snd r) = IsInitiator /\
     SessionState (snd r)
     = (if IsInitiator then SESSION_INVITE_CONTROL else SESSION_WAIT_INVITE_CTRL) /\
     SessionPartnerIP (snd r) = (if IsInitiator then DestIP else SessionPartnerIP s) /\
     RemoteIPToInvite (snd r) = DestIP /\ PartnerControlPort (snd r) = DestCtrlPort /\
     PartnerDataPort (snd r) = DestDataPort /\
     RTPSequence (snd r) = 0 /\ InviteCount (snd r) = 0 /\ TimeOutRemote (snd r) = 16 /\
     ConnectionLost (snd r) = false /\
     TimerRunning (snd r) = true /\ EventTime (snd r) = 1 /\ Trace (snd r) = Trace s).
Proof.
  intros r. subst r. unfold InitiateSession, CloseSockets, PrepareTimerEvent. cbv zeta.
  destruct CtrlOK, DataOK, IsInitiator; cbn; repeat split; intros; try discriminate;
    repeat split.
Qed.

(** *** A locked endpoint *)

Lemma RunSession_locked s :
  EndpointLocked s = true -> RunSession s = RunSession_clock s.
Proof.
  intros H. unfold RunSession. cbv zeta.
  assert (E : EndpointLocked (RunSession_clock s) = EndpointLocked s) by reflexivity.
  rewrite E, H. reflexivity.
Qed.

Lemma locked_host_step c s :
  EndpointLocked s = true -> no_InitiateSession [c] ->
  EndpointLocked (host_step c s) = true /\ Trace (host_step c s) = Trace s /\
  SessionPartnerIP (host_step c s) = SessionPartnerIP s.
Proof.
  intros H Hc. apply Forall_inv in Hc.
  destruct c; cbn [host_step]; try (split; [exact H|split; reflexivity]).
  - destruct Hc.
  - unfold CloseSession. rewrite H. destruct (_ && _); split; [exact H| |exact H|]; split;
      reflexivity.
  - rewrite (RunSession_locked s H). split; [exact H|split; reflexivity].
  - unfold SendRTPMIDIBlock. cbv zeta.
    destruct (_ =? 0); [split; [exact H|split; reflexivity]|].
    destruct (negb _); [split; [exact H|split; reflexivity]|].
    destruct (SendRTPMIDIBlock_loop _ _ _ _) as [fifo [tw|]]; cbn [snd];
      (split; [exact H|split; reflexivity]).
  - unfold RestartSession. destruct (negb _); split; [exact H| |exact H|]; split; reflexivity.
  - unfold ReadAndResetConnectionLost. destruct (negb _); cbn [snd];
      (split; [exact H|split; reflexivity]).
  - unfold setSessionName. destruct (_ <? _); split; [exact H| |exact H|]; split; reflexivity.
Qed.

(** X12: a locked endpoint (as the constructor leaves it, and as
    CloseSession leaves it) is inert until InitiateSession is called:
    whatever else the host calls and whatever datagrams arrive, nothing is
    sent, the callback is not called, and the endpoint stays locked. *)
Theorem locked_endpoint_inert cs : forall s,
  EndpointLocked s = true -> no_InitiateSession cs ->
  Trace (host_run cs s) = Trace s /\ EndpointLocked (host_run cs s) = true.
Proof.
  induction cs as [|c cs IH]; intros s H Hcs; [split; [reflexivity|exact H]|].
  apply Forall_cons in Hcs as [Hc Hcs].
  destruct (locked_host_step c s H) as (L1 & T1 & _); [constructor; [exact Hc|constructor]|].
  destruct (IH (host_step c s) L1 Hcs) as [T2 L2].
  split; [|exact L2]. cbn [host_run fold_left]. unfold host_run in T2. rewrite T2. exact T1.
Qed.

Lemma locked_endpoint_inert_witness :
  Trace (host_run [Call_RunSession;
                   Net_Control (from_partner_ctrl (OK_packet 1 2));
                   Call_SendRTPMIDIBlock [0x00; 0x90; 0x3C; 0x7F];
                   Call_RunSession; Call_RestartSession; Call_RunSession; Call_CloseSession]
           (CRTP_MIDI_new raw0 16 true 0)) = [].
Proof.
  destruct (locked_endpoint_inert
              [Call_RunSession;
               Net_Control (from_partner_ctrl (OK_packet 1 2));
               Call_SendRTPMIDIBlock [0x00; 0x90; 0x3C; 0x7F];
               Call_RunSession; Call_RestartSession; Call_RunSession; Call_CloseSession]
              (CRTP_MIDI_new raw0 16 true 0)) as [Ht _].
  - reflexivity.
  - repeat constructor.
  - rewrite Ht. reflexivity.
Defined.

(** X13: CloseSession on an unlocked endpoint which is not a listener still
    waiting for an invitation sends one BY packet, with the initiator
    token and the SSRC, to the control port of the session partner, puts
    the session in SESSION_CLOSED and locks the endpoint; a listener that
    waits for its first invitation sends nothing and stays as it is.  A
    second call changes nothing. *)
Theorem CloseSession_sends_BY s :
  (EndpointLocked s = false ->
   IsInitiatorNode s = true \/ SessionState s <> SESSION_WAIT_INVITE_CTRL ->
   Trace (CloseSession s)
   = Trace s ++ [EvSendTo ControlSocketId (SessionPartnerIP s) (PartnerControlPort s)
                   ([0xFF; 0xFF; chr_B; chr_Y] ++ be32 2 ++ be32 (InitiatorToken s)
                      ++ be32 (SSRC s))] /\
   SessionState (CloseSession s) = SESSION_CLOSED /\
   EndpointLocked (CloseSession s) = true /\ getSessionStatus (CloseSession s) = 0) /\
  (IsInitiatorNode s = false -> SessionState s = SESSION_WAIT_INVITE_CTRL ->
   CloseSession s = s) /\
  CloseSession (CloseSession s) = CloseSession s.
Proof.
  unfold CloseSession, SendBYCommand, sendto, SessionPacketNoName. cbv zeta.
  split; [|split].
  - intros Hl Hc. rewrite Hl.
    assert (E : negb (IsInitiatorNode s)
                && SessionState_eqb (SessionState s) SESSION_WAIT_INVITE_CTRL = false).
    { destruct Hc as [Hi | Hs]; [rewrite Hi; reflexivity|].
      destruct (SessionState s); try reflexivity; try apply andb_false_r. congruence. }
    rewrite E. repeat split.
  - intros Hi Hs. rewrite Hi, Hs. reflexivity.
  - destruct (negb (IsInitiatorNode s)
              && SessionState_eqb (SessionState s) SESSION_WAIT_INVITE_CTRL) eqn:E.
    + rewrite E. reflexivity.
    + destruct (EndpointLocked s) eqn:El.
      * rewrite E, El. reflexivity.
      * cbn [IsInitiatorNode SessionState EndpointLocked set_Trace set_EndpointLocked
             set_SessionState SessionState_eqb andb]. rewrite andb_false_r. reflexivity.
Qed.

(** ** Datagrams received *)

Lemma callbacks_app tr1 tr2 : callbacks (tr1 ++ tr2) = callbacks tr1 ++ callbacks tr2.
Proof. unfold callbacks. apply omap_app. Qed.

Lemma callbacks_sendto k ip port data x :
  callbacks (Trace (sendto k ip port data x)) = callbacks (Trace x).
Proof.
  unfold sendto. cbn [Trace set_Trace]. rewrite callbacks_app. apply app_nil_r.
Qed.

(** The session packets sent and the assignments of the session code add
    no call of the callback. *)
Ltac callbacks_chain :=
  cbv zeta;
  lazymatch goal with
  | |- callbacks (Trace ?s) = callbacks (Trace ?s) => reflexivity
  | |- callbacks (Trace (if ?c then _ else _)) = _ => destruct c; callbacks_chain
  | |- callbacks (Trace (sendto _ _ _ _ _)) = _ => rewrite callbacks_sendto; callbacks_chain
  | |- callbacks (Trace (SendInvitationReply _ _ _ _ _)) = _ =>
      unfold SendInvitationReply; callbacks_chain
  | |- callbacks (Trace (SendSyncPacket _ _ _ _ _ _ _ _)) = _ =>
      unfold SendSyncPacket; callbacks_chain
  | |- callbacks (Trace (PartnerCloseSession _)) = _ =>
      unfold PartnerCloseSession; callbacks_chain
  | |- callbacks (Trace (?f ?x)) = _ =>
      let E := fresh "E" in
      assert (E : forall c, Trace (f c) = Trace c) by (intros ?; reflexivity);
      rewrite (E x); clear E; callbacks_chain
  end.

(** X15: the callback is called for nothing but an RTP-MIDI datagram (first
    bytes 80 61) that comes on the data socket from the address of the
    session partner while the session is opened: a datagram from another
    address, one received in another state, one whose first byte is not 80,
    one of two bytes or more whose second byte is not 61, or anything
    received on the control socket adds no call. *)
Theorem callback_only_for_partner_data d a r s :
  (SenderIP d <> SessionPartnerIP s \/ SessionState s <> SESSION_OPENED \/
   rd (ReceptionBuffer_of d) 0 <> 0x80 \/
   (received 2 d /\ rd (ReceptionBuffer_of d) 1 <> 0x61) ->
   callbacks (Trace (snd (RunSession_datagram d a r s))) = callbacks (Trace s)) /\
  callbacks (Trace (snd (ProcessControlSocket a r s))) = callbacks (Trace s).
Proof.
  split.
  - intros H. unfold RunSession_datagram, RunSession_CK. cbv zeta.
    destruct (0 <? _); [|reflexivity].
    destruct (Z.eqb_spec (SenderIP d) (SessionPartnerIP s)) as [Eip|]; [|reflexivity].
    destruct (Z.eqb_spec (rd (ReceptionBuffer_of d) 0) 0x80) as [E0|];
      destruct (Z.eqb_spec (rd (ReceptionBuffer_of d) 1) 0x61) as [E1|]; cbn [andb].
    + destruct (SessionState s); cbn [SessionState_eqb snd]; try reflexivity.
      destruct H as [H | [H | [H | [_ H]]]]; congruence.
    + split_tests; cbn [snd]; callbacks_chain.
    + split_tests; cbn [snd]; callbacks_chain.
    + split_tests; cbn [snd]; callbacks_chain.
  - unfold ProcessControlSocket.
    destruct (ControlSocket s) as [[|d0 q]|]; cbn [snd]; try reflexivity.
    cbv zeta. unfold PrepareTimerEvent. split_tests; cbn [snd]; callbacks_chain.
Qed.

Lemma callback_only_for_partner_data_witness :
  callbacks (Trace (snd (RunSession_datagram
                           (MkDatagram 0x0A000001 5005
                              (RTP_short 1 0 0x22222222 false [0x90; 0x3C; 0x7F]))
                           false false (opened_endpoint 4))))
  = callbacks (Trace (opened_endpoint 4)).
Proof.
  refine (proj1 (callback_only_for_partner_data
                   (MkDatagram 0x0A000001 5005
                      (RTP_short 1 0 0x22222222 false [0x90; 0x3C; 0x7F]))
                   false false (opened_endpoint 4)) _).
  left. vm_compute. intros H. discriminate H.
Defined.

(** X16: a datagram on the data socket that is empty or that comes from an
    address other than the session partner's is taken from the socket and
    dropped: it counts as a packet received, and nothing else changes. *)
Theorem RunSession_DataSocket_drops_foreign d q a r s :
  DataSocket s = Some (d :: q) ->
  SenderIP d <> SessionPartnerIP s \/ Payload d = [] ->
  RunSession_DataSocket a r s = (true, a, r, set_DataSocket (Some q) s).
Proof.
  intros Hq H. unfold RunSession_DataSocket. rewrite Hq. cbv zeta.
  unfold RunSession_datagram. cbv zeta.
  destruct H as [H | H].
  - destruct (0 <? _); [|reflexivity].
    assert (E : SessionPartnerIP (set_DataSocket (Some q) s) = SessionPartnerIP s)
      by reflexivity.
    rewrite E. destruct (Z.eqb_spec (SenderIP d) (SessionPartnerIP s)); [contradiction|].
    reflexivity.
  - unfold ReceptionBuffer_of. rewrite H. reflexivity.
Qed.

Lemma RunSession_DataSocket_drops_foreign_witness :
  let d := MkDatagram 0x0A000001 5005 (CK_packet 0x33333333 2 1 2 3) in
  let s := host_step (Net_Data d) (opened_endpoint 4) in
  RunSession_DataSocket false false s = (true, false, false, set_DataSocket (Some []) s).
Proof.
  intros d s.
  refine (RunSession_DataSocket_drops_foreign d [] false false s _ _).
  - vm_compute. reflexivity.
  - left. vm_compute. intros H. discriminate H.
Defined.

(** The bytes of the reception buffer are those of the datagram. *)
Lemma rd_ReceptionBuffer_of d i :
  i < 1024 -> rd (ReceptionBuffer_of d) i = rd (Payload d) i.
Proof.
  intros Hi. unfold rd, ReceptionBuffer_of.
  destruct (i <? 0) eqn:E; [reflexivity|]. apply Z.ltb_ge in E.
  rewrite lookup_take_lt by lia. reflexivity.
Qed.

Lemma get_be32_ReceptionBuffer_of d i :
  i + 3 < 1024 -> get_be32 (ReceptionBuffer_of d) i = get_be32 (Payload d) i.
Proof.
  intros Hi. unfold get_be32. rewrite !rd_ReceptionBuffer_of by lia. reflexivity.
Qed.

Lemma session_packet_nonempty h l d :
  is_session_packet h l d -> (Z.of_nat (length (ReceptionBuffer_of d)) =? 0) = false.
Proof.
  intros (H0 & _). destruct (ReceptionBuffer_of d) as [|b bs]; [discriminate H0|reflexivity].
Qed.

(** The packet at the head of the control socket is a session packet: what
    ProcessControlSocket does with it depends on its command only. *)
Lemma ProcessControlSocket_session_packet h l d q a r s :
  ControlSocket s = Some (d :: q) -> is_session_packet h l d ->
  ProcessControlSocket a r s
  = let s := set_ControlSocket (Some q) s in
    if (h =? chr_I) && (l =? chr_N) then
      if negb (IsInitiatorNode s) then
        if SessionState_eqb (SessionState s) SESSION_WAIT_INVITE_CTRL then
          (true, a, r,
           set_PartnerControlPort (SenderPort d)
             (set_SessionPartnerIP (SenderIP d)
                (SendInvitationReply true true (SenderIP d) (SenderPort d)
                   (PrepareTimerEvent 5000
                      (set_SessionState SESSION_WAIT_INVITE_DATA
                         (set_InitiatorToken (get_be32 (ReceptionBuffer_of d) 8) s))))))
        else if (SenderIP d =? SessionPartnerIP s) && (SenderPort d =? PartnerControlPort s)
        then (true, a, r,
              SendInvitationReply true true (SenderIP d) (SenderPort d)
                (PrepareTimerEvent 5000 s))
        else (true, a, r, SendInvitationReply true false (SenderIP d) (SenderPort d) s)
      else (true, a, r, s)
    else if (h =? chr_O) && (l =? chr_K) then (true, true, r, s)
    else if (h =? chr_N) && (l =? chr_O) then (true, a, true, s)
    else if (h =? chr_B) && (l =? chr_Y) then
      if SenderIP d =? SessionPartnerIP s then (true, a, r, PartnerCloseSession s)
      else (true, a, r, s)
    else (true, a, r, s).
Proof.
  intros Hq Hp. unfold ProcessControlSocket. rewrite Hq. cbv zeta.
  rewrite (session_packet_nonempty h l d Hp).
  destruct Hp as (H0 & H1 & H2 & H3). rewrite H0, H1, H2, H3. reflexivity.
Qed.

(** X17: a listener that waits for an invitation accepts the one it gets on
    the control socket: it keeps the initiator token of the packet (the
    bytes 8 to 11, for a packet that has them), takes the sender as session
    partner, answers OK to the sender with that token and its own SSRC, and
    waits 5000 ticks for the invitation on the data port.  A listener in
    any other state answers OK to an invitation
    from the address and port of its partner and NO to one from anywhere
    else, with the token it already has, and keeps its state, its partner
    and its token.  An initiator takes the packet from the socket and
    ignores it. *)
Theorem ProcessControlSocket_invitation d q a r s :
  ControlSocket s = Some (d :: q) -> is_session_packet chr_I chr_N d ->
  let s' := snd (ProcessControlSocket a r s) in
  fst (ProcessControlSocket a r s) = (true, a, r) /\
  ControlSocket s' = Some q /\
  (IsInitiatorNode s = true -> s' = set_ControlSocket (Some q) s) /\
  (IsInitiatorNode s = false -> SessionState s = SESSION_WAIT_INVITE_CTRL ->
   received 12 d ->
     SessionState s' = SESSION_WAIT_INVITE_DATA /\
     InitiatorToken s' = get_be32 (Payload d) 8 /\
     SessionPartnerIP s' = SenderIP d /\ PartnerControlPort s' = SenderPort d /\
     TimerRunning s' = true /\ EventTime s' = 5000 /\
     Trace s' = Trace s ++
       [EvSendTo ControlSocketId (SenderIP d) (SenderPort d)
          ([0xFF; 0xFF; chr_O; chr_K] ++ be32 2
             ++ be32 (get_be32 (Payload d) 8) ++ be32 (SSRC s))]) /\
  (IsInitiatorNode s = false -> SessionState s <> SESSION_WAIT_INVITE_CTRL ->
     SessionState s' = SessionState s /\ SessionPartnerIP s' = SessionPartnerIP s /\
     InitiatorToken s' = InitiatorToken s /\
     Trace s' = Trace s ++
       [EvSendTo ControlSocketId (SenderIP d) (SenderPort d)
          ([0xFF; 0xFF]
             ++ (if (SenderIP d =? SessionPartnerIP s) && (SenderPort d =? PartnerControlPort s)
                 then [chr_O; chr_K] else [chr_N; chr_O])
             ++ be32 2 ++ be32 (InitiatorToken s) ++ be32 (SSRC s))]).
Proof.
  intros Hq Hp s'. subst s'.
  rewrite (ProcessControlSocket_session_packet chr_I chr_N d q a r s Hq Hp). cbv zeta.
  change ((chr_I =? chr_I) && (chr_N =? chr_N)) with true. cbv iota.
  rewrite (get_be32_ReceptionBuffer_of d 8) by lia.
  unfold SendInvitationReply, PrepareTimerEvent, sendto, SessionPacketNoName. cbv zeta iota.
  cbn [IsInitiatorNode SessionState SessionPartnerIP PartnerControlPort set_ControlSocket].
  destruct (IsInitiatorNode s); cbn [negb].
  - repeat split; intros; try discriminate; reflexivity.
  - destruct (SessionState_eqb (SessionState s) SESSION_WAIT_INVITE_CTRL) eqn:Es.
    + apply SessionState_eqb_eq in Es. repeat split; intros; try congruence; reflexivity.
    + assert (Hne : SessionState s <> SESSION_WAIT_INVITE_CTRL).
      { intros E. rewrite E in Es. discriminate Es. }
      destruct ((SenderIP d =? SessionPartnerIP s) && (SenderPort d =? PartnerControlPort s));
        repeat split; intros; try congruence; try contradiction; reflexivity.
Qed.

Lemma ProcessControlSocket_invitation_witness :
  let d := from_partner_ctrl (IN_packet 0x12345678 0x22222222 [0x4D]) in
  let s := host_run [Net_Control d] listener_endpoint in
  received 12 d /\
  InitiatorToken (snd (ProcessControlSocket false false s)) = get_be32 (Payload d) 8.
Proof.
  intros d s.
  assert (Hr : received 12 d) by (vm_compute; discriminate).
  split; [exact Hr|].
  refine (proj1 (proj2 (proj1 (proj2 (proj2 (proj2
            (ProcessControlSocket_invitation d [] false false s _ _)))) _ _ Hr))).
  - vm_compute. reflexivity.
  - vm_compute. repeat split.
  - vm_compute. reflexivity.
  - vm_compute. reflexivity.
Defined.

(** X18: a BY packet on the control socket ends the session when it comes
    from the address of the session partner: the timer is stopped, an
    initiator is closed and a listener waits for an invitation again, the
    partner is forgotten, nothing is sent, and
    RemotePeerHasClosedSession then tells the host.  From any other
    address it is taken from the socket and ignored. *)
Theorem ProcessControlSocket_BY d q a r s :
  ControlSocket s = Some (d :: q) -> is_session_packet chr_B chr_Y d ->
  let s' := snd (ProcessControlSocket a r s) in
  fst (ProcessControlSocket a r s) = (true, a, r) /\
  (SenderIP d <> SessionPartnerIP s -> s' = set_ControlSocket (Some q) s) /\
  (SenderIP d = SessionPartnerIP s ->
     SessionState s'
     = (if IsInitiatorNode s then SESSION_CLOSED else SESSION_WAIT_INVITE_CTRL) /\
     TimerRunning s' = false /\ SessionPartnerIP s' = 0 /\
     ControlSocket s' = Some q /\ Trace s' = Trace s /\
     fst (RemotePeerHasClosedSession s') = true).
Proof.
  intros Hq Hp s'. subst s'.
  rewrite (ProcessControlSocket_session_packet chr_B chr_Y d q a r s Hq Hp). cbv zeta.
  change ((chr_B =? chr_I) && (chr_Y =? chr_N)) with false.
  change ((chr_B =? chr_O) && (chr_Y =? chr_K)) with false.
  change ((chr_B =? chr_N) && (chr_Y =? chr_O)) with false.
  change ((chr_B =? chr_B) && (chr_Y =? chr_Y)) with true. cbv iota.
  cbn [SessionPartnerIP set_ControlSocket].
  destruct (Z.eqb_spec (SenderIP d) (SessionPartnerIP s)) as [E|E].
  - split; [reflexivity|]. split; [intros H; contradiction|]. intros _.
    unfold PartnerCloseSession, RemotePeerHasClosedSession. cbv zeta.
    cbn [IsInitiatorNode set_TimerRunning set_ControlSocket].
    destruct (IsInitiatorNode s); repeat split.
  - split; [reflexivity|]. split; [reflexivity|]. intros H. contradiction.
Qed.

Lemma ProcessControlSocket_BY_witness :
  let d := from_partner_ctrl (BY_packet 0xFFFFFFFF 0x22222222) in
  let s := host_run [Net_Control d] (opened_endpoint 4) in
  SenderIP d = SessionPartnerIP s /\
  fst (ProcessControlSocket false false s) = (true, false, false).
Proof.
  intros d s. split; [vm_compute; reflexivity|].
  refine (proj1 (ProcessControlSocket_BY d [] false false s _ _)).
  - vm_compute. reflexivity.
  - vm_compute. repeat split.
Defined.

(** X19: an invitation on the data socket from the address of the session
    partner is accepted whatever the state and the role of the endpoint:
    the state becomes SESSION_WAIT_CLOCK_SYNC, the timer is armed with
    2000, OK goes back to the sender on the data socket with the token and
    the SSRC of the endpoint, and the port of the sender becomes the data
    port of the partner. *)
Theorem RunSession_datagram_invitation d a r s :
  is_session_packet chr_I chr_N d -> SenderIP d = SessionPartnerIP s ->
  let s' := RunSession_datagram d a r s in
  s'.1 = (a, r) /\
  SessionState s'.2 = SESSION_WAIT_CLOCK_SYNC /\
  TimerRunning s'.2 = true /\ EventTime s'.2 = 2000 /\
  PartnerDataPort s'.2 = SenderPort d /\
  Trace s'.2 = Trace s ++
    [EvSendTo DataSocketId (SenderIP d) (SenderPort d)
       ([0xFF; 0xFF; chr_O; chr_K] ++ be32 2 ++ be32 (InitiatorToken s) ++ be32 (SSRC s))].
Proof.
  intros Hp Hip s'. subst s'. unfold RunSession_datagram. cbv zeta.
  pose proof (session_packet_nonempty _ _ _ Hp) as Hn.
  assert (Hpos : (0 <? Z.of_nat (length (ReceptionBuffer_of d))) = true).
  { apply Z.ltb_lt. apply Z.eqb_neq in Hn. lia. }
  rewrite Hpos. destruct Hp as (H0 & H1 & H2 & H3). rewrite H0, H1, H2, H3.
  rewrite Hip, Z.eqb_refl.
  change ((255 =? 128) && (255 =? 97)) with false.
  change ((255 =? 255) && (255 =? 255)) with true.
  change ((chr_I =? chr_C) && (chr_N =? chr_K)) with false.
  change ((chr_I =? chr_I) && (chr_N =? chr_N)) with true. cbv iota.
  repeat split.
Qed.

Lemma RunSession_datagram_invitation_witness :
  let d := from_partner_data (IN_packet 0x12345678 0x22222222 [0x4D]) in
  (RunSession_datagram d false false (opened_endpoint 4)).1 = (false, false).
Proof.
  intros d.
  refine (proj1 (RunSession_datagram_invitation d false false (opened_endpoint 4) _ _)).
  - vm_compute. repeat split.
  - vm_compute. reflexivity.
Defined.

(** ** The ring and the wire *)

Local Arguments u32 : simpl never.
Local Arguments u16 : simpl never.
Local Arguments be32 : simpl never.
Local Arguments be16 : simpl never.
Local Arguments Z.of_nat : simpl never.

(** X20: whatever the host calls and the network delivers, in any order,
    the two pointers of the outbound ring are indices of its array of 2048
    bytes. *)
Theorem ring_pointers_stay_in_FIFO raw SYXInSize cb inst cs :
  Z.of_nat (length (FIFO (RTPStreamQueue raw))) = MIDI_CHAR_FIFO_SIZE ->
  ring_wf (RTPStreamQueue (host_run cs (CRTP_MIDI_new raw SYXInSize cb inst))).
Proof.
  intros Hl. apply ring_wf_host_run. apply ring_wf_new. exact Hl.
Qed.

Lemma ring_pointers_stay_in_FIFO_witness :
  ring_wf (RTPStreamQueue (host_run restart_in_sysex (CRTP_MIDI_new raw0 16 true 0))).
Proof.
  refine (ring_pointers_stay_in_FIFO raw0 16 true 0 restart_in_sysex _).
  vm_compute. reflexivity.
Defined.





Local Arguments u32 : simpl never.
Local Arguments u16 : simpl never.
Local Arguments be32 : simpl never.
Local Arguments be16 : simpl never.
Local Arguments Z.of_nat : simpl never.

(** ** A call of RunSession, stage by stage *)

Lemma RunSession_stages s :
  EndpointLocked s = false ->
  RunSession s
  = let '(x, te) := RunSession_before_sockets s in
    let '(fl, y) :=
      RunSession_sockets
        (S (pending_datagrams (ControlSocket x) + pending_datagrams (DataSocket x)))
        (MkFlags false false false false) x in
    RunSession_after_sockets te fl y.
Proof.
  intros Hl. unfold RunSession, RunSession_before_sockets, RunSession_after_sockets.
  cbv zeta.
  assert (L0 : EndpointLocked (RunSession_clock s) = false) by exact Hl.
  rewrite L0.
  destruct (RunSession_timer (RunSession_clock s)) as [x1 te]. reflexivity.
Qed.

(** The stages before the sockets: the clocks advance, the timer is
    counted down and fires on reaching 0, and a timer event takes a
    listener that waits for the second invitation or for the clock
    synchronization back to SESSION_WAIT_INVITE_CTRL. *)
Lemma RunSession_before_sockets_spec s :
  let te := TimerRunning s && ((EventTime s =? 0) || (EventTime s =? 1)) in
  let st :=
    if te && (SessionState_eqb (SessionState s) SESSION_WAIT_INVITE_DATA
              || SessionState_eqb (SessionState s) SESSION_WAIT_CLOCK_SYNC)
    then SESSION_WAIT_INVITE_CTRL else SessionState s in
  let et := if TimerRunning s && (0 <? EventTime s) then EventTime s - 1 else EventTime s in
  RunSession_before_sockets s
  = (set_SessionState st
       (set_TimerRunning (TimerRunning s && negb te)
          (set_EventTime et (RunSession_clock s))), te).
Proof.
  unfold RunSession_before_sockets, RunSession_timer. cbv zeta.
  set (x0 := RunSession_clock s).
  assert (T0 : TimerRunning x0 = TimerRunning s) by reflexivity.
  assert (E0 : EventTime x0 = EventTime s) by reflexivity.
  assert (S0 : SessionState x0 = SessionState s) by reflexivity.
  rewrite <- T0, <- E0, <- S0. clearbody x0. clear T0 E0 S0.
  destruct (TimerRunning x0) eqn:Ht; cbn [andb negb orb].
  - destruct (Z.ltb_spec 0 (EventTime x0)) as [Hp|Hp].
    + cbn [EventTime set_EventTime].
      destruct (Z.eqb_spec (EventTime x0 - 1) 0) as [Hz|Hz].
      * destruct (Z.eqb_spec (EventTime x0) 1); [|lia].
        destruct (Z.eqb_spec (EventTime x0) 0); [lia|].
        cbn [orb andb negb SessionState set_TimerRunning set_SessionState set_EventTime].
        destruct (SessionState x0) eqn:Hs; cbn [SessionState_eqb orb];
          cbn [SessionState set_SessionState SessionState_eqb];
          try reflexivity;
          destruct x0; simpl in *; subst; reflexivity.
      * destruct (Z.eqb_spec (EventTime x0) 1); [lia|].
        destruct (Z.eqb_spec (EventTime x0) 0); [lia|].
        cbn [orb andb negb]. destruct x0; simpl in *; subst; reflexivity.
    + destruct (Z.eqb_spec (EventTime x0) 0) as [Hz|Hz].
      * cbn [orb andb negb SessionState set_TimerRunning set_SessionState].
        destruct (SessionState x0) eqn:Hs; cbn [SessionState_eqb orb];
          cbn [SessionState set_SessionState SessionState_eqb];
          try reflexivity;
          destruct x0; simpl in *; subst; reflexivity.
      * destruct (Z.eqb_spec (EventTime x0) 1); [lia|].
        cbn [orb andb negb]. destruct x0; simpl in *; subst; reflexivity.
  - destruct x0; simpl in *; subst; reflexivity.
Qed.

(** One datagram waits, on the control socket: the loop hands it to
    ProcessControlSocket and ends. *)
Lemma RunSession_sockets_one_ctrl d fl x :
  ControlSocket x = Some [d] -> pending_datagrams (DataSocket x) = 0%nat ->
  let p := ProcessControlSocket (InvitationAcceptedOnCtrl fl) (InvitationRejectedOnCtrl fl) x in
  RunSession_sockets
    (S (pending_datagrams (ControlSocket x) + pending_datagrams (DataSocket x))) fl x
  = (MkFlags p.1.1.2 p.1.2 (InvitationAcceptedOnData fl) (InvitationRejectedOnData fl), p.2).
Proof.
  intros Hc Hd p. rewrite Hc, Hd.
  change (S (pending_datagrams (Some [d]) + 0)) with 2%nat.
  destruct (socks_ProcessControlSocket (InvitationAcceptedOnCtrl fl)
              (InvitationRejectedOnCtrl fl) x d [] Hc) as [Kc Kd].
  fold p in Kc, Kd. cbn [ControlSocket DataSocket set_ControlSocket] in Kc, Kd.
  cbn [RunSession_sockets]. fold p.
  destruct p as [[[recv a] r] y]. cbn [fst snd] in *.
  assert (Dy : RunSession_DataSocket (InvitationAcceptedOnData fl)
                 (InvitationRejectedOnData fl) y
               = (false, InvitationAcceptedOnData fl, InvitationRejectedOnData fl, y)).
  { unfold RunSession_DataSocket. rewrite Kd.
    destruct (no_datagram_cases _ Hd) as [-> | ->]; reflexivity. }
  rewrite Dy. rewrite orb_false_r.
  destruct recv; [|reflexivity].
  cbn [InvitationAcceptedOnCtrl InvitationRejectedOnCtrl InvitationAcceptedOnData
       InvitationRejectedOnData].
  assert (Cy : ProcessControlSocket a r y = (false, a, r, y)).
  { unfold ProcessControlSocket. rewrite Kc. reflexivity. }
  rewrite Cy, Dy. reflexivity.
Qed.

(** One datagram waits, on the data socket. *)
Lemma RunSession_sockets_one_data d fl x :
  pending_datagrams (ControlSocket x) = 0%nat -> DataSocket x = Some [d] ->
  let p := RunSession_datagram d (InvitationAcceptedOnData fl) (InvitationRejectedOnData fl)
             (set_DataSocket (Some []) x) in
  RunSession_sockets
    (S (pending_datagrams (ControlSocket x) + pending_datagrams (DataSocket x))) fl x
  = (MkFlags (InvitationAcceptedOnCtrl fl) (InvitationRejectedOnCtrl fl) p.1.1 p.1.2, p.2).
Proof.
  intros Hc Hd p. rewrite Hc, Hd.
  change (S (0 + pending_datagrams (Some [d]))) with 2%nat.
  destruct (socks_RunSession_datagram d (InvitationAcceptedOnData fl)
              (InvitationRejectedOnData fl) _ _ (socks_refl (set_DataSocket (Some []) x)))
    as [Kc Kd].
  fold p in Kc, Kd. cbn [ControlSocket DataSocket set_DataSocket] in Kc, Kd.
  assert (Cx : forall a r z, ControlSocket z = ControlSocket x ->
                 ProcessControlSocket a r z = (false, a, r, z)).
  { intros a r z Hz. unfold ProcessControlSocket. rewrite Hz.
    destruct (no_datagram_cases _ Hc) as [-> | ->]; reflexivity. }
  cbn [RunSession_sockets]. rewrite (Cx _ _ x eq_refl).
  unfold RunSession_DataSocket at 1. rewrite Hd. cbv zeta. fold p.
  destruct p as [[a r] y]. cbn [fst snd orb] in *.
  cbn [InvitationAcceptedOnCtrl InvitationRejectedOnCtrl InvitationAcceptedOnData
       InvitationRejectedOnData].
  rewrite (Cx _ _ y Kc). unfold RunSession_DataSocket. rewrite Kd. reflexivity.
Qed.

(** The same, for the proofs that follow: the object the sockets are read
    on, and what it keeps of the object of the call. *)
Lemma RunSession_before_sockets_ex s :
  exists x te,
    RunSession_before_sockets s = (x, te) /\ same_endpoint s x /\
    TimeCounter x = u32 (TimeCounter s + 10) /\
    te = TimerRunning s && ((EventTime s =? 0) || (EventTime s =? 1)) /\
    SessionState x
    = (if te && (SessionState_eqb (SessionState s) SESSION_WAIT_INVITE_DATA
                 || SessionState_eqb (SessionState s) SESSION_WAIT_CLOCK_SYNC)
       then SESSION_WAIT_INVITE_CTRL else SessionState s) /\
    TimerRunning x = TimerRunning s && negb te /\
    EventTime x
    = (if TimerRunning s && (0 <? EventTime s) then EventTime s - 1 else EventTime s).
Proof.
  rewrite (RunSession_before_sockets_spec s). cbv zeta.
  eexists _, _. split; [reflexivity|]. unfold same_endpoint. repeat split.
Qed.

(** A call of RunSession on an endpoint that is not locked, from what its
    stages give. *)
Lemma RunSession_steps s x te fl y s1 r :
  EndpointLocked s = false ->
  RunSession_before_sockets s = (x, te) ->
  RunSession_sockets
    (S (pending_datagrams (ControlSocket x) + pending_datagrams (DataSocket x)))
    (MkFlags false false false false) x = (fl, y) ->
  InvitationRejectedOnCtrl fl = false -> InvitationRejectedOnData fl = false ->
  RunSession_initiator te fl y = (s1, r) ->
  RunSession s = if r then s1 else RunSession_opened te s1.
Proof.
  intros Hl Hb Hs R1 R2 Hi. rewrite (RunSession_stages s Hl), Hb, Hs.
  unfold RunSession_after_sockets. rewrite R1, R2. cbn [orb]. rewrite Hi. reflexivity.
Qed.

Lemma RunSession_steps_on s x te fl y s1 :
  EndpointLocked s = false ->
  RunSession_before_sockets s = (x, te) ->
  RunSession_sockets
    (S (pending_datagrams (ControlSocket x) + pending_datagrams (DataSocket x)))
    (MkFlags false false false false) x = (fl, y) ->
  InvitationRejectedOnCtrl fl = false -> InvitationRejectedOnData fl = false ->
  RunSession_initiator te fl y = (s1, false) ->
  RunSession s = RunSession_opened te s1.
Proof. intros Hl Hb Hs R1 R2 Hi. exact (RunSession_steps s x te fl y s1 false Hl Hb Hs R1 R2 Hi). Qed.

Lemma RunSession_steps_returned s x te fl y s1 :
  EndpointLocked s = false ->
  RunSession_before_sockets s = (x, te) ->
  RunSession_sockets
    (S (pending_datagrams (ControlSocket x) + pending_datagrams (DataSocket x)))
    (MkFlags false false false false) x = (fl, y) ->
  InvitationRejectedOnCtrl fl = false -> InvitationRejectedOnData fl = false ->
  RunSession_initiator te fl y = (s1, true) ->
  RunSession s = s1.
Proof. intros Hl Hb Hs R1 R2 Hi. exact (RunSession_steps s x te fl y s1 true Hl Hb Hs R1 R2 Hi). Qed.

Lemma RunSession_sockets_none x :
  pending_datagrams (ControlSocket x) = 0%nat -> pending_datagrams (DataSocket x) = 0%nat ->
  RunSession_sockets
    (S (pending_datagrams (ControlSocket x) + pending_datagrams (DataSocket x)))
    (MkFlags false false false false) x = (MkFlags false false false false, x).
Proof. intros Hc Hd. apply RunSession_sockets_idle; assumption. Qed.

Lemma RunSession_sockets_ctrl d x recv a r y :
  ControlSocket x = Some [d] -> pending_datagrams (DataSocket x) = 0%nat ->
  ProcessControlSocket false false x = (recv, a, r, y) ->
  RunSession_sockets
    (S (pending_datagrams (ControlSocket x) + pending_datagrams (DataSocket x)))
    (MkFlags false false false false) x = (MkFlags a r false false, y).
Proof.
  intros Hc Hd Hp. rewrite (RunSession_sockets_one_ctrl d _ x Hc Hd). cbv zeta.
  cbn [InvitationAcceptedOnCtrl InvitationRejectedOnCtrl InvitationAcceptedOnData
       InvitationRejectedOnData]. rewrite Hp. reflexivity.
Qed.

Lemma RunSession_sockets_data d x a r y :
  pending_datagrams (ControlSocket x) = 0%nat -> DataSocket x = Some [d] ->
  RunSession_datagram d false false (set_DataSocket (Some []) x) = (a, r, y) ->
  RunSession_sockets
    (S (pending_datagrams (ControlSocket x) + pending_datagrams (DataSocket x)))
    (MkFlags false false false false) x = (MkFlags false false a r, y).
Proof.
  intros Hc Hd Hp. rewrite (RunSession_sockets_one_data d _ x Hc Hd). cbv zeta.
  cbn [InvitationAcceptedOnCtrl InvitationRejectedOnCtrl InvitationAcceptedOnData
       InvitationRejectedOnData]. rewrite Hp. reflexivity.
Qed.

(** The packet at the head of the data socket is a session packet from the
    address of the session partner. *)
Lemma RunSession_datagram_session_packet h l d a r s :
  is_session_packet h l d -> SenderIP d = SessionPartnerIP s ->
  RunSession_datagram d a r s
  = if (h =? chr_C) && (l =? chr_K) then (a, r, RunSession_CK (ReceptionBuffer_of d) s)
    else if (h =? chr_I) && (l =? chr_N) then
      (a, r, set_PartnerDataPort (SenderPort d)
               (SendInvitationReply false true (SenderIP d) (SenderPort d)
                  (PrepareTimerEvent 2000 (set_SessionState SESSION_WAIT_CLOCK_SYNC s))))
    else if (h =? chr_O) && (l =? chr_K) then (true, r, s)
    else if (h =? chr_N) && (l =? chr_O) then (a, true, s)
    else if (h =? chr_B) && (l =? chr_Y) then (a, r, PartnerCloseSession s)
    else (a, r, s).
Proof.
  intros Hp Hip. unfold RunSession_datagram. cbv zeta.
  pose proof (session_packet_nonempty _ _ _ Hp) as Hn.
  assert (Hpos : (0 <? Z.of_nat (length (ReceptionBuffer_of d))) = true).
  { apply Z.ltb_lt. apply Z.eqb_neq in Hn. lia. }
  rewrite Hpos. destruct Hp as (H0 & H1 & H2 & H3). rewrite H0, H1, H2, H3.
  rewrite Hip, Z.eqb_refl.
  change ((255 =? 128) && (255 =? 97)) with false.
  change ((255 =? 255) && (255 =? 255)) with true. reflexivity.
Qed.

(** *** What the stages do with each packet *)

Lemma ProcessControlSocket_OK d q a r x :
  ControlSocket x = Some (d :: q) -> is_session_packet chr_O chr_K d ->
  ProcessControlSocket a r x = (true, true, r, set_ControlSocket (Some q) x).
Proof.
  intros Hc Hp. rewrite (ProcessControlSocket_session_packet chr_O chr_K d q a r x Hc Hp).
  reflexivity.
Qed.

Lemma ProcessControlSocket_IN_accepted d q a r x :
  ControlSocket x = Some (d :: q) -> is_session_packet chr_I chr_N d ->
  IsInitiatorNode x = false -> SessionState x = SESSION_WAIT_INVITE_CTRL ->
  ProcessControlSocket a r x
  = (true, a, r,
     set_PartnerControlPort (SenderPort d)
       (set_SessionPartnerIP (SenderIP d)
          (SendInvitationReply true true (SenderIP d) (SenderPort d)
             (PrepareTimerEvent 5000
                (set_SessionState SESSION_WAIT_INVITE_DATA
                   (set_InitiatorToken (get_be32 (ReceptionBuffer_of d) 8)
                      (set_ControlSocket (Some q) x))))))).
Proof.
  intros Hc Hp Hi Hs.
  rewrite (ProcessControlSocket_session_packet chr_I chr_N d q a r x Hc Hp). cbv zeta.
  cbn [IsInitiatorNode SessionState set_ControlSocket]. rewrite Hi, Hs. reflexivity.
Qed.

Lemma RunSession_datagram_IN d a r x :
  is_session_packet chr_I chr_N d -> SenderIP d = SessionPartnerIP x ->
  RunSession_datagram d a r x
  = (a, r, set_PartnerDataPort (SenderPort d)
             (SendInvitationReply false true (SenderIP d) (SenderPort d)
                (PrepareTimerEvent 2000 (set_SessionState SESSION_WAIT_CLOCK_SYNC x)))).
Proof.
  intros Hp Hip. rewrite (RunSession_datagram_session_packet chr_I chr_N d a r x Hp Hip).
  reflexivity.
Qed.

Lemma RunSession_datagram_CK0 d a r x :
  is_CK_packet 0 d -> SenderIP d = SessionPartnerIP x ->
  RunSession_datagram d a r x
  = (a, r, SendSyncPacket 1 (get_be32 (ReceptionBuffer_of d) 12)
             (get_be32 (ReceptionBuffer_of d) 16) 0 (TimeCounter x) 0 0
             (set_TS1L (get_be32 (ReceptionBuffer_of d) 16)
                (set_TS1H (get_be32 (ReceptionBuffer_of d) 12) x))).
Proof.
  intros [Hp Hk] Hip.
  rewrite (RunSession_datagram_session_packet chr_C chr_K d a r x Hp Hip).
  change ((chr_C =? chr_C) && (chr_K =? chr_K)) with true. cbv iota.
  unfold RunSession_CK. rewrite Hk. reflexivity.
Qed.

Lemma RunSession_datagram_CK2 d a r x :
  is_CK_packet 2 d -> SenderIP d = SessionPartnerIP x ->
  RunSession_datagram d a r x
  = (a, r,
     set_SessionState SESSION_OPENED
       (set_TimeOutRemote 4
          (set_MeasuredLatency (u32 (TimeCounter x - get_be32 (ReceptionBuffer_of d) 24))
             (set_TS3L (get_be32 (ReceptionBuffer_of d) 32)
                (set_TS3H (get_be32 (ReceptionBuffer_of d) 28)
                   (set_TS2L (get_be32 (ReceptionBuffer_of d) 24)
                      (set_TS2H (get_be32 (ReceptionBuffer_of d) 20)
                         (set_TS1L (get_be32 (ReceptionBuffer_of d) 16)
                            (set_TS1H (get_be32 (ReceptionBuffer_of d) 12) x))))))))).
Proof.
  intros [Hp Hk] Hip.
  rewrite (RunSession_datagram_session_packet chr_C chr_K d a r x Hp Hip).
  change ((chr_C =? chr_C) && (chr_K =? chr_K)) with true. cbv iota.
  unfold RunSession_CK. rewrite Hk. reflexivity.
Qed.

Lemma RunSession_initiator_listener te fl y :
  IsInitiatorNode y = false -> RunSession_initiator te fl y = (y, false).
Proof. intros H. unfold RunSession_initiator. rewrite H. reflexivity. Qed.

Lemma RunSession_initiator_accepted_on_control te r c e y :
  IsInitiatorNode y = true -> SessionState y = SESSION_INVITE_CONTROL ->
  RunSession_initiator te (MkFlags true r c e) y
  = (PrepareTimerEvent 100
       (SendInvitation false
          (set_SessionState SESSION_INVITE_DATA (set_SyncSequenceCounter 0 y))), true).
Proof. intros Hi Hs. unfold RunSession_initiator. rewrite Hi, Hs. reflexivity. Qed.

Lemma RunSession_initiator_invites_again r c e y :
  IsInitiatorNode y = true -> SessionState y = SESSION_INVITE_CONTROL ->
  TimerRunning y = false ->
  RunSession_initiator true (MkFlags false r c e) y
  = (set_InviteCount (u32 (InviteCount y + 1))
       (PrepareTimerEvent 1000 (SendInvitation true (set_SyncSequenceCounter 0 y))), false).
Proof.
  intros Hi Hs Ht. unfold RunSession_initiator. rewrite Hi, Hs. cbv zeta.
  cbn [SessionState_eqb InvitationAcceptedOnCtrl TimerRunning set_SyncSequenceCounter].
  rewrite Ht. reflexivity.
Qed.

(** The part for an opened session does nothing in the other states. *)
Lemma RunSession_opened_other te y :
  SessionState y <> SESSION_OPENED -> RunSession_opened te y = y.
Proof.
  intros H. unfold RunSession_opened.
  destruct (SessionState_eqb (SessionState y) SESSION_OPENED) eqn:E; [|reflexivity].
  apply SessionState_eqb_eq in E. contradiction.
Qed.

(** Nothing waits in the ring: the tick sends nothing. *)
Lemma RunSession_emit_empty s :
  ReadPtr (RTPStreamQueue s) = WritePtr (RTPStreamQueue s) -> RunSession_emit s = s.
Proof.
  intros H. unfold RunSession_emit, PrepareMessage, GeneratePayload. cbv zeta.
  rewrite GeneratePayload_loop_empty by exact H.
  destruct s; reflexivity.
Qed.

(** The session is opened, the ring is empty, the timer has not fired and
    the liveness counter is not 0: the last part does nothing. *)
Lemma RunSession_opened_idle y :
  SessionState y = SESSION_OPENED ->
  ReadPtr (RTPStreamQueue y) = WritePtr (RTPStreamQueue y) ->
  TimeOutRemote y = 4 ->
  RunSession_opened false y = y.
Proof.
  intros Hs Hq Ht. unfold RunSession_opened. rewrite Hs. cbn [SessionState_eqb].
  rewrite (RunSession_emit_empty y Hq).
  unfold RunSession_keepalive. cbv zeta iota. rewrite Ht. reflexivity.
Qed.

(** The timer runs and does not fire in this call. *)
Lemma timer_quiet s :
  TimerRunning s = true -> 1 < EventTime s ->
  TimerRunning s && ((EventTime s =? 0) || (EventTime s =? 1)) = false /\
  (if TimerRunning s && (0 <? EventTime s) then EventTime s - 1 else EventTime s)
  = EventTime s - 1.
Proof.
  intros Ht He. rewrite Ht. cbn [andb].
  destruct (Z.eqb_spec (EventTime s) 0); [lia|].
  destruct (Z.eqb_spec (EventTime s) 1); [lia|].
  destruct (Z.ltb_spec 0 (EventTime s)); [|lia]. split; reflexivity.
Qed.

(** The timer fires in this call. *)
Lemma timer_fires s :
  TimerRunning s = true -> 0 <= EventTime s <= 1 ->
  TimerRunning s && ((EventTime s =? 0) || (EventTime s =? 1)) = true.
Proof.
  intros Ht He. rewrite Ht. cbn [andb].
  destruct (Z.eqb_spec (EventTime s) 0); [reflexivity|].
  destruct (Z.eqb_spec (EventTime s) 1); [reflexivity|lia].
Qed.

(** ** The initiator invites *)

(** X22: an initiator whose invitation on the control port gets no answer
    sends it again each time its timer fires, with 1000 ticks to the next
    one, and counts it; however many it has sent, it stays in
    SESSION_INVITE_CONTROL. *)
Theorem RunSession_INVITE_CONTROL_timeout s :
  EndpointLocked s = false -> IsInitiatorNode s = true ->
  SessionState s = SESSION_INVITE_CONTROL ->
  TimerRunning s = true -> 0 <= EventTime s <= 1 ->
  pending_datagrams (ControlSocket s) = 0%nat ->
  pending_datagrams (DataSocket s) = 0%nat ->
  let s' := RunSession s in
  SessionState s' = SESSION_INVITE_CONTROL /\
  InviteCount s' = u32 (InviteCount s + 1) /\
  TimerRunning s' = true /\ EventTime s' = 1000 /\
  Trace s' = Trace s ++
    [EvSendTo ControlSocketId (RemoteIPToInvite s) (PartnerControlPort s)
       (SessionPacketNoName chr_I chr_N s
          ++ (if 0 <? Z.of_nat (length (SessionName s)) then SessionName s ++ [0] else []))].
Proof.
  intros Hl Hi Hst Htr Het Hc Hd s'.
  destruct (RunSession_before_sockets_ex s)
    as (x & te & Hb & Hse & Htc & Hte & Hsx & Htx & Hex).
  rewrite (timer_fires s Htr Het) in Hte. subst te.
  rewrite Hst in Hsx. cbn [SessionState_eqb orb andb] in Hsx.
  rewrite Htr in Htx. cbn [negb andb] in Htx.
  destruct Hse as (Lx & Ix & Cx & Dx & Qx & SSx & Kx & IPx & PCx & PDx & RIx & Nx & ICx
                   & TOx & Rx).
  rewrite Hi in Ix. rewrite <- Cx in Hc. rewrite <- Dx in Hd.
  pose proof (RunSession_sockets_none x Hc Hd) as Hs.
  pose proof (RunSession_initiator_invites_again false false false x Ix Hsx Htx) as Hin.
  pose proof (RunSession_steps_on s x true _ _ _ Hl Hb Hs eq_refl eq_refl Hin) as E.
  rewrite RunSession_opened_other in E
    by (intros H; cbn [SessionState set_InviteCount PrepareTimerEvent set_TimerRunning
                       set_EventTime SendInvitation sendto set_Trace
                       set_SyncSequenceCounter] in H;
        rewrite Hsx in H; discriminate H).
  subst s'. rewrite E. clear E.
  cbn [SessionState set_InviteCount set_TimerRunning set_EventTime set_Trace
       set_SyncSequenceCounter InviteCount TimerRunning EventTime Trace
       RemoteIPToInvite PartnerControlPort InitiatorToken SSRC SessionName
       PrepareTimerEvent SendInvitation sendto].
  unfold SessionPacketNoName. cbn [InitiatorToken SSRC set_SyncSequenceCounter].
  rewrite Hsx, ICx, Rx, RIx, PCx, Kx, SSx, Nx. repeat split.
Qed.

Lemma RunSession_INVITE_CONTROL_timeout_witness :
  InviteCount (RunSession initiator_endpoint) = u32 (InviteCount initiator_endpoint + 1).
Proof.
  refine (proj1 (proj2 (RunSession_INVITE_CONTROL_timeout initiator_endpoint _ _ _ _ _ _ _)));
    vm_compute; try reflexivity.
  split; intros H; discriminate H.
Defined.

(** X23: an initiator in SESSION_INVITE_CONTROL that finds an OK packet on
    its control socket, whoever sent it and whatever token it carries,
    goes to SESSION_INVITE_DATA in the same call of RunSession: it sends
    the invitation to the data port of the address it invites and arms its
    timer with 100.  The count of invitations goes on from where it is. *)
Theorem RunSession_OK_on_control d s :
  EndpointLocked s = false -> IsInitiatorNode s = true ->
  SessionState s = SESSION_INVITE_CONTROL ->
  ControlSocket s = Some [d] -> pending_datagrams (DataSocket s) = 0%nat ->
  is_session_packet chr_O chr_K d ->
  let s' := RunSession s in
  SessionState s' = SESSION_INVITE_DATA /\
  InviteCount s' = InviteCount s /\
  TimerRunning s' = true /\ EventTime s' = 100 /\
  ControlSocket s' = Some [] /\
  Trace s' = Trace s ++
    [EvSendTo DataSocketId (RemoteIPToInvite s) (PartnerDataPort s)
       (SessionPacketNoName chr_I chr_N s
          ++ (if 0 <? Z.of_nat (length (SessionName s)) then SessionName s ++ [0] else []))].
Proof.
  intros Hl Hi Hst Hc Hd Hp s'.
  destruct (RunSession_before_sockets_ex s)
    as (x & te & Hb & Hse & Htc & Hte & Hsx & Htx & Hex).
  rewrite Hst in Hsx. cbn [SessionState_eqb orb] in Hsx. rewrite andb_false_r in Hsx.
  destruct Hse as (Lx & Ix & Cx & Dx & Qx & SSx & Kx & IPx & PCx & PDx & RIx & Nx & ICx
                   & TOx & Rx).
  rewrite Hi in Ix. rewrite Hc in Cx. rewrite <- Dx in Hd.
  pose proof (ProcessControlSocket_OK d [] false false x Cx Hp) as Hpc.
  pose proof (RunSession_sockets_ctrl d x _ _ _ _ Cx Hd Hpc) as Hs.
  pose proof (RunSession_initiator_accepted_on_control te false false false
                (set_ControlSocket (Some []) x) Ix Hsx) as Hin.
  pose proof (RunSession_steps_returned s x te _ _ _ Hl Hb Hs eq_refl eq_refl Hin) as E.
  subst s'. rewrite E. clear E.
  cbn [SessionState set_InviteCount set_TimerRunning set_EventTime set_Trace
       set_SyncSequenceCounter set_SessionState set_ControlSocket
       InviteCount TimerRunning EventTime Trace ControlSocket
       RemoteIPToInvite PartnerDataPort InitiatorToken SSRC SessionName
       PrepareTimerEvent SendInvitation sendto].
  unfold SessionPacketNoName.
  cbn [InitiatorToken SSRC set_SyncSequenceCounter set_SessionState set_ControlSocket].
  rewrite ICx, Rx, RIx, PDx, Kx, SSx, Nx. repeat split.
Qed.

Lemma RunSession_OK_on_control_witness :
  let d := from_partner_ctrl (OK_packet 0xFFFFFFFF 0x22222222) in
  let s := host_run [Call_RunSession; Net_Control d] initiator_endpoint in
  SessionState s = SESSION_INVITE_CONTROL /\
  SessionState (RunSession s) = SESSION_INVITE_DATA.
Proof.
  intros d s. split; [vm_compute; reflexivity|].
  refine (proj1 (RunSession_OK_on_control d s _ _ _ _ _ _)); vm_compute; try reflexivity.
  repeat split.
Defined.

(** ** The listener is invited *)

(** First call of RunSession of the handshake: the invitation is on the
    control socket. *)
Lemma listener_tick_IN_control c s :
  EndpointLocked s = false -> IsInitiatorNode s = false ->
  SessionState s = SESSION_WAIT_INVITE_CTRL ->
  ControlSocket s = Some [c] -> DataSocket s = Some [] ->
  is_session_packet chr_I chr_N c ->
  let s' := RunSession s in
  (EndpointLocked s' = false /\ IsInitiatorNode s' = false /\
   ControlSocket s' = Some [] /\ DataSocket s' = Some [] /\
   RTPStreamQueue s' = RTPStreamQueue s /\ SSRC s' = SSRC s /\
   TimeCounter s' = u32 (TimeCounter s + 10)) /\
  SessionState s' = SESSION_WAIT_INVITE_DATA /\
  TimerRunning s' = true /\ EventTime s' = 5000 /\
  InitiatorToken s' = get_be32 (ReceptionBuffer_of c) 8 /\
  SessionPartnerIP s' = SenderIP c /\ PartnerControlPort s' = SenderPort c /\
  PartnerDataPort s' = PartnerDataPort s /\
  Trace s' = Trace s ++
    [EvSendTo ControlSocketId (SenderIP c) (SenderPort c)
       ([0xFF; 0xFF; chr_O; chr_K] ++ be32 2
          ++ be32 (get_be32 (ReceptionBuffer_of c) 8) ++ be32 (SSRC s))].
Proof.
  intros Hl Hi Hst Hc Hd Hp s'.
  destruct (RunSession_before_sockets_ex s)
    as (x & te & Hb & Hse & Htc & Hte & Hsx & Htx & Hex).
  rewrite Hst in Hsx. cbn [SessionState_eqb orb] in Hsx. rewrite andb_false_r in Hsx.
  destruct Hse as (Lx & Ix & Cx & Dx & Qx & SSx & Kx & IPx & PCx & PDx & RIx & Nx & ICx
                   & TOx & Rx).
  rewrite Hi in Ix. rewrite Hc in Cx. rewrite Hd in Dx. rewrite Hl in Lx.
  assert (Dx0 : pending_datagrams (DataSocket x) = 0%nat) by (rewrite Dx; reflexivity).
  pose proof (ProcessControlSocket_IN_accepted c [] false false x Cx Hp Ix Hsx) as Hpc.
  pose proof (RunSession_sockets_ctrl c x _ _ _ _ Cx Dx0 Hpc) as Hs.
  match type of Hs with _ = (_, ?y) =>
    pose proof (RunSession_initiator_listener te (MkFlags false false false false) y Ix)
      as Hin end.
  pose proof (RunSession_steps_on s x te _ _ _ Hl Hb Hs eq_refl eq_refl Hin) as E.
  rewrite RunSession_opened_other in E by (intros H; discriminate H).
  subst s'. rewrite E. clear E.
  cbn [EndpointLocked IsInitiatorNode ControlSocket DataSocket RTPStreamQueue SSRC
       TimeCounter SessionState TimerRunning EventTime InitiatorToken SessionPartnerIP
       PartnerControlPort PartnerDataPort Trace
       set_PartnerControlPort set_SessionPartnerIP set_Trace set_TimerRunning
       set_EventTime set_SessionState set_InitiatorToken set_ControlSocket
       SendInvitationReply PrepareTimerEvent sendto].
  unfold SessionPacketNoName.
  cbn [InitiatorToken SSRC set_TimerRunning set_EventTime set_SessionState
       set_InitiatorToken set_ControlSocket PrepareTimerEvent].
  rewrite Lx, Ix, Dx, Qx, SSx, Htc, PDx, Rx. repeat split.
Qed.

(** Second call: the invitation is on the data socket. *)
Lemma listener_tick_IN_data d s :
  EndpointLocked s = false -> IsInitiatorNode s = false ->
  ControlSocket s = Some [] -> DataSocket s = Some [d] ->
  is_session_packet chr_I chr_N d -> SenderIP d = SessionPartnerIP s ->
  let s' := RunSession s in
  (EndpointLocked s' = false /\ IsInitiatorNode s' = false /\
   ControlSocket s' = Some [] /\ DataSocket s' = Some [] /\
   RTPStreamQueue s' = RTPStreamQueue s /\ SSRC s' = SSRC s /\
   TimeCounter s' = u32 (TimeCounter s + 10)) /\
  SessionState s' = SESSION_WAIT_CLOCK_SYNC /\
  TimerRunning s' = true /\ EventTime s' = 2000 /\
  InitiatorToken s' = InitiatorToken s /\
  SessionPartnerIP s' = SessionPartnerIP s /\
  PartnerControlPort s' = PartnerControlPort s /\
  PartnerDataPort s' = SenderPort d /\
  Trace s' = Trace s ++
    [EvSendTo DataSocketId (SenderIP d) (SenderPort d)
       ([0xFF; 0xFF; chr_O; chr_K] ++ be32 2 ++ be32 (InitiatorToken s) ++ be32 (SSRC s))].
Proof.
  intros Hl Hi Hc Hd Hp Hip s'.
  destruct (RunSession_before_sockets_ex s)
    as (x & te & Hb & Hse & Htc & Hte & Hsx & Htx & Hex).
  destruct Hse as (Lx & Ix & Cx & Dx & Qx & SSx & Kx & IPx & PCx & PDx & RIx & Nx & ICx
                   & TOx & Rx).
  rewrite Hi in Ix. rewrite Hc in Cx. rewrite Hd in Dx. rewrite Hl in Lx.
  assert (Cx0 : pending_datagrams (ControlSocket x) = 0%nat) by (rewrite Cx; reflexivity).
  assert (Hip' : SenderIP d = SessionPartnerIP (set_DataSocket (Some []) x))
    by (rewrite Hip, <- IPx; reflexivity).
  pose proof (RunSession_datagram_IN d false false _ Hp Hip') as Hdg.
  pose proof (RunSession_sockets_data d x _ _ _ Cx0 Dx Hdg) as Hs.
  match type of Hs with _ = (_, ?y) =>
    pose proof (RunSession_initiator_listener te (MkFlags false false false false) y Ix)
      as Hin end.
  pose proof (RunSession_steps_on s x te _ _ _ Hl Hb Hs eq_refl eq_refl Hin) as E.
  rewrite RunSession_opened_other in E by (intros H; discriminate H).
  subst s'. rewrite E. clear E.
  cbn [EndpointLocked IsInitiatorNode ControlSocket DataSocket RTPStreamQueue SSRC
       TimeCounter SessionState TimerRunning EventTime InitiatorToken SessionPartnerIP
       PartnerControlPort PartnerDataPort Trace
       set_PartnerDataPort set_Trace set_TimerRunning
       set_EventTime set_SessionState set_DataSocket
       SendInvitationReply PrepareTimerEvent sendto].
  unfold SessionPacketNoName.
  cbn [InitiatorToken SSRC set_TimerRunning set_EventTime set_SessionState
       set_DataSocket PrepareTimerEvent].
  rewrite Lx, Ix, Cx, Qx, SSx, Htc, Kx, IPx, PCx, Rx. repeat split.
Qed.

(** Third call: CK0 is on the data socket. *)
Lemma listener_tick_CK0 d s :
  EndpointLocked s = false -> IsInitiatorNode s = false ->
  ControlSocket s = Some [] -> DataSocket s = Some [d] ->
  is_CK_packet 0 d -> SenderIP d = SessionPartnerIP s ->
  TimerRunning s = true -> 1 < EventTime s ->
  SessionState s <> SESSION_OPENED ->
  let s' := RunSession s in
  (EndpointLocked s' = false /\ IsInitiatorNode s' = false /\
   ControlSocket s' = Some [] /\ DataSocket s' = Some [] /\
   RTPStreamQueue s' = RTPStreamQueue s /\ SSRC s' = SSRC s /\
   TimeCounter s' = u32 (TimeCounter s + 10)) /\
  SessionState s' = SessionState s /\
  TimerRunning s' = true /\ EventTime s' = EventTime s - 1 /\
  InitiatorToken s' = InitiatorToken s /\
  SessionPartnerIP s' = SessionPartnerIP s /\
  PartnerControlPort s' = PartnerControlPort s /\
  PartnerDataPort s' = PartnerDataPort s /\
  Trace s' = Trace s ++
    [EvSendTo DataSocketId (SessionPartnerIP s) (PartnerDataPort s)
       ([0xFF; 0xFF; chr_C; chr_K] ++ be32 (SSRC s) ++ [u8 1; 0; 0; 0]
          ++ be32 (get_be32 (ReceptionBuffer_of d) 12)
          ++ be32 (get_be32 (ReceptionBuffer_of d) 16)
          ++ be32 0 ++ be32 (u32 (TimeCounter s + 10)) ++ be32 0 ++ be32 0)].
Proof.
  intros Hl Hi Hc Hd Hck Hip Htr Het Hno s'.
  destruct (RunSession_before_sockets_ex s)
    as (x & te & Hb & Hse & Htc & Hte & Hsx & Htx & Hex).
  destruct (timer_quiet s Htr Het) as [Ete Eet].
  rewrite Ete in Hte. subst te. rewrite Eet in Hex.
  cbn [andb] in Hsx. rewrite Htr in Htx. cbn [andb negb] in Htx.
  destruct Hse as (Lx & Ix & Cx & Dx & Qx & SSx & Kx & IPx & PCx & PDx & RIx & Nx & ICx
                   & TOx & Rx).
  rewrite Hi in Ix. rewrite Hc in Cx. rewrite Hd in Dx. rewrite Hl in Lx.
  assert (Cx0 : pending_datagrams (ControlSocket x) = 0%nat) by (rewrite Cx; reflexivity).
  assert (Hip' : SenderIP d = SessionPartnerIP (set_DataSocket (Some []) x))
    by (rewrite Hip, <- IPx; reflexivity).
  pose proof (RunSession_datagram_CK0 d false false _ Hck Hip') as Hdg.
  pose proof (RunSession_sockets_data d x _ _ _ Cx0 Dx Hdg) as Hs.
  match type of Hs with _ = (_, ?y) =>
    pose proof (RunSession_initiator_listener false (MkFlags false false false false) y Ix)
      as Hin end.
  pose proof (RunSession_steps_on s x false _ _ _ Hl Hb Hs eq_refl eq_refl Hin) as E.
  rewrite RunSession_opened_other in E
    by (intros H; cbn [SessionState SendSyncPacket sendto set_Trace set_TS1L set_TS1H
                       set_DataSocket] in H; rewrite Hsx in H; contradiction).
  subst s'. rewrite E. clear E.
  cbn [EndpointLocked IsInitiatorNode ControlSocket DataSocket RTPStreamQueue SSRC
       TimeCounter SessionState TimerRunning EventTime InitiatorToken SessionPartnerIP
       PartnerControlPort PartnerDataPort Trace
       set_Trace set_TS1H set_TS1L set_DataSocket SendSyncPacket sendto].
  rewrite Lx, Ix, Cx, Qx, SSx, Htc, Kx, IPx, PCx, PDx, Rx, Hsx, Htx, Hex. repeat split.
Qed.

(** Fourth call: CK2 is on the data socket and the ring is empty. *)
Lemma listener_tick_CK2 d s :
  EndpointLocked s = false -> IsInitiatorNode s = false ->
  ControlSocket s = Some [] -> DataSocket s = Some [d] ->
  is_CK_packet 2 d -> SenderIP d = SessionPartnerIP s ->
  TimerRunning s = true -> 1 < EventTime s ->
  ReadPtr (RTPStreamQueue s) = WritePtr (RTPStreamQueue s) ->
  let s' := RunSession s in
  (EndpointLocked s' = false /\ IsInitiatorNode s' = false /\
   ControlSocket s' = Some [] /\ DataSocket s' = Some [] /\
   RTPStreamQueue s' = RTPStreamQueue s /\ SSRC s' = SSRC s /\
   TimeCounter s' = u32 (TimeCounter s + 10)) /\
  SessionState s' = SESSION_OPENED /\
  TimeOutRemote s' = 4 /\
  MeasuredLatency s' = u32 (u32 (TimeCounter s + 10) - get_be32 (ReceptionBuffer_of d) 24) /\
  InitiatorToken s' = InitiatorToken s /\
  SessionPartnerIP s' = SessionPartnerIP s /\
  PartnerControlPort s' = PartnerControlPort s /\
  PartnerDataPort s' = PartnerDataPort s /\
  Trace s' = Trace s.
Proof.
  intros Hl Hi Hc Hd Hck Hip Htr Het Hq s'.
  destruct (RunSession_before_sockets_ex s)
    as (x & te & Hb & Hse & Htc & Hte & Hsx & Htx & Hex).
  destruct (timer_quiet s Htr Het) as [Ete Eet].
  rewrite Ete in Hte. subst te.
  destruct Hse as (Lx & Ix & Cx & Dx & Qx & SSx & Kx & IPx & PCx & PDx & RIx & Nx & ICx
                   & TOx & Rx).
  rewrite Hi in Ix. rewrite Hc in Cx. rewrite Hd in Dx. rewrite Hl in Lx.
  assert (Cx0 : pending_datagrams (ControlSocket x) = 0%nat) by (rewrite Cx; reflexivity).
  assert (Hip' : SenderIP d = SessionPartnerIP (set_DataSocket (Some []) x))
    by (rewrite Hip, <- IPx; reflexivity).
  pose proof (RunSession_datagram_CK2 d false false _ Hck Hip') as Hdg.
  pose proof (RunSession_sockets_data d x _ _ _ Cx0 Dx Hdg) as Hs.
  match type of Hs with _ = (_, ?y) =>
    pose proof (RunSession_initiator_listener false (MkFlags false false false false) y Ix)
      as Hin;
    assert (Qy : ReadPtr (RTPStreamQueue y) = WritePtr (RTPStreamQueue y))
      by (change (RTPStreamQueue y) with (RTPStreamQueue x); rewrite Qx; exact Hq);
    assert (Sy : SessionState y = SESSION_OPENED) by reflexivity;
    assert (Ty : TimeOutRemote y = 4) by reflexivity;
    pose proof (RunSession_opened_idle y Sy Qy Ty) as Ho
  end.
  pose proof (RunSession_steps_on s x false _ _ _ Hl Hb Hs eq_refl eq_refl Hin) as E.
  rewrite Ho in E.
  subst s'. rewrite E. clear E.
  cbn [EndpointLocked IsInitiatorNode ControlSocket DataSocket RTPStreamQueue SSRC
       TimeCounter SessionState TimeOutRemote MeasuredLatency InitiatorToken
       SessionPartnerIP PartnerControlPort PartnerDataPort Trace
       set_SessionState set_TimeOutRemote set_MeasuredLatency set_TS3L set_TS3H set_TS2L
       set_TS2H set_TS1L set_TS1H set_DataSocket].
  rewrite Lx, Ix, Cx, Qx, SSx, Htc, Kx, IPx, PCx, PDx, Rx. repeat split.
Qed.

Lemma u32_add_l x y : u32 (u32 x + y) = u32 (x + y).
Proof. unfold u32. dmlia. Qed.

Lemma host_step_Net_Control d q s :
  ControlSocket s = Some q ->
  host_step (Net_Control d) s = set_ControlSocket (Some (q ++ [d])) s.
Proof. intros H. cbn [host_step]. rewrite H. reflexivity. Qed.

Lemma host_step_Net_Data d q s :
  DataSocket s = Some q ->
  host_step (Net_Data d) s = set_DataSocket (Some (q ++ [d])) s.
Proof. intros H. cbn [host_step]. rewrite H. reflexivity. Qed.

Lemma host_run_two a b cs s :
  host_run (a :: b :: cs) s = host_run cs (host_run [a; b] s).
Proof. reflexivity. Qed.

Lemma host_run_Net_Control_RunSession d s :
  ControlSocket s = Some [] ->
  host_run [Net_Control d; Call_RunSession] s = RunSession (set_ControlSocket (Some [d]) s).
Proof.
  intros H. change (host_run [Net_Control d; Call_RunSession] s)
    with (RunSession (host_step (Net_Control d) s)).
  rewrite (host_step_Net_Control d [] s H). reflexivity.
Qed.

Lemma host_run_Net_Data_RunSession d s :
  DataSocket s = Some [] ->
  host_run [Net_Data d; Call_RunSession] s = RunSession (set_DataSocket (Some [d]) s).
Proof.
  intros H. change (host_run [Net_Data d; Call_RunSession] s)
    with (RunSession (host_step (Net_Data d) s)).
  rewrite (host_step_Net_Data d [] s H). reflexivity.
Qed.

(** The four exchanges of the handshake, each from a listener whose
    sockets are empty to one whose sockets are empty again. *)
Lemma listener_gets_IN_control c s :
  EndpointLocked s = false -> IsInitiatorNode s = false ->
  SessionState s = SESSION_WAIT_INVITE_CTRL ->
  ControlSocket s = Some [] -> DataSocket s = Some [] ->
  is_session_packet chr_I chr_N c ->
  exists s', host_run [Net_Control c; Call_RunSession] s = s' /\
  (EndpointLocked s' = false /\ IsInitiatorNode s' = false /\
   ControlSocket s' = Some [] /\ DataSocket s' = Some [] /\
   RTPStreamQueue s' = RTPStreamQueue s /\ SSRC s' = SSRC s /\
   TimeCounter s' = u32 (TimeCounter s + 10)) /\
  SessionState s' = SESSION_WAIT_INVITE_DATA /\
  TimerRunning s' = true /\ EventTime s' = 5000 /\
  InitiatorToken s' = get_be32 (ReceptionBuffer_of c) 8 /\
  SessionPartnerIP s' = SenderIP c /\ PartnerControlPort s' = SenderPort c /\
  PartnerDataPort s' = PartnerDataPort s /\
  Trace s' = Trace s ++
    [EvSendTo ControlSocketId (SenderIP c) (SenderPort c)
       ([0xFF; 0xFF; chr_O; chr_K] ++ be32 2
          ++ be32 (get_be32 (ReceptionBuffer_of c) 8) ++ be32 (SSRC s))].
Proof.
  intros Hl Hi Hst Hc Hd Hp. eexists. split.
  - apply (host_run_Net_Control_RunSession c s Hc).
  - exact (listener_tick_IN_control c (set_ControlSocket (Some [c]) s) Hl Hi Hst eq_refl Hd Hp).
Qed.

Lemma listener_gets_IN_data d s :
  EndpointLocked s = false -> IsInitiatorNode s = false ->
  ControlSocket s = Some [] -> DataSocket s = Some [] ->
  is_session_packet chr_I chr_N d -> SenderIP d = SessionPartnerIP s ->
  exists s', host_run [Net_Data d; Call_RunSession] s = s' /\
  (EndpointLocked s' = false /\ IsInitiatorNode s' = false /\
   ControlSocket s' = Some [] /\ DataSocket s' = Some [] /\
   RTPStreamQueue s' = RTPStreamQueue s /\ SSRC s' = SSRC s /\
   TimeCounter s' = u32 (TimeCounter s + 10)) /\
  SessionState s' = SESSION_WAIT_CLOCK_SYNC /\
  TimerRunning s' = true /\ EventTime s' = 2000 /\
  InitiatorToken s' = InitiatorToken s /\
  SessionPartnerIP s' = SessionPartnerIP s /\
  PartnerControlPort s' = PartnerControlPort s /\
  PartnerDataPort s' = SenderPort d /\
  Trace s' = Trace s ++
    [EvSendTo DataSocketId (SenderIP d) (SenderPort d)
       ([0xFF; 0xFF; chr_O; chr_K] ++ be32 2 ++ be32 (InitiatorToken s) ++ be32 (SSRC s))].
Proof.
  intros Hl Hi Hc Hd Hp Hip. eexists. split.
  - apply (host_run_Net_Data_RunSession d s Hd).
  - exact (listener_tick_IN_data d (set_DataSocket (Some [d]) s) Hl Hi Hc eq_refl Hp Hip).
Qed.

Lemma listener_gets_CK0 d s :
  EndpointLocked s = false -> IsInitiatorNode s = false ->
  ControlSocket s = Some [] -> DataSocket s = Some [] ->
  is_CK_packet 0 d -> SenderIP d = SessionPartnerIP s ->
  TimerRunning s = true -> 1 < EventTime s ->
  SessionState s <> SESSION_OPENED ->
  exists s', host_run [Net_Data d; Call_RunSession] s = s' /\
  (EndpointLocked s' = false /\ IsInitiatorNode s' = false /\
   ControlSocket s' = Some [] /\ DataSocket s' = Some [] /\
   RTPStreamQueue s' = RTPStreamQueue s /\ SSRC s' = SSRC s /\
   TimeCounter s' = u32 (TimeCounter s + 10)) /\
  SessionState s' = SessionState s /\
  TimerRunning s' = true /\ EventTime s' = EventTime s - 1 /\
  InitiatorToken s' = InitiatorToken s /\
  SessionPartnerIP s' = SessionPartnerIP s /\
  PartnerControlPort s' = PartnerControlPort s /\
  PartnerDataPort s' = PartnerDataPort s /\
  Trace s' = Trace s ++
    [EvSendTo DataSocketId (SessionPartnerIP s) (PartnerDataPort s)
       ([0xFF; 0xFF; chr_C; chr_K] ++ be32 (SSRC s) ++ [u8 1; 0; 0; 0]
          ++ be32 (get_be32 (ReceptionBuffer_of d) 12)
          ++ be32 (get_be32 (ReceptionBuffer_of d) 16)
          ++ be32 0 ++ be32 (u32 (TimeCounter s + 10)) ++ be32 0 ++ be32 0)].
Proof.
  intros Hl Hi Hc Hd Hp Hip Htr Het Hno. eexists. split.
  - apply (host_run_Net_Data_RunSession d s Hd).
  - exact (listener_tick_CK0 d (set_DataSocket (Some [d]) s) Hl Hi Hc eq_refl Hp Hip Htr Het
             Hno).
Qed.

Lemma listener_gets_CK2 d s :
  EndpointLocked s = false -> IsInitiatorNode s = false ->
  ControlSocket s = Some [] -> DataSocket s = Some [] ->
  is_CK_packet 2 d -> SenderIP d = SessionPartnerIP s ->
  TimerRunning s = true -> 1 < EventTime s ->
  ReadPtr (RTPStreamQueue s) = WritePtr (RTPStreamQueue s) ->
  exists s', host_run [Net_Data d; Call_RunSession] s = s' /\
  (EndpointLocked s' = false /\ IsInitiatorNode s' = false /\
   ControlSocket s' = Some [] /\ DataSocket s' = Some [] /\
   RTPStreamQueue s' = RTPStreamQueue s /\ SSRC s' = SSRC s /\
   TimeCounter s' = u32 (TimeCounter s + 10)) /\
  SessionState s' = SESSION_OPENED /\
  TimeOutRemote s' = 4 /\
  MeasuredLatency s' = u32 (u32 (TimeCounter s + 10) - get_be32 (ReceptionBuffer_of d) 24) /\
  InitiatorToken s' = InitiatorToken s /\
  SessionPartnerIP s' = SessionPartnerIP s /\
  PartnerControlPort s' = PartnerControlPort s /\
  PartnerDataPort s' = PartnerDataPort s /\
  Trace s' = Trace s.
Proof.
  intros Hl Hi Hc Hd Hp Hip Htr Het Hq. eexists. split.
  - apply (host_run_Net_Data_RunSession d s Hd).
  - exact (listener_tick_CK2 d (set_DataSocket (Some [d]) s) Hl Hi Hc eq_refl Hp Hip Htr Het
             Hq).
Qed.

(** X24: a listener that waits for an invitation is taken through the
    whole handshake by its partner: IN on the control socket, IN on the
    data socket, CK0 and CK2 from the same address, with a call of
    RunSession after each.  It answers OK on the control socket, OK on the
    data socket and CK1 (with the timestamp of CK0 and its own time
    counter), and its session is opened: the partner is the sender of the
    first invitation, with the two ports the invitations came from, the
    token is the one of the first invitation, the liveness counter is 4
    and the latency is measured from the second timestamp of CK2.  The
    packets have the bytes that are read of them: 12 for the invitation
    with the token, 20 for CK0 and 36 for CK2. *)
Theorem listener_handshake_opens c1 d1 d2 d3 s :
  EndpointLocked s = false -> IsInitiatorNode s = false ->
  SessionState s = SESSION_WAIT_INVITE_CTRL ->
  ControlSocket s = Some [] -> DataSocket s = Some [] ->
  ReadPtr (RTPStreamQueue s) = WritePtr (RTPStreamQueue s) ->
  is_session_packet chr_I chr_N c1 -> received 12 c1 ->
  is_session_packet chr_I chr_N d1 -> SenderIP d1 = SenderIP c1 ->
  is_CK_packet 0 d2 -> received 20 d2 -> SenderIP d2 = SenderIP c1 ->
  is_CK_packet 2 d3 -> received 36 d3 -> SenderIP d3 = SenderIP c1 ->
  let s' := host_run (listener_handshake c1 d1 d2 d3) s in
  getSessionStatus s' = 3 /\
  SessionPartnerIP s' = SenderIP c1 /\ PartnerControlPort s' = SenderPort c1 /\
  PartnerDataPort s' = SenderPort d1 /\
  InitiatorToken s' = get_be32 (Payload c1) 8 /\
  TimeOutRemote s' = 4 /\
  GetLatency s' = u32 (u32 (TimeCounter s + 40) - get_be32 (Payload d3) 24) /\
  Trace s' = Trace s ++
    [ EvSendTo ControlSocketId (SenderIP c1) (SenderPort c1)
        ([0xFF; 0xFF; chr_O; chr_K] ++ be32 2
           ++ be32 (get_be32 (Payload c1) 8) ++ be32 (SSRC s));
      EvSendTo DataSocketId (SenderIP d1) (SenderPort d1)
        ([0xFF; 0xFF; chr_O; chr_K] ++ be32 2
           ++ be32 (get_be32 (Payload c1) 8) ++ be32 (SSRC s));
      EvSendTo DataSocketId (SenderIP c1) (SenderPort d1)
        ([0xFF; 0xFF; chr_C; chr_K] ++ be32 (SSRC s) ++ [u8 1; 0; 0; 0]
           ++ be32 (get_be32 (Payload d2) 12)
           ++ be32 (get_be32 (Payload d2) 16)
           ++ be32 0 ++ be32 (u32 (TimeCounter s + 30)) ++ be32 0 ++ be32 0) ].
Proof.
  intros Hl Hi Hst Hc Hd Hq Hp1 _ Hp2 Hip2 Hp3 _ Hip3 Hp4 _ Hip4 s'. subst s'.
  rewrite <- !(get_be32_ReceptionBuffer_of c1), <- !(get_be32_ReceptionBuffer_of d2),
    <- !(get_be32_ReceptionBuffer_of d3) by lia.
  unfold listener_handshake.
  destruct (listener_gets_IN_control c1 s Hl Hi Hst Hc Hd Hp1)
    as (s1 & E1 & (L1 & I1 & C1 & D1 & Q1 & SS1 & TC1) & S1 & TR1 & ET1 & K1 & IP1 & PC1
        & PD1 & R1).
  rewrite host_run_two, E1. clear E1.
  destruct (listener_gets_IN_data d1 s1 L1 I1 C1 D1 Hp2 (eq_trans Hip2 (eq_sym IP1)))
    as (s2 & E2 & (L2 & I2 & C2 & D2 & Q2 & SS2 & TC2) & S2 & TR2 & ET2 & K2 & IP2 & PC2
        & PD2 & R2).
  rewrite host_run_two, E2. clear E2.
  assert (Hip3' : SenderIP d2 = SessionPartnerIP s2) by (rewrite IP2, IP1; exact Hip3).
  assert (ET2' : 1 < EventTime s2) by (rewrite ET2; lia).
  assert (S2' : SessionState s2 <> SESSION_OPENED) by (rewrite S2; discriminate).
  destruct (listener_gets_CK0 d2 s2 L2 I2 C2 D2 Hp3 Hip3' TR2 ET2' S2')
    as (s3 & E3 & (L3 & I3 & C3 & D3 & Q3 & SS3 & TC3) & S3 & TR3 & ET3 & K3 & IP3 & PC3
        & PD3 & R3).
  rewrite host_run_two, E3. clear E3.
  assert (Hip4' : SenderIP d3 = SessionPartnerIP s3) by (rewrite IP3, IP2, IP1; exact Hip4).
  assert (ET3' : 1 < EventTime s3) by (rewrite ET3, ET2; lia).
  assert (Q3' : ReadPtr (RTPStreamQueue s3) = WritePtr (RTPStreamQueue s3))
    by (rewrite Q3, Q2, Q1; exact Hq).
  destruct (listener_gets_CK2 d3 s3 L3 I3 C3 D3 Hp4 Hip4' TR3 ET3' Q3')
    as (s4 & E4 & (L4 & I4 & C4 & D4 & Q4 & SS4 & TC4) & S4 & TO4 & ML4 & K4 & IP4 & PC4
        & PD4 & R4).
  rewrite E4. clear E4.
  assert (A3 : TimeCounter s3 = u32 (TimeCounter s + 30)).
  { rewrite TC3, TC2, TC1. unfold u32. dmlia. }
  assert (A4 : u32 (TimeCounter s3 + 10) = u32 (TimeCounter s + 40)).
  { rewrite A3. unfold u32. dmlia. }
  rewrite <- TC3 in R3. rewrite A3 in R3. rewrite A4 in ML4.
  unfold getSessionStatus, GetLatency. rewrite S4. cbn [SessionState_eqb negb].
  rewrite IP4, IP3, IP2, IP1, PC4, PC3, PC2, PC1, PD4, PD3, PD2, K4, K3, K2, K1, TO4, ML4.
  rewrite R4, R3, R2, R1, IP2, IP1, PD2, K1, SS2, SS1.
  rewrite <- !app_assoc. cbn [app]. rewrite Hip2.
  repeat split.
Qed.

Lemma listener_handshake_opens_witness :
  getSessionStatus
    (host_run
       (listener_handshake
          (from_partner_ctrl (IN_packet 0x12345678 0x22222222 [0x4D]))
          (from_partner_data (IN_packet 0x12345678 0x22222222 [0x4D]))
          (from_partner_data (CK_packet 0x22222222 0 40 0 0))
          (from_partner_data (CK_packet 0x22222222 2 40 1000 2000)))
       listener_endpoint) = 3.
Proof.
  refine (proj1 (listener_handshake_opens
                   (from_partner_ctrl (IN_packet 0x12345678 0x22222222 [0x4D]))
                   (from_partner_data (IN_packet 0x12345678 0x22222222 [0x4D]))
                   (from_partner_data (CK_packet 0x22222222 0 40 0 0))
                   (from_partner_data (CK_packet 0x22222222 2 40 1000 2000))
                   listener_endpoint _ _ _ _ _ _ _ _ _ _ _ _ _ _ _ _));
    vm_compute; try reflexivity; try discriminate; repeat split.
Defined.

(** ** The initiator is answered *)

Lemma RunSession_datagram_OK d a r x :
  is_session_packet chr_O chr_K d -> SenderIP d = SessionPartnerIP x ->
  RunSession_datagram d a r x = (true, r, x).
Proof.
  intros Hp Hip. rewrite (RunSession_datagram_session_packet chr_O chr_K d a r x Hp Hip).
  reflexivity.
Qed.

Lemma RunSession_datagram_CK1_initiator d a r x :
  is_CK_packet 1 d -> SenderIP d = SessionPartnerIP x ->
  IsInitiatorNode x = true -> SessionState x = SESSION_CLOCK_SYNC1 ->
  RunSession_datagram d a r x
  = (a, r,
     set_SessionState SESSION_OPENED
       (set_TimeOutRemote 4
          (SendSyncPacket 2 (get_be32 (ReceptionBuffer_of d) 12)
             (get_be32 (ReceptionBuffer_of d) 16) (get_be32 (ReceptionBuffer_of d) 20)
             (get_be32 (ReceptionBuffer_of d) 24) 0 (TimeCounter x)
             (set_TimeOutRemote 4
                (set_MeasuredLatency
                   (u32 (TimeCounter x - get_be32 (ReceptionBuffer_of d) 16))
                   (set_TS2L (get_be32 (ReceptionBuffer_of d) 24)
                      (set_TS2H (get_be32 (ReceptionBuffer_of d) 20)
                         (set_TS1L (get_be32 (ReceptionBuffer_of d) 16)
                            (set_TS1H (get_be32 (ReceptionBuffer_of d) 12) x))))))))).
Proof.
  intros [Hp Hk] Hip Hi Hs.
  rewrite (RunSession_datagram_session_packet chr_C chr_K d a r x Hp Hip).
  change ((chr_C =? chr_C) && (chr_K =? chr_K)) with true. cbv iota.
  unfold RunSession_CK. rewrite Hk. change (1 =? 0) with false. change (1 =? 1) with true.
  cbv iota zeta.
  cbn [IsInitiatorNode SessionState SendSyncPacket sendto set_Trace set_TimeOutRemote
       set_MeasuredLatency set_TS2L set_TS2H set_TS1L set_TS1H].
  rewrite Hi, Hs. reflexivity.
Qed.

Lemma RunSession_initiator_accepted_on_data te a r e y :
  IsInitiatorNode y = true -> SessionState y = SESSION_INVITE_DATA ->
  RunSession_initiator te (MkFlags a r true e) y
  = (set_SessionState SESSION_CLOCK_SYNC0 y, false).
Proof. intros Hi Hs. unfold RunSession_initiator. rewrite Hi, Hs. reflexivity. Qed.

Lemma RunSession_initiator_CLOCK_SYNC0 te fl y :
  IsInitiatorNode y = true -> SessionState y = SESSION_CLOCK_SYNC0 ->
  RunSession_initiator te fl y
  = (set_SessionState SESSION_CLOCK_SYNC1 (SendSyncPacket 0 0 (TimeCounter y) 0 0 0 0 y),
     false).
Proof. intros Hi Hs. unfold RunSession_initiator. rewrite Hi, Hs. reflexivity. Qed.

Lemma RunSession_initiator_OPENED te fl y :
  SessionState y = SESSION_OPENED -> RunSession_initiator te fl y = (y, false).
Proof.
  intros Hs. unfold RunSession_initiator. rewrite Hs.
  destruct (IsInitiatorNode y); reflexivity.
Qed.

(** The four calls of RunSession of [initiator_handshake]. *)
Lemma initiator_gets_OK_control c s :
  EndpointLocked s = false -> IsInitiatorNode s = true ->
  SessionState s = SESSION_INVITE_CONTROL ->
  ControlSocket s = Some [] -> DataSocket s = Some [] ->
  is_session_packet chr_O chr_K c ->
  exists s', host_run [Net_Control c; Call_RunSession] s = s' /\
  (EndpointLocked s' = false /\ IsInitiatorNode s' = true /\
   ControlSocket s' = Some [] /\ DataSocket s' = Some [] /\
   RTPStreamQueue s' = RTPStreamQueue s /\ SSRC s' = SSRC s /\
   TimeCounter s' = u32 (TimeCounter s + 10) /\
   SessionPartnerIP s' = SessionPartnerIP s /\ PartnerDataPort s' = PartnerDataPort s /\
   PartnerControlPort s' = PartnerControlPort s) /\
  SessionState s' = SESSION_INVITE_DATA /\
  TimerRunning s' = true /\ EventTime s' = 100 /\
  Trace s' = Trace s ++
    [EvSendTo DataSocketId (RemoteIPToInvite s) (PartnerDataPort s)
       (SessionPacketNoName chr_I chr_N s
          ++ (if 0 <? Z.of_nat (length (SessionName s)) then SessionName s ++ [0] else []))].
Proof.
  intros Hl Hi Hst Hc0 Hd0 Hp. eexists. split.
  { apply (host_run_Net_Control_RunSession c s Hc0). }
  set (s0 := set_ControlSocket (Some [c]) s).
  assert (F0 : EndpointLocked s0 = false /\ SessionState s0 = SESSION_INVITE_CONTROL /\
               IsInitiatorNode s0 = true /\ ControlSocket s0 = Some [c] /\
               DataSocket s0 = Some [] /\ same_endpoint s (set_ControlSocket (ControlSocket s) s0)
               /\ TimeCounter s0 = TimeCounter s).
  { subst s0. unfold same_endpoint. repeat split; assumption. }
  revert F0. generalize s0. clear s0.
  intros s0 (Hl0 & Hst0 & Hi0 & Hc & Hd & Hse0 & Htc0).
  destruct (RunSession_before_sockets_ex s0)
    as (x & te & Hb & Hse & Htc & Hte & Hsx & Htx & Hex).
  rewrite Hst0 in Hsx. cbn [SessionState_eqb orb] in Hsx. rewrite andb_false_r in Hsx.
  destruct Hse as (Lx & Ix & Cx & Dx & Qx & SSx & Kx & IPx & PCx & PDx & RIx & Nx & ICx
                   & TOx & Rx).
  destruct Hse0 as (_ & _ & _ & _ & Q0 & SS0 & K0 & IP0 & PC0 & PD0 & RI0 & N0 & _ & _ & R0).
  cbn [RTPStreamQueue SSRC InitiatorToken SessionPartnerIP PartnerControlPort
       PartnerDataPort RemoteIPToInvite SessionName Trace set_ControlSocket]
    in Q0, SS0, K0, IP0, PC0, PD0, RI0, N0, R0.
  rewrite Hi0 in Ix. rewrite Hc in Cx. rewrite Hd in Dx. rewrite Hl0 in Lx.
  assert (Dx0 : pending_datagrams (DataSocket x) = 0%nat) by (rewrite Dx; reflexivity).
  pose proof (ProcessControlSocket_OK c [] false false x Cx Hp) as Hpc.
  pose proof (RunSession_sockets_ctrl c x _ _ _ _ Cx Dx0 Hpc) as Hs.
  pose proof (RunSession_initiator_accepted_on_control te false false false
                (set_ControlSocket (Some []) x) Ix Hsx) as Hin.
  pose proof (RunSession_steps_returned s0 x te _ _ _ Hl0 Hb Hs eq_refl eq_refl Hin) as E.
  rewrite E. clear E.
  cbn [EndpointLocked IsInitiatorNode ControlSocket DataSocket RTPStreamQueue SSRC
       TimeCounter SessionState TimerRunning EventTime SessionPartnerIP
       PartnerControlPort PartnerDataPort Trace RemoteIPToInvite SessionName
       set_InviteCount set_TimerRunning set_EventTime set_Trace
       set_SyncSequenceCounter set_SessionState set_ControlSocket
       PrepareTimerEvent SendInvitation sendto].
  unfold SessionPacketNoName.
  cbn [InitiatorToken SSRC set_SyncSequenceCounter set_SessionState set_ControlSocket].
  rewrite Lx, Ix, Dx, Qx, SSx, Htc, IPx, PDx, PCx, Rx, RIx, Kx, Nx.
  rewrite Q0, SS0, Htc0, IP0, PD0, PC0, R0, RI0, K0, N0. repeat split.
Qed.

Lemma initiator_gets_OK_data d s :
  EndpointLocked s = false -> IsInitiatorNode s = true ->
  SessionState s = SESSION_INVITE_DATA ->
  ControlSocket s = Some [] -> DataSocket s = Some [] ->
  is_session_packet chr_O chr_K d -> SenderIP d = SessionPartnerIP s ->
  TimerRunning s = true -> 1 < EventTime s ->
  exists s', host_run [Net_Data d; Call_RunSession] s = s' /\
  (EndpointLocked s' = false /\ IsInitiatorNode s' = true /\
   ControlSocket s' = Some [] /\ DataSocket s' = Some [] /\
   RTPStreamQueue s' = RTPStreamQueue s /\ SSRC s' = SSRC s /\
   TimeCounter s' = u32 (TimeCounter s + 10) /\
   SessionPartnerIP s' = SessionPartnerIP s /\ PartnerDataPort s' = PartnerDataPort s /\
   PartnerControlPort s' = PartnerControlPort s) /\
  SessionState s' = SESSION_CLOCK_SYNC0 /\
  TimerRunning s' = true /\ EventTime s' = EventTime s - 1 /\
  Trace s' = Trace s.
Proof.
  intros Hl Hi Hst Hc0 Hd0 Hp Hip Htr Het. eexists. split.
  { apply (host_run_Net_Data_RunSession d s Hd0). }
  destruct (RunSession_before_sockets_ex (set_DataSocket (Some [d]) s))
    as (x & te & Hb & Hse & Htc & Hte & Hsx & Htx & Hex).
  cbn [TimerRunning EventTime SessionState TimeCounter set_DataSocket]
    in Htc, Hte, Hsx, Htx, Hex.
  destruct (timer_quiet s Htr Het) as [Ete Eet].
  rewrite Ete in Hte. subst te. rewrite Eet in Hex.
  cbn [andb] in Hsx. rewrite Htr in Htx. cbn [andb negb] in Htx.
  destruct Hse as (Lx & Ix & Cx & Dx & Qx & SSx & Kx & IPx & PCx & PDx & RIx & Nx & ICx
                   & TOx & Rx).
  cbn [EndpointLocked IsInitiatorNode ControlSocket DataSocket RTPStreamQueue SSRC
       InitiatorToken SessionPartnerIP PartnerControlPort PartnerDataPort
       RemoteIPToInvite SessionName Trace set_DataSocket]
    in Lx, Ix, Cx, Dx, Qx, SSx, Kx, IPx, PCx, PDx, RIx, Nx, Rx.
  rewrite Hi in Ix. rewrite Hc0 in Cx. rewrite Hl in Lx. rewrite Hst in Hsx.
  assert (Cx0 : pending_datagrams (ControlSocket x) = 0%nat) by (rewrite Cx; reflexivity).
  assert (Hip' : SenderIP d = SessionPartnerIP (set_DataSocket (Some []) x))
    by (rewrite Hip, <- IPx; reflexivity).
  pose proof (RunSession_datagram_OK d false false _ Hp Hip') as Hdg.
  pose proof (RunSession_sockets_data d x _ _ _ Cx0 Dx Hdg) as Hs.
  pose proof (RunSession_initiator_accepted_on_data false false false false
                (set_DataSocket (Some []) x) Ix Hsx) as Hin.
  pose proof (RunSession_steps_on (set_DataSocket (Some [d]) s) x false _ _ _
                Hl Hb Hs eq_refl eq_refl Hin) as E.
  rewrite RunSession_opened_other in E by (intros H; discriminate H).
  rewrite E. clear E.
  cbn [EndpointLocked IsInitiatorNode ControlSocket DataSocket RTPStreamQueue SSRC
       TimeCounter SessionState TimerRunning EventTime SessionPartnerIP
       PartnerControlPort PartnerDataPort Trace set_SessionState set_DataSocket].
  rewrite Lx, Ix, Cx, Qx, SSx, Htc, IPx, PDx, PCx, Rx, Htx, Hex. repeat split.
Qed.

Lemma initiator_sends_CK0 s :
  EndpointLocked s = false -> IsInitiatorNode s = true ->
  SessionState s = SESSION_CLOCK_SYNC0 ->
  ControlSocket s = Some [] -> DataSocket s = Some [] ->
  TimerRunning s = true -> 1 < EventTime s ->
  exists s', RunSession s = s' /\
  (EndpointLocked s' = false /\ IsInitiatorNode s' = true /\
   ControlSocket s' = Some [] /\ DataSocket s' = Some [] /\
   RTPStreamQueue s' = RTPStreamQueue s /\ SSRC s' = SSRC s /\
   TimeCounter s' = u32 (TimeCounter s + 10) /\
   SessionPartnerIP s' = SessionPartnerIP s /\ PartnerDataPort s' = PartnerDataPort s /\
   PartnerControlPort s' = PartnerControlPort s) /\
  SessionState s' = SESSION_CLOCK_SYNC1 /\
  TimerRunning s' = true /\ EventTime s' = EventTime s - 1 /\
  Trace s' = Trace s ++
    [EvSendTo DataSocketId (SessionPartnerIP s) (PartnerDataPort s)
       ([0xFF; 0xFF; chr_C; chr_K] ++ be32 (SSRC s) ++ [u8 0; 0; 0; 0]
          ++ be32 0 ++ be32 (u32 (TimeCounter s + 10))
          ++ be32 0 ++ be32 0 ++ be32 0 ++ be32 0)].
Proof.
  intros Hl Hi Hst Hc0 Hd0 Htr Het. eexists. split; [reflexivity|].
  destruct (RunSession_before_sockets_ex s)
    as (x & te & Hb & Hse & Htc & Hte & Hsx & Htx & Hex).
  destruct (timer_quiet s Htr Het) as [Ete Eet].
  rewrite Ete in Hte. subst te. rewrite Eet in Hex.
  cbn [andb] in Hsx. rewrite Htr in Htx. cbn [andb negb] in Htx.
  destruct Hse as (Lx & Ix & Cx & Dx & Qx & SSx & Kx & IPx & PCx & PDx & RIx & Nx & ICx
                   & TOx & Rx).
  rewrite Hi in Ix. rewrite Hc0 in Cx. rewrite Hd0 in Dx. rewrite Hl in Lx.
  rewrite Hst in Hsx.
  assert (Cx0 : pending_datagrams (ControlSocket x) = 0%nat) by (rewrite Cx; reflexivity).
  assert (Dx0 : pending_datagrams (DataSocket x) = 0%nat) by (rewrite Dx; reflexivity).
  pose proof (RunSession_sockets_none x Cx0 Dx0) as Hs.
  pose proof (RunSession_initiator_CLOCK_SYNC0 false (MkFlags false false false false)
                x Ix Hsx) as Hin.
  pose proof (RunSession_steps_on s x false _ _ _ Hl Hb Hs eq_refl eq_refl Hin) as E.
  rewrite RunSession_opened_other in E by (intros H; discriminate H).
  rewrite E. clear E.
  cbn [EndpointLocked IsInitiatorNode ControlSocket DataSocket RTPStreamQueue SSRC
       TimeCounter SessionState TimerRunning EventTime SessionPartnerIP
       PartnerControlPort PartnerDataPort Trace set_SessionState set_Trace
       SendSyncPacket sendto].
  rewrite Lx, Ix, Cx, Dx, Qx, SSx, Htc, IPx, PDx, PCx, Rx, Htx, Hex. repeat split.
Qed.

Lemma initiator_gets_CK1 d s :
  EndpointLocked s = false -> IsInitiatorNode s = true ->
  SessionState s = SESSION_CLOCK_SYNC1 ->
  ControlSocket s = Some [] -> DataSocket s = Some [] ->
  is_CK_packet 1 d -> SenderIP d = SessionPartnerIP s ->
  TimerRunning s = true -> 1 < EventTime s ->
  ReadPtr (RTPStreamQueue s) = WritePtr (RTPStreamQueue s) ->
  exists s', host_run [Net_Data d; Call_RunSession] s = s' /\
  SessionState s' = SESSION_OPENED /\
  TimeOutRemote s' = 4 /\
  MeasuredLatency s' = u32 (u32 (TimeCounter s + 10) - get_be32 (ReceptionBuffer_of d) 16) /\
  Trace s' = Trace s ++
    [EvSendTo DataSocketId (SessionPartnerIP s) (PartnerDataPort s)
       ([0xFF; 0xFF; chr_C; chr_K] ++ be32 (SSRC s) ++ [u8 2; 0; 0; 0]
          ++ be32 (get_be32 (ReceptionBuffer_of d) 12)
          ++ be32 (get_be32 (ReceptionBuffer_of d) 16)
          ++ be32 (get_be32 (ReceptionBuffer_of d) 20)
          ++ be32 (get_be32 (ReceptionBuffer_of d) 24)
          ++ be32 0 ++ be32 (u32 (TimeCounter s + 10)))].
Proof.
  intros Hl Hi Hst Hc0 Hd0 Hck Hip Htr Het Hq. eexists. split.
  { apply (host_run_Net_Data_RunSession d s Hd0). }
  destruct (RunSession_before_sockets_ex (set_DataSocket (Some [d]) s))
    as (x & te & Hb & Hse & Htc & Hte & Hsx & Htx & Hex).
  cbn [TimerRunning EventTime SessionState TimeCounter set_DataSocket]
    in Htc, Hte, Hsx, Htx, Hex.
  destruct (timer_quiet s Htr Het) as [Ete Eet].
  rewrite Ete in Hte. subst te.
  cbn [andb] in Hsx.
  destruct Hse as (Lx & Ix & Cx & Dx & Qx & SSx & Kx & IPx & PCx & PDx & RIx & Nx & ICx
                   & TOx & Rx).
  cbn [EndpointLocked IsInitiatorNode ControlSocket DataSocket RTPStreamQueue SSRC
       InitiatorToken SessionPartnerIP PartnerControlPort PartnerDataPort
       RemoteIPToInvite SessionName Trace set_DataSocket]
    in Lx, Ix, Cx, Dx, Qx, SSx, Kx, IPx, PCx, PDx, RIx, Nx, Rx.
  rewrite Hi in Ix. rewrite Hc0 in Cx. rewrite Hl in Lx. rewrite Hst in Hsx.
  assert (Cx0 : pending_datagrams (ControlSocket x) = 0%nat) by (rewrite Cx; reflexivity).
  assert (Hip' : SenderIP d = SessionPartnerIP (set_DataSocket (Some []) x))
    by (rewrite Hip, <- IPx; reflexivity).
  pose proof (RunSession_datagram_CK1_initiator d false false _ Hck Hip' Ix Hsx) as Hdg.
  pose proof (RunSession_sockets_data d x _ _ _ Cx0 Dx Hdg) as Hs.
  match type of Hs with _ = (_, ?y) =>
    assert (Sy : SessionState y = SESSION_OPENED) by reflexivity;
    assert (Ty : TimeOutRemote y = 4) by reflexivity;
    assert (Qy : ReadPtr (RTPStreamQueue y) = WritePtr (RTPStreamQueue y))
      by (change (RTPStreamQueue y) with (RTPStreamQueue x); rewrite Qx; exact Hq);
    pose proof (RunSession_initiator_OPENED false (MkFlags false false false false) y Sy)
      as Hin;
    pose proof (RunSession_opened_idle y Sy Qy Ty) as Ho
  end.
  pose proof (RunSession_steps_on (set_DataSocket (Some [d]) s) x false _ _ _
                Hl Hb Hs eq_refl eq_refl Hin) as E.
  rewrite Ho in E. rewrite E. clear E Ho Hin Hs Hdg.
  cbn [SessionState TimeOutRemote MeasuredLatency Trace SSRC SessionPartnerIP
       PartnerDataPort TimeCounter
       set_SessionState set_TimeOutRemote set_MeasuredLatency set_TS2L
       set_TS2H set_TS1L set_TS1H set_DataSocket set_Trace SendSyncPacket sendto].
  rewrite Htc, Rx, SSx, IPx, PDx. repeat split.
Qed.

Lemma host_run_RunSession cs s :
  host_run (Call_RunSession :: cs) s = host_run cs (RunSession s).
Proof. reflexivity. Qed.

(** X25: an initiator that has invited its partner on the control port is
    taken through the rest of the handshake: OK on the control socket, OK
    on the data socket, and CK1 in answer to its CK0.  It sends the
    invitation on the data port, CK0 and CK2, each with its time counter
    of the moment, and its session is opened with the liveness counter at
    4 and the latency measured from the first timestamp of CK1.  CK1 has
    the 28 bytes that are read of it. *)
Theorem initiator_handshake_opens c1 d1 d2 s :
  EndpointLocked s = false -> IsInitiatorNode s = true ->
  SessionState s = SESSION_INVITE_CONTROL ->
  ControlSocket s = Some [] -> DataSocket s = Some [] ->
  ReadPtr (RTPStreamQueue s) = WritePtr (RTPStreamQueue s) ->
  is_session_packet chr_O chr_K c1 ->
  is_session_packet chr_O chr_K d1 -> SenderIP d1 = SessionPartnerIP s ->
  is_CK_packet 1 d2 -> received 28 d2 -> SenderIP d2 = SessionPartnerIP s ->
  let s' := host_run (initiator_handshake c1 d1 d2) s in
  getSessionStatus s' = 3 /\
  TimeOutRemote s' = 4 /\
  GetLatency s' = u32 (u32 (TimeCounter s + 40) - get_be32 (Payload d2) 16) /\
  Trace s' = Trace s ++
    [ EvSendTo DataSocketId (RemoteIPToInvite s) (PartnerDataPort s)
        (SessionPacketNoName chr_I chr_N s
           ++ (if 0 <? Z.of_nat (length (SessionName s)) then SessionName s ++ [0] else []));
      EvSendTo DataSocketId (SessionPartnerIP s) (PartnerDataPort s)
        ([0xFF; 0xFF; chr_C; chr_K] ++ be32 (SSRC s) ++ [u8 0; 0; 0; 0]
           ++ be32 0 ++ be32 (u32 (TimeCounter s + 30))
           ++ be32 0 ++ be32 0 ++ be32 0 ++ be32 0);
      EvSendTo DataSocketId (SessionPartnerIP s) (PartnerDataPort s)
        ([0xFF; 0xFF; chr_C; chr_K] ++ be32 (SSRC s) ++ [u8 2; 0; 0; 0]
           ++ be32 (get_be32 (Payload d2) 12)
           ++ be32 (get_be32 (Payload d2) 16)
           ++ be32 (get_be32 (Payload d2) 20)
           ++ be32 (get_be32 (Payload d2) 24)
           ++ be32 0 ++ be32 (u32 (TimeCounter s + 40))) ].
Proof.
  intros Hl Hi Hst Hc Hd Hq Hp1 Hp2 Hip2 Hp3 _ Hip3 s'. subst s'.
  rewrite <- !(get_be32_ReceptionBuffer_of d2) by lia.
  unfold initiator_handshake.
  destruct (initiator_gets_OK_control c1 s Hl Hi Hst Hc Hd Hp1)
    as (s1 & E1 & (L1 & I1 & C1 & D1 & Q1 & SS1 & TC1 & IP1 & PD1 & PC1) & S1 & TR1 & ET1
        & R1).
  rewrite host_run_two, E1. clear E1.
  assert (Hip2' : SenderIP d1 = SessionPartnerIP s1) by (rewrite IP1; exact Hip2).
  assert (ET1' : 1 < EventTime s1) by (rewrite ET1; lia).
  destruct (initiator_gets_OK_data d1 s1 L1 I1 S1 C1 D1 Hp2 Hip2' TR1 ET1')
    as (s2 & E2 & (L2 & I2 & C2 & D2 & Q2 & SS2 & TC2 & IP2 & PD2 & PC2) & S2 & TR2 & ET2
        & R2).
  rewrite host_run_two, E2. clear E2.
  assert (ET2' : 1 < EventTime s2) by (rewrite ET2, ET1; lia).
  destruct (initiator_sends_CK0 s2 L2 I2 S2 C2 D2 TR2 ET2')
    as (s3 & E3 & (L3 & I3 & C3 & D3 & Q3 & SS3 & TC3 & IP3 & PD3 & PC3) & S3 & TR3 & ET3
        & R3).
  rewrite host_run_RunSession, E3. clear E3.
  assert (Hip3' : SenderIP d2 = SessionPartnerIP s3) by (rewrite IP3, IP2, IP1; exact Hip3).
  assert (ET3' : 1 < EventTime s3) by (rewrite ET3, ET2, ET1; lia).
  assert (Q3' : ReadPtr (RTPStreamQueue s3) = WritePtr (RTPStreamQueue s3))
    by (rewrite Q3, Q2, Q1; exact Hq).
  destruct (initiator_gets_CK1 d2 s3 L3 I3 S3 C3 D3 Hp3 Hip3' TR3 ET3' Q3')
    as (s4 & E4 & S4 & TO4 & ML4 & R4).
  rewrite E4. clear E4.
  assert (A3 : u32 (TimeCounter s2 + 10) = u32 (TimeCounter s + 30)).
  { rewrite TC2, TC1. unfold u32. dmlia. }
  assert (A4 : u32 (TimeCounter s3 + 10) = u32 (TimeCounter s + 40)).
  { rewrite TC3, TC2, TC1. unfold u32. dmlia. }
  rewrite A3 in R3. rewrite A4 in ML4, R4.
  unfold getSessionStatus, GetLatency. rewrite S4. cbn [SessionState_eqb negb].
  rewrite TO4, ML4, R4, R3, R2, R1, SS3, SS2, SS1, IP3, IP2, IP1, PD3, PD2, PD1.
  rewrite <- !app_assoc. cbn [app].
  repeat split.
Qed.

Lemma initiator_handshake_opens_witness :
  getSessionStatus
    (host_run
       (initiator_handshake
          (from_partner_ctrl (OK_packet 0xFFFFFFFF 0x22222222))
          (from_partner_data (OK_packet 0xFFFFFFFF 0x22222222))
          (from_partner_data (CK_packet 0x22222222 1 40 1000 0)))
       (RunSession initiator_endpoint)) = 3.
Proof.
  refine (proj1 (initiator_handshake_opens
                   (from_partner_ctrl (OK_packet 0xFFFFFFFF 0x22222222))
                   (from_partner_data (OK_packet 0xFFFFFFFF 0x22222222))
                   (from_partner_data (CK_packet 0x22222222 1 40 1000 0))
                   (RunSession initiator_endpoint) _ _ _ _ _ _ _ _ _ _ _ _));
    vm_compute; try reflexivity; try discriminate; repeat split.
Defined.

(** ** The partner is lost *)

(** The session is opened and the ring is empty: the last part of
    RunSession is the one that watches the partner. *)
Lemma RunSession_opened_on_empty te y :
  SessionState y = SESSION_OPENED ->
  ReadPtr (RTPStreamQueue y) = WritePtr (RTPStreamQueue y) ->
  RunSession_opened te y = RunSession_keepalive te y.
Proof.
  intros Hs Hq. unfold RunSession_opened. rewrite Hs. cbn [SessionState_eqb].
  rewrite (RunSession_emit_empty y Hq). reflexivity.
Qed.

Lemma RestartSession_initiator x :
  IsInitiatorNode x = true ->
  RestartSession x
  = PrepareTimerEvent 1000
      (set_SessionState SESSION_INVITE_CONTROL
         (set_IncomingThirdByte false
            (set_TimeOutRemote 16
               (set_InviteCount 0
                  (set_SegmentSYSEXInput false (set_SYSEX_RTPActif false x)))))).
Proof. intros H. unfold RestartSession. rewrite H. reflexivity. Qed.

(** A timer event with the liveness counter at 1: what comes before the
    counter is looked at (feedback, CK0 and the timer) gives [c], and the
    counter comes to 0. *)
Lemma RunSession_keepalive_lost y :
  TimeOutRemote y = 1 ->
  exists c,
    (IsInitiatorNode c = IsInitiatorNode y /\ SessionPartnerIP c = SessionPartnerIP y) /\
    RunSession_keepalive true y
    = if IsInitiatorNode y
      then RestartSession
             (set_TimeOutRemote 4 (set_ConnectionLost true (set_TimeOutRemote 0 c)))
      else set_SessionState SESSION_WAIT_INVITE_CTRL
             (set_ConnectionLost true (set_TimeOutRemote 0 c)).
Proof.
  intros Hto. unfold RunSession_keepalive. cbv iota.
  set (a := if negb (LastRTPCounter y =? LastFeedbackCounter y) then _ else y).
  assert (Ha : TimeOutRemote a = TimeOutRemote y /\ IsInitiatorNode a = IsInitiatorNode y /\
               SessionPartnerIP a = SessionPartnerIP y)
    by (subst a; destruct (negb _); repeat split).
  revert Ha. generalize a. clear a. intros a (Ha1 & Ha2 & Ha3). cbv zeta.
  set (b := if IsInitiatorNode a then _ else a).
  assert (Hb : TimeOutRemote b = TimeOutRemote a /\ IsInitiatorNode b = IsInitiatorNode a /\
               SessionPartnerIP b = SessionPartnerIP a)
    by (subst b; destruct (IsInitiatorNode a) eqn:Ei; repeat split; exact Ei).
  revert Hb. generalize b. clear b. intros b (Hb1 & Hb2 & Hb3).
  set (c := if SyncSequenceCounter b <=? 5 then _ else _).
  assert (Hc : TimeOutRemote c = TimeOutRemote b /\ IsInitiatorNode c = IsInitiatorNode b /\
               SessionPartnerIP c = SessionPartnerIP b)
    by (subst c; destruct (SyncSequenceCounter b <=? 5); repeat split).
  revert Hc. generalize c. clear c. intros c (Hc1 & Hc2 & Hc3).
  assert (Tc : TimeOutRemote c = 1) by congruence.
  assert (Ic : IsInitiatorNode c = IsInitiatorNode y) by congruence.
  exists c. split; [split; congruence|].
  rewrite Tc. change (0 <? 1) with true. cbv iota.
  change (TimeOutRemote (set_TimeOutRemote (1 - 1) c) =? 0) with true. cbv iota.
  change (IsInitiatorNode (set_ConnectionLost true (set_TimeOutRemote (1 - 1) c)))
    with (IsInitiatorNode c).
  rewrite Ic. reflexivity.
Qed.

(** X26: an opened session whose liveness counter has come down to 1 is
    given up at the next timer event, when no datagram has come and
    nothing waits in the ring: the host finds the loss with
    ReadAndResetConnectionLost, a listener waits for an invitation again
    and keeps the address of the partner it had, and an initiator starts
    to invite again, from a count of 0, with the liveness counter at 16
    and 1000 ticks to the first invitation. *)
Theorem RunSession_connection_lost s :
  EndpointLocked s = false -> SessionState s = SESSION_OPENED ->
  TimerRunning s = true -> 0 <= EventTime s <= 1 -> TimeOutRemote s = 1 ->
  pending_datagrams (ControlSocket s) = 0%nat ->
  pending_datagrams (DataSocket s) = 0%nat ->
  ReadPtr (RTPStreamQueue s) = WritePtr (RTPStreamQueue s) ->
  let s' := RunSession s in
  fst (ReadAndResetConnectionLost s') = true /\
  (IsInitiatorNode s = false ->
     SessionState s' = SESSION_WAIT_INVITE_CTRL /\
     SessionPartnerIP s' = SessionPartnerIP s) /\
  (IsInitiatorNode s = true ->
     SessionState s' = SESSION_INVITE_CONTROL /\ InviteCount s' = 0 /\
     TimeOutRemote s' = 16 /\ TimerRunning s' = true /\ EventTime s' = 1000).
Proof.
  intros Hl Hst Htr Het Hto Hc Hd Hq s'.
  destruct (RunSession_before_sockets_ex s)
    as (x & te & Hb & Hse & Htc & Hte & Hsx & Htx & Hex).
  rewrite (timer_fires s Htr Het) in Hte. subst te.
  rewrite Hst in Hsx. cbn [SessionState_eqb orb andb] in Hsx.
  destruct Hse as (Lx & Ix & Cx & Dx & Qx & SSx & Kx & IPx & PCx & PDx & RIx & Nx & ICx
                   & TOx & Rx).
  rewrite <- Cx in Hc. rewrite <- Dx in Hd. rewrite <- Qx in Hq. rewrite Hto in TOx.
  pose proof (RunSession_sockets_none x Hc Hd) as Hs.
  pose proof (RunSession_initiator_OPENED true (MkFlags false false false false) x Hsx)
    as Hin.
  pose proof (RunSession_steps_on s x true _ _ _ Hl Hb Hs eq_refl eq_refl Hin) as E.
  rewrite (RunSession_opened_on_empty true x Hsx Hq) in E.
  destruct (RunSession_keepalive_lost x TOx) as (c & (Ic & Pc) & Ek).
  rewrite Ek in E. clear Ek. rewrite Ix in E.
  subst s'. rewrite E. clear E.
  destruct (IsInitiatorNode s) eqn:Ei.
  - rewrite RestartSession_initiator by (rewrite <- Ix, <- Ic; reflexivity).
    repeat split; intros; try discriminate; reflexivity.
  - unfold ReadAndResetConnectionLost.
    cbn [ConnectionLost SessionState SessionPartnerIP set_SessionState set_ConnectionLost
         set_TimeOutRemote negb fst].
    rewrite Pc, IPx. repeat split; intros; try discriminate; reflexivity.
Qed.

Lemma RunSession_connection_lost_witness :
  TimeOutRemote losing_partner = 1 /\
  fst (ReadAndResetConnectionLost (RunSession losing_partner)) = true.
Proof.
  split; [vm_compute; reflexivity|].
  refine (proj1 (RunSession_connection_lost losing_partner _ _ _ _ _ _ _ _));
    vm_compute; try reflexivity.
  split; intros H; discriminate H.
Defined.

(** ** Calls of RunSession in which nothing is received *)

Lemma same_endpoint_refl s : same_endpoint s s.
Proof. unfold same_endpoint. repeat split. Qed.

Lemma same_endpoint_trans s x y :
  same_endpoint s x -> same_endpoint x y -> same_endpoint s y.
Proof.
  unfold same_endpoint.
  intros (A1 & A2 & A3 & A4 & A5 & A6 & A7 & A8 & A9 & A10 & A11 & A12 & A13 & A14 & A15)
         (B1 & B2 & B3 & B4 & B5 & B6 & B7 & B8 & B9 & B10 & B11 & B12 & B13 & B14 & B15).
  repeat split; etransitivity; eassumption.
Qed.

Lemma ticks_S n s : host_run (ticks (S n)) s = host_run (ticks n) (RunSession s).
Proof. reflexivity. Qed.

Lemma ticks_S_end n s : host_run (ticks (S n)) s = RunSession (host_run (ticks n) s).
Proof.
  revert s. induction n as [|n IH]; intros s; [reflexivity|].
  rewrite ticks_S, IH. reflexivity.
Qed.

(** A listener whose session is not opened and that receives nothing:
    RunSession moves the clocks and the timer, and a timer that fires
    ends the wait for the rest of an invitation. *)
Lemma listener_tick_idle s :
  EndpointLocked s = false -> IsInitiatorNode s = false ->
  SessionState s <> SESSION_OPENED ->
  pending_datagrams (ControlSocket s) = 0%nat ->
  pending_datagrams (DataSocket s) = 0%nat ->
  exists y te, RunSession s = y /\ same_endpoint s y /\
    te = TimerRunning s && ((EventTime s =? 0) || (EventTime s =? 1)) /\
    SessionState y
    = (if te && (SessionState_eqb (SessionState s) SESSION_WAIT_INVITE_DATA
                 || SessionState_eqb (SessionState s) SESSION_WAIT_CLOCK_SYNC)
       then SESSION_WAIT_INVITE_CTRL else SessionState s) /\
    TimerRunning y = TimerRunning s && negb te /\
    EventTime y
    = (if TimerRunning s && (0 <? EventTime s) then EventTime s - 1 else EventTime s).
Proof.
  intros Hl Hi Hs Hc Hd.
  destruct (RunSession_before_sockets_ex s)
    as (x & te & Hb & Hse & Htc & Hte & Hsx & Htx & Hex).
  pose proof Hse as (Lx & Ix & Cx & Dx & _).
  assert (Hcx : pending_datagrams (ControlSocket x) = 0%nat) by (rewrite Cx; exact Hc).
  assert (Hdx : pending_datagrams (DataSocket x) = 0%nat) by (rewrite Dx; exact Hd).
  pose proof (RunSession_sockets_none x Hcx Hdx) as Hsock.
  pose proof (RunSession_initiator_listener te (MkFlags false false false false) x
                (eq_trans Ix Hi)) as Hin.
  pose proof (RunSession_steps_on s x te _ _ _ Hl Hb Hsock eq_refl eq_refl Hin) as E.
  assert (Hox : SessionState x <> SESSION_OPENED).
  { rewrite Hsx. destruct (te && _); [discriminate|exact Hs]. }
  rewrite (RunSession_opened_other te x Hox) in E.
  exists x, te. split; [exact E|]. split; [exact Hse|]. repeat split; assumption.
Qed.

(** While the timer counts, such a listener stays as it is. *)
Lemma listener_ticks_counting k : forall s,
  EndpointLocked s = false -> IsInitiatorNode s = false ->
  SessionState s <> SESSION_OPENED ->
  pending_datagrams (ControlSocket s) = 0%nat ->
  pending_datagrams (DataSocket s) = 0%nat ->
  TimerRunning s = true -> Z.of_nat k < EventTime s ->
  same_endpoint s (host_run (ticks k) s) /\
  SessionState (host_run (ticks k) s) = SessionState s /\
  TimerRunning (host_run (ticks k) s) = true /\
  EventTime (host_run (ticks k) s) = EventTime s - Z.of_nat k.
Proof.
  induction k as [|k IH]; intros s Hl Hi Hs Hc Hd Hr He.
  - cbn [ticks replicate host_run fold_left]. split; [apply same_endpoint_refl|].
    repeat split; [exact Hr|lia].
  - destruct (listener_tick_idle s Hl Hi Hs Hc Hd)
      as (y & te & E & Hse & Hte & Hsy & Hty & Hey).
    destruct (timer_quiet s Hr ltac:(lia)) as [Q1 Q2].
    rewrite Q1 in Hte. subst te. rewrite Q2 in Hey. cbn [andb] in Hsy.
    rewrite Hr in Hty. cbn [andb negb] in Hty.
    pose proof Hse as (Ly & Iy & Cy & Dy & _).
    rewrite ticks_S, E.
    destruct (IH y) as (A & B & C & D).
    + rewrite Ly; exact Hl.
    + rewrite Iy; exact Hi.
    + rewrite Hsy; exact Hs.
    + rewrite Cy; exact Hc.
    + rewrite Dy; exact Hd.
    + exact Hty.
    + lia.
    + split; [exact (same_endpoint_trans _ _ _ Hse A)|].
      split; [congruence|]. split; [exact C|]. lia.
Qed.

(** X14: for a listener whose session is not opened, a timer armed by
    PrepareTimerEvent for [TimeToWait] ticks, one at least, counts down
    during the first [TimeToWait - 1] calls of RunSession in which nothing
    is received, the listener staying in its state, and fires in the next
    call, which stops it: a listener that was waiting for the rest of an
    invitation (SESSION_WAIT_INVITE_DATA, SESSION_WAIT_CLOCK_SYNC) then
    waits for a new one (SESSION_WAIT_INVITE_CTRL).  Nothing is sent. *)
Theorem PrepareTimerEvent_fires_after TimeToWait s :
  1 <= TimeToWait ->
  EndpointLocked s = false -> IsInitiatorNode s = false ->
  SessionState s <> SESSION_OPENED ->
  pending_datagrams (ControlSocket s) = 0%nat ->
  pending_datagrams (DataSocket s) = 0%nat ->
  let s0 := PrepareTimerEvent TimeToWait s in
  (forall k, Z.of_nat k < TimeToWait ->
     TimerRunning (host_run (ticks k) s0) = true /\
     EventTime (host_run (ticks k) s0) = TimeToWait - Z.of_nat k /\
     SessionState (host_run (ticks k) s0) = SessionState s /\
     Trace (host_run (ticks k) s0) = Trace s) /\
  TimerRunning (host_run (ticks (Z.to_nat TimeToWait)) s0) = false /\
  SessionState (host_run (ticks (Z.to_nat TimeToWait)) s0)
  = (if SessionState_eqb (SessionState s) SESSION_WAIT_INVITE_DATA
        || SessionState_eqb (SessionState s) SESSION_WAIT_CLOCK_SYNC
     then SESSION_WAIT_INVITE_CTRL else SessionState s) /\
  Trace (host_run (ticks (Z.to_nat TimeToWait)) s0) = Trace s.
Proof.
  intros HT Hl Hi Hs Hc Hd s0.
  assert (F0 : EndpointLocked s0 = false /\ IsInitiatorNode s0 = false /\
               SessionState s0 = SessionState s /\
               pending_datagrams (ControlSocket s0) = 0%nat /\
               pending_datagrams (DataSocket s0) = 0%nat /\
               TimerRunning s0 = true /\ EventTime s0 = TimeToWait /\ Trace s0 = Trace s).
  { subst s0. repeat split; assumption. }
  destruct F0 as (L0 & I0 & S0 & C0 & D0 & R0 & E0 & T0).
  revert L0 I0 S0 C0 D0 R0 E0 T0. generalize s0. clear s0. intros s0 L0 I0 S0 C0 D0 R0 E0 T0.
  assert (Hs0 : SessionState s0 <> SESSION_OPENED) by (rewrite S0; exact Hs).
  assert (Hcount : forall k, Z.of_nat k < TimeToWait ->
            same_endpoint s0 (host_run (ticks k) s0) /\
            SessionState (host_run (ticks k) s0) = SessionState s /\
            TimerRunning (host_run (ticks k) s0) = true /\
            EventTime (host_run (ticks k) s0) = TimeToWait - Z.of_nat k).
  { intros k Hk.
    destruct (listener_ticks_counting k s0 L0 I0 Hs0 C0 D0 R0 ltac:(lia))
      as (A & B & C & D).
    split; [exact A|]. split; [congruence|]. split; [exact C|]. lia. }
  split.
  - intros k Hk. destruct (Hcount k Hk) as (A & B & C & D).
    split; [exact C|]. split; [exact D|]. split; [exact B|].
    destruct A as (_ & _ & _ & _ & _ & _ & _ & _ & _ & _ & _ & _ & _ & _ & At).
    congruence.
  - replace (Z.to_nat TimeToWait) with (S (Z.to_nat (TimeToWait - 1))) by lia.
    rewrite ticks_S_end.
    destruct (Hcount (Z.to_nat (TimeToWait - 1)) ltac:(lia)) as (A & B & C & D).
    revert A B C D. generalize (host_run (ticks (Z.to_nat (TimeToWait - 1))) s0).
    intros x A B C D.
    pose proof A as (Lx & Ix & Cx & Dx & _ & _ & _ & _ & _ & _ & _ & _ & _ & _ & Tx).
    destruct (listener_tick_idle x)
      as (y & te & E & Hse & Hte & Hsy & Hty & Hey).
    + rewrite Lx; exact L0.
    + rewrite Ix; exact I0.
    + rewrite B; exact Hs.
    + rewrite Cx; exact C0.
    + rewrite Dx; exact D0.
    + rewrite E.
      assert (Hfire : te = true).
      { rewrite Hte. apply timer_fires; [exact C|lia]. }
      rewrite Hfire in Hsy, Hty. rewrite C in Hty. cbn [andb negb] in Hty, Hsy.
      rewrite B in Hsy.
      destruct Hse as (_ & _ & _ & _ & _ & _ & _ & _ & _ & _ & _ & _ & _ & _ & Ty).
      split; [exact Hty|]. split; [exact Hsy|]. congruence.
Qed.

Lemma PrepareTimerEvent_fires_after_witness :
  let s := host_run [Net_Control (from_partner_ctrl (IN_packet 0x12345678 0x22222222 [0x4D]));
                     Call_RunSession] listener_endpoint in
  SessionState s = SESSION_WAIT_INVITE_DATA /\
  SessionState (host_run (ticks (Z.to_nat 4999)) (PrepareTimerEvent 5000 s))
  = SESSION_WAIT_INVITE_DATA /\
  SessionState (host_run (ticks (Z.to_nat 5000)) (PrepareTimerEvent 5000 s))
  = SESSION_WAIT_INVITE_CTRL.
Proof.
  intros s.
  assert (H : 1 <= 5000) by lia.
  assert (Hl : EndpointLocked s = false) by (vm_compute; reflexivity).
  assert (Hi : IsInitiatorNode s = false) by (vm_compute; reflexivity).
  assert (Hw : SessionState s = SESSION_WAIT_INVITE_DATA) by (vm_compute; reflexivity).
  assert (Hs : SessionState s <> SESSION_OPENED) by (rewrite Hw; discriminate).
  assert (Hc : pending_datagrams (ControlSocket s) = 0%nat) by (vm_compute; reflexivity).
  assert (Hd : pending_datagrams (DataSocket s) = 0%nat) by (vm_compute; reflexivity).
  pose proof (PrepareTimerEvent_fires_after 5000 s H Hl Hi Hs Hc Hd) as (Hk & _ & Hn & _).
  split; [exact Hw|]. split.
  - rewrite (proj1 (proj2 (proj2 (Hk (Z.to_nat 4999) ltac:(lia))))). exact Hw.
  - rewrite Hn, Hw. reflexivity.
Defined.

(** ** The invitation on the data port is not answered *)










(** ** The liveness counter in a call of RunSession *)













(** ** A SYSEX message longer than the buffer *)

(** The list [F7 b F0], when a message is active and suspended: the
    segment is resumed, its bytes are stored and the message is suspended
    again. *)
Lemma ProcessIncomingRTP_list_sysex_middle b s :
  data_bytes b -> SYSEX_RTPActif s = true -> SegmentSYSEXInput s = false ->
  ProcessIncomingRTP_list (0xF7 :: b ++ [0xF0]) (Z.of_nat (length (0xF7 :: b ++ [0xF0])))
    false s
  = (set_SegmentSYSEXInput false
       (storeRTP_SYSEXData_all b (set_SegmentSYSEXInput true s)),
     Z.of_nat (length (0xF7 :: b ++ [0xF0]))).
Proof.
  intros Hb Ha Hseg. unfold ProcessIncomingRTP_list.
  set (T := Z.of_nat (length (0xF7 :: b ++ [0xF0]))).
  assert (HT : T = 2 + Z.of_nat (length b))
    by (subst T; simpl length; rewrite length_app; simpl length; lia).
  destruct (Z.ltb_spec 0 T); [|lia]. destruct (Z.ltb_spec 0 T); [|lia].
  unfold GenerateMIDIEvent.
  replace (Z.to_nat (T - 0)) with (S (length b + 1)) by lia.
  rewrite GenerateMIDIEvent_loop_step by lia. rewrite rd_cons_0.
  unfold GenerateMIDIEvent_byte at 1. rewrite Ha, Hseg. simpl andb. cbv iota.
  change (0xF7 =? 0xF0) with false. change (0xF7 =? 0xF7) with true. cbv iota.
  set (s1 := set_SegmentSYSEXInput true s).
  pose proof (GenerateMIDIEvent_loop_data b [0xF7] [0xF0] 1 T (u32 (0 + LocalClock s)) s1 Hb)
    as Hrun.
  simpl app in Hrun. simpl length in Hrun.
  change (0 + 1) with 1. change (Z.of_nat 1) with 1 in Hrun.
  rewrite Hrun by (try (subst s1; simpl; assumption); try reflexivity; lia).
  rewrite GenerateMIDIEvent_loop_step by lia.
  replace (1 + Z.of_nat (length b)) with (Z.of_nat (length (0xF7 :: b)))
    by (simpl length; lia).
  change (0xF7 :: b ++ [0xF0]) with ((0xF7 :: b) ++ [0xF0]).
  rewrite rd_app_mid.
  destruct (storeRTP_SYSEXData_all_flags b s1) as [Ha2 Hs2].
  unfold GenerateMIDIEvent_byte. rewrite Ha2.
  assert (Ha1 : SYSEX_RTPActif s1 = true) by exact Ha. rewrite Ha1.
  assert (Hc : Z.of_nat (length (0xF7 :: b)) = 1 + Z.of_nat (length b))
    by (simpl length; lia).
  set (c := Z.of_nat (length (0xF7 :: b))) in *. clearbody c T.
  simpl.
  replace (Z.to_nat (T - (c + 1))) with O by lia.
  simpl. f_equal. lia.
Qed.

(** The list [F7 b]: the segment is resumed and its bytes are stored. *)
Lemma ProcessIncomingRTP_list_sysex_resume_open b s :
  data_bytes b -> SYSEX_RTPActif s = true -> SegmentSYSEXInput s = false ->
  ProcessIncomingRTP_list (0xF7 :: b) (Z.of_nat (length (0xF7 :: b))) false s
  = (storeRTP_SYSEXData_all b (set_SegmentSYSEXInput true s),
     Z.of_nat (length (0xF7 :: b))).
Proof.
  intros Hb Ha Hseg. unfold ProcessIncomingRTP_list.
  set (T := Z.of_nat (length (0xF7 :: b))).
  assert (HT : T = 1 + Z.of_nat (length b)) by (subst T; simpl length; lia).
  destruct (Z.ltb_spec 0 T); [|lia]. destruct (Z.ltb_spec 0 T); [|lia].
  unfold GenerateMIDIEvent.
  replace (Z.to_nat (T - 0)) with (S (length b + 0)) by lia.
  rewrite GenerateMIDIEvent_loop_step by lia. rewrite rd_cons_0.
  unfold GenerateMIDIEvent_byte at 1. rewrite Ha, Hseg. simpl andb. cbv iota.
  change (0xF7 =? 0xF0) with false. change (0xF7 =? 0xF7) with true. cbv iota.
  set (s1 := set_SegmentSYSEXInput true s).
  pose proof (GenerateMIDIEvent_loop_data b [0xF7] [] 0 T (u32 (0 + LocalClock s)) s1 Hb)
    as Hrun.
  rewrite app_nil_r in Hrun. simpl app in Hrun. simpl length in Hrun.
  change (0 + 1) with 1. change (Z.of_nat 1) with 1 in Hrun.
  rewrite Hrun by (try (subst s1; simpl; assumption); try reflexivity; lia).
  simpl GenerateMIDIEvent_loop.
  cbv iota beta.
  replace (Z.to_nat (T - (1 + Z.of_nat (length b)))) with O by lia.
  simpl. f_equal. lia.
Qed.

Lemma decode_lists_cons l ls s :
  decode_lists (l :: ls) s = decode_lists ls (decode_list l s).
Proof. reflexivity. Qed.

Lemma decode_lists_one l s : decode_lists [l] s = decode_list l s.
Proof. reflexivity. Qed.

(** The bytes of a segment are stored behind those received before. *)
Lemma sysex_received_store m b seg s x :
  sysex_received m seg s x ->
  sysex_received (m ++ b) true s (storeRTP_SYSEXData_all b (set_SegmentSYSEXInput true x)).
Proof.
  intros (Hh & Ha & Hg & Ht & Hc & Hi & Hz & Hl).
  set (x1 := set_SegmentSYSEXInput true x).
  assert (H1 : sysex_holds m x1).
  { apply (sysex_holds_frame m x x1); try reflexivity. exact Hh. }
  pose proof (storeRTP_SYSEXData_all_holds b m x1 H1) as H2.
  pose proof (frame_eq_fields _ _ (storeRTP_SYSEXData_all_frame b x1))
    as (Ft & Fa & Fs & Fc & Fi & Fz & Fl).
  unfold sysex_received. rewrite Ft, Fa, Fs, Fc, Fi, Fz, Fl.
  split; [exact H2|]. repeat split; assumption.
Qed.

Lemma sysex_received_suspend m s x :
  sysex_received m true s x -> sysex_received m false s (set_SegmentSYSEXInput false x).
Proof.
  intros (Hh & Ha & Hg & Ht & Hc & Hi & Hz & Hl).
  split; [|repeat split; assumption].
  apply (sysex_holds_frame m x); try reflexivity. exact Hh.
Qed.

(** The first bytes of a message, from F0 on. *)
Lemma sysex_received_start b s :
  sysex_idle s -> sysex_buffer_ok s ->
  sysex_received (0xF0 :: b) true s
    (storeRTP_SYSEXData_all (0xF0 :: b)
       (set_SegmentSYSEXInput true (set_SYSEX_RTPActif true s))).
Proof.
  intros Hidle Hok.
  set (s0 := set_SegmentSYSEXInput true (set_SYSEX_RTPActif true s)).
  assert (H0 : sysex_holds [] s0) by (apply (sysex_idle_holds s); assumption).
  pose proof (storeRTP_SYSEXData_all_holds (0xF0 :: b) [] s0 H0) as H1. simpl app in H1.
  pose proof (frame_eq_fields _ _ (storeRTP_SYSEXData_all_frame (0xF0 :: b) s0))
    as (Ft & Fa & Fs & Fc & Fi & Fz & Fl).
  unfold sysex_received. rewrite Ft, Fa, Fs, Fc, Fi, Fz, Fl.
  split; [exact H1|]. repeat split.
Qed.

(** The segments that follow the first one, short of the last list: the
    message stays suspended between two lists. *)
Lemma decode_lists_segments last s bs : forall b m x,
  data_bytes b -> Forall data_bytes bs -> sysex_received m false s x ->
  exists x' bl m',
    decode_lists (sysex_lists 0xF7 b bs last) x = decode_list (0xF7 :: bl ++ last) x' /\
    sysex_received m' false s x' /\ data_bytes bl /\ m' ++ bl = m ++ b ++ concat bs.
Proof.
  induction bs as [|b1 bs IH]; intros b m x Hb Hbs Hx.
  - exists x, b, m. cbn [sysex_lists concat]. rewrite decode_lists_one, app_nil_r.
    split; [reflexivity|]. split; [exact Hx|]. split; [exact Hb|reflexivity].
  - apply Forall_cons in Hbs as [Hb1 Hbs].
    cbn [sysex_lists]. rewrite decode_lists_cons.
    pose proof Hx as (_ & Ha & Hg & _).
    assert (E : decode_list (0xF7 :: b ++ [0xF0]) x
                = set_SegmentSYSEXInput false
                    (storeRTP_SYSEXData_all b (set_SegmentSYSEXInput true x))).
    { unfold decode_list.
      rewrite (ProcessIncomingRTP_list_sysex_middle b x Hb Ha Hg). reflexivity. }
    rewrite E.
    pose proof (sysex_received_suspend _ _ _ (sysex_received_store m b false s x Hx)) as Hx1.
    destruct (IH b1 (m ++ b) _ Hb1 Hbs Hx1) as (x' & bl & m' & E' & Hx' & Hbl & Em).
    exists x', bl, m'. split; [exact E'|]. split; [exact Hx'|]. split; [exact Hbl|].
    rewrite Em. cbn [concat]. rewrite <- !app_assoc. reflexivity.
Qed.

(** All the lists of a message but its closing F7: the message is open and
    all its bytes have been received. *)
Lemma decode_lists_segments_open b bs s :
  data_bytes b -> Forall data_bytes bs -> sysex_idle s -> sysex_buffer_ok s ->
  sysex_received (0xF0 :: b ++ concat bs) true s (decode_lists (sysex_segments_open b bs) s).
Proof.
  intros Hb Hbs Hidle Hok. pose proof Hidle as (Ha & _).
  unfold sysex_segments_open. destruct bs as [|b1 bs].
  - cbn [sysex_lists concat]. rewrite decode_lists_one, !app_nil_r.
    unfold decode_list. rewrite (ProcessIncomingRTP_list_sysex_open b s Hb Ha). cbn [fst].
    apply sysex_received_start; assumption.
  - apply Forall_cons in Hbs as [Hb1 Hbs].
    cbn [sysex_lists]. rewrite decode_lists_cons.
    assert (E : decode_list (0xF0 :: b ++ [0xF0]) s
                = set_SegmentSYSEXInput false
                    (storeRTP_SYSEXData_all (0xF0 :: b)
                       (set_SegmentSYSEXInput true (set_SYSEX_RTPActif true s)))).
    { unfold decode_list.
      rewrite (ProcessIncomingRTP_list_sysex_suspend b s Hb Ha). reflexivity. }
    rewrite E.
    pose proof (sysex_received_suspend _ _ _ (sysex_received_start b s Hidle Hok)) as Hx1.
    destruct (decode_lists_segments [] s bs b1 (0xF0 :: b) _ Hb1 Hbs Hx1)
      as (x' & bl & m' & E' & Hx' & Hbl & Em).
    rewrite E', app_nil_r.
    pose proof Hx' as (_ & Ha' & Hg' & _).
    unfold decode_list.
    rewrite (ProcessIncomingRTP_list_sysex_resume_open bl x' Hbl Ha' Hg'). cbn [fst].
    pose proof (sysex_received_store m' bl false s x' Hx') as Hy.
    rewrite Em in Hy. cbn [concat]. exact Hy.
Qed.

(** All the lists of a message: at the closing F7 the buffer, which has
    received the whole message, is delivered and cleaned. *)
Lemma decode_lists_segments_delivered b bs s :
  data_bytes b -> Forall data_bytes bs -> sysex_idle s -> sysex_buffer_ok s ->
  exists y,
    decode_lists (sysex_segments b bs) s
    = initRTP_SYSEXBuffer (sendRTP_SYSEXBuffer (u32 (0 + LocalClock s)) y) /\
    sysex_received (sysex_message (b ++ concat bs)) true s y.
Proof.
  intros Hb Hbs Hidle Hok. pose proof Hidle as (Ha & _).
  unfold sysex_segments, sysex_message. destruct bs as [|b1 bs].
  - cbn [sysex_lists concat]. rewrite decode_lists_one, !app_nil_r.
    unfold decode_list. rewrite (ProcessIncomingRTP_list_sysex_whole b s Hb Ha). cbn [fst].
    eexists. split; [reflexivity|].
    exact (sysex_received_start (b ++ [0xF7]) s Hidle Hok).
  - apply Forall_cons in Hbs as [Hb1 Hbs].
    cbn [sysex_lists]. rewrite decode_lists_cons.
    assert (E : decode_list (0xF0 :: b ++ [0xF0]) s
                = set_SegmentSYSEXInput false
                    (storeRTP_SYSEXData_all (0xF0 :: b)
                       (set_SegmentSYSEXInput true (set_SYSEX_RTPActif true s)))).
    { unfold decode_list.
      rewrite (ProcessIncomingRTP_list_sysex_suspend b s Hb Ha). reflexivity. }
    rewrite E.
    pose proof (sysex_received_suspend _ _ _ (sysex_received_start b s Hidle Hok)) as Hx1.
    destruct (decode_lists_segments [0xF7] s bs b1 (0xF0 :: b) _ Hb1 Hbs Hx1)
      as (x' & bl & m' & E' & Hx' & Hbl & Em).
    rewrite E'.
    pose proof Hx' as (_ & Ha' & Hg' & _ & _ & _ & _ & Hl').
    unfold decode_list.
    rewrite (ProcessIncomingRTP_list_sysex_resume bl x' Hbl Ha' Hg'). cbn [fst].
    rewrite Hl'. eexists. split; [reflexivity|].
    pose proof (sysex_received_store m' (bl ++ [0xF7]) false s x' Hx') as Hy.
    rewrite app_assoc, Em in Hy. cbn [concat].
    replace (0xF0 :: (b ++ b1 ++ concat bs) ++ [0xF7])
      with (((0xF0 :: b) ++ b1 ++ concat bs) ++ [0xF7])
      by (cbn [app]; rewrite <- !app_assoc; reflexivity).
    exact Hy.
Qed.

(** C3 (amended).  A SYSEX message [F0 b F7] longer than the buffer,
    received whole in one MIDI list or cut into segments over several
    lists.  Once all its bytes but the closing F7 are in, the message is
    still open, the callback has not been called and the overflow flag is
    set.  The closing F7 has the callback called, once, with the first
    [k] bytes of the message, [k] being the size of the buffer or one
    less.  The cleaning of the buffer that follows the delivery clears
    the overflow flag at once: it does not stay set until the next SYSEX
    message starts. *)
Theorem C3_sysex_overflow b bs s :
  data_bytes b -> Forall data_bytes bs ->
  sysex_idle s -> sysex_buffer_ok s -> RTPCallback s = true ->
  let m := sysex_message (b ++ concat bs) in
  InSYSEXBufferSize s < Z.of_nat (length m) ->
  let s_open := decode_lists (sysex_segments_open b bs) s in
  let s' := decode_lists (sysex_segments b bs) s in
  (SYSEX_RTPActif s_open = true /\ InSYSEXOverflow s_open = true /\
   Trace s_open = Trace s) /\
  (exists k, InSYSEXBufferSize s - 1 <= k <= InSYSEXBufferSize s /\
     Trace s' = Trace s ++ [EvCallback (ClientInstance s) k (take (Z.to_nat k) m)
                              (u32 (0 + LocalClock s))]) /\
  SYSEX_RTPActif s' = false /\ InSYSEXOverflow s' = false.
Proof.
  intros Hb Hbs Hidle Hok Hcb m Hlen s_open s'.
  assert (Hm : Z.of_nat (length m) = Z.of_nat (length (b ++ concat bs)) + 2).
  { subst m. unfold sysex_message. simpl length. rewrite length_app. simpl length. lia. }
  split; [|split].
  - subst s_open.
    destruct (decode_lists_segments_open b bs s Hb Hbs Hidle Hok)
      as ((buf & _ & _ & _ & _ & _ & Hovf) & Ha & _ & Ht & _ & _ & Hz & _).
    split; [exact Ha|]. split; [|exact Ht].
    rewrite Hovf, Hz. apply Z.leb_le. simpl length. lia.
  - subst s'.
    destruct (decode_lists_segments_delivered b bs s Hb Hbs Hidle Hok)
      as (y & E & Hh & _ & _ & Ht & Hc & Hi & Hz & _).
    rewrite E. exists (InSYSEXBufferSize s - 1). split; [lia|].
    change (Trace (initRTP_SYSEXBuffer ?x)) with (Trace x).
    rewrite (sendRTP_SYSEXBuffer_holds (sysex_message (b ++ concat bs)))
      by (try exact Hh; rewrite Hc; exact Hcb).
    rewrite Ht, Hi, Hz. fold m. rewrite Z.min_r by lia. reflexivity.
  - subst s'.
    destruct (decode_lists_segments_delivered b bs s Hb Hbs Hidle Hok) as (y & E & _).
    rewrite E. split; reflexivity.
Qed.

Lemma C3_sysex_overflow_witness :
  let s := opened_endpoint 4 in
  let b := [0x01; 0x02] in
  let bs := [[0x03]; [0x04; 0x05]] in
  (sysex_segments b bs = [[0xF0; 0x01; 0x02; 0xF0]; [0xF7; 0x03; 0xF0];
                          [0xF7; 0x04; 0x05; 0xF7]] /\
   InSYSEXBufferSize s = 4) /\
  InSYSEXOverflow (decode_lists (sysex_segments_open b bs) s) = true /\
  InSYSEXOverflow (decode_lists (sysex_segments b bs) s) = false.
Proof.
  intros s b bs.
  assert (Hb : data_bytes b) by (repeat constructor; lia).
  assert (Hbs : Forall data_bytes bs) by (repeat constructor; lia).
  assert (Hi : sysex_idle s) by (vm_compute; repeat split).
  assert (Hk : sysex_buffer_ok s).
  { exists [0; 0; 0; 0]. vm_compute. repeat split; intros H; discriminate H. }
  assert (Hc : RTPCallback s = true) by reflexivity.
  assert (Hl : InSYSEXBufferSize s < Z.of_nat (length (sysex_message (b ++ concat bs))))
    by (vm_compute; reflexivity).
  split; [split; reflexivity|].
  destruct (C3_sysex_overflow b bs s Hb Hbs Hi Hk Hc Hl) as ((_ & Ho & _) & _ & _ & Hf).
  split; [exact Ho|exact Hf].
Defined.
